(** * Production-readiness analyzer: report pipeline

    A shallow embedding of the report pipeline of the repository:

    - the proxy server ([POST /api/analyze]: key check, upstream call,
      fence stripping, [JSON.parse], error classification), in its two
      server files and in the embedded variant;
    - the prompt builders [buildAnalysisPrompt] and [createSafePrompt];
    - the client side [callProxyAnalysis] / [generateProductionReport];
    - the display helpers [ensureArray], [getTextContent], [StatusBadge];
    - the browser-local store [useKV] and the list operations of [App].

    JavaScript values are modelled as JSON trees, strings as Rocq strings
    (one character of the model is one byte of the UTF-8 text), exceptions
    as an explicit outcome.  The built-ins the code calls ([JSON.parse],
    [JSON.stringify], [String.prototype.replace] with the two regular
    expressions of the server, [trim], [includes], [join]) are written out
    as functions so that every definition can be run on concrete inputs. *)

From Stdlib Require Import ZArith Ascii String DecimalString DecimalZ Lia Bool List.
From stdpp Require Import base strings list gmap.

Local Open Scope Z_scope.

(** ** JavaScript values *)

Module JS.

(** A value that came out of [JSON.parse], or that the code builds from
    such values and string literals.  [JNum] carries an integer: the code
    never computes with numbers, it only tests them for truthiness, prints
    them and stores them. *)
#[local] Unset Elimination Schemes.
Inductive json : Type :=
| JNull
| JBool (b : bool)
| JNum (n : Z)
| JStr (s : string)
| JArr (items : list json)
| JObj (fields : list (string * json)).
#[local] Set Elimination Schemes.

(** The result of a property read: [None] is [undefined]. *)
Definition jsval : Type := option json.

(** Exceptions.  Only [message] is ever read by the code ([error.message]). *)
Inductive error_kind : Type := PlainError | TypeError | SyntaxError | DOMException.

Record exn : Type := Exn { kind : error_kind; message : string }.

(** What evaluating a piece of code gives.  [Beyond] marks an input on which
    the real platform computes a value this model has no representation
    for (a fractional number, an escaped non-ASCII character): nothing is
    claimed there. *)
Inductive outcome (A : Type) : Type :=
| Returns (a : A)
| Throws (e : exn)
| Beyond.

Arguments Returns {A} a.
Arguments Throws {A} e.
Arguments Beyond {A}.

#[global] Instance outcome_ret : MRet outcome := fun A a => Returns a.

#[global] Instance outcome_bind : MBind outcome := fun A B k m =>
  match m with
  | Returns a => k a
  | Throws e => Throws e
  | Beyond => Beyond
  end.

#[global] Instance outcome_fmap : FMap outcome := fun A B f m =>
  match m with
  | Returns a => Returns (f a)
  | Throws e => Throws e
  | Beyond => Beyond
  end.

(** [try { m } catch (error) { h error }] *)
Definition try_catch {A : Type} (m : outcome A) (h : exn -> outcome A) : outcome A :=
  match m with
  | Throws e => h e
  | other => other
  end.

(** The wording of the errors the runtime itself throws; it differs between
    engines and versions, so it is a parameter of the code that reads
    [error.message]. *)
Record engine : Type := Engine {
  msg_read_nullish : string -> string -> string;
  msg_destructure : string -> string -> string;
  msg_not_a_function : string -> string;
  msg_json_syntax : string -> string;
  msg_fetch_failed : string;
  msg_to_primitive : string
}.

(** What [await fetch(...)] gives: a rejection, or a response with its
    status line and body. *)
Inductive fetch_result : Type :=
| NetworkFailure
| HttpResponse (status : Z) (statusText : string) (body : string).

(** [response.ok] *)
Definition ok (status : Z) : bool := (200 <=? status) && (status <=? 299).

(** [items.map(f)] and [items.filter(f)] for a callback that may throw. *)
Fixpoint each {A B : Type} (f : A -> outcome B) (items : list A) : outcome (list B) :=
  match items with
  | [] => Returns []
  | x :: rest => y ← f x; ys ← each f rest; Returns (y :: ys)
  end.

Fixpoint keep {A : Type} (f : A -> outcome bool) (items : list A) : outcome (list A) :=
  match items with
  | [] => Returns []
  | x :: rest =>
      f x ≫= fun b : bool => ys ← keep f rest; Returns (if b then x :: ys else ys)
  end.

(** *** Strings *)

Definition dquote : ascii := ascii_of_nat 34.
Definition backslash : ascii := ascii_of_nat 92.
Definition newline : string := String (ascii_of_nat 10) "".
Definition dq : string := String dquote "".

(** [Number.prototype.toString] on an integer. *)
Definition decimal (n : Z) : string := NilZero.string_of_int (Z.to_int n).

(** [Array.prototype.join] on strings. *)
Definition join (sep : string) (parts : list string) : string := String.concat sep parts.

(** [haystack.includes(needle)] *)
Fixpoint includes (needle haystack : string) : bool :=
  String.prefix needle haystack ||
  match haystack with
  | EmptyString => false
  | String _ rest => includes needle rest
  end.

(** A string of the model is the UTF-8 text of a JavaScript string, whose
    [length] and [substring] count UTF-16 units: one for a character of
    one to three bytes, two for a character of four bytes. *)
Definition is_continuation (c : ascii) : bool :=
  let n := N_of_ascii c in ((128 <=? n) && (n <? 192))%N.

Definition units (c : ascii) : nat :=
  if (240 <=? N_of_ascii c)%N then 2%nat else 1%nat.

(** [s.length] *)
Fixpoint utf16_length (s : string) : nat :=
  match s with
  | EmptyString => 0%nat
  | String c rest =>
      if is_continuation c then utf16_length rest
      else (units c + utf16_length rest)%nat
  end.

(** [s.substring(0, n)]; [None] when the cut falls inside a character of
    two units, which leaves half a character behind. *)
Fixpoint take_units (n : nat) (s : string) : option string :=
  match s with
  | EmptyString => Some ""
  | String c rest =>
      if is_continuation c then String c <$> take_units n rest
      else
        match n with
        | O => Some ""
        | S _ =>
            if (units c <=? n)%nat then String c <$> take_units (n - units c) rest
            else None
        end
  end.

Definition substring0 (n : nat) (s : string) : outcome string :=
  match take_units n s with
  | Some t => Returns t
  | None => Beyond
  end.

(** *** Truthiness, [||], conversions *)

Definition truthy (v : json) : bool :=
  match v with
  | JNull => false
  | JBool b => b
  | JNum n => negb (n =? 0)
  | JStr s => negb (String.eqb s "")
  | JArr _ => true
  | JObj _ => true
  end.

Definition truthy_val (v : jsval) : bool :=
  match v with
  | None => false
  | Some j => truthy j
  end.

(** [v || d] *)
Definition or_else (v : jsval) (d : json) : json :=
  match v with
  | Some j => if truthy j then j else d
  | None => d
  end.

(** The text that [String(v)], a template literal or a computed property
    key gives for [v], where that conversion returns; whether it does is
    [convertible] below.  An array joins its elements with a comma, and
    [null] elements give the empty string. *)
Fixpoint to_string (v : json) : string :=
  match v with
  | JNull => "null"
  | JBool true => "true"
  | JBool false => "false"
  | JNum n => decimal n
  | JStr s => s
  | JArr items =>
      join "," (map (fun x => match x with JNull => "" | _ => to_string x end) items)
  | JObj _ => "[object Object]"
  end.

Definition to_string_val (v : jsval) : string :=
  match v with
  | None => "undefined"
  | Some j => to_string j
  end.

(** *** Own fields *)

Fixpoint assoc (k : string) (fields : list (string * json)) : jsval :=
  match fields with
  | [] => None
  | (k', v) :: rest => if String.eqb k' k then Some v else assoc k rest
  end.

(** *** The conversion to a string *)

(** The conversion of an object calls its [toString] method, then its
    [valueOf].  An object that [JSON.parse] built inherits both from
    [Object.prototype] and converts to ["[object Object]"], unless it has
    a field named [toString]: a field holds no function, the inherited
    [valueOf] gives the object back, and the conversion throws a
    [TypeError].  An array converts each of its elements. *)
Fixpoint convertible (v : json) : bool :=
  match v with
  | JArr items => forallb convertible items
  | JObj fields =>
      match assoc "toString" fields with
      | Some _ => false
      | None => true
      end
  | _ => true
  end.

Definition convertible_val (v : jsval) : bool :=
  match v with
  | None => true
  | Some j => convertible j
  end.

(** [String(v)], [`${v}`], and the key of [table[v]] *)
Definition ToString (eng : engine) (v : jsval) : outcome string :=
  if convertible_val v then Returns (to_string_val v)
  else Throws (Exn TypeError (msg_to_primitive eng)).

(** [items.join(sep)] on an array value *)
Definition array_join (eng : engine) (sep : string) (items : list json) : outcome string :=
  if forallb convertible items
  then Returns (join sep (map (fun x => match x with JNull => "" | _ => to_string x end)
                            items))
  else Throws (Exn TypeError (msg_to_primitive eng)).

(** *** Property reads *)

(** [v.k] for [v] neither [null] nor [undefined], and [k] one of the field
    names of the schemas (none of them names a member of a built-in
    prototype): an object gives its own field, anything else [undefined]. *)
Definition get (v : json) (k : string) : jsval :=
  match v with
  | JObj fields => assoc k fields
  | _ => None
  end.

(** [v.k] where [v] may be [null] or [undefined]: then a [TypeError]. *)
Definition read (eng : engine) (v : jsval) (k : string) : outcome jsval :=
  match v with
  | None => Throws (Exn TypeError (msg_read_nullish eng "undefined" k))
  | Some JNull => Throws (Exn TypeError (msg_read_nullish eng "null" k))
  | Some j => Returns (get j k)
  end.

(** [v?.k] *)
Definition get_opt (v : jsval) (k : string) : jsval :=
  match v with
  | None | Some JNull => None
  | Some j => get j k
  end.

(** [v?.[0]?.k]: the first element of an array (the field ["0"] of an
    object), then its field [k].  The first character of a string is a
    string and has no such field. *)
Definition first_opt (v : jsval) (k : string) : jsval :=
  match v with
  | Some (JArr items) => get_opt (head items) k
  | Some (JObj fields) => get_opt (assoc "0" fields) k
  | _ => None
  end.

(** [a === b] for a read value and a string *)
Definition strict_eq_string (v : jsval) (s : string) : bool :=
  match v with
  | Some (JStr t) => String.eqb t s
  | _ => false
  end.

Definition is_array (v : json) : bool :=
  match v with
  | JArr _ => true
  | _ => false
  end.

End JS.

(** ** [JSON.stringify] and [JSON.parse] *)

Module Json.
Import JS.

(** *** Printing *)

Definition hex_digit (n : N) : ascii :=
  if (n <? 10)%N then ascii_of_N (48 + n) else ascii_of_N (87 + n).

(** One character of a quoted string (QuoteJSONString): the two-character
    escapes, [\u00xx] for the other control characters, the rest as is. *)
Definition escape_char (c : ascii) : string :=
  match c with
  | "008"%char => "\b"
  | "009"%char => "\t"
  | "010"%char => "\n"
  | "012"%char => "\f"
  | "013"%char => "\r"
  | "034"%char => String backslash dq
  | "092"%char => String backslash (String backslash "")
  | _ =>
      let n := N_of_ascii c in
      if (n <? 32)%N
      then "\u00" +:+ String (hex_digit (n / 16)) (String (hex_digit (n mod 16)) "")
      else String c ""
  end.

Fixpoint escape (s : string) : string :=
  match s with
  | EmptyString => ""
  | String c rest => escape_char c +:+ escape rest
  end.

Definition quote (s : string) : string := dq +:+ escape s +:+ dq.

(** [JSON.stringify(v)], no indentation. *)
Fixpoint stringify (v : json) : string :=
  match v with
  | JNull => "null"
  | JBool true => "true"
  | JBool false => "false"
  | JNum n => decimal n
  | JStr s => quote s
  | JArr items => "[" +:+ join "," (map stringify items) +:+ "]"
  | JObj fields =>
      "{" +:+ join "," (map (fun kv => quote (fst kv) +:+ ":" +:+ stringify (snd kv)) fields)
          +:+ "}"
  end.

(** [JSON.stringify(v, null, 2)] is used by one prompt builder only for
    its length; see [Embedded.createSafePrompt]. *)

(** *** Lexing *)

Inductive token : Type :=
| TLBrace | TRBrace | TLBrack | TRBrack | TColon | TComma
| TStr (s : string)
| TNum (n : Z)
| TTrue | TFalse | TNull.

(** The three results of reading a text: a value, a [SyntaxError], or a
    text whose value lies outside the model. *)
Inductive parsed (A : Type) : Type :=
| Parsed (a : A)
| Malformed
| Unmodelled.

Arguments Parsed {A} a.
Arguments Malformed {A}.
Arguments Unmodelled {A}.

Definition parsed_bind {A B : Type} (m : parsed A) (k : A -> parsed B) : parsed B :=
  match m with
  | Parsed a => k a
  | Malformed => Malformed
  | Unmodelled => Unmodelled
  end.

Definition is_json_space (c : ascii) : bool :=
  match c with
  | "009"%char | "010"%char | "013"%char | " "%char => true
  | _ => false
  end.

Definition is_digit (c : ascii) : bool :=
  let n := N_of_ascii c in ((48 <=? n) && (n <=? 57))%N.

Definition is_lower (c : ascii) : bool :=
  let n := N_of_ascii c in ((97 <=? n) && (n <=? 122))%N.

Definition continues_number (c : ascii) : bool :=
  is_digit c ||
  match c with
  | "."%char | "e"%char | "E"%char | "+"%char | "-"%char => true
  | _ => false
  end.

Definition hex_value (c : ascii) : option N :=
  let n := N_of_ascii c in
  if ((48 <=? n) && (n <=? 57))%N then Some (n - 48)%N
  else if ((97 <=? n) && (n <=? 102))%N then Some (n - 87)%N
  else if ((65 <=? n) && (n <=? 70))%N then Some (n - 55)%N
  else None.

(** The grammar of a JSON number: an optional minus sign; a zero, or a
    non-zero digit followed by digits; optionally a dot and digits;
    optionally [e] or [E], a sign, and digits. *)
Fixpoint skip_digits (s : string) : string :=
  match s with
  | String c rest => if is_digit c then skip_digits rest else s
  | EmptyString => ""
  end.

Definition digits1 (s : string) : option string :=
  match s with
  | String c rest => if is_digit c then Some (skip_digits rest) else None
  | EmptyString => None
  end.

Definition all_digits1 (s : string) : bool :=
  match digits1 s with
  | Some EmptyString => true
  | _ => false
  end.

Definition exp_syntax (s : string) : bool :=
  match s with
  | EmptyString => true
  | String c rest =>
      match c with
      | "e"%char | "E"%char =>
          match rest with
          | String "+"%char r | String "-"%char r => all_digits1 r
          | _ => all_digits1 rest
          end
      | _ => false
      end
  end.

Definition frac_syntax (s : string) : bool :=
  match s with
  | String "."%char rest =>
      match digits1 rest with
      | Some r => exp_syntax r
      | None => false
      end
  | _ => exp_syntax s
  end.

Definition number_syntax (raw : string) : bool :=
  let body := match raw with String "-"%char r => r | _ => raw end in
  match body with
  | String "0"%char rest => frac_syntax rest
  | String c rest => is_digit c && frac_syntax (skip_digits rest)
  | EmptyString => false
  end.

Definition MAX_SAFE_INTEGER : Z := 9007199254740991.

(** A number token.  An integer written canonically and of safe size is
    the integer; any other text of the number grammar (a fraction, an
    exponent, [-0], a large integer) is a number the model does not
    carry; the rest is a syntax error. *)
Definition classify_number (raw : string) : parsed token :=
  let other := if number_syntax raw then Unmodelled else Malformed in
  match NilZero.int_of_string raw with
  | Some d =>
      let n := Z.of_int d in
      if String.eqb (decimal n) raw
      then if Z.abs n <=? MAX_SAFE_INTEGER then Parsed (TNum n) else Unmodelled
      else other
  | None => other
  end.

Definition classify_word (w : string) : parsed token :=
  if String.eqb w "true" then Parsed TTrue
  else if String.eqb w "false" then Parsed TFalse
  else if String.eqb w "null" then Parsed TNull
  else Malformed.

Definition snoc (s : string) (c : ascii) : string := s +:+ String c "".

Inductive lex_state : Type :=
| LStart
| LString (acc : string)
| LEscape (acc : string)
| LUnicode (acc : string) (more : nat) (code : N)
| LNumber (raw : string)
| LWord (seen : string).

(** A character met between two tokens. *)
Definition lex_start (c : ascii) : parsed (list token * lex_state) :=
  if is_json_space c then Parsed ([], LStart)
  else if is_digit c then Parsed ([], LNumber (String c ""))
  else if is_lower c then Parsed ([], LWord (String c ""))
  else
    match c with
    | "{"%char => Parsed ([TLBrace], LStart)
    | "}"%char => Parsed ([TRBrace], LStart)
    | "["%char => Parsed ([TLBrack], LStart)
    | "]"%char => Parsed ([TRBrack], LStart)
    | ":"%char => Parsed ([TColon], LStart)
    | ","%char => Parsed ([TComma], LStart)
    | "034"%char => Parsed ([], LString "")
    | "-"%char => Parsed ([], LNumber "-")
    | _ => Malformed
    end.

Definition lex_escape (acc : string) (c : ascii) : parsed (list token * lex_state) :=
  match c with
  | "034"%char => Parsed ([], LString (snoc acc dquote))
  | "092"%char => Parsed ([], LString (snoc acc backslash))
  | "/"%char => Parsed ([], LString (snoc acc "/"))
  | "b"%char => Parsed ([], LString (snoc acc "008"))
  | "f"%char => Parsed ([], LString (snoc acc "012"))
  | "n"%char => Parsed ([], LString (snoc acc "010"))
  | "r"%char => Parsed ([], LString (snoc acc "013"))
  | "t"%char => Parsed ([], LString (snoc acc "009"))
  | "u"%char => Parsed ([], LUnicode acc 3 0%N)
  | _ => Malformed
  end.

Definition lex_step (st : lex_state) (c : ascii) : parsed (list token * lex_state) :=
  match st with
  | LStart => lex_start c
  | LString acc =>
      match c with
      | "034"%char => Parsed ([TStr acc], LStart)
      | "092"%char => Parsed ([], LEscape acc)
      | _ => if (N_of_ascii c <? 32)%N then Malformed else Parsed ([], LString (snoc acc c))
      end
  | LEscape acc => lex_escape acc c
  | LUnicode acc more code =>
      match hex_value c with
      | None => Malformed
      | Some d =>
          let code' := (code * 16 + d)%N in
          match more with
          | S more' => Parsed ([], LUnicode acc more' code')
          | O =>
              if (code' <? 128)%N
              then Parsed ([], LString (snoc acc (ascii_of_N code')))
              else Unmodelled
          end
      end
  | LNumber raw =>
      if continues_number c then Parsed ([], LNumber (snoc raw c))
      else
        parsed_bind (classify_number raw) (fun t =>
        parsed_bind (lex_start c) (fun '(ts, st') => Parsed (t :: ts, st')))
  | LWord seen =>
      if is_lower c then Parsed ([], LWord (snoc seen c))
      else
        parsed_bind (classify_word seen) (fun t =>
        parsed_bind (lex_start c) (fun '(ts, st') => Parsed (t :: ts, st')))
  end.

(** The end of the text. *)
Definition lex_finish (st : lex_state) : parsed (list token) :=
  match st with
  | LStart => Parsed []
  | LString _ | LEscape _ | LUnicode _ _ _ => Malformed
  | LNumber raw => parsed_bind (classify_number raw) (fun t => Parsed [t])
  | LWord seen => parsed_bind (classify_word seen) (fun t => Parsed [t])
  end.

(** The tokens [ts] of one step, then those of the rest of the text. *)
Definition emit (ts : list token) (rest : parsed (list token)) : parsed (list token) :=
  match ts with
  | [] => rest
  | _ => parsed_bind rest (fun more => Parsed (ts ++ more))
  end.

Fixpoint lex_go (st : lex_state) (s : string) : parsed (list token) :=
  match s with
  | EmptyString => lex_finish st
  | String c rest =>
      match lex_step st c with
      | Parsed (ts, st') => emit ts (lex_go st' rest)
      | Malformed => Malformed
      | Unmodelled => Unmodelled
      end
  end.

Definition lex (s : string) : parsed (list token) := lex_go LStart s.

(** *** Parsing *)

(** An array index as a property name: the canonical decimal text of an
    integer from 0 to 2^32 - 2.  Such fields come first in an object, in
    increasing order, whatever the order they were written in. *)
Definition array_index (k : string) : option Z :=
  match NilZero.int_of_string k with
  | Some d =>
      let n := Z.of_int d in
      if String.eqb (decimal n) k && (0 <=? n) && (n <=? 4294967294) then Some n else None
  | None => None
  end.

Definition has_field (k : string) (fields : list (string * json)) : bool :=
  match assoc k fields with
  | Some _ => true
  | None => false
  end.

Fixpoint replace_field (k : string) (v : json) (fields : list (string * json))
  : list (string * json) :=
  match fields with
  | [] => []
  | (k', v') :: rest =>
      if String.eqb k' k then (k, v) :: rest else (k', v') :: replace_field k v rest
  end.

Fixpoint insert_index (i : Z) (k : string) (v : json) (fields : list (string * json))
  : list (string * json) :=
  match fields with
  | [] => [(k, v)]
  | (k', v') :: rest =>
      match array_index k' with
      | Some j => if j <? i then (k', v') :: insert_index i k v rest else (k, v) :: fields
      | None => (k, v) :: fields
      end
  end.

(** CreateDataProperty on the object being built: a repeated key keeps its
    place and takes the new value. *)
Definition set_field (k : string) (v : json) (fields : list (string * json))
  : list (string * json) :=
  if has_field k fields then replace_field k v fields
  else
    match array_index k with
    | Some i => insert_index i k v fields
    | None => fields ++ [(k, v)]
    end.

Inductive frame : Type :=
| InArray (done : list json)
| InObject (done : list (string * json)) (key : string).

Inductive pstate : Type :=
| PValue (stack : list frame)
| PArrayOpen (stack : list frame)
| PObjectOpen (stack : list frame)
| PKey (done : list (string * json)) (stack : list frame)
| PColon (done : list (string * json)) (key : string) (stack : list frame)
| PDone (v : json) (stack : list frame).

Definition begin_value (stack : list frame) (t : token) : parsed pstate :=
  match t with
  | TNull => Parsed (PDone JNull stack)
  | TTrue => Parsed (PDone (JBool true) stack)
  | TFalse => Parsed (PDone (JBool false) stack)
  | TNum n => Parsed (PDone (JNum n) stack)
  | TStr s => Parsed (PDone (JStr s) stack)
  | TLBrack => Parsed (PArrayOpen stack)
  | TLBrace => Parsed (PObjectOpen stack)
  | _ => Malformed
  end.

Definition parse_step (st : pstate) (t : token) : parsed pstate :=
  match st with
  | PValue stack => begin_value stack t
  | PArrayOpen stack =>
      match t with
      | TRBrack => Parsed (PDone (JArr []) stack)
      | _ => begin_value (InArray [] :: stack) t
      end
  | PObjectOpen stack =>
      match t with
      | TRBrace => Parsed (PDone (JObj []) stack)
      | TStr k => Parsed (PColon [] k stack)
      | _ => Malformed
      end
  | PKey done stack =>
      match t with
      | TStr k => Parsed (PColon done k stack)
      | _ => Malformed
      end
  | PColon done k stack =>
      match t with
      | TColon => Parsed (PValue (InObject done k :: stack))
      | _ => Malformed
      end
  | PDone v stack =>
      match stack with
      | [] => Malformed
      | InArray done :: below =>
          match t with
          | TComma => Parsed (PValue (InArray (done ++ [v]) :: below))
          | TRBrack => Parsed (PDone (JArr (done ++ [v])) below)
          | _ => Malformed
          end
      | InObject done k :: below =>
          match t with
          | TComma => Parsed (PKey (set_field k v done) below)
          | TRBrace => Parsed (PDone (JObj (set_field k v done)) below)
          | _ => Malformed
          end
      end
  end.

Definition parse_finish (st : pstate) : parsed json :=
  match st with
  | PDone v [] => Parsed v
  | _ => Malformed
  end.

Fixpoint parse_go (st : pstate) (ts : list token) : parsed json :=
  match ts with
  | [] => parse_finish st
  | t :: rest => parsed_bind (parse_step st t) (fun st' => parse_go st' rest)
  end.

Definition parse_tokens (ts : list token) : parsed json := parse_go (PValue []) ts.

Definition parse (s : string) : parsed json := parsed_bind (lex s) parse_tokens.

(** The tokens [JSON.stringify] writes for a value. *)
Fixpoint tokens (v : json) : list token :=
  match v with
  | JNull => [TNull]
  | JBool true => [TTrue]
  | JBool false => [TFalse]
  | JNum n => [TNum n]
  | JStr s => [TStr s]
  | JArr items =>
      TLBrack ::
      (fix elements (l : list json) : list token :=
         match l with
         | [] => [TRBrack]
         | [x] => tokens x ++ [TRBrack]
         | x :: more => tokens x ++ TComma :: elements more
         end) items
  | JObj fields =>
      TLBrace ::
      (fix members (l : list (string * json)) : list token :=
         match l with
         | [] => [TRBrace]
         | [kv] => TStr (fst kv) :: TColon :: tokens (snd kv) ++ [TRBrace]
         | kv :: more => TStr (fst kv) :: TColon :: tokens (snd kv) ++ TComma :: members more
         end) fields
  end.

(** The object [JSON.parse] builds from members written in this order. *)
Definition built (fields : list (string * json)) : list (string * json) :=
  fold_left (fun done kv => set_field (fst kv) (snd kv) done) fields [].

(** The values [JSON.parse] can give back: integers of safe size, and
    objects whose members stand in the order the engine keeps them in. *)
Fixpoint canonical (v : json) : Prop :=
  match v with
  | JNum n => Z.abs n <= MAX_SAFE_INTEGER
  | JArr items =>
      (fix all (l : list json) : Prop :=
         match l with
         | [] => True
         | x :: more => canonical x /\ all more
         end) items
  | JObj fields =>
      (fix all (l : list (string * json)) : Prop :=
         match l with
         | [] => True
         | kv :: more => canonical (snd kv) /\ all more
         end) fields
      /\ built fields = fields
  | _ => True
  end.

(** [JSON.parse(s)] as the code sees it. *)
Definition JSON_parse (eng : engine) (s : string) : outcome json :=
  match parse s with
  | Parsed v => Returns v
  | Malformed => Throws (Exn SyntaxError (msg_json_syntax eng s))
  | Unmodelled => Beyond
  end.

End Json.


(** ** The regular expressions of the servers *)

Module Text.

(** The white space of ASCII: tab, line feed, vertical tab, form feed,
    carriage return and space. *)
Definition is_space : ascii -> bool := Ascii.is_space.

(** The other white space and line terminators of ECMAScript take two or
    three bytes in UTF-8: U+00A0 takes two; U+1680, U+2000 to U+200A,
    U+2028, U+2029, U+202F, U+205F, U+3000 and U+FEFF take three. *)
Definition white3 (a b c : N) : bool :=
  ((a =? 225) && (b =? 154) && (c =? 128)
   || (a =? 226) && (b =? 128)
      && ((128 <=? c) && (c <=? 138) || (c =? 168) || (c =? 169) || (c =? 175))
   || (a =? 226) && (b =? 129) && (c =? 159)
   || (a =? 227) && (b =? 128) && (c =? 128)
   || (a =? 239) && (b =? 187) && (c =? 191))%N.

(** The number of bytes of the white space character [s] starts with, 0
    when it starts with none.  This is the class [\s] of the regular
    expressions, and what [trim] removes. *)
Definition white_length (s : string) : nat :=
  match s with
  | EmptyString => 0
  | String a rest =>
      if is_space a then 1
      else
        match rest with
        | EmptyString => 0
        | String b rest' =>
            if ((N_of_ascii a =? 194) && (N_of_ascii b =? 160))%N then 2
            else
              match rest' with
              | EmptyString => 0
              | String c _ =>
                  if white3 (N_of_ascii a) (N_of_ascii b) (N_of_ascii c) then 3 else 0
              end
        end
  end%nat.

(** The text without the white space it starts with; [skip] counts the
    bytes still to drop of the character being dropped. *)
Fixpoint skip_white (skip : nat) (s : string) : string :=
  match s with
  | EmptyString => ""
  | String _ rest =>
      match skip with
      | S k => skip_white k rest
      | O =>
          match white_length s with
          | O => s
          | S k => skip_white k rest
          end
      end
  end.

(** The text is white space from end to end. *)
Fixpoint only_white (skip : nat) (s : string) : bool :=
  match s with
  | EmptyString => Nat.eqb skip 0
  | String _ rest =>
      match skip with
      | S k => only_white k rest
      | O =>
          match white_length s with
          | O => false
          | S k => only_white k rest
          end
      end
  end.

Definition trimStart (s : string) : string := skip_white 0 s.

Fixpoint trimEnd (s : string) : string :=
  match s with
  | EmptyString => ""
  | String c rest => if only_white 0 s then "" else String c (trimEnd rest)
  end.

(** [s.trim()] *)
Definition trim (s : string) : string := trimEnd (trimStart s).

Fixpoint drop (n : nat) (s : string) : string :=
  match n, s with
  | S k, String _ rest => drop k rest
  | _, _ => s
  end.

Definition fence : string := "```".
Definition json_fence : string := "```json".

(** [s.replace(/```json\s*/g, '')]: every occurrence of the opening fence
    goes, together with the white space that follows it.  [skip] counts
    the bytes still to drop of a fence or of a white space character,
    [blank] tells that the white space after a fence is being dropped. *)
Fixpoint remove_json_fences_from (skip : nat) (blank : bool) (s : string) : string :=
  match s with
  | EmptyString => ""
  | String c rest =>
      match skip with
      | S k => remove_json_fences_from k true rest
      | O =>
          match (if blank then white_length s else 0%nat) with
          | S k => remove_json_fences_from k true rest
          | O =>
              if String.prefix json_fence s then remove_json_fences_from 6 true rest
              else String c (remove_json_fences_from 0 false rest)
          end
      end
  end.

Definition remove_json_fences (s : string) : string := remove_json_fences_from 0 false s.

(** [s.replace(/```\s*$/g, '')]: the first place from which the text is a
    fence followed by white space only, up to the end, is where the text
    is cut. *)
Fixpoint remove_closing_fence (s : string) : string :=
  match s with
  | EmptyString => ""
  | String c rest =>
      if String.prefix fence s && only_white 0 (drop 3 s) then ""
      else String c (remove_closing_fence rest)
  end.

(** [responseText.replace(/```json\s*/g, '').replace(/```\s*$/g, '').trim()] *)
Definition cleanText (responseText : string) : string :=
  trim (remove_closing_fence (remove_json_fences responseText)).

(** [s.match(/\{[\s\S]*\}/)]: from the first opening brace that has a
    closing brace after it, to the last closing brace. *)
Fixpoint upto_last_brace (s : string) : option string :=
  match s with
  | EmptyString => None
  | String c rest =>
      match upto_last_brace rest with
      | Some kept => Some (String c kept)
      | None => if Ascii.eqb c "}" then Some (String c "") else None
      end
  end.

Fixpoint brace_match (s : string) : option string :=
  match s with
  | EmptyString => None
  | String c rest =>
      if Ascii.eqb c "{"
      then match upto_last_brace rest with
           | Some kept => Some (String c kept)
           | None => brace_match rest
           end
      else brace_match rest
  end.

(** [jsonMatch ? jsonMatch[0] : responseText] *)
Definition cleanJson (responseText : string) : string :=
  match brace_match responseText with
  | Some m => m
  | None => responseText
  end.

End Text.


(** ** The report types *)

Module Types.
Import JS.

Inductive ReadinessStatus : Type := ready | conditional | not_ready | unknown.

Definition status_name (st : ReadinessStatus) : string :=
  match st with
  | ready => "ready"
  | conditional => "conditional"
  | not_ready => "not-ready"
  | unknown => "unknown"
  end.

Definition statuses : list ReadinessStatus := [ready; conditional; not_ready; unknown].

Record RepositoryInfo : Type := {
  url : string;
  owner : string;
  repo : string;
  analyzedAt : string
}.

(** The report as it exists at run time: the fields that are copied from
    the proxy's reply hold whatever JSON value the reply had there (the
    cast [as ReadinessStatus] checks nothing). *)
Record ProductionReport : Type := {
  id : string;
  repository : RepositoryInfo;
  summary : json;
  overallStatus : json;
  domains : json;
  criticalIssues : json;
  recommendations : json;
  conclusion : json;
  createdAt : string
}.

(** The object a report is, field by field in the order of the object
    literal that builds it. *)
Definition repository_json (r : RepositoryInfo) : json :=
  JObj [("url", JStr (url r)); ("owner", JStr (owner r)); ("repo", JStr (repo r));
        ("analyzedAt", JStr (analyzedAt r))].

Definition report_json (r : ProductionReport) : json :=
  JObj [("id", JStr (id r));
        ("repository", repository_json (repository r));
        ("summary", summary r);
        ("overallStatus", overallStatus r);
        ("domains", domains r);
        ("criticalIssues", criticalIssues r);
        ("recommendations", recommendations r);
        ("conclusion", conclusion r);
        ("createdAt", JStr (createdAt r))].

(** What the interfaces declare. *)
Definition is_string (v : json) : bool :=
  match v with
  | JStr _ => true
  | _ => false
  end.

Definition is_status (v : json) : bool :=
  match v with
  | JStr s => existsb (fun st => String.eqb (status_name st) s) statuses
  | _ => false
  end.

Definition is_string_array (v : json) : bool :=
  match v with
  | JArr items => forallb is_string items
  | _ => false
  end.

Definition field_is (p : json -> bool) (v : json) (k : string) : bool :=
  match get v k with
  | Some x => p x
  | None => false
  end.

(** A [DomainAssessment]: an object with the five declared fields and no
    other, each of its declared type, in any order. *)
Definition domain_fields : list string :=
  ["title"; "status"; "description"; "findings"; "recommendations"].

Definition is_domain (v : json) : bool :=
  match v with
  | JObj fields =>
      Nat.eqb (length fields) (length domain_fields)
      && field_is is_string v "title" && field_is is_status v "status"
      && field_is is_string v "description" && field_is is_string_array v "findings"
      && field_is is_string_array v "recommendations"
  | _ => false
  end.

Definition is_domain_array (v : json) : bool :=
  match v with
  | JArr items => forallb is_domain items
  | _ => false
  end.

(** A report whose fields have the declared types. *)
Definition conforms (r : ProductionReport) : bool :=
  is_string (summary r) && is_status (overallStatus r) && is_domain_array (domains r)
  && is_string_array (criticalIssues r) && is_string_array (recommendations r)
  && is_string (conclusion r).

End Types.

(** ** The analyzer: [callProxyAnalysis], [generateProductionReport] *)

Module Analyzer.
Import JS Json.

(** [callProxyAnalysis], from the reply of the proxy on.  [new Error(m)]
    converts [m] to a string. *)
Definition callProxyAnalysis (eng : engine) (reply : fetch_result) : outcome jsval :=
  match reply with
  | NetworkFailure => Throws (Exn TypeError (msg_fetch_failed eng))
  | HttpResponse status statusText body =>
      if ok status then
        result ← JSON_parse eng body;
        read eng (Some result) "data"
      else
        errorData ← try_catch (JSON_parse eng body)
                      (fun _ => Returns (JObj [("error", JStr "Unknown error")]));
        error ← read eng (Some errorData) "error";
        text ← ToString eng
                 (Some (or_else error
                          (JStr ("HTTP " +:+ decimal status +:+ ": " +:+ statusText))));
        Throws (Exn PlainError text)
  end.

Definition no_summary : string := "لم يتم توفير ملخص".
Definition no_conclusion : string := "لم يتم التوصل إلى خلاصة".
Definition fallback_summary : string := "حدث خطأ أثناء تحليل المستودع".
Definition fallback_issue : string := "فشل في توليد التقرير بسبب خطأ في الخدمة".
Definition fallback_recommendation : string := "يرجى المحاولة مرة أخرى لاحقاً".
Definition fallback_conclusion : string := "لم يتم إكمال التحليل بنجاح".

Definition report_id (now : Z) : string := "report-" +:+ decimal now.

(** The report of the [catch] branch. *)
Definition fallback_report (owner repo url analyzedAt : string) (now : Z)
  : Types.ProductionReport :=
  {| Types.id := report_id now;
     Types.repository :=
       {| Types.url := url; Types.owner := owner; Types.repo := repo;
          Types.analyzedAt := analyzedAt |};
     Types.summary := JStr fallback_summary;
     Types.overallStatus := JStr "unknown";
     Types.domains := JArr [];
     Types.criticalIssues := JArr [JStr fallback_issue];
     Types.recommendations := JArr [JStr fallback_recommendation];
     Types.conclusion := JStr fallback_conclusion;
     Types.createdAt := analyzedAt |}.

(** [generateProductionReport], from the reply of the proxy on.
    [analyzedAt] is [new Date().toISOString()] at the start, [now] the
    reading of the one [Date.now()] the run makes. *)
Definition generateProductionReport (eng : engine) (owner repo url analyzedAt : string)
    (now : Z) (reply : fetch_result) : outcome Types.ProductionReport :=
  try_catch
    (reportData ← callProxyAnalysis eng reply;
     summary ← read eng reportData "summary";
     Returns
       {| Types.id := report_id now;
          Types.repository :=
            {| Types.url := url; Types.owner := owner; Types.repo := repo;
               Types.analyzedAt := analyzedAt |};
          Types.summary := or_else summary (JStr no_summary);
          Types.overallStatus := or_else (get_opt reportData "overallStatus") (JStr "unknown");
          Types.domains := or_else (get_opt reportData "domains") (JArr []);
          Types.criticalIssues := or_else (get_opt reportData "criticalIssues") (JArr []);
          Types.recommendations := or_else (get_opt reportData "recommendations") (JArr []);
          Types.conclusion := or_else (get_opt reportData "conclusion") (JStr no_conclusion);
          Types.createdAt := analyzedAt |})
    (fun _ => Returns (fallback_report owner repo url analyzedAt now)).

End Analyzer.

(** ** The display side: [StatusBadge], [ReportView] *)

Module View.
Import JS Json.




















End View.

(** ** The application: [useKV] and the handlers of [App] *)

Module App.
Import JS Json.

(** [localStorage]: its items, whether the page may read it, and which
    writes the browser accepts (its quota). *)
Record storage : Type := {
  items : gmap string string;
  readable : bool;
  accepts : string -> string -> bool
}.

Definition getItem (st : storage) (key : string) : outcome (option string) :=
  if readable st then Returns (items st !! key)
  else Throws (Exn DOMException "SecurityError").

Definition setItem (st : storage) (key value : string) : outcome storage :=
  if accepts st key value
  then Returns {| items := <[key := value]> (items st);
                  readable := readable st; accepts := accepts st |}
  else Throws (Exn DOMException "QuotaExceededError").

(** The initial value of [useKV]. *)
Definition useKV_initial (eng : engine) (st : storage) (key : string) (defaultValue : json)
  : outcome json :=
  try_catch
    (stored ← getItem st key;
     match stored with
     | Some text => if String.eqb text "" then Returns defaultValue else JSON_parse eng text
     | None => Returns defaultValue
     end)
    (fun _ => Returns defaultValue).

(** The state of one [useKV]: the value React holds and the store. *)
Record kv : Type := { value : json; store : storage }.

(** [setStoredValue(updater)]: an exception of the updater goes through,
    one of the store is ignored. *)
Definition setStoredValue (key : string) (updater : json -> outcome json) (st : kv)
  : outcome kv :=
  newValue ← updater (value st);
  Returns {| value := newValue;
             store := match setItem (store st) key (stringify newValue) with
                      | Returns written => written
                      | _ => store st
                      end |}.

Definition reports_key : string := "production-reports".

(** [useKV<ProductionReport[]>('production-reports', [])] at mount. *)
Definition load_reports (eng : engine) (st : storage) : outcome json :=
  useKV_initial eng st reports_key (JArr []).

(** The updater of [handleAnalyze]: [[report, ...(currentReports || [])]].
    Spreading a string gives its characters one by one, which the model
    does not follow. *)
Definition prepend_report (eng : engine) (report : json) (currentReports : json)
  : outcome json :=
  match or_else (Some currentReports) (JArr []) with
  | JArr rest => Returns (JArr (report :: rest))
  | JStr _ => Beyond
  | _ => Throws (Exn TypeError (msg_not_a_function eng "(currentReports || [])[Symbol.iterator]"))
  end.

(** The updater of [handleDeleteReport]:
    [(currentReports || []).filter(r => r.id !== reportId)] *)
Definition delete_report (eng : engine) (reportId : string) (currentReports : json)
  : outcome json :=
  match or_else (Some currentReports) (JArr []) with
  | JArr rest =>
      kept ← keep (fun r => rid ← read eng (Some r) "id";
                            Returns (negb (strict_eq_string rid reportId))) rest;
      Returns (JArr kept)
  | _ => Throws (Exn TypeError (msg_not_a_function eng "(currentReports || []).filter"))
  end.

Record app : Type := {
  reports : kv;
  currentReport : option json
}.

(** [handleAnalyze], once [generateProductionReport] has given [report]. *)
Definition handleAnalyze (eng : engine) (report : Types.ProductionReport) (a : app)
  : outcome app :=
  updated ← setStoredValue reports_key (prepend_report eng (Types.report_json report))
              (reports a);
  Returns {| reports := updated; currentReport := Some (Types.report_json report) |}.

(** [handleDeleteReport] *)
Definition handleDeleteReport (eng : engine) (reportId : string) (a : app) : outcome app :=
  updated ← setStoredValue reports_key (delete_report eng reportId) (reports a);
  Returns {| reports := updated;
             currentReport :=
               if strict_eq_string (get_opt (currentReport a) "id") reportId
               then None else currentReport a |}.

(** The list of reports an application state holds. *)
Definition listed (a : app) : json := value (reports a).

(** The guards of [handleExport]. *)
Definition export_domains (currentReport : json) : json :=
  or_else (get currentReport "domains") (JArr []).
Definition export_criticalIssues (currentReport : json) : json :=
  or_else (get currentReport "criticalIssues") (JArr []).
Definition export_recommendations (currentReport : json) : json :=
  or_else (get currentReport "recommendations") (JArr []).
Definition export_findings (domain : json) : json :=
  or_else (get domain "findings") (JArr []).
Definition export_domain_recommendations (domain : json) : json :=
  or_else (get domain "recommendations") (JArr []).

End App.

(** ** The proxy server: [POST /api/analyze] *)

Module Proxy.
Import JS Json Text.

Record response : Type := { status : Z; payload : json }.

(** A call to the provider. *)
Record outbound : Type := { out_url : string; out_body : string }.

(** [process.env.GEMINI_API_KEY || process.env.VITE_GEMINI_API_KEY] *)
Definition GENAI_API_KEY (env : gmap string string) : option string :=
  match env !! "GEMINI_API_KEY" with
  | Some k => if String.eqb k "" then env !! "VITE_GEMINI_API_KEY" else Some k
  | None => env !! "VITE_GEMINI_API_KEY"
  end.

Definition key_truthy (key : option string) : bool :=
  match key with
  | Some k => negb (String.eqb k "")
  | None => false
  end.

Definition modelName : string := "models/gemini-3-pro-preview".

Definition generate_url (key : option string) : string :=
  "https://generativelanguage.googleapis.com/v1beta/" +:+ modelName
  +:+ ":generateContent?key=" +:+ to_string_val (JStr <$> key).

Definition generate_body (prompt : string) : string :=
  stringify (JObj [("contents", JArr [JObj [("parts", JArr [JObj [("text", JStr prompt)]])]])]).

Definition missing_fields : response :=
  {| status := 400;
     payload := JObj [("error", JStr "Missing required fields: owner and repo are required")] |}.

Definition key_missing : response :=
  {| status := 500;
     payload := JObj [("error",
       JStr "Configuration error: Analysis service is not available (KEY_MISSING_RUNTIME_CHECK).")] |}.

Definition duration_text (startTime endTime : Z) : string :=
  decimal (endTime - startTime) +:+ "ms".

(** [details.type] and [details.message] of a reply. *)
Definition details_type (r : response) : jsval := get_opt (get (payload r) "details") "type".
Definition details_message (r : response) : jsval :=
  get_opt (get (payload r) "details") "message".

Section Handler.

(** The engine's wording, the prompt builder of the file, and the text of
    its [error] field. *)
Variable eng : engine.
Variable buildAnalysisPrompt : engine -> jsval -> jsval -> jsval -> outcome string.
Variable failure_text : string.

(** The [catch] block. *)
Definition failure (startTime endTime : Z) (timestamp : string) (error : exn) : response :=
  let errorMessage :=
    if String.eqb (message error) "" then "Unknown error occurred" else message error in
  let isGoogleError :=
    includes "Google" errorMessage || includes "400" errorMessage
    || includes "404" errorMessage in
  {| status := 500;
     payload :=
       JObj [("error", JStr failure_text);
             ("details",
              JObj [("message", JStr errorMessage);
                    ("type", JStr (if isGoogleError then "AI_SERVICE_ERROR"
                                   else "INTERNAL_ERROR"))]);
             ("meta",
              JObj [("duration", JStr (duration_text startTime endTime));
                    ("timestamp", JStr timestamp)])] |}.

Definition success (startTime endTime : Z) (timestamp : string) (reportData : json)
  : response :=
  {| status := 200;
     payload :=
       JObj [("success", JBool true);
             ("data", reportData);
             ("meta",
              JObj [("duration", JStr (duration_text startTime endTime));
                    ("timestamp", JStr timestamp);
                    ("model", JStr modelName)])] |}.

(** The handler up to the call: an early reply, or the request to send. *)
Inductive step : Type :=
| Reply (r : response)
| Send (o : outbound).

Definition prepare (key : option string) (body : json) : outcome step :=
  match body with
  | JNull => Throws (Exn TypeError (msg_destructure eng "owner" "null"))
  | _ =>
      let owner := get body "owner" in
      let repo := get body "repo" in
      let analysisData := get body "analysisData" in
      if negb (truthy_val owner) || negb (truthy_val repo) then Returns (Reply missing_fields)
      else if negb (key_truthy key) then Returns (Reply key_missing)
      else
        prompt ← buildAnalysisPrompt eng owner repo analysisData;
        Returns (Send {| out_url := generate_url key; out_body := generate_body prompt |})
  end.

(** [data.candidates?.[0]?.content?.parts?.[0]?.text] *)
Definition candidate_text (data : json) : outcome jsval :=
  candidates ← read eng (Some data) "candidates";
  Returns (first_opt (get_opt (first_opt candidates "content") "parts") "text").

(** The handler from the provider's reply on. *)
Definition complete (startTime endTime : Z) (timestamp : string) (reply : fetch_result)
  : outcome response :=
  match reply with
  | NetworkFailure => Throws (Exn TypeError (msg_fetch_failed eng))
  | HttpResponse code _ body =>
      if negb (ok code) then
        errorData ← try_catch (JSON_parse eng body) (fun _ => Returns (JObj []));
        Throws (Exn PlainError
                  ("Gemini API error: " +:+ decimal code +:+ " " +:+ stringify errorData))
      else
        data ← JSON_parse eng body;
        responseText ← candidate_text data;
        if negb (truthy_val responseText)
        then Throws (Exn PlainError "Empty response received from Gemini API")
        else
          match responseText with
          | Some (JStr text) =>
              reportData ← try_catch (JSON_parse eng (cleanText text))
                             (fun e => Throws (Exn PlainError
                                ("AI response was not valid JSON: " +:+ message e)));
              Returns (success startTime endTime timestamp reportData)
          | _ => Throws (Exn TypeError (msg_not_a_function eng "responseText.replace"))
          end
  end.

(** The whole handler: the reply, and the calls it made to the provider.
    [upstream] answers a call; [startTime] and [endTime] are the two
    readings of [Date.now()], [timestamp] is [new Date().toISOString()]. *)
Definition analyze (env : gmap string string) (body : json)
    (upstream : outbound -> fetch_result) (startTime endTime : Z) (timestamp : string)
  : outcome response * list outbound :=
  match prepare (GENAI_API_KEY env) body with
  | Returns (Reply r) => (Returns r, [])
  | Returns (Send o) =>
      (try_catch (complete startTime endTime timestamp (upstream o))
         (fun e => Returns (failure startTime endTime timestamp e)), [o])
  | Throws e => (Returns (failure startTime endTime timestamp e), [])
  | Beyond => (Beyond, [])
  end.

End Handler.

(** [(v).join(sep)]: defined on arrays only; it converts the elements. *)
Definition join_of (eng : engine) (expr : string) (v : jsval) (sep : string)
  : outcome string :=
  match v with
  | None => Throws (Exn TypeError (msg_read_nullish eng "undefined" "join"))
  | Some JNull => Throws (Exn TypeError (msg_read_nullish eng "null" "join"))
  | Some (JArr items) => array_join eng sep items
  | Some _ => Throws (Exn TypeError (msg_not_a_function eng (expr +:+ ".join")))
  end.

End Proxy.

(** *** The first server file *)

Module Part000.
Import JS Json Proxy.

Definition text_0 : string :=
  "Ø£Ù†Øª Ø®Ø¨ÙŠØ± ÙÙŠ ØªÙ‚ÙŠÙŠÙ… Ø¬Ø§Ù‡Ø²ÙŠØ© Ø§Ù„ØªØ·Ø¨ÙŠÙ‚Ø§Øª Ù„Ù„Ø¥Ù†ØªØ§Ø¬. Ø³ØªÙ‚ÙˆÙ… Ø¨ÙƒØªØ§Ø¨Ø© ØªÙ‚Ø±ÙŠØ± Ø¬Ø§Ù‡Ø²ÙŠØ© Ø§Ù„Ø¥Ù†ØªØ§Ø¬ (ØªÙ‚Ø±ÙŠØ± Ø¬Ø§Ù‡Ø²ÙŠØ© Ø§Ù„Ø¥Ù†ØªØ§Ø¬) Ù„ØªØ·Ø¨ÙŠÙ‚ ÙˆÙŠØ¨ ØªÙØ§Ø¹Ù„ÙŠ. Ù‡Ø°Ø§ Ø§Ù„ØªÙ‚Ø±ÙŠØ± ÙŠØ¬Ø¨ Ø£Ù† ÙŠÙƒÙˆÙ† Ù…ÙƒØªÙˆØ¨Ø§Ù‹ Ø¨Ø§Ù„ÙƒØ§Ù…Ù„ Ø¨Ø§Ù„Ù„ØºØ© Ø§Ù„Ø¹Ø±Ø¨ÙŠØ© ÙˆÙŠØ¬Ø¨ Ø£Ù† ÙŠÙ‚ÙŠÙ‘Ù… Ù…Ø§ Ø¥Ø°Ø§ ÙƒØ§Ù† Ø§Ù„ØªØ·Ø¨ÙŠÙ‚ Ø¬Ø§Ù‡Ø²Ø§Ù‹ Ù„Ù„Ù†Ø´Ø± ÙÙŠ Ø¨ÙŠØ¦Ø© Ø¥Ù†ØªØ§Ø¬ÙŠØ©.

Ù…Ø¹Ù„ÙˆÙ…Ø§Øª Ø§Ù„ØªØ·Ø¨ÙŠÙ‚:
- Ø§Ù„Ù…Ø§Ù„Ùƒ: ".
Definition text_1 : string :=
  "
- Ø§Ø³Ù… Ø§Ù„Ù…Ø³ØªÙˆØ¯Ø¹: ".
Definition text_2 : string :=
  "
- Ø§Ù„Ù„ØºØ§Øª: ".
Definition text_3 : string :=
  "
- ÙŠØ­ØªÙˆÙŠ Ø¹Ù„Ù‰ package.json: ".
Definition text_4 : string :=
  "
- ÙŠØ­ØªÙˆÙŠ Ø¹Ù„Ù‰ Dockerfile: ".
Definition text_5 : string :=
  "
- ÙŠØ­ØªÙˆÙŠ Ø¹Ù„Ù‰ Ø§Ø®ØªØ¨Ø§Ø±Ø§Øª: ".
Definition text_6 : string :=
  "
- ÙŠØ­ØªÙˆÙŠ Ø¹Ù„Ù‰ CI/CD: ".
Definition text_7 : string :=
  "

Ù‚Ù… Ø¨Ø¥Ù†Ø´Ø§Ø¡ ØªÙ‚Ø±ÙŠØ± JSON Ø¨Ø§Ù„Ù‡ÙŠÙƒÙ„ Ø§Ù„ØªØ§Ù„ÙŠ ÙÙ‚Ø·:
{
  " +:+ dq +:+ "summary" +:+ dq +:+ ": " +:+ dq +:+ "Ù†Øµ" +:+ dq +:+ ",
  " +:+ dq +:+ "overallStatus" +:+ dq +:+ ": " +:+ dq +:+ "ready|conditional|not-ready" +:+ dq +:+ ",
  " +:+ dq +:+ "domains" +:+ dq +:+ ": [ ... ],
  " +:+ dq +:+ "criticalIssues" +:+ dq +:+ ": [ ... ],
  " +:+ dq +:+ "recommendations" +:+ dq +:+ ": [ ... ],
  " +:+ dq +:+ "conclusion" +:+ dq +:+ ": " +:+ dq +:+ "Ù†Øµ" +:+ dq +:+ "
}
".
Definition not_specified : string :=
  "ØºÙŠØ± Ù…Ø­Ø¯Ø¯Ø©".
Definition yes : string :=
  "Ù†Ø¹Ù…".
Definition no : string :=
  "Ù„Ø§".

Definition failure_text : string := "ÙØ´Ù„ ÙÙŠ ØªØ­Ù„ÙŠÙ„ Ø§Ù„Ù…Ø³ØªÙˆØ¯Ø¹. Ø­Ø¯Ø« Ø®Ø·Ø£ Ø¯Ø§Ø®Ù„ÙŠ.".

Definition yes_no (flag : jsval) : string := if truthy_val flag then yes else no.

(** [buildAnalysisPrompt]: the substitutions of the template are
    evaluated and converted from left to right. *)
Definition buildAnalysisPrompt (eng : engine) (owner repo analysisData : jsval)
  : outcome string :=
  let data := or_else analysisData (JObj []) in
  owner_text ← ToString eng owner;
  repo_text ← ToString eng repo;
  languages ← join_of eng "(data.languages || [])"
                 (Some (or_else (get data "languages") (JArr []))) ", ";
  Returns (text_0 +:+ owner_text
           +:+ text_1 +:+ repo_text
           +:+ text_2 +:+ (if String.eqb languages "" then not_specified else languages)
           +:+ text_3 +:+ yes_no (get data "hasPackageJson")
           +:+ text_4 +:+ yes_no (get data "hasDockerfile")
           +:+ text_5 +:+ yes_no (get data "hasTests")
           +:+ text_6 +:+ yes_no (get data "hasCI")
           +:+ text_7).

Definition analyze (eng : engine) := Proxy.analyze eng buildAnalysisPrompt failure_text.

End Part000.

(** *** The second server file *)

Module Part001.
Import JS Json Proxy.

Definition text_0 : string :=
  "أنت خبير هندسي متخصص في تقييم جاهزية التطبيقات للنشر في بيئات الإنتاج. مهمتك هي إجراء مراجعة هندسية شاملة وكتابة تقرير جاهزية إنتاج (Production Readiness Report) احترافي لتطبيق ويب تفاعلي.

════════════════════════════════════════════════════════════════════════════════
📋 المعلومات المتوفرة عن التطبيق
════════════════════════════════════════════════════════════════════════════════

معلومات المستودع:
- المالك: ".
Definition text_1 : string :=
  "
- اسم المستودع: ".
Definition text_2 : string :=
  "
- اللغات البرمجية: ".
Definition text_3 : string :=
  "

البنية التقنية:
- package.json: ".
Definition text_4 : string :=
  "
- requirements.txt: ".
Definition text_5 : string :=
  "
- pyproject.toml: ".
Definition text_6 : string :=
  "
- Dockerfile: ".
Definition text_7 : string :=
  "

ضمان الجودة:
- اختبارات آلية: ".
Definition text_8 : string :=
  "
- CI/CD Pipeline: ".
Definition text_9 : string :=
  "

التوثيق:
- README: ".
Definition text_10 : string :=
  "
- .gitignore: ".
Definition text_11 : string :=
  "

هيكل الملفات:
".
Definition text_12 : string :=
  "

".
Definition text_13 : string :=
  "

".
Definition text_14 : string :=
  "

".
Definition text_15 : string :=
  "

════════════════════════════════════════════════════════════════════════════════
🎯 المجالات الهندسية للتقييم
════════════════════════════════════════════════════════════════════════════════

قم بتقييم التطبيق عبر المجالات الهندسية العشرة التالية:

1️⃣ **الوظائف الأساسية (Core Functionality)**
   معايير التقييم:
   • اكتمال الميزات الأساسية المطلوبة
   • استقرار الوظائف وخلوها من الأخطاء الحرجة
   • تغطية حالات الاستخدام الرئيسية
   • معالجة الأخطاء والحالات الاستثنائية

2️⃣ **الأداء (Performance)**
   معايير التقييم:
   • زمن تحميل الصفحة الأولى (< 3 ثواني)
   • زمن الاستجابة للعمليات (< 200ms)
   • كفاءة استخدام الموارد (Memory/CPU)
   • قابلية التوسع الأفقي والعمودي
   • تحسين الصور والأصول الثابتة
   • استراتيجيات التخزين المؤقت (Caching)

3️⃣ **الأمان (Security)**
   معايير التقييم:
   • آليات المصادقة والتفويض (Authentication/Authorization)
   • حماية من الثغرات الشائعة (OWASP Top 10)
   • تشفير البيانات الحساسة (في الحركة وفي الراحة)
   • إدارة الأسرار والمفاتيح (Secrets Management)
   • حماية من CSRF, XSS, SQL Injection
   • سياسات CORS و Content Security Policy
   • تحديثات أمنية للمكتبات والاعتماديات

4️⃣ **البنية التحتية (Infrastructure)**
   معايير التقييم:
   • توفر بيئات متعددة (Dev/Staging/Production)
   • آليات النشر الآلي (Deployment Automation)
   • إدارة الإعدادات البيئية (Environment Configuration)
   • استراتيجيات التوسع (Scaling Strategy)
   • التوافرية العالية (High Availability)
   • استراتيجية النسخ الاحتياطي التلقائي

5️⃣ **المراقبة والسجلات (Monitoring & Logging)**
   معايير التقييم:
   • نظام تسجيل الأحداث الشامل (Structured Logging)
   • مراقبة الأداء والموارد (APM)
   • تنبيهات الأخطاء والمشاكل الحرجة (Alerting)
   • تتبع الأخطاء (Error Tracking)
   • لوحات القياس والمقاييس (Metrics Dashboard)

6️⃣ **النسخ الاحتياطي والاستعادة (Backup & Recovery)**
   معايير التقييم:
   • استراتيجية النسخ الاحتياطي الآلي
   • نقطة استعادة الهدف (RPO - Recovery Point Objective)
   • وقت استعادة الهدف (RTO - Recovery Time Objective)
   • خطة التعافي من الكوارث (Disaster Recovery Plan)
   • اختبار دوري لعمليات الاستعادة

7️⃣ **التوثيق (Documentation)**
   معايير التقييم:
   • README شامل يوضح الغرض والاستخدام
   • توثيق التثبيت والإعداد
   • توثيق API (إن وجد)
   • توثيق البنية المعمارية
   • توثيق العمليات التشغيلية (Runbooks)
   • دليل المساهمة (Contributing Guide)

8️⃣ **الاختبار (Testing)**
   معايير التقييم:
   • اختبارات الوحدة (Unit Tests) - تغطية > 70%
   • اختبارات التكامل (Integration Tests)
   • اختبارات من النهاية للنهاية (E2E Tests)
   • اختبارات الأداء والحمل (Load/Stress Tests)
   • اختبارات الأمان (Security Tests)
   • اختبارات قبول المستخدم (UAT)

9️⃣ **التوافق (Compatibility)**
   معايير التقييم:
   • دعم المتصفحات الرئيسية (Chrome, Firefox, Safari, Edge)
   • التوافق مع الأجهزة المختلفة (Desktop, Mobile, Tablet)
   • التصميم المتجاوب (Responsive Design)
   • إمكانية الوصول (Accessibility - WCAG 2.1)
   • دعم اللغات المتعددة (إن كان مطلوباً)

🔟 **الامتثال (Compliance)**
   معايير التقييم:
   • الامتثال لـ GDPR (إن كان التطبيق يخدم الاتحاد الأوروبي)
   • سياسات الخصوصية وشروط الاستخدام
   • الامتثال للمعايير الصناعية (ISO, SOC 2, إلخ)
   • متطلبات الترخيص (License Compliance)
   • لوائح حماية البيانات المحلية

════════════════════════════════════════════════════════════════════════════════
📊 منهجية التقييم
════════════════════════════════════════════════════════════════════════════════

نظام التقييم لكل مجال:
- **ready** (جاهز): المجال يلبي جميع المعايير الأساسية ومُجهّز للإنتاج
- **conditional** (جاهز بشروط): المجال يحتاج تحسينات طفيفة أو متوسطة، لكن ليست حرجة
- **not-ready** (غير جاهز): المجال يعاني من نقص حرج يمنع النشر
- **unknown** (غير محدد): معلومات غير كافية للتقييم

نظام الأولويات للتوصيات:
- **P0 (حرج)**: يجب معالجته قبل النشر - يمنع النشر
- **P1 (عالي)**: يجب معالجته في أقرب وقت - يؤثر على الاستقرار أو الأمان
- **P2 (متوسط)**: يُنصح بمعالجته قريباً - يحسن الجودة
- **P3 (منخفض)**: يمكن معالجته لاحقاً - تحسينات اختيارية

════════════════════════════════════════════════════════════════════════════════
✍️ إرشادات كتابة التقرير
════════════════════════════════════════════════════════════════════════════════

1. **التحليل الأولي**:
   - قبل كتابة التقرير، حلل المعلومات المتوفرة بعمق
   - حدد الأنماط والعلاقات بين المجالات المختلفة
   - ابحث عن الفجوات المعلوماتية الحرجة
   - استنتج معلومات ضمنية من البيانات المتاحة

2. **الدقة والموضوعية**:
   - قدم تقييماً موضوعياً مبنياً على الأدلة
   - اذكر أي افتراضات قمت بها بوضوح
   - لا تقدم تقييمات مبنية على تخمينات إذا كانت البيانات غير كافية
   - استخدم " +:+ dq +:+ "unknown" +:+ dq +:+ " عندما لا تتوفر معلومات كافية

3. **القابلية للتنفيذ**:
   - اجعل كل توصية محددة وقابلة للتنفيذ
   - أضف الأولوية لكل توصية
   - اقترح خطوات عملية واضحة

4. **الشمولية**:
   - غطِ جميع المجالات العشرة حتى لو كانت المعلومات محدودة
   - اربط المجالات ببعضها عند الحاجة
   - حدد التأثيرات المتداخلة بين المجالات

════════════════════════════════════════════════════════════════════════════════
📤 هيكل الرد المطلوب (JSON)
════════════════════════════════════════════════════════════════════════════════

يجب أن يكون الرد بصيغة JSON التالية بالضبط (كل النصوص بالعربية):

{
  " +:+ dq +:+ "metadata" +:+ dq +:+ ": {
    " +:+ dq +:+ "reportDate" +:+ dq +:+ ": " +:+ dq +:+ "التاريخ الحالي" +:+ dq +:+ ",
    " +:+ dq +:+ "repository" +:+ dq +:+ ": " +:+ dq +:+ "".
Definition text_16 : string :=
  "/".
Definition text_17 : string :=
  "" +:+ dq +:+ ",
    " +:+ dq +:+ "primaryLanguages" +:+ dq +:+ ": [" +:+ dq +:+ "اللغة الأساسية 1" +:+ dq +:+ ", " +:+ dq +:+ "اللغة الأساسية 2" +:+ dq +:+ "]
  },
  " +:+ dq +:+ "summary" +:+ dq +:+ ": " +:+ dq +:+ "نظرة عامة شاملة عن التطبيق وغرض التقرير والنتائج الرئيسية (3-5 جمل)" +:+ dq +:+ ",
  " +:+ dq +:+ "overallStatus" +:+ dq +:+ ": " +:+ dq +:+ "ready أو conditional أو not-ready" +:+ dq +:+ ",
  " +:+ dq +:+ "overallScore" +:+ dq +:+ ": " +:+ dq +:+ "النسبة المئوية للجاهزية الإجمالية (0-100)" +:+ dq +:+ ",
  " +:+ dq +:+ "readinessLevel" +:+ dq +:+ ": " +:+ dq +:+ "وصف نصي لمستوى الجاهزية (مثال: 'جاهز للإنتاج بعد معالجة 3 نقاط حرجة')" +:+ dq +:+ ",
  
  " +:+ dq +:+ "domains" +:+ dq +:+ ": [
    {
      " +:+ dq +:+ "id" +:+ dq +:+ ": 1,
      " +:+ dq +:+ "title" +:+ dq +:+ ": " +:+ dq +:+ "الوظائف الأساسية" +:+ dq +:+ ",
      " +:+ dq +:+ "status" +:+ dq +:+ ": " +:+ dq +:+ "ready أو conditional أو not-ready أو unknown" +:+ dq +:+ ",
      " +:+ dq +:+ "score" +:+ dq +:+ ": " +:+ dq +:+ "النسبة المئوية للجاهزية في هذا المجال (0-100)" +:+ dq +:+ ",
      " +:+ dq +:+ "description" +:+ dq +:+ ": " +:+ dq +:+ "تقييم شامل للحالة مع ذكر السياق الهندسي (2-3 جمل)" +:+ dq +:+ ",
      " +:+ dq +:+ "strengths" +:+ dq +:+ ": [" +:+ dq +:+ "نقطة قوة 1" +:+ dq +:+ ", " +:+ dq +:+ "نقطة قوة 2" +:+ dq +:+ "],
      " +:+ dq +:+ "weaknesses" +:+ dq +:+ ": [" +:+ dq +:+ "نقطة ضعف 1" +:+ dq +:+ ", " +:+ dq +:+ "نقطة ضعف 2" +:+ dq +:+ "],
      " +:+ dq +:+ "findings" +:+ dq +:+ ": [
        " +:+ dq +:+ "ملاحظة محددة مع دليل 1" +:+ dq +:+ ",
        " +:+ dq +:+ "ملاحظة محددة مع دليل 2" +:+ dq +:+ ",
        " +:+ dq +:+ "ملاحظة محددة مع دليل 3" +:+ dq +:+ "
      ],
      " +:+ dq +:+ "recommendations" +:+ dq +:+ ": [
        {
          " +:+ dq +:+ "priority" +:+ dq +:+ ": " +:+ dq +:+ "P0 أو P1 أو P2 أو P3" +:+ dq +:+ ",
          " +:+ dq +:+ "action" +:+ dq +:+ ": " +:+ dq +:+ "التوصية المحددة" +:+ dq +:+ ",
          " +:+ dq +:+ "rationale" +:+ dq +:+ ": " +:+ dq +:+ "السبب والتأثير المتوقع" +:+ dq +:+ "
        }
      ],
      " +:+ dq +:+ "missingInfo" +:+ dq +:+ ": [" +:+ dq +:+ "معلومة مفقودة 1 مطلوبة للتقييم الكامل" +:+ dq +:+ ", " +:+ dq +:+ "معلومة مفقودة 2" +:+ dq +:+ "]
    }
    // كرر لجميع المجالات العشرة بنفس الترتيب
  ],
  
  " +:+ dq +:+ "criticalIssues" +:+ dq +:+ ": [
    {
      " +:+ dq +:+ "domain" +:+ dq +:+ ": " +:+ dq +:+ "اسم المجال" +:+ dq +:+ ",
      " +:+ dq +:+ "issue" +:+ dq +:+ ": " +:+ dq +:+ "وصف المشكلة الحرجة" +:+ dq +:+ ",
      " +:+ dq +:+ "impact" +:+ dq +:+ ": " +:+ dq +:+ "التأثير على الإنتاج" +:+ dq +:+ ",
      " +:+ dq +:+ "priority" +:+ dq +:+ ": " +:+ dq +:+ "P0" +:+ dq +:+ "
    }
  ],
  
  " +:+ dq +:+ "recommendations" +:+ dq +:+ ": {
    " +:+ dq +:+ "immediate" +:+ dq +:+ ": [" +:+ dq +:+ "إجراء فوري 1 (P0)" +:+ dq +:+ ", " +:+ dq +:+ "إجراء فوري 2 (P0)" +:+ dq +:+ "],
    " +:+ dq +:+ "shortTerm" +:+ dq +:+ ": [" +:+ dq +:+ "إجراء قصير المدى 1 (P1)" +:+ dq +:+ ", " +:+ dq +:+ "إجراء قصير المدى 2 (P1)" +:+ dq +:+ "],
    " +:+ dq +:+ "mediumTerm" +:+ dq +:+ ": [" +:+ dq +:+ "إجراء متوسط المدى 1 (P2)" +:+ dq +:+ ", " +:+ dq +:+ "إجراء متوسط المدى 2 (P2)" +:+ dq +:+ "],
    " +:+ dq +:+ "longTerm" +:+ dq +:+ ": [" +:+ dq +:+ "إجراء طويل المدى 1 (P3)" +:+ dq +:+ ", " +:+ dq +:+ "إجراء طويل المدى 2 (P3)" +:+ dq +:+ "]

  " +:+ dq +:+ "conclusion" +:+ dq +:+ ":" +:+ dq +:+ "الخلاصة النهائية: تقييم الجاهزية الإجمالي مع توصية واضحة وحاسمة (جاهز للإنتاج / جاهز بشروط / غير جاهز) مع تبرير هندسي مفصل يستند إلى التحليل الشامل. يجب أن يتضمن: (1) ملخص الوضع الحالي (2) الخطوات الحرجة المطلوبة (3) الإطار الزمني المقترح (4) المخاطر المحتملة (5) التوصية النهائية الوا════════════════════════════════════════════════════════════════════════════ تعليمات حاسمة
════════════════════════════════════════════════════════════════════════════════

1. يجب تضمين جميع المجالات العشرة في domains بنفس الترتيب المذكور
2. جميع النصوص يجب أن تكون باللغة العربية الفصحى الاحترافية
3. لا تستخدم رموز تعبيرية (emojis) في محتوى JSON
4. كن محدداً في التوصيات - تجنب العموميات
5. أضف priority لكل توصية
6. إذا كانت المعلومات غير كافية، استخدم " +:+ dq +:+ "unknown" +:+ dq +:+ " واذكر ذلك في missingInfo
7. اربط التوصيات بالأدلة المستخرجة من تحليل المستودع
8. احسب score بناءً على المعايير المستوفاة من إجمالي المعايير لكل مجال

ابدأ التحليل الآن وقدم تقريراً هندسياً شاملاً واحترافياً".
Definition not_specified : string :=
  "غير محددة".
Definition present : string :=
  "✓ موجود".
Definition absent : string :=
  "✗ غير موجود".
Definition tests_present : string :=
  "✓ موجودة".
Definition tests_absent : string :=
  "✗ غير موجودة".
Definition package_json_heading : string :=
  "
────────────────────────────────────────────────────────────────────────────────
📦 محتوى package.json
────────────────────────────────────────────────────────────────────────────────
".
Definition readme_heading : string :=
  "
────────────────────────────────────────────────────────────────────────────────
📄 محتوى README
────────────────────────────────────────────────────────────────────────────────
".
Definition requirements_heading : string :=
  "
────────────────────────────────────────────────────────────────────────────────
📋 محتوى requirements.txt
────────────────────────────────────────────────────────────────────────────────
".

Definition failure_text : string := "فشل في تحليل المستودع. حدث خطأ داخلي.".

Definition there (flag : jsval) : string := if truthy_val flag then present else absent.

(** [${x ? `heading ${x.substring(0, n)}\n` : ''}] *)
Definition excerpt (eng : engine) (expr heading : string) (n : nat) (x : jsval)
  : outcome string :=
  if truthy_val x then
    match x with
    | Some (JStr s) => part ← substring0 n s; Returns (heading +:+ part +:+ newline)
    | _ => Throws (Exn TypeError (msg_not_a_function eng (expr +:+ ".substring")))
    end
  else Returns "".

(** [buildAnalysisPrompt]: [data] is computed and never used; every read
    goes to [analysisData] itself.  The substitutions of the template are
    evaluated and converted from left to right, [owner] and [repo]
    first. *)
Definition buildAnalysisPrompt (eng : engine) (owner repo analysisData : jsval)
  : outcome string :=
  let data := or_else analysisData (JObj []) in
  owner_text ← ToString eng owner;
  repo_text ← ToString eng repo;
  languages_value ← read eng analysisData "languages";
  languages ← join_of eng "analysisData.languages" languages_value ", ";
  fileStructure ← join_of eng "analysisData.fileStructure"
                     (get_opt analysisData "fileStructure") newline;
  packageJson ← excerpt eng "analysisData.packageJsonContent" package_json_heading 2000
                   (get_opt analysisData "packageJsonContent");
  readme ← excerpt eng "analysisData.readmeContent" readme_heading 2000
              (get_opt analysisData "readmeContent");
  requirements ← excerpt eng "analysisData.requirementsContent" requirements_heading 1000
                    (get_opt analysisData "requirementsContent");
  Returns (text_0 +:+ owner_text
           +:+ text_1 +:+ repo_text
           +:+ text_2 +:+ (if String.eqb languages "" then not_specified else languages)
           +:+ text_3 +:+ there (get_opt analysisData "hasPackageJson")
           +:+ text_4 +:+ there (get_opt analysisData "hasRequirementsTxt")
           +:+ text_5 +:+ there (get_opt analysisData "hasPyprojectToml")
           +:+ text_6 +:+ there (get_opt analysisData "hasDockerfile")
           +:+ text_7 +:+ (if truthy_val (get_opt analysisData "hasTests")
                           then tests_present else tests_absent)
           +:+ text_8 +:+ there (get_opt analysisData "hasCI")
           +:+ text_9 +:+ there (get_opt analysisData "hasReadme")
           +:+ text_10 +:+ there (get_opt analysisData "hasGitignore")
           +:+ text_11 +:+ fileStructure
           +:+ text_12 +:+ packageJson
           +:+ text_13 +:+ readme
           +:+ text_14 +:+ requirements
           +:+ text_15 +:+ owner_text
           +:+ text_16 +:+ repo_text
           +:+ text_17).

Definition analyze (eng : engine) := Proxy.analyze eng buildAnalysisPrompt failure_text.

End Part001.

(** ** The embedded server variant *)

Module Embedded.
Import JS Json Text.
Import Proxy (response, status, payload, outbound, out_url, out_body).

(** [JSON.stringify(v, null, 2)] for a value; [indent] is the indentation
    of the line the value starts on. *)
Fixpoint pretty (indent : string) (v : json) : string :=
  let inner := indent +:+ "  " in
  match v with
  | JArr [] => "[]"
  | JArr items =>
      "[" +:+ newline +:+ inner
      +:+ join ("," +:+ newline +:+ inner) (map (pretty inner) items)
      +:+ newline +:+ indent +:+ "]"
  | JObj [] => "{}"
  | JObj fields =>
      "{" +:+ newline +:+ inner
      +:+ join ("," +:+ newline +:+ inner)
            (map (fun kv => quote (fst kv) +:+ ": " +:+ pretty inner (snd kv)) fields)
      +:+ newline +:+ indent +:+ "}"
  | other => stringify other
  end.

Definition text_0 : string :=
  "Analyze the repository ".
Definition text_1 : string :=
  "/".
Definition text_2 : string :=
  " for production readiness.

Repository Data Summary:
".
Definition text_3 : string :=
  "

Respond with strictly valid JSON using this structure:
{
  " +:+ dq +:+ "summary" +:+ dq +:+ ": " +:+ dq +:+ "ملخص عام" +:+ dq +:+ ",
  " +:+ dq +:+ "overallStatus" +:+ dq +:+ ": " +:+ dq +:+ "ready|conditional|not-ready" +:+ dq +:+ ",
  " +:+ dq +:+ "domains" +:+ dq +:+ ": [
    {
      " +:+ dq +:+ "title" +:+ dq +:+ ": " +:+ dq +:+ "Security" +:+ dq +:+ ",
      " +:+ dq +:+ "status" +:+ dq +:+ ": " +:+ dq +:+ "ready|conditional|not-ready" +:+ dq +:+ ",
      " +:+ dq +:+ "description" +:+ dq +:+ ": " +:+ dq +:+ "شرح تفصيلي" +:+ dq +:+ ",
      " +:+ dq +:+ "findings" +:+ dq +:+ ": [" +:+ dq +:+ "مشكلة 1" +:+ dq +:+ ", " +:+ dq +:+ "مشكلة 2" +:+ dq +:+ "],
      " +:+ dq +:+ "recommendations" +:+ dq +:+ ": [" +:+ dq +:+ "حل 1" +:+ dq +:+ ", " +:+ dq +:+ "حل 2" +:+ dq +:+ "]
    }
  ],
  " +:+ dq +:+ "criticalIssues" +:+ dq +:+ ": [" +:+ dq +:+ "مشكلة حرجة 1" +:+ dq +:+ "],
  " +:+ dq +:+ "recommendations" +:+ dq +:+ ": [" +:+ dq +:+ "توصية عامة" +:+ dq +:+ "],
  " +:+ dq +:+ "conclusion" +:+ dq +:+ ": " +:+ dq +:+ "الخلاصة" +:+ dq +:+ "
}
Response MUST be in Arabic. Include at least 5 domains: Security, Performance, Documentation, Testing, Infrastructure.".

Definition MAX_CHARS : nat := Z.to_nat 30000.
Definition truncated : string := newline +:+ "... [TRUNCATED]".

(** [createSafePrompt]; [JSON.stringify(undefined, null, 2)] is
    [undefined], whose [length] cannot be read.  The warning written
    before the cut converts [owner] and [repo], as the prompt does. *)
Definition createSafePrompt (eng : engine) (owner repo data : jsval) : outcome string :=
  match data with
  | None => Throws (Exn TypeError (msg_read_nullish eng "undefined" "length"))
  | Some d =>
      let dataString := pretty "" d in
      shown ← (if (MAX_CHARS <? utf16_length dataString)%nat
               then ToString eng owner;;
                    ToString eng repo;;
                    cut ← substring0 MAX_CHARS dataString;
                    Returns (cut +:+ truncated)
               else Returns dataString);
      owner_text ← ToString eng owner;
      repo_text ← ToString eng repo;
      Returns (text_0 +:+ owner_text +:+ text_1 +:+ repo_text
               +:+ text_2 +:+ shown +:+ text_3)
  end.

(** [getApiKey] *)
Definition getApiKey (env : gmap string string) : outcome string :=
  let apiKey :=
    match env !! "VITE_GEMINI_API_KEY" with
    | Some k => if String.eqb k "" then env !! "GEMINI_API_KEY" else Some k
    | None => env !! "GEMINI_API_KEY"
    end in
  match apiKey with
  | Some k =>
      if String.eqb k ""
      then Throws (Exn PlainError "MISSING_API_KEY: Gemini API Key is not configured in .env")
      else Returns k
  | None => Throws (Exn PlainError "MISSING_API_KEY: Gemini API Key is not configured in .env")
  end.

Definition generate_url (apiKey : string) : string :=
  "https://generativelanguage.googleapis.com/v1beta/models/gemini-3-pro-preview"
  +:+ ":generateContent?key=" +:+ apiKey.

(** [callGeminiAPI], from the provider's reply on. *)
Definition callGeminiAPI_reply (eng : engine) (reply : fetch_result) : outcome json :=
  match reply with
  | NetworkFailure => Throws (Exn TypeError (msg_fetch_failed eng))
  | HttpResponse code _ body =>
      if negb (ok code) then
        errorData ← JSON_parse eng body;
        Throws (Exn PlainError
                  ("Gemini API Error: " +:+ decimal code +:+ " - " +:+ stringify errorData))
      else
        data ← JSON_parse eng body;
        candidates ← read eng (Some data) "candidates";
        Returns (or_else (first_opt (get_opt (first_opt candidates "content") "parts") "text")
                   (JStr ""))
  end.

(** The inner [try]: any exception becomes the one parse error. *)
Definition parse_reply (eng : engine) (responseText : json) : outcome json :=
  try_catch
    (match responseText with
     | JStr text => JSON_parse eng (cleanJson text)
     | _ => Throws (Exn TypeError (msg_not_a_function eng "responseText.match"))
     end)
    (fun _ => Throws (Exn PlainError "Failed to parse AI response as JSON")).

(** The reply of the [catch] block: a report, sent with status 200. *)
Definition fallbackAnalysis (error : exn) : json :=
  JObj [("summary", JStr "تعذر إكمال التحليل الذكي.");
        ("overallStatus", JStr "needs_work");
        ("domains",
         JArr [JObj [("title", JStr "System Analysis");
                     ("status", JStr "not-ready");
                     ("description", JStr ("Error: " +:+ message error));
                     ("findings", JArr [JStr ("Error: " +:+ message error)]);
                     ("recommendations",
                      JArr [JStr "Check API Quota"; JStr "Verify API Key";
                            JStr "Try again later"])]]);
        ("criticalIssues", JArr [JStr "AI Service Unavailable"]);
        ("recommendations", JArr [JStr "Ensure GEMINI_API_KEY is set in .env"]);
        ("conclusion", JStr "حدث خطأ أثناء الاتصال بخدمة التحليل.")].

Definition fallback (error : exn) : response :=
  {| status := 200;
     payload := JObj [("success", JBool true); ("data", fallbackAnalysis error)] |}.

Definition owner_repo_required : response :=
  {| status := 400; payload := JObj [("error", JStr "Owner and repo are required")] |}.

(** [callGeminiAPI(prompt)] and what follows it under the [try]. *)
Definition call (eng : engine) (upstream : outbound -> fetch_result) (o : outbound)
  : outcome response * list outbound :=
  (try_catch
     (responseText ← callGeminiAPI_reply eng (upstream o);
      analysisResult ← parse_reply eng responseText;
      Returns {| status := 200;
                 payload := JObj [("success", JBool true); ("data", analysisResult)] |})
     (fun e => Returns (fallback e)), [o]).

(** The block under [try], once [owner] and [repo] are there.  The
    prompt is built first and the key is read next, inside [callGeminiAPI];
    a missing key ends the block whatever the prompt is, also one the
    model cannot write. *)
Definition analyze_body (eng : engine) (env : gmap string string)
    (owner repo analysisData : jsval) (upstream : outbound -> fetch_result)
  : outcome response * list outbound :=
  match createSafePrompt eng owner repo analysisData with
  | Throws e => (Returns (fallback e), [])
  | prompt =>
      match getApiKey env with
      | Throws e => (Returns (fallback e), [])
      | Beyond => (Beyond, [])
      | Returns apiKey =>
          match prompt with
          | Returns text =>
              call eng upstream {| out_url := generate_url apiKey;
                                   out_body := Proxy.generate_body text |}
          | _ => (Beyond, [])
          end
      end
  end.

(** [POST /api/analyze]: the reply, and the calls made to the provider.
    The destructuring of [req.body] and the line written to the log, which
    converts [owner] and [repo], stand before the [try]: an exception
    there leaves the handler, and no reply is sent. *)
Definition analyze (eng : engine) (env : gmap string string) (body : json)
    (upstream : outbound -> fetch_result) : outcome response * list outbound :=
  match body with
  | JNull => (Throws (Exn TypeError (msg_destructure eng "owner" "null")), [])
  | _ =>
      let owner := get body "owner" in
      let repo := get body "repo" in
      let analysisData := get body "analysisData" in
      match (ToString eng owner;; ToString eng repo) with
      | Returns _ =>
          if negb (truthy_val owner) || negb (truthy_val repo)
          then (Returns owner_repo_required, [])
          else analyze_body eng env owner repo analysisData upstream
      | Throws e => (Throws e, [])
      | Beyond => (Beyond, [])
      end
  end.

End Embedded.

(** ** An engine to run examples on *)

Module Example.
Import JS.

(** The wording of Node.js.  The message of a syntax error of
    [JSON.parse] names the offending token and its place; it is cut here
    to the words every version has in common. *)
Definition node : engine :=
  {| msg_read_nullish := fun what k =>
       "Cannot read properties of " +:+ what +:+ " (reading '" +:+ k +:+ "')";
     msg_destructure := fun k what =>
       "Cannot destructure property '" +:+ k +:+ "' of 'req.body' as it is " +:+ what +:+ ".";
     msg_not_a_function := fun expr => expr +:+ " is not a function";
     msg_json_syntax := fun _ => "Unexpected token in JSON";
     msg_fetch_failed := "fetch failed";
     msg_to_primitive := "Cannot convert object to primitive value" |}.

(** A store that can be read and accepts every write. *)
Definition empty_store : App.storage :=
  {| App.items := ∅; App.readable := true; App.accepts := fun _ _ => true |}.

Definition repository : Types.RepositoryInfo :=
  {| Types.url := "https://github.com/test/repo"; Types.owner := "test";
     Types.repo := "repo"; Types.analyzedAt := "2025-01-01T00:00:00.000Z" |}.

(** Two different reports made in the same millisecond. *)
Definition first_report : Types.ProductionReport :=
  {| Types.id := "report-1735689600000";
     Types.repository := repository;
     Types.summary := JStr "Test summary";
     Types.overallStatus := JStr "ready";
     Types.domains :=
       JArr [JObj [("title", JStr "Code Quality"); ("status", JStr "ready");
                   ("description", JStr "Code quality assessment");
                   ("findings", JArr [JStr "No issues found"]);
                   ("recommendations", JArr [JStr "Keep up the good work"])]];
     Types.criticalIssues := JArr [];
     Types.recommendations := JArr [];
     Types.conclusion := JStr "Test conclusion";
     Types.createdAt := "2025-01-01T00:00:00.000Z" |}.

Definition second_report : Types.ProductionReport :=
  {| Types.id := "report-1735689600000";
     Types.repository := repository;
     Types.summary := JStr "Another summary";
     Types.overallStatus := JStr "conditional";
     Types.domains := JArr [];
     Types.criticalIssues := JArr [JStr "No tests"];
     Types.recommendations := JArr [];
     Types.conclusion := JStr "Another conclusion";
     Types.createdAt := "2025-01-01T00:00:00.000Z" |}.

(** A report made a little later. *)
Definition later_report : Types.ProductionReport :=
  {| Types.id := "report-1735689700000";
     Types.repository := repository;
     Types.summary := JStr "Later summary";
     Types.overallStatus := JStr "not-ready";
     Types.domains := JArr [];
     Types.criticalIssues := JArr [];
     Types.recommendations := JArr [JStr "Add a Dockerfile"];
     Types.conclusion := JStr "Later conclusion";
     Types.createdAt := "2025-01-01T00:01:40.000Z" |}.

End Example.

(** ** Notions used in the statements *)

Import JS Json Text.

(** The reports of a typed list that [handleDeleteReport] keeps. *)
Definition kept_reports (reportId : string) (rs : list Types.ProductionReport)
  : list Types.ProductionReport :=
  filter (fun r => Types.id r ≠ reportId) rs.

(** An application state whose list is a list of typed reports. *)
Definition holding (rs : list Types.ProductionReport) (st : App.storage)
    (current : option json) : App.app :=
  {| App.reports := {| App.value := JArr (map Types.report_json rs); App.store := st |};
     App.currentReport := current |}.



(** A reply of the proxy whose report has no arrays at all. *)
Definition report_without_arrays : json :=
  JObj [("summary", JStr "x"); ("overallStatus", JStr "ready"); ("conclusion", JStr "y")].

Definition proxy_reply (reportData : json) : fetch_result :=
  HttpResponse 200 "OK" (stringify (JObj [("success", JBool true); ("data", reportData)])).




(** A request of the client, and a server whose key is set. *)
Definition analyze_request : json :=
  JObj [("owner", JStr "test"); ("repo", JStr "repo");
        ("analysisData", JObj [("languages", JArr [JStr "javascript"])])].

(** A request whose [owner] is the object [{"toString": 1}], which has no
    conversion to a string. *)
Definition unprintable_owner_request : json :=
  JObj [("owner", JObj [("toString", JNum 1)]); ("repo", JStr "repo");
        ("analysisData", JObj [("languages", JArr [JStr "javascript"])])].

(** The same request without [analysisData]. *)
Definition bare_request : json := JObj [("owner", JStr "test"); ("repo", JStr "repo")].

Definition env_with_key : gmap string string := {[ "GEMINI_API_KEY" := "secret-key" ]}.

(** The provider answering 429 with its usual body. *)
Definition quota_exhausted (_ : Proxy.outbound) : fetch_result :=
  HttpResponse 429 "Too Many Requests"
    (stringify
       (JObj [("error",
               JObj [("code", JNum 429);
                     ("message", JStr "Resource has been exhausted (e.g. check quota).");
                     ("status", JStr "RESOURCE_EXHAUSTED")])])).

(** Neither of the two variables holds a key. *)
Definition no_key (env : gmap string string) : bool :=
  negb (Proxy.key_truthy (Proxy.GENAI_API_KEY env)).

(** What the store can answer for a key that holds no usable value: the
    read throws, the key is missing, the text is empty, or the text is
    corrupt, that is, not JSON. *)
Inductive unusable : outcome (option string) -> Prop :=
| unusable_throws (e : exn) : unusable (Throws e)
| unusable_missing : unusable (Returns None)
| unusable_empty : unusable (Returns (Some ""))
| unusable_corrupt (text : string) : parse text = Malformed -> unusable (Returns (Some text)).

(** A store that holds [text] under the key of the reports. *)
Definition store_holding (text : string) : App.storage :=
  {| App.items := {[ App.reports_key := text ]};
     App.readable := true;
     App.accepts := fun _ _ => true |}.

(** A text made of digits only. *)
Fixpoint digits_only (s : string) : bool :=
  match s with
  | EmptyString => true
  | String c rest => is_digit c && digits_only rest
  end.

(** What may follow a value inside a text written by [JSON.stringify]:
    the end, a comma or a closing bracket. *)
Definition delimited (rest : string) : bool :=
  match rest with
  | EmptyString => true
  | String c _ =>
      match c with
      | ","%char | "]"%char | "}"%char => true
      | _ => false
      end
  end.

(** The tokens of the elements of an array and of the members of an
    object, closing bracket included. *)
Definition element_tokens : list json -> list token :=
  fix elements (l : list json) : list token :=
    match l with
    | [] => [TRBrack]
    | [x] => tokens x ++ [TRBrack]
    | x :: more => tokens x ++ TComma :: elements more
    end.

Definition member_tokens : list (string * json) -> list token :=
  fix members (l : list (string * json)) : list token :=
    match l with
    | [] => [TRBrace]
    | [kv] => TStr (fst kv) :: TColon :: tokens (snd kv) ++ [TRBrace]
    | kv :: more => TStr (fst kv) :: TColon :: tokens (snd kv) ++ TComma :: members more
    end.

(** What follows an element of an array, and a member of an object. *)
Definition after_element (more : list json) : list token :=
  match more with
  | [] => [TRBrack]
  | _ => TComma :: element_tokens more
  end.

Definition after_member (more : list (string * json)) : list token :=
  match more with
  | [] => [TRBrace]
  | _ => TComma :: member_tokens more
  end.

(** The two properties proved by induction on a value. *)
Definition lexes_back (v : json) : Prop :=
  forall rest, canonical v -> delimited rest = true ->
  lex_go LStart (stringify v +:+ rest) = emit (tokens v) (lex_go LStart rest).

Definition parses_back (v : json) : Prop :=
  forall stack ts, canonical v ->
  parse_go (PValue stack) (tokens v ++ ts) = parse_go (PDone v stack) ts
  /\ parse_go (PArrayOpen stack) (tokens v ++ ts)
     = parse_go (PDone v (InArray [] :: stack)) ts.

(** A document between an opening fence that carries the language tag
    and a closing fence, with text around each of them. *)
Definition fenced (before inside doc after behind : string) : string :=
  before +:+ json_fence +:+ inside +:+ doc +:+ after +:+ fence +:+ behind.

(** The same between two bare fences. *)
Definition bare_fenced (before inside doc after behind : string) : string :=
  before +:+ fence +:+ inside +:+ doc +:+ after +:+ fence +:+ behind.

Definition line_break : string := newline.

(** A report whose summary names the opening fence. *)
Definition summary_naming_the_fence : json :=
  JObj [("summary", JStr "start the block with ```json and close it")].

(** The body of a provider's reply whose first candidate is [text]. *)
Definition candidate_reply (text : string) : json :=
  JObj [("candidates",
         JArr [JObj [("content", JObj [("parts", JArr [JObj [("text", JStr text)]])])]])].

(** Text without a brace of the given kind. *)
Fixpoint without (brace : ascii) (s : string) : bool :=
  match s with
  | EmptyString => true
  | String c rest => negb (Ascii.eqb c brace) && without brace rest
  end.

(** The provider answering 200 with [text] as its first candidate. *)
Definition answering (text : string) (_ : Proxy.outbound) : fetch_result :=
  HttpResponse 200 "OK" (stringify (candidate_reply text)).

(** A reply of the proxy whose body, if there is one, is a text the model
    follows: [JSON.parse] gives a value of the model, or throws. *)
Definition modelled (reply : fetch_result) : bool :=
  match reply with
  | NetworkFailure => true
  | HttpResponse _ _ body =>
      match parse body with
      | Unmodelled => false
      | _ => true
      end
  end.

(** A byte of white space: a blank of ASCII, or a byte of a character
    written in several bytes. *)
Definition white_byte (c : ascii) : bool := is_space c || (128 <=? N_of_ascii c)%N.

Fixpoint white_bytes (s : string) : bool :=
  match s with
  | EmptyString => true
  | String c rest => white_byte c && white_bytes rest
  end.

(** The text is empty or starts with the first byte of a character. *)
Definition at_boundary (s : string) : bool :=
  match s with
  | EmptyString => true
  | String c _ => negb (is_continuation c)
  end.

(** The no-break space U+00A0 and the line separator U+2028, in UTF-8. *)
Definition no_break_space : string := String "194" (String "160" "").
Definition line_separator : string := String "226" (String "128" (String "168" "")).

(** ** The GitHub address: [parseGitHubUrl], [isValidGitHubUrl] *)

Module Github.
Import JS Json Text.

(** *** The two patterns *)

(** [[^\/]+] read at the start of [s]: the characters before the first
    slash, and what follows them.  The repetition is greedy, and giving
    characters back never helps: what must follow it is a slash or the
    end of the text. *)
Fixpoint until_slash (s : string) : string * string :=
  match s with
  | EmptyString => ("", "")
  | String c rest =>
      if Ascii.eqb c "/" then ("", s)
      else let '(segment, more) := until_slash rest in (String c segment, more)
  end.

Definition host : string := "github.com/".

(** [/github\.com\/([^\/]+)\/([^\/]+)/] tried at the start of [s]. *)
Definition match_here (s : string) : option (string * string) :=
  if String.prefix host s then
    let '(owner, rest) := until_slash (drop (String.length host) s) in
    match owner, rest with
    | String _ _, String _ after =>
        let '(repo, _) := until_slash after in
        match repo with
        | String _ _ => Some (owner, repo)
        | EmptyString => None
        end
    | _, _ => None
    end
  else None.

(** The same pattern tried at every place from left to right. *)
Fixpoint match_github (s : string) : option (string * string) :=
  match match_here s with
  | Some groups => Some groups
  | None =>
      match s with
      | EmptyString => None
      | String _ rest => match_github rest
      end
  end.

(** [/^([^\/]+)\/([^\/]+)$/] *)
Definition match_short (s : string) : option (string * string) :=
  let '(owner, rest) := until_slash s in
  match owner, rest with
  | String _ _, String _ after =>
      let '(repo, tail) := until_slash after in
      match repo, tail with
      | String _ _, EmptyString => Some (owner, repo)
      | _, _ => None
      end
  | _, _ => None
  end.

(** [repo.replace(/\.git$/, '')] *)
Fixpoint strip_git (s : string) : string :=
  match s with
  | EmptyString => ""
  | String c rest => if String.eqb s ".git" then "" else String c (strip_git rest)
  end.

Record repo_ref : Type := { owner : string; repo : string }.

(** The body of the loop for one pattern that matched. *)
Definition accept (groups : option (string * string)) : option repo_ref :=
  match groups with
  | Some (owner, repo) =>
      let repo := strip_git repo in
      if negb (String.eqb owner "") && negb (String.eqb repo "")
      then Some {| owner := owner; repo := repo |}
      else None
  | None => None
  end.

(** [parseGitHubUrl]; [None] is [null].  Nothing in the [try] block
    throws for a string. *)
Definition parseGitHubUrl (url : string) : option repo_ref :=
  let cleanUrl := trim url in
  match accept (match_github cleanUrl) with
  | Some found => Some found
  | None => accept (match_short cleanUrl)
  end.

Definition isValidGitHubUrl (url : string) : bool :=
  match parseGitHubUrl url with
  | Some _ => true
  | None => false
  end.

End Github.

(** ** The form: [AnalysisForm] *)

Module Form.
Import JS.

Definition url_required : string :=
  "الرجاء إدخال رابط المستودع".
Definition url_invalid : string :=
  "رابط GitHub غير صحيح. الرجاء إدخال رابط صحيح مثل: https://github.com/owner/repo".

(** What [handleSubmit] does with the text of the field: it shows an
    error, or calls [onSubmit]. *)
Inductive submission : Type :=
| Refused (error : string)
| Submitted (url : string).

Definition handleSubmit (url : string) : submission :=
  if String.eqb (Text.trim url) "" then Refused url_required
  else if negb (Github.isValidGitHubUrl url) then Refused url_invalid
  else Submitted (Text.trim url).

End Form.

(** ** The GitHub API: [fetchRepositoryInfo], [fetchRepositoryContents] *)

Module GithubApi.
Import JS Json.

(** A request: its address and its headers. *)
Record request : Type := { req_url : string; req_headers : list (string * string) }.

(** [getGithubHeaders]; [token] is [import.meta.env.VITE_GITHUB_TOKEN]. *)
Definition getGithubHeaders (token : option string) : list (string * string) :=
  ("Accept", "application/vnd.github.v3+json")
  :: match token with
     | Some t => if String.eqb t "" then [] else [("Authorization", "token " +:+ t)]
     | None => []
     end.

Definition repos : string := "https://api.github.com/repos/".

Definition not_found : string :=
  "المستودع غير موجود أو خاص".
Definition rate_limited : string :=
  "تم تجاوز حد الطلبات لـ GitHub API. يرجى الانتظار أو إضافة VITE_GITHUB_TOKEN".
Definition no_access : string :=
  "فشل في الوصول إلى المستودع: ".

Section Fetch.

(** The engine's wording, the token of the build, and what [fetch]
    gives for a request. *)
Variable eng : engine.
Variable token : option string.
Variable github : request -> fetch_result.

(** [fetchRepositoryInfo]: every error is logged and thrown again. *)
Definition fetchRepositoryInfo (owner repo : string) : outcome json :=
  match github {| req_url := repos +:+ owner +:+ "/" +:+ repo;
                  req_headers := getGithubHeaders token |} with
  | NetworkFailure => Throws (Exn TypeError (msg_fetch_failed eng))
  | HttpResponse status statusText body =>
      if negb (ok status) then
        if status =? 404 then Throws (Exn PlainError not_found)
        else if status =? 403 then Throws (Exn PlainError rate_limited)
        else Throws (Exn PlainError (no_access +:+ statusText))
      else JSON_parse eng body
  end.

(** [fetchRepositoryContents]: [null] for every failure. *)
Definition fetchRepositoryContents (owner repo path : string) : outcome json :=
  match github {| req_url := repos +:+ owner +:+ "/" +:+ repo +:+ "/contents/" +:+ path;
                  req_headers := getGithubHeaders token |} with
  | NetworkFailure => Returns JNull
  | HttpResponse status _ body =>
      if negb (ok status) then Returns JNull
      else try_catch (JSON_parse eng body) (fun _ => Returns JNull)
  end.

End Fetch.

End GithubApi.

(** ** The analysis of the repository: [analyzeRepository] *)

Module Analysis.
Import JS Json.

(** [RepoAnalysisData] as the function builds it.  The three optional
    contents are kept in the order they were first assigned in, which is
    the order [JSON.stringify] writes them in; [fileStructure] holds
    what [item.name] gave, [undefined] included. *)
Record RepoAnalysisData : Type := {
  hasPackageJson : bool;
  hasRequirementsTxt : bool;
  hasPyprojectToml : bool;
  hasDockerfile : bool;
  hasTests : bool;
  hasCI : bool;
  hasReadme : bool;
  hasGitignore : bool;
  languages : list json;
  fileStructure : list jsval;
  contents : list (string * json)
}.

(** The object literal the function starts from. *)
Definition initial : RepoAnalysisData :=
  {| hasPackageJson := false; hasRequirementsTxt := false; hasPyprojectToml := false;
     hasDockerfile := false; hasTests := false; hasCI := false; hasReadme := false;
     hasGitignore := false; languages := []; fileStructure := []; contents := [] |}.

(** The object [data] is, for [JSON.stringify]: an [undefined] element
    of an array is written [null]. *)
Definition analysisData_json (data : RepoAnalysisData) : json :=
  JObj ([("hasPackageJson", JBool (hasPackageJson data));
         ("hasRequirementsTxt", JBool (hasRequirementsTxt data));
         ("hasPyprojectToml", JBool (hasPyprojectToml data));
         ("hasDockerfile", JBool (hasDockerfile data));
         ("hasTests", JBool (hasTests data));
         ("hasCI", JBool (hasCI data));
         ("hasReadme", JBool (hasReadme data));
         ("hasGitignore", JBool (hasGitignore data));
         ("languages", JArr (languages data));
         ("fileStructure", JArr (map (fun name => default JNull name) (fileStructure data)))]
        ++ contents data).

(** *** The block under [try]: code that changes [data] and may throw *)

(** A computation on [data]: the new [data], and a value or an
    exception.  What was done to [data] before an exception stays. *)
Definition run (A : Type) : Type := RepoAnalysisData -> RepoAnalysisData * outcome A.

Definition unit_run {A : Type} (a : A) : run A := fun data => (data, Returns a).

Definition bind_run {A B : Type} (m : run A) (k : A -> run B) : run B := fun data =>
  match m data with
  | (data', Returns a) => k a data'
  | (data', Throws e) => (data', Throws e)
  | (data', Beyond) => (data', Beyond)
  end.

(** An awaited call, a read: they do not touch [data]. *)
Definition lift {A : Type} (m : outcome A) : run A := fun data => (data, m).

Definition update (f : RepoAnalysisData -> RepoAnalysisData) : run unit :=
  fun data => (f data, Returns tt).

Definition when (b : bool) (m : run unit) : run unit := if b then m else unit_run tt.

Notation "x <~ m ; k" := (bind_run m (fun x => k))
  (at level 100, m at next level, right associativity).
Notation "m ;; k" := (bind_run m (fun _ => k))
  (at level 100, right associativity).

(** The assignments. *)
Definition set_hasPackageJson (d : RepoAnalysisData) : RepoAnalysisData :=
  {| hasPackageJson := true; hasRequirementsTxt := hasRequirementsTxt d;
     hasPyprojectToml := hasPyprojectToml d; hasDockerfile := hasDockerfile d;
     hasTests := hasTests d; hasCI := hasCI d; hasReadme := hasReadme d;
     hasGitignore := hasGitignore d; languages := languages d;
     fileStructure := fileStructure d; contents := contents d |}.
Definition set_hasRequirementsTxt (d : RepoAnalysisData) : RepoAnalysisData :=
  {| hasPackageJson := hasPackageJson d; hasRequirementsTxt := true;
     hasPyprojectToml := hasPyprojectToml d; hasDockerfile := hasDockerfile d;
     hasTests := hasTests d; hasCI := hasCI d; hasReadme := hasReadme d;
     hasGitignore := hasGitignore d; languages := languages d;
     fileStructure := fileStructure d; contents := contents d |}.
Definition set_hasPyprojectToml (d : RepoAnalysisData) : RepoAnalysisData :=
  {| hasPackageJson := hasPackageJson d; hasRequirementsTxt := hasRequirementsTxt d;
     hasPyprojectToml := true; hasDockerfile := hasDockerfile d;
     hasTests := hasTests d; hasCI := hasCI d; hasReadme := hasReadme d;
     hasGitignore := hasGitignore d; languages := languages d;
     fileStructure := fileStructure d; contents := contents d |}.
Definition set_hasDockerfile (d : RepoAnalysisData) : RepoAnalysisData :=
  {| hasPackageJson := hasPackageJson d; hasRequirementsTxt := hasRequirementsTxt d;
     hasPyprojectToml := hasPyprojectToml d; hasDockerfile := true;
     hasTests := hasTests d; hasCI := hasCI d; hasReadme := hasReadme d;
     hasGitignore := hasGitignore d; languages := languages d;
     fileStructure := fileStructure d; contents := contents d |}.
Definition set_hasTests (d : RepoAnalysisData) : RepoAnalysisData :=
  {| hasPackageJson := hasPackageJson d; hasRequirementsTxt := hasRequirementsTxt d;
     hasPyprojectToml := hasPyprojectToml d; hasDockerfile := hasDockerfile d;
     hasTests := true; hasCI := hasCI d; hasReadme := hasReadme d;
     hasGitignore := hasGitignore d; languages := languages d;
     fileStructure := fileStructure d; contents := contents d |}.
Definition set_hasCI (d : RepoAnalysisData) : RepoAnalysisData :=
  {| hasPackageJson := hasPackageJson d; hasRequirementsTxt := hasRequirementsTxt d;
     hasPyprojectToml := hasPyprojectToml d; hasDockerfile := hasDockerfile d;
     hasTests := hasTests d; hasCI := true; hasReadme := hasReadme d;
     hasGitignore := hasGitignore d; languages := languages d;
     fileStructure := fileStructure d; contents := contents d |}.
Definition set_hasReadme (d : RepoAnalysisData) : RepoAnalysisData :=
  {| hasPackageJson := hasPackageJson d; hasRequirementsTxt := hasRequirementsTxt d;
     hasPyprojectToml := hasPyprojectToml d; hasDockerfile := hasDockerfile d;
     hasTests := hasTests d; hasCI := hasCI d; hasReadme := true;
     hasGitignore := hasGitignore d; languages := languages d;
     fileStructure := fileStructure d; contents := contents d |}.
Definition set_hasGitignore (d : RepoAnalysisData) : RepoAnalysisData :=
  {| hasPackageJson := hasPackageJson d; hasRequirementsTxt := hasRequirementsTxt d;
     hasPyprojectToml := hasPyprojectToml d; hasDockerfile := hasDockerfile d;
     hasTests := hasTests d; hasCI := hasCI d; hasReadme := hasReadme d;
     hasGitignore := true; languages := languages d;
     fileStructure := fileStructure d; contents := contents d |}.
Definition push_language (language : json) (d : RepoAnalysisData) : RepoAnalysisData :=
  {| hasPackageJson := hasPackageJson d; hasRequirementsTxt := hasRequirementsTxt d;
     hasPyprojectToml := hasPyprojectToml d; hasDockerfile := hasDockerfile d;
     hasTests := hasTests d; hasCI := hasCI d; hasReadme := hasReadme d;
     hasGitignore := hasGitignore d; languages := languages d ++ [language];
     fileStructure := fileStructure d; contents := contents d |}.
Definition push_file (name : jsval) (d : RepoAnalysisData) : RepoAnalysisData :=
  {| hasPackageJson := hasPackageJson d; hasRequirementsTxt := hasRequirementsTxt d;
     hasPyprojectToml := hasPyprojectToml d; hasDockerfile := hasDockerfile d;
     hasTests := hasTests d; hasCI := hasCI d; hasReadme := hasReadme d;
     hasGitignore := hasGitignore d; languages := languages d;
     fileStructure := fileStructure d ++ [name]; contents := contents d |}.
Definition set_content (key content : string) (d : RepoAnalysisData) : RepoAnalysisData :=
  {| hasPackageJson := hasPackageJson d; hasRequirementsTxt := hasRequirementsTxt d;
     hasPyprojectToml := hasPyprojectToml d; hasDockerfile := hasDockerfile d;
     hasTests := hasTests d; hasCI := hasCI d; hasReadme := hasReadme d;
     hasGitignore := hasGitignore d; languages := languages d;
     fileStructure := fileStructure d;
     contents := set_field key (JStr content) (contents d) |}.

(** [name.toLowerCase()] on the bytes of the text.  Only the letters A
    to Z are changed: a character outside ASCII has no ASCII letter of
    ["readme"] in its lower case form, so the test that follows gives
    what it gives on the real string. *)
Definition lower (c : ascii) : ascii :=
  let n := N_of_ascii c in
  if ((65 <=? n) && (n <=? 90))%N then ascii_of_N (n + 32) else c.

Fixpoint toLowerCase (s : string) : string :=
  match s with
  | EmptyString => ""
  | String c rest => String (lower c) (toLowerCase rest)
  end.

(** [item.name.toLowerCase()] *)
Definition name_toLowerCase (eng : engine) (name : jsval) : outcome string :=
  match name with
  | None => Throws (Exn TypeError (msg_read_nullish eng "undefined" "toLowerCase"))
  | Some JNull => Throws (Exn TypeError (msg_read_nullish eng "null" "toLowerCase"))
  | Some (JStr s) => Returns (toLowerCase s)
  | Some _ => Throws (Exn TypeError (msg_not_a_function eng "item.name.toLowerCase"))
  end.

Section Analyze.

Variable eng : engine.

(** What the three awaited calls give: [fetchRepositoryInfo(owner, repo)],
    [fetchRepositoryContents(owner, repo)], and
    [fetchFileContent(owner, repo, path)] for each path ([None] is
    [null]; the function catches every exception of its own). *)
Variable info : outcome json.
Variable listing : outcome json.
Variable file : string -> outcome (option string).

(** [const content = await fetchFileContent(...); if (content) data.key = content] *)
Definition keep_content (key path : string) : run unit :=
  content <~ lift (file path);
  match content with
  | Some text => when (negb (String.eqb text "")) (update (set_content key text))
  | None => unit_run tt
  end.

(** The body of the loop. *)
Definition visit (item : json) : run unit :=
  name <~ lift (read eng (Some item) "name");
  update (push_file name);;
  when (strict_eq_string name "package.json")
    (update set_hasPackageJson;; keep_content "packageJsonContent" "package.json");;
  when (strict_eq_string name "requirements.txt")
    (update set_hasRequirementsTxt;;
     keep_content "requirementsContent" "requirements.txt");;
  when (strict_eq_string name "pyproject.toml") (update set_hasPyprojectToml);;
  when (strict_eq_string name "Dockerfile") (update set_hasDockerfile);;
  lowered <~ lift (name_toLowerCase eng name);
  when (includes "readme" lowered)
    (update set_hasReadme;; keep_content "readmeContent" (to_string_val name));;
  when (strict_eq_string name ".gitignore") (update set_hasGitignore);;
  when (strict_eq_string (get item "type") "dir"
        && (strict_eq_string name "test" || strict_eq_string name "tests"
            || strict_eq_string name "__tests__"))
    (update set_hasTests);;
  when (strict_eq_string (get item "type") "dir" && strict_eq_string name ".github")
    (update set_hasCI).

Fixpoint visit_all (items : list json) : run unit :=
  match items with
  | [] => unit_run tt
  | item :: rest => visit item;; visit_all rest
  end.

(** The block under [try]. *)
Definition scan : run unit :=
  repoInfo <~ lift info;
  language <~ lift (read eng (Some repoInfo) "language");
  when (truthy_val language)
    (update (push_language (default JNull language)));;
  contents <~ lift listing;
  match contents with
  | JArr items => visit_all items
  | _ => unit_run tt
  end.

(** [analyzeRepository]: an exception is logged, and [data] is returned
    as it stands. *)
Definition analyzeRepository : outcome RepoAnalysisData :=
  match scan initial with
  | (data, Beyond) => Beyond
  | (data, _) => Returns data
  end.

End Analyze.

End Analysis.

(** ** The client from end to end *)

Module Client.
Import JS Json.

(** The body [callProxyAnalysis] posts:
    [JSON.stringify({ owner, repo, analysisData })]. *)
Definition request (owner repo : string) (analysisData : Analysis.RepoAnalysisData) : json :=
  JObj [("owner", JStr owner); ("repo", JStr repo);
        ("analysisData", Analysis.analysisData_json analysisData)].

Definition request_body (owner repo : string) (analysisData : Analysis.RepoAnalysisData)
  : string :=
  stringify (request owner repo analysisData).

Section Generate.

(** The engine's wording, the token of the build, what GitHub answers to
    a request, what [fetchFileContent] gives for a path, and what the
    proxy answers to a body posted to [/api/analyze]. *)
Variable eng : engine.
Variable token : option string.
Variable github : GithubApi.request -> fetch_result.
Variable file : string -> outcome (option string).
Variable proxy : string -> fetch_result.

(** [analyzeRepository(owner, repo)] with its two calls to GitHub. *)
Definition analyzeRepository (owner repo : string) : outcome Analysis.RepoAnalysisData :=
  Analysis.analyzeRepository eng
    (GithubApi.fetchRepositoryInfo eng token github owner repo)
    (GithubApi.fetchRepositoryContents eng token github owner repo "")
    file.

(** [generateProductionReport(owner, repo, url)]; [analyzedAt] is
    [new Date().toISOString()] at its start, [now] the reading of
    [Date.now()] when the report is built. *)
Definition generateProductionReport (owner repo url analyzedAt : string) (now : Z)
  : outcome Types.ProductionReport :=
  analysisData ← analyzeRepository owner repo;
  Analyzer.generateProductionReport eng owner repo url analyzedAt now
    (proxy (request_body owner repo analysisData)).

End Generate.

End Client.

(** ** The handlers of [App], from the text of the form on *)

Module Handlers.
Import JS Json.

Definition invalid_link : string :=
  "رابط غير صحيح".

(** The state of [App] between two events: the list and the report on
    view, and the error shown. *)
Record state : Type := {
  app : App.app;
  error : option string
}.

Section Handle.

Variable eng : engine.
Variable token : option string.
Variable github : GithubApi.request -> fetch_result.
Variable file : string -> outcome (option string).
Variable proxy : string -> fetch_result.

(** [handleAnalyze(url)].  [setCurrentReport] comes before [setReports]:
    when the updater of the list throws, the report is on view and the
    message of the exception is shown. *)
Definition handleAnalyze (url analyzedAt : string) (now : Z) (st : state) : outcome state :=
  match Github.parseGitHubUrl url with
  | None => Returns {| app := app st; error := Some invalid_link |}
  | Some parsed =>
      match Client.generateProductionReport eng token github file proxy
              (Github.owner parsed) (Github.repo parsed) url analyzedAt now with
      | Returns report =>
          match App.setStoredValue App.reports_key
                  (App.prepend_report eng (Types.report_json report))
                  (App.reports (app st)) with
          | Returns updated =>
              Returns {| app := {| App.reports := updated;
                                   App.currentReport := Some (Types.report_json report) |};
                         error := None |}
          | Throws e =>
              Returns {| app := {| App.reports := App.reports (app st);
                                   App.currentReport := Some (Types.report_json report) |};
                         error := Some (message e) |}
          | Beyond => Beyond
          end
      | Throws e => Returns {| app := app st; error := Some (message e) |}
      | Beyond => Beyond
      end
  end.

End Handle.

(** [handleSelectReport] *)
Definition handleSelectReport (report : json) (st : state) : state :=
  {| app := {| App.reports := App.reports (app st); App.currentReport := Some report |};
     error := None |}.

(** [handleNewAnalysis] *)
Definition handleNewAnalysis (st : state) : state :=
  {| app := {| App.reports := App.reports (app st); App.currentReport := None |};
     error := None |}.

(** [handleDeleteReport] leaves the error as it is. *)
Definition handleDeleteReport (eng : engine) (reportId : string) (st : state)
  : outcome state :=
  a ← App.handleDeleteReport eng reportId (app st);
  Returns {| app := a; error := error st |}.

End Handlers.

(** ** The incident endpoints of the proxy servers *)

Module Incident.
Import JS Json Text Proxy.

Definition debug_data_required : response :=
  {| status := 400; payload := JObj [("error", JStr "Debug data is required")] |}.

Definition owner_repository_required : response :=
  {| status := 400; payload := JObj [("error", JStr "Owner and repository are required")] |}.

Definition not_available_reply : response :=
  {| status := 500;
     payload := JObj [("error",
       JStr "Configuration error: Analysis service is not available.")] |}.

(** [process.env.NODE_ENV === 'development'] *)
Definition development (env : gmap string string) : bool :=
  match env !! "NODE_ENV" with
  | Some mode => String.eqb mode "development"
  | None => false
  end.

Definition meta (startTime endTime : Z) (timestamp : string) : json :=
  JObj [("duration", JStr (duration_text startTime endTime));
        ("timestamp", JStr timestamp)].

(** The [catch] block of both endpoints; [res.json] leaves a field out
    whose value is [undefined]. *)
Definition failure (env : gmap string string) (startTime endTime : Z) (timestamp : string)
    (error : exn) : response :=
  {| status := 500;
     payload :=
       JObj ([("error", JStr (if String.eqb (message error) "" then "Internal server error"
                             else message error))]
             ++ (if development env then [("details", JStr (message error))] else [])
             ++ [("meta", meta startTime endTime timestamp)]) |}.

(** What stands for the analysis when the text is not JSON. *)
Definition packaged (responseText : json) : json :=
  JObj [("rawResponse", responseText); ("error", JStr "Failed to parse JSON response")].

Definition success (startTime endTime : Z) (timestamp : string) (analysisResult : json)
  : response :=
  {| status := 200;
     payload := JObj [("success", JBool true);
                      ("data", analysisResult);
                      ("meta", meta startTime endTime timestamp)] |}.

(** Both endpoints from the provider's reply on. *)
Definition complete (eng : engine) (startTime endTime : Z) (timestamp : string)
    (reply : fetch_result) : outcome response :=
  match reply with
  | NetworkFailure => Throws (Exn TypeError (msg_fetch_failed eng))
  | HttpResponse code _ body =>
      if negb (ok code) then
        errorData ← try_catch (JSON_parse eng body) (fun _ => Returns (JObj []));
        Throws (Exn PlainError
                  ("Gemini API error: " +:+ decimal code +:+ " " +:+ stringify errorData))
      else
        data ← JSON_parse eng body;
        text ← candidate_text eng data;
        let responseText := or_else text (JStr "{}") in
        match responseText with
        | JStr cleanText0 =>
            analysisResult ← try_catch (JSON_parse eng (cleanText cleanText0))
                               (fun _ => Returns (packaged responseText));
            Returns (success startTime endTime timestamp analysisResult)
        | _ => Throws (Exn TypeError (msg_not_a_function eng "cleanText.replace"))
        end
  end.

(** The call and the rest of a handler whose prompt is built. *)
Definition send (eng : engine) (env : gmap string string)
    (upstream : outbound -> fetch_result) (startTime endTime : Z) (timestamp : string)
    (prompt : outcome string) : outcome response * list outbound :=
  match prompt with
  | Returns text =>
      let o := {| out_url := generate_url (GENAI_API_KEY env);
                  out_body := generate_body text |} in
      (try_catch (complete eng startTime endTime timestamp (upstream o))
         (fun e => Returns (failure env startTime endTime timestamp e)), [o])
  | Throws e => (Returns (failure env startTime endTime timestamp e), [])
  | Beyond => (Beyond, [])
  end.

(** *** [POST /api/incident-analyze] of the second server *)

(** The line written to the log before the prompt is built converts
    [owner] and [repo]. *)

Definition incident_analyze (eng : engine) (env : gmap string string) (body : json)
    (upstream : outbound -> fetch_result) (startTime endTime : Z) (timestamp : string)
  : outcome response * list outbound :=
  match body with
  | JNull =>
      (Returns (failure env startTime endTime timestamp
                  (Exn TypeError (msg_destructure eng "owner" "null"))), [])
  | _ =>
      let owner := get body "owner" in
      let repo := get body "repo" in
      let analysisData := get body "analysisData" in
      if negb (truthy_val owner) || negb (truthy_val repo)
      then (Returns owner_repository_required, [])
      else send eng env upstream startTime endTime timestamp
             (ToString eng owner;; ToString eng repo;;
              Part001.buildAnalysisPrompt eng owner repo analysisData)
  end.

(** *** [POST /api/analyze-incident] of the first server *)

Definition text_0 : string :=
  "Ø£Ù†Øª Ø®Ø¨ÙŠØ± ÙÙŠ Ù…ÙˆØ«ÙˆÙ‚ÙŠØ© Ø§Ù„Ù…ÙˆØ§Ù‚Ø¹ (Senior SRE) ÙˆÙ…ØªØ®ØµØµ ÙÙŠ ØªØ´Ø®ÙŠØµ Ø§Ù„Ø£Ø¹Ø·Ø§Ù„ Ø§Ù„Ø¨Ø±Ù…Ø¬ÙŠØ© Ø§Ù„Ù…Ø¹Ù‚Ø¯Ø© (Deep Debugging Specialist). Ù…Ù‡Ù…ØªÙƒ Ù‡ÙŠ ØªØ­Ù„ÙŠÙ„ Ø§Ù„Ø®Ø·Ø£ Ø§Ù„Ù…Ù‚Ø¯Ù…ØŒ ØªØ·Ø¨ÙŠÙ‚ Ù…Ù†Ù‡Ø¬ÙŠØ© " +:+ dq +:+ "ØªØ­Ù„ÙŠÙ„ Ø§Ù„Ø³Ø¨Ø¨ Ø§Ù„Ø¬Ø°Ø±ÙŠ" +:+ dq +:+ " (Root Cause Analysis - RCA)ØŒ ÙˆØªÙ‚Ø¯ÙŠÙ… Ø­Ù„ Ù†Ù‡Ø§Ø¦ÙŠ ÙŠÙ…Ù†Ø¹ ØªÙƒØ±Ø§Ø± Ø§Ù„Ù…Ø´ÙƒÙ„Ø©ØŒ ÙˆÙ„ÙŠØ³ Ù…Ø¬Ø±Ø¯ " +:+ dq +:+ "Ø±Ù‚Ø¹Ø©" +:+ dq +:+ " (Hotfix) Ù…Ø¤Ù‚ØªØ©.

â•â•â•â•â•â•â•â•â•â•â•â•â•â•â•â•â•â•â•â•â•â•â•â•â•â•â•â•â•â•â•â•â•â•â•â•â•â•â•â•â•â•â•â•â•â•â•â•â•â•â•â•â•â•â•â•â•â•â•â•â•â•â•â•â•â•â•â•â•â•â•â•â•â•â•â•â•â•â•â•
ðŸš¨ Ø¨ÙŠØ§Ù†Ø§Øª Ø§Ù„Ø­Ø§Ø¯Ø« / Ø§Ù„Ø¹Ø·Ù„
â•â•â•â•â•â•â•â•â•â•â•â•â•â•â•â•â•â•â•â•â•â•â•â•â•â•â•â•â•â•â•â•â•â•â•â•â•â•â•â•â•â•â•â•â•â•â•â•â•â•â•â•â•â•â•â•â•â•â•â•â•â•â•â•â•â•â•â•â•â•â•â•â•â•â•â•â•â•â•â•

ØªÙØ§ØµÙŠÙ„ Ø§Ù„Ù…Ø´ÙƒÙ„Ø©:
- Ø±Ø³Ø§Ù„Ø© Ø§Ù„Ø®Ø·Ø£ (Error Log): ".
Definition text_1 : string :=
  "
- Ø³Ù„ÙˆÙƒ ØºÙŠØ± Ù…ØªÙˆÙ‚Ø¹: ".
Definition text_2 : string :=
  "
- Ø§Ù„Ø¨ÙŠØ¦Ø© (OS/Env): ".
Definition text_3 : string :=
  "

".
Definition text_4 : string :=
  "

".
Definition text_5 : string :=
  "

â•â•â•â•â•â•â•â•â•â•â•â•â•â•â•â•â•â•â•â•â•â•â•â•â•â•â•â•â•â•â•â•â•â•â•â•â•â•â•â•â•â•â•â•â•â•â•â•â•â•â•â•â•â•â•â•â•â•â•â•â•â•â•â•â•â•â•â•â•â•â•â•â•â•â•â•â•â•â•â•
ðŸ•µï¸ Ù…Ù†Ù‡Ø¬ÙŠØ© Ø§Ù„ØªØ­Ù‚ÙŠÙ‚ ÙˆØ§Ù„ØªØ´Ø®ÙŠØµ
â•â•â•â•â•â•â•â•â•â•â•â•â•â•â•â•â•â•â•â•â•â•â•â•â•â•â•â•â•â•â•â•â•â•â•â•â•â•â•â•â•â•â•â•â•â•â•â•â•â•â•â•â•â•â•â•â•â•â•â•â•â•â•â•â•â•â•â•â•â•â•â•â•â•â•â•â•â•â•â•

Ù‚Ù… Ø¨ØªØ­Ù„ÙŠÙ„ Ø§Ù„Ù…Ø´ÙƒÙ„Ø© Ø¹Ø¨Ø± Ø§Ù„Ù…Ø±Ø§Ø­Ù„ Ø§Ù„ØªØ´Ø®ÙŠØµÙŠØ© Ø§Ù„ØªØ§Ù„ÙŠØ©:

1ï¸âƒ£ **ØªØ­Ù„ÙŠÙ„ Ø§Ù„Ø£Ø«Ø± (Trace Analysis)**
   â€¢ ØªØªØ¨Ø¹ Ù…Ø³Ø§Ø± Ø§Ù„ØªÙ†ÙÙŠØ° Ø¨Ø¯Ù‚Ø© Ù…Ù† Ø§Ù„Ù€ Stack Trace.
   â€¢ ØªØ­Ø¯ÙŠØ¯ Ù†Ù‚Ø·Ø© Ø§Ù„Ø§Ù†Ù‡ÙŠØ§Ø± Ø¨Ø§Ù„Ø¶Ø¨Ø· (The exact point of failure).
   â€¢ Ù‡Ù„ Ø§Ù„Ø®Ø·Ø£ ÙÙŠ Ø§Ù„ÙƒÙˆØ¯ Ø§Ù„Ø®Ø§Øµ Ø¨Ù†Ø§ Ø£Ù… ÙÙŠ Ù…ÙƒØªØ¨Ø© Ø®Ø§Ø±Ø¬ÙŠØ©ØŸ

2ï¸âƒ£ **ÙØ­Øµ Ø§Ù„Ø­Ø§Ù„Ø© ÙˆØ§Ù„Ø¨ÙŠØ§Ù†Ø§Øª (State & Data Inspection)**
   â€¢ Ù…Ø§ Ù‡ÙŠ Ù‚ÙŠÙ… Ø§Ù„Ù…ØªØºÙŠØ±Ø§Øª Ù„Ø­Ø¸Ø© Ø­Ø¯ÙˆØ« Ø§Ù„Ø®Ø·Ø£ØŸ
   â€¢ Ù‡Ù„ Ù‡Ù†Ø§Ùƒ Ø¨ÙŠØ§Ù†Ø§Øª ØªØ§Ù„ÙØ© (Corrupted Data) Ø£Ùˆ Null PointerØŸ
   â€¢ Ù‡Ù„ Ù†ÙˆØ¹ Ø§Ù„Ø¨ÙŠØ§Ù†Ø§Øª ØºÙŠØ± Ù…ØªÙˆÙ‚Ø¹ (Type Mismatch)ØŸ

3ï¸âƒ£ **Ø§Ù„Ù…Ù†Ø·Ù‚ ÙˆØ§Ù„ØªØ¯ÙÙ‚ (Logic & Flow)**
   â€¢ Ù‡Ù„ Ù‡Ù†Ø§Ùƒ Ø®Ø·Ø£ ÙÙŠ Ø§Ù„Ø®ÙˆØ§Ø±Ø²Ù…ÙŠØ© (Infinite Loop, Off-by-one)ØŸ
   â€¢ Ù‡Ù„ Ù‡Ù†Ø§Ùƒ Ø´Ø±Ø· Ù…Ù†Ø·Ù‚ÙŠ ØºÙŠØ± Ù…ØºØ·Ù‰ (Unhandled Edge Case)ØŸ
   â€¢ Ù‡Ù„ Ù‡Ù†Ø§Ùƒ Ù…Ø´ÙƒÙ„Ø© ÙÙŠ Ø§Ù„ØªØ­ÙƒÙ… ÙÙŠ Ø§Ù„ØªØ¯ÙÙ‚ (Control Flow)ØŸ

4ï¸âƒ£ **Ø§Ù„ØªØ²Ø§Ù…Ù† ÙˆØ§Ù„ÙˆÙ‚Øª (Concurrency & Timing)**
   â€¢ Ù‡Ù„ Ø§Ù„Ù…Ø´ÙƒÙ„Ø© Race ConditionØŸ
   â€¢ Ù‡Ù„ Ù‡Ù†Ø§Ùƒ Deadlock Ø£Ùˆ TimeoutØŸ
   â€¢ Ù‡Ù„ ÙŠØ¹ØªÙ…Ø¯ Ø§Ù„ÙƒÙˆØ¯ Ø¹Ù„Ù‰ ØªØ±ØªÙŠØ¨ ØºÙŠØ± Ù…Ø¶Ù…ÙˆÙ† Ù„Ù„Ø¹Ù…Ù„ÙŠØ§ØªØŸ

5ï¸âƒ£ **Ø§Ù„Ø¨ÙŠØ¦Ø© ÙˆØ§Ù„ØªØ¨Ø¹ÙŠØ© (Environment & Dependencies)**
   â€¢ Ù‡Ù„ Ø§Ù„Ù…Ø´ÙƒÙ„Ø© Ù…Ø±ØªØ¨Ø·Ø© Ø¨Ø¥ØµØ¯Ø§Ø± Ù…Ø¹ÙŠÙ† Ù…Ù† Ù…ÙƒØªØ¨Ø© (Dependency Hell)ØŸ
   â€¢ Ù‡Ù„ Ù‡Ù†Ø§Ùƒ Ø§Ø®ØªÙ„Ø§Ù Ø¨ÙŠÙ† Ø¨ÙŠØ¦Ø© Ø§Ù„ØªØ·ÙˆÙŠØ± ÙˆØ§Ù„Ø¥Ù†ØªØ§Ø¬ (Config Drift)ØŸ
   â€¢ Ù…Ø´Ø§ÙƒÙ„ ÙÙŠ Ø§Ù„Ø´Ø¨ÙƒØ© Ø£Ùˆ Ø§Ù„Ø§ØªØµØ§Ù„ Ø¨Ù‚ÙˆØ§Ø¹Ø¯ Ø§Ù„Ø¨ÙŠØ§Ù†Ø§Øª.

â•â•â•â•â•â•â•â•â•â•â•â•â•â•â•â•â•â•â•â•â•â•â•â•â•â•â•â•â•â•â•â•â•â•â•â•â•â•â•â•â•â•â•â•â•â•â•â•â•â•â•â•â•â•â•â•â•â•â•â•â•â•â•â•â•â•â•â•â•â•â•â•â•â•â•â•â•â•â•â•
ðŸ§  ØªÙ‚Ù†ÙŠØ© " +:+ dq +:+ "Ø§Ù„Ø®Ù…Ø³Ø© Ù„Ù…Ø§Ø°Ø§" +:+ dq +:+ " (The 5 Whys)
â•â•â•â•â•â•â•â•â•â•â•â•â•â•â•â•â•â•â•â•â•â•â•â•â•â•â•â•â•â•â•â•â•â•â•â•â•â•â•â•â•â•â•â•â•â•â•â•â•â•â•â•â•â•â•â•â•â•â•â•â•â•â•â•â•â•â•â•â•â•â•â•â•â•â•â•â•â•â•â•
Ù„Ø§ ØªØªÙˆÙ‚Ù Ø¹Ù†Ø¯ Ø§Ù„Ø³Ø¨Ø¨ Ø§Ù„Ø¸Ø§Ù‡Ø±. Ø§Ø³Ø£Ù„ " +:+ dq +:+ "Ù„Ù…Ø§Ø°Ø§" +:+ dq +:+ " 5 Ù…Ø±Ø§Øª Ù„Ù„ÙˆØµÙˆÙ„ Ù„Ù„Ø¬Ø°Ø± Ø§Ù„Ø¹Ù…ÙŠÙ‚:
1. Ù„Ù…Ø§Ø°Ø§ Ø­Ø¯Ø« Ø§Ù„Ø®Ø·Ø£ØŸ (Ø§Ù„Ø³Ø¨Ø¨ Ø§Ù„Ù…Ø¨Ø§Ø´Ø±)
2. Ù„Ù…Ø§Ø°Ø§ ÙƒØ§Ù†Øª Ø§Ù„Ø­Ø§Ù„Ø© ØªØ³Ù…Ø­ Ø¨Ø°Ù„ÙƒØŸ
3. Ù„Ù…Ø§Ø°Ø§ Ù„Ù… ÙŠØªÙ… Ø§Ù„ØªÙ‚Ø§Ø· Ø§Ù„Ø®Ø·Ø£ØŸ
4. Ù„Ù…Ø§Ø°Ø§ ÙˆØµÙ„ Ø§Ù„Ù†Ø¸Ø§Ù… Ù„Ù‡Ø°Ù‡ Ø§Ù„Ø­Ø§Ù„Ø© Ø£ØµÙ„Ø§Ù‹ØŸ
5. Ù…Ø§ Ù‡Ùˆ Ø§Ù„Ø®Ù„Ù„ ÙÙŠ Ø§Ù„Ø¹Ù…Ù„ÙŠØ© Ø§Ù„Ù‡Ù†Ø¯Ø³ÙŠØ© Ø§Ù„Ø°ÙŠ Ø³Ù…Ø­ Ø¨Ø°Ù„ÙƒØŸ

â•â•â•â•â•â•â•â•â•â•â•â•â•â•â•â•â•â•â•â•â•â•â•â•â•â•â•â•â•â•â•â•â•â•â•â•â•â•â•â•â•â•â•â•â•â•â•â•â•â•â•â•â•â•â•â•â•â•â•â•â•â•â•â•â•â•â•â•â•â•â•â•â•â•â•â•â•â•â•â•
ðŸ“¤ Ù‡ÙŠÙƒÙ„ Ø§Ù„Ø±Ø¯ Ø§Ù„Ù…Ø·Ù„ÙˆØ¨ (JSON)
â•â•â•â•â•â•â•â•â•â•â•â•â•â•â•â•â•â•â•â•â•â•â•â•â•â•â•â•â•â•â•â•â•â•â•â•â•â•â•â•â•â•â•â•â•â•â•â•â•â•â•â•â•â•â•â•â•â•â•â•â•â•â•â•â•â•â•â•â•â•â•â•â•â•â•â•â•â•â•â•

ÙŠØ¬Ø¨ Ø£Ù† ÙŠÙƒÙˆÙ† Ø§Ù„Ø±Ø¯ Ø¨ØµÙŠØºØ© JSON Ø§Ù„ØªØ§Ù„ÙŠØ© Ø¨Ø§Ù„Ø¶Ø¨Ø· (ÙƒÙ„ Ø§Ù„Ù†ØµÙˆØµ Ø¨Ø§Ù„Ø¹Ø±Ø¨ÙŠØ©):

{
  " +:+ dq +:+ "incidentReport" +:+ dq +:+ ": {
    " +:+ dq +:+ "severity" +:+ dq +:+ ": " +:+ dq +:+ "Critical/High/Medium/Low" +:+ dq +:+ ",
    " +:+ dq +:+ "errorType" +:+ dq +:+ ": " +:+ dq +:+ "ØªØµÙ†ÙŠÙ Ø§Ù„Ø®Ø·Ø£ (Ù…Ø«Ø§Ù„: RuntimeException, LogicError, ResourceExhaustion)" +:+ dq +:+ ",
    " +:+ dq +:+ "confidenceScore" +:+ dq +:+ ": " +:+ dq +:+ "Ù†Ø³Ø¨Ø© Ø«Ù‚ØªÙƒ ÙÙŠ Ø§Ù„ØªØ´Ø®ÙŠØµ (0-100)" +:+ dq +:+ "
  },
  
  " +:+ dq +:+ "rootCauseAnalysis" +:+ dq +:+ ": {
    " +:+ dq +:+ "symptom" +:+ dq +:+ ": " +:+ dq +:+ "Ù…Ø§ ÙŠØ±Ø§Ù‡ Ø§Ù„Ù…Ø³ØªØ®Ø¯Ù… (Ø§Ù„Ø¹ÙŽØ±ÙŽØ¶)" +:+ dq +:+ ",
    " +:+ dq +:+ "directCause" +:+ dq +:+ ": " +:+ dq +:+ "Ø§Ù„Ø³Ø¨Ø¨ Ø§Ù„ØªÙ‚Ù†ÙŠ Ø§Ù„Ù…Ø¨Ø§Ø´Ø± (Ù…Ø§ Ø­Ø¯Ø« ÙÙŠ Ø§Ù„ÙƒÙˆØ¯)" +:+ dq +:+ ",
    " +:+ dq +:+ "rootCause" +:+ dq +:+ ": " +:+ dq +:+ "Ø§Ù„Ø³Ø¨Ø¨ Ø§Ù„Ø¬Ø°Ø±ÙŠ Ø§Ù„Ø¹Ù…ÙŠÙ‚ (Ù„Ù…Ø§Ø°Ø§ Ø³Ù…Ø­ Ø§Ù„Ù†Ø¸Ø§Ù… Ø¨Ø°Ù„Ùƒ)" +:+ dq +:+ ",
    " +:+ dq +:+ "explanation" +:+ dq +:+ ": " +:+ dq +:+ "Ø´Ø±Ø­ ØªÙ‚Ù†ÙŠ Ø¯Ù‚ÙŠÙ‚ ÙˆÙ…Ø¨Ø³Ø· Ù„Ø³Ù„Ø³Ù„Ø© Ø§Ù„Ø£Ø­Ø¯Ø§Ø« Ø§Ù„ØªÙŠ Ø£Ø¯Øª Ù„Ù„Ø®Ø·Ø£" +:+ dq +:+ "
  },

  " +:+ dq +:+ "solution" +:+ dq +:+ ": {
    " +:+ dq +:+ "immediateFix" +:+ dq +:+ ": {
      " +:+ dq +:+ "code" +:+ dq +:+ ": " +:+ dq +:+ "Ø§Ù„ÙƒÙˆØ¯ Ø§Ù„Ù…ØµØ­Ø­ (Snippet)" +:+ dq +:+ ",
      " +:+ dq +:+ "description" +:+ dq +:+ ": " +:+ dq +:+ "Ø´Ø±Ø­ Ø§Ù„Ø¥ØµÙ„Ø§Ø­ Ø§Ù„ÙÙˆØ±ÙŠ" +:+ dq +:+ "
    },
    " +:+ dq +:+ "longTermMitigation" +:+ dq +:+ ": " +:+ dq +:+ "ÙƒÙŠÙ Ù†Ù…Ù†Ø¹ ØªÙƒØ±Ø§Ø± Ù‡Ø°Ø§ Ù…Ø³ØªÙ‚Ø¨Ù„Ø§Ù‹ (ØªØºÙŠÙŠØ± Ù…Ø¹Ù…Ø§Ø±ÙŠ Ø£Ùˆ ØªØ­Ø³ÙŠÙ† Ø¹Ù…Ù„ÙŠØ©)" +:+ dq +:+ "
  },

  " +:+ dq +:+ "verificationSteps" +:+ dq +:+ ": [
    " +:+ dq +:+ "Ø®Ø·ÙˆØ© 1 Ù„Ù„ØªØ£ÙƒØ¯ Ù…Ù† Ø§Ù„Ø¥ØµÙ„Ø§Ø­" +:+ dq +:+ "
  ],

  " +:+ dq +:+ "preventionStrategy" +:+ dq +:+ ": [
    {
      " +:+ dq +:+ "action" +:+ dq +:+ ": " +:+ dq +:+ "Ø¥Ø¬Ø±Ø§Ø¡ ÙˆÙ‚Ø§Ø¦ÙŠ (Ù…Ø«Ø§Ù„: Ø¥Ø¶Ø§ÙØ© Unit Test Ù…Ø¹ÙŠÙ†)" +:+ dq +:+ ",
      " +:+ dq +:+ "type" +:+ dq +:+ ": " +:+ dq +:+ "Code/Process/Infrastructure" +:+ dq +:+ "
    }
  ],
  
  " +:+ dq +:+ "impactAnalysis" +:+ dq +:+ ": " +:+ dq +:+ "Ù‡Ù„ Ø§Ù„Ø­Ù„ Ø§Ù„Ù…Ù‚ØªØ±Ø­ Ù„Ù‡ Ø£ÙŠ Ø¢Ø«Ø§Ø± Ø¬Ø§Ù†Ø¨ÙŠØ© (Side Effects) Ù…Ø­ØªÙ…Ù„Ø©ØŸ" +:+ dq +:+ "
}

â•â•â•â•â•â•â•â•â•â•â•â•â•â•â•â•â•â•â•â•â•â•â•â•â•â•â•â•â•â•â•â•â•â•â•â•â•â•â•â•â•â•â•â•â•â•â•â•â•â•â•â•â•â•â•â•â•â•â•â•â•â•â•â•â•â•â•â•â•â•â•â•â•â•â•â•â•â•â•â•
âš ï¸ ØªØ¹Ù„ÙŠÙ…Ø§Øª Ø­Ø§Ø³Ù…Ø©
â•â•â•â•â•â•â•â•â•â•â•â•â•â•â•â•â•â•â•â•â•â•â•â•â•â•â•â•â•â•â•â•â•â•â•â•â•â•â•â•â•â•â•â•â•â•â•â•â•â•â•â•â•â•â•â•â•â•â•â•â•â•â•â•â•â•â•â•â•â•â•â•â•â•â•â•â•â•â•â•

1. Ù„Ø§ ØªØ®Ù…Ù†. Ø¥Ø°Ø§ ÙƒØ§Ù†Øª Ø§Ù„Ù…Ø¹Ù„ÙˆÙ…Ø§Øª Ù†Ø§Ù‚ØµØ©ØŒ Ø§Ø·Ù„Ø¨ " +:+ dq +:+ "Logs" +:+ dq +:+ " Ø£Ùˆ " +:+ dq +:+ "Code" +:+ dq +:+ " Ù…Ø­Ø¯Ø¯ ÙÙŠ Ø­Ù‚Ù„ " +:+ dq +:+ "rootCause" +:+ dq +:+ ".
2. Ø§Ù„Ø­Ù„ ÙŠØ¬Ø¨ Ø£Ù† ÙŠÙƒÙˆÙ† " +:+ dq +:+ "Production Ready" +:+ dq +:+ " ÙˆÙ„ÙŠØ³ Ø­Ù„Ø§Ù‹ Ø³Ø±ÙŠØ¹Ø§Ù‹ Ù‚Ø¯ ÙŠÙƒØ³Ø± Ø´ÙŠØ¦Ø§Ù‹ Ø¢Ø®Ø±.
3. Ø±ÙƒØ² Ø¹Ù„Ù‰ " +:+ dq +:+ "Ù„Ù…Ø§Ø°Ø§" +:+ dq +:+ " Ø­Ø¯Ø« Ø§Ù„Ø®Ø·Ø£ Ø¨Ù‚Ø¯Ø± ØªØ±ÙƒÙŠØ²Ùƒ Ø¹Ù„Ù‰ " +:+ dq +:+ "ÙƒÙŠÙ" +:+ dq +:+ " ØªØµÙ„Ø­Ù‡.
4. Ø§ÙØªØ±Ø¶ Ø¯Ø§Ø¦Ù…Ø§Ù‹ Ø£Ù† Ø§Ù„Ø¨ÙŠØ§Ù†Ø§Øª Ø§Ù„Ù…Ø¯Ø®Ù„Ø© Ù‚Ø¯ ØªÙƒÙˆÙ† Ø®Ø¨ÙŠØ«Ø© Ø£Ùˆ Ù…Ø´ÙˆÙ‡Ø© (Defensive Programming).

Ø§Ø¨Ø¯Ø£ Ø§Ù„ØªØ´Ø®ÙŠØµ Ø§Ù„Ø¢Ù†.".
Definition not_available : string :=
  "ØºÙŠØ± Ù…ØªÙˆÙØ±".
Definition code_0 : string :=
  "
â”€â”€â”€â”€â”€â”€â”€â”€â”€â”€â”€â”€â”€â”€â”€â”€â”€â”€â”€â”€â”€â”€â”€â”€â”€â”€â”€â”€â”€â”€â”€â”€â”€â”€â”€â”€â”€â”€â”€â”€â”€â”€â”€â”€â”€â”€â”€â”€â”€â”€â”€â”€â”€â”€â”€â”€â”€â”€â”€â”€â”€â”€â”€â”€â”€â”€â”€â”€â”€â”€â”€â”€â”€â”€â”€â”€â”€â”€â”€â”€
ðŸ’» Ø§Ù„ÙƒÙˆØ¯ Ø§Ù„Ù…Ø´ØªØ¨Ù‡ Ø¨Ù‡
â”€â”€â”€â”€â”€â”€â”€â”€â”€â”€â”€â”€â”€â”€â”€â”€â”€â”€â”€â”€â”€â”€â”€â”€â”€â”€â”€â”€â”€â”€â”€â”€â”€â”€â”€â”€â”€â”€â”€â”€â”€â”€â”€â”€â”€â”€â”€â”€â”€â”€â”€â”€â”€â”€â”€â”€â”€â”€â”€â”€â”€â”€â”€â”€â”€â”€â”€â”€â”€â”€â”€â”€â”€â”€â”€â”€â”€â”€â”€â”€
".
Definition code_1 : string :=
  "
".
Definition stack_0 : string :=
  "
â”€â”€â”€â”€â”€â”€â”€â”€â”€â”€â”€â”€â”€â”€â”€â”€â”€â”€â”€â”€â”€â”€â”€â”€â”€â”€â”€â”€â”€â”€â”€â”€â”€â”€â”€â”€â”€â”€â”€â”€â”€â”€â”€â”€â”€â”€â”€â”€â”€â”€â”€â”€â”€â”€â”€â”€â”€â”€â”€â”€â”€â”€â”€â”€â”€â”€â”€â”€â”€â”€â”€â”€â”€â”€â”€â”€â”€â”€â”€â”€
Ù…Ø­ÙÙˆØ¸Ø§Øª Ø§Ù„Ù…ÙƒØ¯Ø³ (Stack Trace)
â”€â”€â”€â”€â”€â”€â”€â”€â”€â”€â”€â”€â”€â”€â”€â”€â”€â”€â”€â”€â”€â”€â”€â”€â”€â”€â”€â”€â”€â”€â”€â”€â”€â”€â”€â”€â”€â”€â”€â”€â”€â”€â”€â”€â”€â”€â”€â”€â”€â”€â”€â”€â”€â”€â”€â”€â”€â”€â”€â”€â”€â”€â”€â”€â”€â”€â”€â”€â”€â”€â”€â”€â”€â”€â”€â”€â”€â”€â”€â”€
".
Definition stack_1 : string :=
  "
".

(** [${x ? `before ${x} after` : ''}] *)
Definition optional_part (eng : engine) (before after : string) (x : jsval) : outcome string :=
  if truthy_val x then text ← ToString eng x; Returns (before +:+ text +:+ after)
  else Returns "".

(** The prompt; [debugData] is truthy here, so its fields can be read.
    The substitutions of the template are evaluated and converted from
    left to right. *)
Definition incident_prompt (eng : engine) (debugData : json) : outcome string :=
  errorLog ← ToString eng (Some (or_else (get debugData "errorLog") (JStr not_available)));
  symptoms ← ToString eng (get debugData "symptoms");
  environment ← ToString eng (get debugData "environment");
  codeSnippet ← optional_part eng code_0 code_1 (get debugData "codeSnippet");
  stackTrace ← optional_part eng stack_0 stack_1 (get debugData "stackTrace");
  Returns (text_0 +:+ errorLog
           +:+ text_1 +:+ symptoms
           +:+ text_2 +:+ environment
           +:+ text_3 +:+ codeSnippet
           +:+ text_4 +:+ stackTrace
           +:+ text_5).

Definition analyze_incident (eng : engine) (env : gmap string string) (body : json)
    (upstream : outbound -> fetch_result) (startTime endTime : Z) (timestamp : string)
  : outcome response * list outbound :=
  match body with
  | JNull =>
      (Returns (failure env startTime endTime timestamp
                  (Exn TypeError (msg_destructure eng "debugData" "null"))), [])
  | _ =>
      match get body "debugData" with
      | Some debugData =>
          if negb (truthy debugData) then (Returns debug_data_required, [])
          else if negb (key_truthy (GENAI_API_KEY env)) then (Returns not_available_reply, [])
          else send eng env upstream startTime endTime timestamp
                 (incident_prompt eng debugData)
      | None => (Returns debug_data_required, [])
      end
  end.

End Incident.


(** ** The other endpoints of the embedded server *)

Module EmbeddedApi.
Import JS Json Text Proxy.

Definition prompt_required : response :=
  {| status := 400; payload := JObj [("error", JStr "Prompt is required")] |}.

Definition debug_data_required : response :=
  {| status := 400; payload := JObj [("error", JStr "Debug data is required")] |}.

(** The [catch] block of both endpoints *)
Definition failed (error : exn) : response :=
  {| status := 500; payload := JObj [("error", JStr (message error))] |}.

(** The body of the call of [callGeminiAPI(prompt)]; the prompt of
    [/api/llm] is any value of the request. *)
Definition call_body (prompt : json) : string :=
  stringify (JObj [("contents", JArr [JObj [("parts", JArr [JObj [("text", prompt)]])]])]).

(** [callGeminiAPI(prompt)] followed by [rest], inside a [try] whose
    [catch] replies [failed]. *)
Definition calling (eng : engine) (env : gmap string string)
    (upstream : outbound -> fetch_result) (prompt : json)
    (rest : json -> outcome response) : outcome response * list outbound :=
  match Embedded.getApiKey env with
  | Returns apiKey =>
      let o := {| out_url := Embedded.generate_url apiKey; out_body := call_body prompt |} in
      (try_catch (text ← Embedded.callGeminiAPI_reply eng (upstream o); rest text)
         (fun e => Returns (failed e)), [o])
  | Throws e => (Returns (failed e), [])
  | Beyond => (Beyond, [])
  end.

(** [POST /api/llm] *)
Definition llm (eng : engine) (env : gmap string string) (body : json)
    (upstream : outbound -> fetch_result) : outcome response * list outbound :=
  match body with
  | JNull => (Returns (failed (Exn TypeError (msg_destructure eng "prompt" "null"))), [])
  | _ =>
      match get body "prompt" with
      | Some prompt =>
          if negb (truthy prompt) then (Returns prompt_required, [])
          else calling eng env upstream prompt
                 (fun response =>
                    Returns {| status := 200; payload := JObj [("response", response)] |})
      | None => (Returns prompt_required, [])
      end
  end.

Definition incident_heading : string :=
  "Analyze this incident root cause (Respond in JSON Arabic):" +:+ newline.

Definition INCIDENT_CHARS : nat := Z.to_nat 15000.

(** [text.match(/\{[\s\S]*\}/)], then [JSON.parse] of the match or of
    ["{}"]. *)
Definition incident_reply (eng : engine) (text : json) : outcome response :=
  match text with
  | JStr t =>
      let cleanJson := match brace_match t with Some m => m | None => "{}" end in
      data ← JSON_parse eng cleanJson;
      Returns {| status := 200; payload := JObj [("success", JBool true); ("data", data)] |}
  | _ => Throws (Exn TypeError (msg_not_a_function eng "text.match"))
  end.

(** [POST /api/analyze-incident] *)
Definition analyze_incident (eng : engine) (env : gmap string string) (body : json)
    (upstream : outbound -> fetch_result) : outcome response * list outbound :=
  match body with
  | JNull => (Returns (failed (Exn TypeError (msg_destructure eng "debugData" "null"))), [])
  | _ =>
      match get body "debugData" with
      | Some debugData =>
          if negb (truthy debugData) then (Returns debug_data_required, [])
          else
            match substring0 INCIDENT_CHARS (stringify debugData) with
            | Returns shown =>
                calling eng env upstream (JStr (incident_heading +:+ shown))
                  (incident_reply eng)
            | Throws e => (Returns (failed e), [])
            | Beyond => (Beyond, [])
            end
      | None => (Returns debug_data_required, [])
      end
  end.

End EmbeddedApi.


(** ** The client of the incident endpoint: [analyzeIncident] *)

Module IncidentAnalyzer.
Import JS Json.

(** The body posted to [/api/analyze-incident]. *)
Definition request_body (debugData : json) : string :=
  stringify (JObj [("debugData", debugData)]).

(** [analyzeIncident]; [server] answers a body posted to the endpoint.
    [new Error(m)] converts [m] to a string. *)
Definition analyzeIncident (eng : engine) (server : string -> fetch_result)
    (debugData : json) : outcome jsval :=
  match server (request_body debugData) with
  | NetworkFailure => Throws (Exn TypeError (msg_fetch_failed eng))
  | HttpResponse status statusText body =>
      if negb (ok status) then
        errorData ← try_catch (JSON_parse eng body)
                      (fun _ => Returns (JObj [("error", JStr "Unknown error")]));
        error ← read eng (Some errorData) "error";
        text ← ToString eng
                 (Some (or_else error
                          (JStr ("HTTP " +:+ decimal status +:+ ": " +:+ statusText))));
        Throws (Exn PlainError text)
      else
        result ← JSON_parse eng body;
        read eng (Some result) "data"
  end.

End IncidentAnalyzer.

(** ** The content of a file: [fetchFileContent] *)

Module Content.
Import JS Json.

(** *** [atob]: the forgiving base64 decoding of the HTML standard *)

(** ASCII whitespace: tab, line feed, form feed, carriage return, space. *)
Definition ascii_whitespace (c : ascii) : bool :=
  let n := N_of_ascii c in
  ((n =? 9) || (n =? 10) || (n =? 12) || (n =? 13) || (n =? 32))%N.

Definition padding : ascii := "=".

(** The value of a character of the base64 alphabet. *)
Definition sextet (c : ascii) : option N :=
  let n := N_of_ascii c in
  if ((65 <=? n) && (n <=? 90))%N then Some (n - 65)%N
  else if ((97 <=? n) && (n <=? 122))%N then Some (n - 71)%N
  else if ((48 <=? n) && (n <=? 57))%N then Some (n + 4)%N
  else if (n =? 43)%N then Some 62%N
  else if (n =? 47)%N then Some 63%N
  else None.

Fixpoint sextets (data : list ascii) : option (list N) :=
  match data with
  | [] => Some []
  | c :: rest =>
      match sextet c, sextets rest with
      | Some v, Some vs => Some (v :: vs)
      | _, _ => None
      end
  end.

(** Four characters give three bytes; at the end, three characters give
    two bytes and two characters one byte, the bits left over being
    discarded. *)
Fixpoint decode_groups (values : list N) : list N :=
  match values with
  | s0 :: s1 :: s2 :: s3 :: rest =>
      let n := (s0 * 262144 + s1 * 4096 + s2 * 64 + s3)%N in
      (n / 65536)%N :: ((n / 256) mod 256)%N :: (n mod 256)%N :: decode_groups rest
  | [s0; s1; s2] =>
      let n := ((s0 * 4096 + s1 * 64 + s2) / 4)%N in [(n / 256)%N; (n mod 256)%N]
  | [s0; s1] => [((s0 * 64 + s1) / 16)%N]
  | _ => []
  end.

(** When the length is a multiple of four, one or two [=] at the end are
    removed. *)
Definition remove_padding (data : list ascii) : list ascii :=
  if (length data mod 4 =? 0)%nat then
    match rev data with
    | c1 :: c2 :: before =>
        if Ascii.eqb c1 padding then
          if Ascii.eqb c2 padding then rev before else rev (c2 :: before)
        else data
    | [c1] => if Ascii.eqb c1 padding then [] else data
    | [] => data
    end
  else data.

(** [atob(s)]: the bytes, or [None] for an [InvalidCharacterError]. *)
Definition atob (s : string) : option (list ascii) :=
  let data :=
    remove_padding (List.filter (fun c => negb (ascii_whitespace c))
                      (list_ascii_of_string s)) in
  if (length data mod 4 =? 1)%nat then None
  else
    match sextets data with
    | Some values => Some (map ascii_of_N (decode_groups values))
    | None => None
    end.

(** *** [decodeURIComponent(escape(binaryString))]

    [escape] writes every character of a binary string as itself or as
    [%XX], and [decodeURIComponent] reads the bytes back as UTF-8: it
    throws unless they are well-formed UTF-8, without overlong forms,
    surrogates or values beyond U+10FFFF. *)

Definition continuation (b : N) : bool := ((128 <=? b) && (b <=? 191))%N.

Fixpoint well_formed (bytes : list N) : bool :=
  match bytes with
  | [] => true
  | b0 :: rest =>
      if (b0 <=? 127)%N then well_formed rest
      else if ((194 <=? b0) && (b0 <=? 223))%N then
        match rest with
        | b1 :: rest1 => continuation b1 && well_formed rest1
        | _ => false
        end
      else if ((224 <=? b0) && (b0 <=? 239))%N then
        match rest with
        | b1 :: b2 :: rest2 =>
            (if (b0 =? 224)%N then ((160 <=? b1) && (b1 <=? 191))%N
             else if (b0 =? 237)%N then ((128 <=? b1) && (b1 <=? 159))%N
             else continuation b1)
            && continuation b2 && well_formed rest2
        | _ => false
        end
      else if ((240 <=? b0) && (b0 <=? 244))%N then
        match rest with
        | b1 :: b2 :: b3 :: rest3 =>
            (if (b0 =? 240)%N then ((144 <=? b1) && (b1 <=? 191))%N
             else if (b0 =? 244)%N then ((128 <=? b1) && (b1 <=? 143))%N
             else continuation b1)
            && continuation b2 && continuation b3 && well_formed rest3
        | _ => false
        end
      else false
  end.

Definition valid_utf8 (bytes : list ascii) : bool := well_formed (map N_of_ascii bytes).

(** The text of a binary string: one character, below U+0100, for each
    byte. *)
Fixpoint latin1 (bytes : list ascii) : string :=
  match bytes with
  | [] => ""
  | b :: rest =>
      let n := N_of_ascii b in
      if (n <=? 127)%N then String b (latin1 rest)
      else String (ascii_of_N (192 + n / 64)) (String (ascii_of_N (128 + n mod 64))
                                                 (latin1 rest))
  end.

(** [content.replace(/\n/g, '')] *)
Fixpoint remove_newlines (s : string) : string :=
  match s with
  | EmptyString => ""
  | String c rest =>
      if (N_of_ascii c =? 10)%N then remove_newlines rest
      else String c (remove_newlines rest)
  end.

(** The two attempts at decoding; [None] when [atob] throws, as it then
    does in the [catch] too. *)
Definition decode (content : string) : option string :=
  match atob (remove_newlines content) with
  | Some bytes =>
      Some (if valid_utf8 bytes then string_of_list_ascii bytes else latin1 bytes)
  | None => None
  end.

Section Fetch.

Variable eng : engine.
Variable token : option string.
Variable github : GithubApi.request -> fetch_result.

(** [fetchFileContent]: [null] for every failure, also for a content
    that is empty or not a string. *)
Definition fetchFileContent (owner repo path : string) : outcome (option string) :=
  match github {| GithubApi.req_url :=
                    GithubApi.repos +:+ owner +:+ "/" +:+ repo +:+ "/contents/" +:+ path;
                  GithubApi.req_headers := GithubApi.getGithubHeaders token |} with
  | NetworkFailure => Returns None
  | HttpResponse status _ body =>
      if negb (ok status) then Returns None
      else
        match JSON_parse eng body with
        | Returns data =>
            match get_opt (Some data) "content" with
            | Some (JStr content) =>
                if String.eqb content "" then Returns None else Returns (decode content)
            | _ => Returns None
            end
        | Throws _ => Returns None
        | Beyond => Beyond
        end
  end.

End Fetch.

End Content.

(** ** The export of a report: [handleExport] *)

Module ReportExport.
Import JS Json.

Definition text_0 : string :=
  "
# تقرير جاهزية الإنتاج

## معلومات المستودع
- الرابط: ".
Definition text_1 : string :=
  "
- المالك: ".
Definition text_2 : string :=
  "
- الاسم: ".
Definition text_3 : string :=
  "
- تاريخ التحليل: ".
Definition text_4 : string :=
  "

## الحالة العامة
".
Definition text_5 : string :=
  "

## نظرة عامة
".
Definition text_6 : string :=
  "

## تقييم المجالات

".
Definition text_7 : string :=
  "

## المشاكل الحرجة
".
Definition text_8 : string :=
  "

## التوصيات العامة
".
Definition text_9 : string :=
  "

## الخلاصة
".
Definition text_10 : string :=
  "

---
تم إنشاء هذا التقرير بواسطة محلل جاهزية الإنتاج
".
Definition ready_words : string :=
  "✅ جاهز".
Definition conditional_words : string :=
  "⚠️ جاهز بشروط".
Definition not_ready_words : string :=
  "❌ غير جاهز".
Definition no_domains : string :=
  "لا توجد بيانات تقييم المجالات".
Definition domain_0 : string :=
  "
### ".
Definition domain_1 : string :=
  ". ".
Definition domain_2 : string :=
  "
**الحالة:** ".
Definition domain_3 : string :=
  "

**الوصف:** ".
Definition domain_4 : string :=
  "

**الملاحظات:**
".
Definition domain_5 : string :=
  "

**التوصيات:**
".
Definition domain_6 : string :=
  "
".
Definition unknown_words : string :=
  "❓ غير معروف".
Definition no_critical : string :=
  "لا توجد مشاكل حرجة".
Definition no_recommendations : string :=
  "لا توجد توصيات".

(** The words for the overall status: every status but the first two is
    written as not ready. *)
Definition overall_words (status : jsval) : string :=
  if strict_eq_string status "ready" then ready_words
  else if strict_eq_string status "conditional" then conditional_words
  else not_ready_words.

(** The words for the status of a domain. *)
Definition domain_words (status : jsval) : string :=
  if strict_eq_string status "ready" then ready_words
  else if strict_eq_string status "conditional" then conditional_words
  else if strict_eq_string status "not-ready" then not_ready_words
  else unknown_words.

(** [`- ${x}`] *)
Definition bullet (eng : engine) (x : json) : outcome string :=
  text ← ToString eng (Some x);
  Returns ("- " +:+ text).

(** [v.map(x => `- ${x}`).join('\n')]; nothing but an array has a [map]
    that can be called. *)
Definition bullets (eng : engine) (expr : string) (v : json) : outcome string :=
  match v with
  | JArr items => rows ← each (bullet eng) items; Returns (join newline rows)
  | _ => Throws (Exn TypeError (msg_not_a_function eng (expr +:+ ".map")))
  end.

(** [v.length > 0 ? rows : none] for a truthy [v], where [rows] calls
    [v.map]: a string has a length above zero and no [map]; a number or
    [true] has no length; an object has the length it holds, which the
    model does not follow. *)
Definition listing (eng : engine) (expr : string) (v : json)
    (rows : list json -> outcome string) (none : string) : outcome string :=
  match v with
  | JArr [] => Returns none
  | JArr items => rows items
  | JStr s =>
      if String.eqb s "" then Returns none
      else Throws (Exn TypeError (msg_not_a_function eng (expr +:+ ".map")))
  | JObj fields =>
      match assoc "length" fields with
      | None => Returns none
      | Some _ => Beyond
      end
  | JNull => Throws (Exn TypeError (msg_read_nullish eng "null" "length"))
  | _ => Returns none
  end.

(** The text of the domain at index [i]; the substitutions of the
    template are evaluated and converted from left to right. *)
Definition domain_text (eng : engine) (i : nat) (domain : json) : outcome string :=
  title ← read eng (Some domain) "title";
  title_text ← ToString eng title;
  description ← ToString eng (get domain "description");
  findings ← bullets eng "(domain.findings || [])" (App.export_findings domain);
  recommendations ← bullets eng "(domain.recommendations || [])"
                      (App.export_domain_recommendations domain);
  Returns (domain_0 +:+ decimal (Z.of_nat i + 1)
           +:+ domain_1 +:+ title_text
           +:+ domain_2 +:+ domain_words (get domain "status")
           +:+ domain_3 +:+ description
           +:+ domain_4 +:+ findings
           +:+ domain_5 +:+ recommendations
           +:+ domain_6).

(** [domains.map((domain, i) => ...)] from index [i] on. *)
Fixpoint domain_texts (eng : engine) (i : nat) (domains : list json)
  : outcome (list string) :=
  match domains with
  | [] => Returns []
  | domain :: rest =>
      text ← domain_text eng i domain;
      texts ← domain_texts eng (S i) rest;
      Returns (text :: texts)
  end.

(** [new Date(v).toLocaleString('ar-SA')]: [new Date] converts an object
    to a primitive value, which can throw as the conversion to a string
    does; [toLocaleString] is what the platform writes otherwise. *)
Definition date_text (eng : engine) (toLocaleString : jsval -> string) (v : jsval)
  : outcome string :=
  if convertible_val v then Returns (toLocaleString v)
  else Throws (Exn TypeError (msg_to_primitive eng)).

(** [reportText]; the substitutions of the template are evaluated and
    converted from left to right. *)
Definition reportText (eng : engine) (toLocaleString : jsval -> string)
    (currentReport : json) : outcome string :=
  let domains := App.export_domains currentReport in
  let criticalIssues := App.export_criticalIssues currentReport in
  let recommendations := App.export_recommendations currentReport in
  url ← read eng (get currentReport "repository") "url";
  url_text ← ToString eng url;
  owner ← read eng (get currentReport "repository") "owner";
  owner_text ← ToString eng owner;
  repo ← read eng (get currentReport "repository") "repo";
  repo_text ← ToString eng repo;
  date ← date_text eng toLocaleString (get currentReport "createdAt");
  summary ← ToString eng (get currentReport "summary");
  assessed ← listing eng "domains" domains
               (fun items => texts ← domain_texts eng 0 items; Returns (join newline texts))
               no_domains;
  critical ← listing eng "criticalIssues" criticalIssues
               (fun items => bullets eng "criticalIssues" (JArr items)) no_critical;
  advised ← listing eng "recommendations" recommendations
              (fun items => bullets eng "recommendations" (JArr items)) no_recommendations;
  conclusion ← ToString eng (get currentReport "conclusion");
  Returns (text_0 +:+ url_text
           +:+ text_1 +:+ owner_text
           +:+ text_2 +:+ repo_text
           +:+ text_3 +:+ date
           +:+ text_4 +:+ overall_words (get currentReport "overallStatus")
           +:+ text_5 +:+ summary
           +:+ text_6 +:+ assessed
           +:+ text_7 +:+ critical
           +:+ text_8 +:+ advised
           +:+ text_9 +:+ conclusion
           +:+ text_10).

(** The file the browser is given. *)
Record download : Type := { filename : string; content : string }.

(** [handleExport]: nothing without a report on view; [now] is the
    reading of [Date.now()]. *)
Definition handleExport (eng : engine) (toLocaleString : jsval -> string) (now : Z)
    (currentReport : option json) : outcome (option download) :=
  match currentReport with
  | None => Returns None
  | Some report =>
      if negb (truthy report) then Returns None
      else
        text ← reportText eng toLocaleString report;
        repo ← read eng (get report "repository") "repo";
        repo_text ← ToString eng repo;
        Returns (Some {| filename := "production-readiness-" +:+ repo_text
                                     +:+ "-" +:+ decimal now +:+ ".md";
                         content := text |})
  end.

End ReportExport.

(** ** The accessibility score: [calculateAccessibilityScore],
    [checkAccessibilityRequirements] *)

From Stdlib Require PrimFloat FloatOps SpecFloat Uint63.

Module Accessibility.
Import JS.

(** [AxeViolation['impact']] *)
Inductive Impact : Type := Critical | Serious | Moderate | Minor.

Record AxeNode : Type := {
  html : string;
  target : option (list string);
  failureSummary : option string
}.

(** What the two functions read of a violation; [impact] is [None] for a
    value that is falsy. *)
Record AxeViolation : Type := {
  id : string;
  impact : option Impact;
  nodes : list AxeNode
}.

Record AxeResult : Type := { violations : list AxeViolation }.

(** The score is [None] when it is not a finite number. *)
Record AccessibilityReport : Type := {
  score : option Z;
  critical : Z;
  serious : Z;
  moderate : Z;
  minor : Z;
  total : Z;
  violation_ids : list string
}.

Definition weight (level : Impact) : Z :=
  match level with
  | Critical => 10
  | Serious => 5
  | Moderate => 2
  | Minor => 1
  end.

(** *** Numbers

    The counts and the running score are integers, and the arithmetic
    on them is exact as long as they stay below 2^53.  The division by
    100, the multiplication by 100 and [Math.round] are those of
    binary64. *)

(** The binary64 number an integer of [0 .. 2^53] is. *)
Definition number (z : Z) : PrimFloat.float := PrimFloat.of_uint63 (Uint63.of_Z z).

(** [Math.round(x)]: the integer nearest to [x], the upper one of two
    that are equally near. *)
Definition Math_round (x : PrimFloat.float) : option Z :=
  match FloatOps.Prim2SF x with
  | SpecFloat.S754_zero _ => Some 0
  | SpecFloat.S754_finite negative m e =>
      let n := if negative then Z.neg m else Z.pos m in
      Some (if 0 <=? e then n * 2 ^ e else (2 * n + 2 ^ (- e)) / 2 ^ (1 - e))
  | _ => None
  end.

(** [Math.round((totalScore / 100) * 100)] *)
Definition percent (totalScore : Z) : option Z :=
  Math_round (PrimFloat.mul (PrimFloat.div (number totalScore) (number 100)) (number 100)).

(** *** The loop over the violations *)

Record tally : Type := {
  totalScore : Z;
  n_critical : Z;
  n_serious : Z;
  n_moderate : Z;
  n_minor : Z
}.

Definition start : tally :=
  {| totalScore := 100; n_critical := 0; n_serious := 0; n_moderate := 0; n_minor := 0 |}.

(** One turn of [results.violations.forEach]. *)
Definition count_violation (t : tally) (violation : AxeViolation) : tally :=
  let level := default Minor (impact violation) in
  let left := totalScore t - weight level * Z.of_nat (length (nodes violation)) in
  match level with
  | Critical =>
      {| totalScore := left; n_critical := n_critical t + 1; n_serious := n_serious t;
         n_moderate := n_moderate t; n_minor := n_minor t |}
  | Serious =>
      {| totalScore := left; n_critical := n_critical t; n_serious := n_serious t + 1;
         n_moderate := n_moderate t; n_minor := n_minor t |}
  | Moderate =>
      {| totalScore := left; n_critical := n_critical t; n_serious := n_serious t;
         n_moderate := n_moderate t + 1; n_minor := n_minor t |}
  | Minor =>
      {| totalScore := left; n_critical := n_critical t; n_serious := n_serious t;
         n_moderate := n_moderate t; n_minor := n_minor t + 1 |}
  end.

(** [calculateAccessibilityScore] *)
Definition calculateAccessibilityScore (results : AxeResult) : AccessibilityReport :=
  let t := fold_left count_violation (violations results) start in
  let clamped := Z.max 0 (totalScore t) in
  {| score := percent clamped;
     critical := n_critical t;
     serious := n_serious t;
     moderate := n_moderate t;
     minor := n_minor t;
     total := Z.of_nat (length (violations results));
     violation_ids := map id (violations results) |}.

Record requirements : Type := {
  passes : bool;
  report : AccessibilityReport;
  failures : list string
}.

(** [checkAccessibilityRequirements]; a comparison with a score that is
    not a number is false. *)
Definition checkAccessibilityRequirements (results : AxeResult) : requirements :=
  let report := calculateAccessibilityScore results in
  let failures :=
    (if 0 <? critical report then ["Critical accessibility issues found"] else [])
    ++ (if 5 <? serious report
        then ["Too many serious accessibility issues (max 5 allowed)"] else [])
    ++ match score report with
       | Some s =>
           if s <? 80
           then ["Accessibility score too low: " +:+ decimal s +:+ "/100 (minimum 80)"]
           else []
       | None => []
       end in
  {| passes := Nat.eqb (length failures) 0; report := report; failures := failures |}.

End Accessibility.

(** ** Notions used in the statements about the rest of the code *)

(** The number of times a character stands in a text. *)
Fixpoint count (c : ascii) (s : string) : nat :=
  match s with
  | EmptyString => 0
  | String x rest => (if Ascii.eqb x c then 1 else 0) + count c rest
  end%nat.

Import JS Json Text.

(** An entry of a listing, as [analyzeRepository] reads it. *)
Definition named (name : string) (item : json) : bool :=
  strict_eq_string (get item "name") name.

Definition is_dir (item : json) : bool := strict_eq_string (get item "type") "dir".

Definition has_name (item : json) : bool :=
  match get item "name" with
  | Some (JStr _) => true
  | _ => false
  end.

Definition mentions_readme (item : json) : bool :=
  match get item "name" with
  | Some (JStr name) => includes "readme" (Analysis.toLowerCase name)
  | _ => false
  end.

Definition is_test_directory (item : json) : bool :=
  is_dir item && (named "test" item || named "tests" item || named "__tests__" item).

(** The eight flags of [RepoAnalysisData]. *)
Inductive flag : Type :=
| PackageJson | RequirementsTxt | PyprojectToml | Dockerfile | Tests | CI | Readme
| Gitignore.

Definition flag_of (x : flag) (d : Analysis.RepoAnalysisData) : bool :=
  match x with
  | PackageJson => Analysis.hasPackageJson d
  | RequirementsTxt => Analysis.hasRequirementsTxt d
  | PyprojectToml => Analysis.hasPyprojectToml d
  | Dockerfile => Analysis.hasDockerfile d
  | Tests => Analysis.hasTests d
  | CI => Analysis.hasCI d
  | Readme => Analysis.hasReadme d
  | Gitignore => Analysis.hasGitignore d
  end.

Definition same_flag (x y : flag) : bool :=
  match x, y with
  | PackageJson, PackageJson | RequirementsTxt, RequirementsTxt
  | PyprojectToml, PyprojectToml | Dockerfile, Dockerfile | Tests, Tests | CI, CI
  | Readme, Readme | Gitignore, Gitignore => true
  | _, _ => false
  end.

(** The entry that makes [analyzeRepository] raise a flag. *)
Definition shows (item : json) (x : flag) : bool :=
  match x with
  | PackageJson => named "package.json" item
  | RequirementsTxt => named "requirements.txt" item
  | PyprojectToml => named "pyproject.toml" item
  | Dockerfile => named "Dockerfile" item
  | Tests => is_test_directory item
  | CI => is_dir item && named ".github" item
  | Readme => mentions_readme item
  | Gitignore => named ".gitignore" item
  end.

(** The optional contents are texts. *)
Definition contents_are_text (d : Analysis.RepoAnalysisData) : Prop :=
  Forall (fun kv => Types.is_string (snd kv) = true) (Analysis.contents d).

(** A step of the scan that ends normally, raises the flags of [set]
    and no other, lowers none, and adds [names] to the files. *)
Definition raises (step : Analysis.run unit) (set : flag -> bool) (names : list jsval)
  : Prop :=
  forall d, exists d',
    step d = (d', Returns tt)
    /\ (forall x, flag_of x d' = flag_of x d || set x)
    /\ Analysis.fileStructure d' = Analysis.fileStructure d ++ names
    /\ Analysis.languages d' = Analysis.languages d
    /\ (contents_are_text d -> contents_are_text d').

(** A computation that keeps the optional contents texts, however it ends. *)
Definition keeps_text {A : Type} (m : Analysis.run A) : Prop :=
  forall d, contents_are_text d -> contents_are_text (fst (m d)).

(** An entry of a listing of GitHub, cut to what is read of it. *)
Definition entry (name kind : string) : json :=
  JObj [("name", JStr name); ("path", JStr name); ("type", JStr kind)].

Definition sample_listing : list json :=
  [entry "package.json" "file"; entry "src" "dir"; entry "tests" "dir";
   entry "ReadMe.md" "file"; entry ".github" "dir"; entry "test" "file"].

(** The files of the sample: [package.json] holds [{}], no other file
    can be read. *)
Definition sample_files (path : string) : outcome (option string) :=
  if String.eqb path "package.json" then Returns (Some "{}") else Returns None.

(** The request [fetchRepositoryInfo] makes. *)
Definition info_request (token : option string) (owner repo : string) : GithubApi.request :=
  {| GithubApi.req_url := GithubApi.repos +:+ owner +:+ "/" +:+ repo;
     GithubApi.req_headers := GithubApi.getGithubHeaders token |}.

(** A request for the analysis of an incident. *)
Definition debug_data : json :=
  JObj [("errorLog", JStr "TypeError: x is undefined"); ("symptoms", JStr "blank page")].

Definition incident_request : json := JObj [("debugData", debug_data)].

(** The call an incident endpoint makes for a prompt. *)
Definition incident_call (env : gmap string string) (prompt : string) : Proxy.outbound :=
  {| Proxy.out_url := Proxy.generate_url (Proxy.GENAI_API_KEY env);
     Proxy.out_body := Proxy.generate_body prompt |}.

(** The address of the provider when the key is [undefined]. *)
Definition url_without_key : string :=
  "https://generativelanguage.googleapis.com/v1beta/models/gemini-3-pro-preview"
  +:+ ":generateContent?key=undefined".

(** The message of the error thrown for a reply of the provider that is
    not a success. *)
Definition provider_error (code : Z) (errorData : json) : string :=
  "Gemini API error: " +:+ decimal code +:+ " " +:+ stringify errorData.

(** The call of the embedded server for the analysis of an incident. *)
Definition embedded_incident_call (apiKey : string) (debugData : json) : Proxy.outbound :=
  {| Proxy.out_url := Embedded.generate_url apiKey;
     Proxy.out_body :=
       EmbeddedApi.call_body (JStr (EmbeddedApi.incident_heading +:+ stringify debugData)) |}.

Definition llm_request : json := JObj [("prompt", JStr "Hello")].

(** The request the client sends for a repository in which the scan found
    nothing. *)
Definition client_request : json := Client.request "test" "repo" Analysis.initial.

(** The list on the screen is an array without [null], and the report on
    view, when there is one, is in it. *)
Definition view_is_listed (a : App.app) : Prop :=
  ∃ items, App.listed a = JArr items
           ∧ Forall (fun r => r ≠ JNull) items
           ∧ ∀ r, App.currentReport a = Some r → r ∈ items.

(** A state that shows the first of two stored reports. *)
Definition two_reports : Handlers.state :=
  {| Handlers.app := holding [Example.first_report; Example.later_report]
                       Example.empty_store
                       (Some (Types.report_json Example.first_report));
     Handlers.error := None |}.

(** *** Base64 as GitHub writes it (RFC 4648) *)

Definition alphabet (v : N) : ascii :=
  ascii_of_N (if v <? 26 then v + 65
              else if v <? 52 then v + 71
              else if v <? 62 then v - 4
              else if v =? 62 then 43 else 47)%N.

Fixpoint base64 (bytes : list ascii) : list ascii :=
  match bytes with
  | a :: b :: c :: rest =>
      let n := (N_of_ascii a * 65536 + N_of_ascii b * 256 + N_of_ascii c)%N in
      alphabet (n / 262144) :: alphabet ((n / 4096) mod 64) :: alphabet ((n / 64) mod 64)
      :: alphabet (n mod 64) :: base64 rest
  | [a; b] =>
      let n := ((N_of_ascii a * 256 + N_of_ascii b) * 4)%N in
      [alphabet (n / 4096); alphabet ((n / 64) mod 64); alphabet (n mod 64); Content.padding]
  | [a] =>
      let n := (N_of_ascii a * 16)%N in
      [alphabet (n / 64); alphabet (n mod 64); Content.padding; Content.padding]
  | [] => []
  end.

(** A text without its whitespace, as a list of characters. *)
Definition without_whitespace (s : string) : list ascii :=
  List.filter (fun c => negb (Content.ascii_whitespace c)) (list_ascii_of_string s).

(** The request for the content of a path. *)
Definition content_request (token : option string) (owner repo path : string)
  : GithubApi.request :=
  {| GithubApi.req_url :=
       GithubApi.repos +:+ owner +:+ "/" +:+ repo +:+ "/contents/" +:+ path;
     GithubApi.req_headers := GithubApi.getGithubHeaders token |}.

(** What GitHub answers for a file that holds [hello], with the line
    break it puts at the end of the content. *)
Definition hello_file : json :=
  JObj [("name", JStr "README.md"); ("encoding", JStr "base64");
        ("content", JStr ("aGVsbG8=" +:+ newline))].

(** *** A server behind [fetch]

    Express hands the parsed body of a request to the handler, and
    [res.status(s).json(v)] sends the status with the text of [v];
    [reason] is the reason phrase that goes with a status. *)
Definition serves (handler : json → outcome Proxy.response) (reason : Z → string)
    (server : string → fetch_result) : Prop :=
  ∀ body request r,
    parse body = Parsed request → handler request = Returns r →
    server body
    = HttpResponse (Proxy.status r) (reason (Proxy.status r)) (stringify (Proxy.payload r)).

(** A server that runs a handler, for the examples. *)
Definition running (handler : json → outcome Proxy.response) (body : string)
  : fetch_result :=
  match parse body with
  | Parsed request =>
      match handler request with
      | Returns r => HttpResponse (Proxy.status r) "" (stringify (Proxy.payload r))
      | _ => NetworkFailure
      end
  | _ => NetworkFailure
  end.

(** The incident endpoint of the first server as a handler. *)
Definition incident_handler (eng : engine) (env : gmap string string)
    (upstream : Proxy.outbound → fetch_result) (startTime endTime : Z) (timestamp : string)
    (request : json) : outcome Proxy.response :=
  fst (Incident.analyze_incident eng env request upstream startTime endTime timestamp).

(** A store that holds a text under the reports key and refuses every
    write, as a browser does whose quota is used up. *)
Definition full_store (text : string) : App.storage :=
  {| App.items := {[ App.reports_key := text ]};
     App.readable := true;
     App.accepts := fun _ _ => false |}.

(** *** The violations of a result *)

(** The impact a violation counts for. *)
Definition rating (violation : Accessibility.AxeViolation) : Accessibility.Impact :=
  default Accessibility.Minor (Accessibility.impact violation).

Definition rated (level : Accessibility.Impact) (violation : Accessibility.AxeViolation)
  : bool :=
  match level, rating violation with
  | Accessibility.Critical, Accessibility.Critical
  | Accessibility.Serious, Accessibility.Serious
  | Accessibility.Moderate, Accessibility.Moderate
  | Accessibility.Minor, Accessibility.Minor => true
  | _, _ => false
  end.

(** How many violations of a result count for an impact. *)
Definition count_rated (level : Accessibility.Impact) (results : Accessibility.AxeResult) : Z :=
  Z.of_nat (length (List.filter (rated level) (Accessibility.violations results))).

(** What the violations take off the score: for each, the weight of its
    impact times the number of its nodes. *)
Definition deduction (violation : Accessibility.AxeViolation) : Z :=
  Accessibility.weight (rating violation)
  * Z.of_nat (length (Accessibility.nodes violation)).

Definition deductions (results : Accessibility.AxeResult) : Z :=
  foldr (fun violation rest => deduction violation + rest) 0
    (Accessibility.violations results).

(** *** What the client posts *)





(** *** What the prompt builders convert *)

(** A computation that keeps a property of the data, however it ends. *)
Definition keeps {A : Type} (P : Analysis.RepoAnalysisData -> Prop) (m : Analysis.run A)
  : Prop :=
  forall d, P d -> P (fst (m d)).

(** Data whose languages and file names can be converted to strings. *)
Definition printable (d : Analysis.RepoAnalysisData) : Prop :=
  forallb convertible (Analysis.languages d) = true
  ∧ forallb convertible_val (Analysis.fileStructure d) = true.

(** Answers of GitHub in which the language of the repository and the
    names of the entries can be converted to strings; those GitHub gives
    are strings. *)
Definition language_printable (info : outcome json) : Prop :=
  forall repoInfo, info = Returns repoInfo ->
    convertible_val (get repoInfo "language") = true.

Definition names_printable (listing : outcome json) : Prop :=
  forall items, listing = Returns (JArr items) ->
    forallb (fun item => convertible_val (get item "name")) items = true.

(** A request for the analysis of an incident whose symptoms are the
    object [{"toString": 1}], which has no conversion to a string. *)
Definition unprintable_incident_request : json :=
  JObj [("debugData",
         JObj [("errorLog", JStr "TypeError: x is undefined");
               ("symptoms", JObj [("toString", JNum 1)])])].

(** *** What the export writes for a report of the declared types *)

Definition array_items (v : jsval) : list json :=
  match v with
  | Some (JArr items) => items
  | _ => []
  end.

(** One line for each string of a list. *)
Definition exported_lines (items : list json) : string :=
  join newline (map (fun x => "- " +:+ to_string x) items).

(** The section of the domain at index [i]. *)
Definition exported_domain (i : nat) (domain : json) : string :=
  ReportExport.domain_0 +:+ decimal (Z.of_nat i + 1)
  +:+ ReportExport.domain_1 +:+ to_string_val (get domain "title")
  +:+ ReportExport.domain_2 +:+ ReportExport.domain_words (get domain "status")
  +:+ ReportExport.domain_3 +:+ to_string_val (get domain "description")
  +:+ ReportExport.domain_4 +:+ exported_lines (array_items (get domain "findings"))
  +:+ ReportExport.domain_5 +:+ exported_lines (array_items (get domain "recommendations"))
  +:+ ReportExport.domain_6.

Fixpoint exported_domains (i : nat) (domains : list json) : list string :=
  match domains with
  | [] => []
  | domain :: rest => exported_domain i domain :: exported_domains (S i) rest
  end.

(** The sentence [none] for an empty list, the rows of the list
    otherwise. *)
Definition exported_listing (none : string) (rows : list json -> string) (v : json)
  : string :=
  match array_items (Some v) with
  | [] => none
  | items => rows items
  end.

(** A report of the declared types with a domain, two critical issues
    and a recommendation. *)
Definition full_report : Types.ProductionReport :=
  {| Types.id := "report-1735689600000";
     Types.repository := Example.repository;
     Types.summary := JStr "Test summary";
     Types.overallStatus := JStr "conditional";
     Types.domains :=
       JArr [JObj [("title", JStr "Code Quality"); ("status", JStr "ready");
                   ("description", JStr "Code quality assessment");
                   ("findings", JArr [JStr "No issues found"]);
                   ("recommendations", JArr [])]];
     Types.criticalIssues := JArr [JStr "No tests"; JStr "No monitoring"];
     Types.recommendations := JArr [JStr "Add tests"];
     Types.conclusion := JStr "Test conclusion";
     Types.createdAt := "2025-01-01T00:00:00.000Z" |}.

(** * Properties *)

(** ** Reads on report objects *)

Lemma read_object (eng : engine) (fields : list (string * json)) (k : string) :
  read eng (Some (JObj fields)) k = Returns (assoc k fields).
Proof. reflexivity. Qed.

Lemma report_json_id (r : Types.ProductionReport) :
  get (Types.report_json r) "id" = Some (JStr (Types.id r)).
Proof. reflexivity. Qed.

Lemma eqb_string_decide (a b : string) : String.eqb a b = bool_decide (a = b).
Proof.
  destruct (String.eqb_spec a b) as [->|Hne].
  - by rewrite bool_decide_eq_true_2.
  - by rewrite bool_decide_eq_false_2.
Qed.

(** ** Deleting by id *)

Lemma keep_typed (eng : engine) (reportId : string) (rs : list Types.ProductionReport) :
  keep (fun r => rid ← read eng (Some r) "id";
                 Returns (negb (strict_eq_string rid reportId)))
       (map Types.report_json rs)
  = Returns (map Types.report_json (kept_reports reportId rs)).
Proof.
  unfold kept_reports.
  induction rs as [|r rs IH]; [reflexivity|].
  cbn [map keep]. rewrite IH.
  change (read eng (Some (Types.report_json r)) "id")
    with (@Returns jsval (Some (JStr (Types.id r)))).
  cbn. rewrite eqb_string_decide.
  destruct (decide (Types.id r ≠ reportId)) as [Hne|Heq].
  - by rewrite bool_decide_eq_false_2.
  - apply dec_stable in Heq. by rewrite bool_decide_eq_true_2.
Qed.

Lemma delete_report_typed (eng : engine) (reportId : string)
    (rs : list Types.ProductionReport) :
  App.delete_report eng reportId (JArr (map Types.report_json rs))
  = Returns (JArr (map Types.report_json (kept_reports reportId rs))).
Proof. unfold App.delete_report. cbn [or_else truthy]. by rewrite keep_typed. Qed.

Lemma kept_reports_app (reportId : string) (l1 l2 : list Types.ProductionReport) :
  kept_reports reportId (l1 ++ l2) = kept_reports reportId l1 ++ kept_reports reportId l2.
Proof. apply filter_app. Qed.

Lemma kept_reports_all (reportId : string) (rs : list Types.ProductionReport) :
  reportId ∉ map Types.id rs → kept_reports reportId rs = rs.
Proof.
  intros Hnot. unfold kept_reports.
  induction rs as [|r rs IH]; [reflexivity|].
  rewrite filter_cons. cbn in Hnot. apply not_elem_of_cons in Hnot as [Hne Hrest].
  rewrite decide_True by congruence. f_equal. by apply IH.
Qed.

Lemma kept_reports_sublist (reportId : string) (rs : list Types.ProductionReport) :
  kept_reports reportId rs `sublist_of` rs.
Proof.
  unfold kept_reports. induction rs as [|r rs IH]; [constructor|].
  rewrite filter_cons. case_decide; by constructor.
Qed.

Lemma kept_reports_elem (reportId : string) (rs : list Types.ProductionReport)
    (r : Types.ProductionReport) :
  r ∈ kept_reports reportId rs ↔ r ∈ rs ∧ Types.id r ≠ reportId.
Proof. unfold kept_reports. rewrite list_elem_of_filter. tauto. Qed.

Lemma kept_reports_one (reportId : string) (l1 l2 : list Types.ProductionReport)
    (r : Types.ProductionReport) :
  Types.id r = reportId → reportId ∉ map Types.id (l1 ++ l2) →
  kept_reports reportId (l1 ++ r :: l2) = l1 ++ l2.
Proof.
  intros Hid Hnot. rewrite map_app in Hnot. apply not_elem_of_app in Hnot as [H1 H2].
  rewrite kept_reports_app. change (r :: l2) with ([r] ++ l2). rewrite kept_reports_app.
  rewrite (kept_reports_all _ l1 H1), (kept_reports_all _ l2 H2).
  unfold kept_reports at 1. rewrite filter_cons, filter_nil.
  rewrite decide_False by (intros Hne; by apply Hne). reflexivity.
Qed.

Lemma handleDeleteReport_listed (eng : engine) (reportId : string)
    (rs : list Types.ProductionReport) (st : App.storage) (current : option json) :
  App.listed <$> App.handleDeleteReport eng reportId (holding rs st current)
  = Returns (JArr (map Types.report_json (kept_reports reportId rs))).
Proof.
  unfold App.handleDeleteReport, App.setStoredValue, holding. cbn [App.reports App.value].
  rewrite delete_report_typed. reflexivity.
Qed.

Lemma handleAnalyze_listed (eng : engine) (r : Types.ProductionReport)
    (rs : list Types.ProductionReport) (st : App.storage) (current : option json) :
  App.listed <$> App.handleAnalyze eng r (holding rs st current)
  = Returns (JArr (map Types.report_json (r :: rs))).
Proof. reflexivity. Qed.

(** C8, as amended.  Deleting by id, on a list of typed reports, keeps
    exactly the reports whose id differs from the given one, in their
    original order: the kept list is a sublist of the stored one, a report
    is kept if and only if it was stored and has another id, and when one
    entry only carries the id, the result is the list without that entry. *)
Theorem delete_by_id_keeps_the_others (eng : engine) (reportId : string)
    (rs : list Types.ProductionReport) (st : App.storage) (current : option json) :
  App.listed <$> App.handleDeleteReport eng reportId (holding rs st current)
    = Returns (JArr (map Types.report_json (kept_reports reportId rs)))
  ∧ kept_reports reportId rs `sublist_of` rs
  ∧ (∀ r, r ∈ kept_reports reportId rs ↔ r ∈ rs ∧ Types.id r ≠ reportId)
  ∧ (∀ l1 r l2, rs = l1 ++ r :: l2 → Types.id r = reportId →
       reportId ∉ map Types.id (l1 ++ l2) → kept_reports reportId rs = l1 ++ l2).
Proof.
  split; [apply handleDeleteReport_listed|].
  split; [apply kept_reports_sublist|].
  split; [intros r; apply kept_reports_elem|].
  intros l1 r l2 -> Hid Hnot. by apply kept_reports_one.
Qed.

(** C8, witness: of three reports with different ids the middle one is
    deleted, the two others stay, in their order. *)
Lemma delete_by_id_keeps_the_others_witness :
  kept_reports (Types.id Example.later_report)
    [Example.first_report; Example.later_report;
     {| Types.id := "report-3"; Types.repository := Example.repository;
        Types.summary := JStr "s"; Types.overallStatus := JStr "ready";
        Types.domains := JArr []; Types.criticalIssues := JArr [];
        Types.recommendations := JArr []; Types.conclusion := JStr "c";
        Types.createdAt := "2025-01-02T00:00:00.000Z" |}]
  = [Example.first_report;
     {| Types.id := "report-3"; Types.repository := Example.repository;
        Types.summary := JStr "s"; Types.overallStatus := JStr "ready";
        Types.domains := JArr []; Types.criticalIssues := JArr [];
        Types.recommendations := JArr []; Types.conclusion := JStr "c";
        Types.createdAt := "2025-01-02T00:00:00.000Z" |}].
Proof.
  refine (proj2 (proj2 (proj2 (delete_by_id_keeps_the_others Example.node _ _
            Example.empty_store None))) [Example.first_report] Example.later_report
            [_] eq_refl eq_refl _).
  cbn. intros Hin. repeat (apply elem_of_cons in Hin as [Hin|Hin]; [discriminate Hin|]).
  by apply elem_of_nil in Hin.
Defined.

(** C8, counterexample: two stored reports carry the same id; deleting
    by that id removes both, not exactly one entry. *)
Lemma delete_by_id_removes_both :
  App.listed <$> App.handleDeleteReport Example.node (Types.id Example.first_report)
      (holding [Example.first_report; Example.second_report] Example.empty_store None)
    = Returns (JArr [])
  ∧ Example.first_report ≠ Example.second_report
  ∧ Types.id Example.first_report = Types.id Example.second_report.
Proof. split; [reflexivity|]. split; [discriminate|reflexivity]. Qed.

(** ** Report ids *)

Lemma generateProductionReport_id (eng : engine) (owner repo url analyzedAt : string)
    (now : Z) (reply : fetch_result) (r : Types.ProductionReport) :
  Analyzer.generateProductionReport eng owner repo url analyzedAt now reply = Returns r →
  Types.id r = Analyzer.report_id now.
Proof.
  unfold Analyzer.generateProductionReport.
  destruct (Analyzer.callProxyAnalysis eng reply) as [reportData|e|]; cbn;
    [|intros [= <-]; reflexivity|discriminate].
  destruct reportData as [[]|]; cbn; intros [= <-]; reflexivity.
Qed.

Lemma generateProductionReport_returns (eng : engine) (owner repo url analyzedAt : string)
    (now : Z) (reply : fetch_result) :
  Analyzer.generateProductionReport eng owner repo url analyzedAt now reply = Beyond
  ∨ ∃ r, Analyzer.generateProductionReport eng owner repo url analyzedAt now reply
         = Returns r.
Proof.
  unfold Analyzer.generateProductionReport.
  destruct (Analyzer.callProxyAnalysis eng reply) as [reportData|e|]; cbn; eauto.
  destruct reportData as [[]|]; cbn; eauto.
Qed.

(** [callProxyAnalysis] gives a value or throws, on every reply whose
    body the model follows. *)
Lemma callProxyAnalysis_modelled (eng : engine) (reply : fetch_result) :
  modelled reply = true → Analyzer.callProxyAnalysis eng reply ≠ Beyond.
Proof.
  destruct reply as [|status statusText body]; [discriminate|].
  unfold modelled, Analyzer.callProxyAnalysis, JSON_parse.
  intros Hbody. destruct (parse body) as [v| |]; [| |discriminate Hbody].
  all: destruct (ok status); cbn; try discriminate.
  all: destruct v; cbn; try discriminate.
  all: unfold ToString; by destruct (convertible_val _).
Qed.

(** On such a reply [generateProductionReport] returns a report. *)
Lemma generateProductionReport_modelled (eng : engine)
    (owner repo url analyzedAt : string) (now : Z) (reply : fetch_result) :
  modelled reply = true →
  ∃ r, Analyzer.generateProductionReport eng owner repo url analyzedAt now reply
       = Returns r.
Proof.
  intros Hreply.
  destruct (generateProductionReport_returns eng owner repo url analyzedAt now reply)
    as [HB|Hr]; [|exact Hr].
  exfalso. apply (callProxyAnalysis_modelled eng reply Hreply).
  unfold Analyzer.generateProductionReport in HB.
  destruct (Analyzer.callProxyAnalysis eng reply) as [reportData|e|]; [|discriminate HB|done].
  by destruct reportData as [[]|].
Qed.

Lemma kept_reports_same_id (reportId : string) (r : Types.ProductionReport)
    (rs : list Types.ProductionReport) :
  Types.id r = reportId → kept_reports reportId (r :: rs) = kept_reports reportId rs.
Proof.
  intros Hid. unfold kept_reports. rewrite filter_cons.
  by rewrite decide_False by (intros Hne; by apply Hne).
Qed.

(** C10.  [generateProductionReport] returns a report on every reply of
    the proxy, and on both of its paths the id of the report is
    ["report-"] followed by the reading of [Date.now()]: on the path of
    the [catch] block, taken here on a network failure, the report is the
    fallback with that id.  Two runs made at the same reading of the clock,
    for whatever repositories and replies, return reports of the same id;
    [handleAnalyze] puts both in front of the list, which then holds that
    id twice; one delete by that id removes both; and deleting by an id
    leaves no report with that id.  The replies are those whose body the
    model follows ([modelled]). *)
Theorem report_id_is_the_clock_reading (eng : engine) (owner repo url analyzedAt : string)
    (now : Z) (reply : fetch_result) :
  modelled reply = true →
  (∃ r, Analyzer.generateProductionReport eng owner repo url analyzedAt now reply
        = Returns r
        ∧ Types.id r = "report-" +:+ decimal now)
  ∧ (∃ r, Analyzer.generateProductionReport eng owner repo url analyzedAt now
            NetworkFailure = Returns r
          ∧ r = Analyzer.fallback_report owner repo url analyzedAt now
          ∧ Types.id r = "report-" +:+ decimal now)
  ∧ (∀ owner' repo' url' analyzedAt' reply' rs st current,
       modelled reply' = true →
       ∃ r1 r2,
         Analyzer.generateProductionReport eng owner repo url analyzedAt now reply
           = Returns r1
         ∧ Analyzer.generateProductionReport eng owner' repo' url' analyzedAt' now reply'
           = Returns r2
         ∧ Types.id r1 = Types.id r2
         ∧ (a ← App.handleAnalyze eng r1 (holding rs st current);
            App.listed <$> App.handleAnalyze eng r2 a)
           = Returns (JArr (map Types.report_json (r2 :: r1 :: rs)))
         ∧ ¬ NoDup (map Types.id (r2 :: r1 :: rs))
         ∧ App.listed <$> App.handleDeleteReport eng (Types.id r1)
                            (holding (r2 :: r1 :: rs) st current)
           = Returns (JArr (map Types.report_json (kept_reports (Types.id r1) rs))))
  ∧ (∀ reportId rs st current,
       App.listed <$> App.handleDeleteReport eng reportId (holding rs st current)
         = Returns (JArr (map Types.report_json (kept_reports reportId rs)))
       ∧ reportId ∉ map Types.id (kept_reports reportId rs)).
Proof.
  intros Hreply.
  destruct (generateProductionReport_modelled eng owner repo url analyzedAt now reply
              Hreply) as [r Hr].
  pose proof (generateProductionReport_id eng _ _ _ _ _ _ _ Hr) as Hid.
  split; [by exists r|].
  split; [by eexists|].
  split.
  { intros owner' repo' url' analyzedAt' reply' rs st current Hreply'.
    destruct (generateProductionReport_modelled eng owner' repo' url' analyzedAt' now
                reply' Hreply') as [r' Hr'].
    pose proof (generateProductionReport_id eng _ _ _ _ _ _ _ Hr') as Hid'.
    exists r, r'. split; [exact Hr|]. split; [exact Hr'|].
    assert (Types.id r = Types.id r') as Hsame by congruence.
    split; [exact Hsame|]. split; [reflexivity|]. split.
    - intros Hnodup. cbn in Hnodup. apply NoDup_cons in Hnodup as [Hnot _].
      apply Hnot. rewrite Hsame. apply elem_of_cons. by left.
    - rewrite handleDeleteReport_listed.
      by rewrite (kept_reports_same_id _ r'), (kept_reports_same_id _ r). }
  intros reportId rs st current. split; [apply handleDeleteReport_listed|].
  intros Hin. apply list_elem_of_fmap in Hin as (r0 & Hid0 & Hr0).
  apply kept_reports_elem in Hr0 as [_ Hne]. by apply Hne.
Qed.

(** C10, witness: two runs in the same millisecond, one answered by a
    report and one by a network failure, give two different reports of
    one id; both are listed, and one delete removes both. *)
Lemma report_id_is_the_clock_reading_witness :
  ∃ r1 r2,
    Analyzer.generateProductionReport Example.node "test" "repo"
      "https://github.com/test/repo" "2025-01-01T00:00:00.000Z" 1735689600000
      (proxy_reply report_without_arrays) = Returns r1
    ∧ Analyzer.generateProductionReport Example.node "other" "work"
        "https://github.com/other/work" "2025-01-01T00:00:00.000Z" 1735689600000
        NetworkFailure = Returns r2
    ∧ Types.id r1 = Types.id r2
    ∧ (a ← App.handleAnalyze Example.node r1 (holding [] Example.empty_store None);
       App.listed <$> App.handleAnalyze Example.node r2 a)
      = Returns (JArr (map Types.report_json [r2; r1]))
    ∧ ¬ NoDup (map Types.id [r2; r1])
    ∧ App.listed <$> App.handleDeleteReport Example.node (Types.id r1)
                       (holding [r2; r1] Example.empty_store None)
      = Returns (JArr []).
Proof.
  destruct (report_id_is_the_clock_reading Example.node "test" "repo"
              "https://github.com/test/repo" "2025-01-01T00:00:00.000Z" 1735689600000
              (proxy_reply report_without_arrays)) as (_ & _ & Hboth & _).
  - vm_compute. reflexivity.
  - destruct (Hboth "other" "work" "https://github.com/other/work"
                "2025-01-01T00:00:00.000Z" NetworkFailure [] Example.empty_store None)
      as (r1 & r2 & H1 & H2 & Hid & Hlist & Hdup & Hdel).
    + reflexivity.
    + exists r1, r2. split; [exact H1|]. split; [exact H2|]. split; [exact Hid|].
      split; [exact Hlist|]. split; [exact Hdup|exact Hdel].
Defined.

(** ** Status values *)

Lemma JSON_parse_parsed (eng : engine) (text : string) (v : json) :
  parse text = Parsed v → JSON_parse eng text = Returns v.
Proof. unfold JSON_parse. by intros ->. Qed.

Lemma read_not_null (eng : engine) (v : json) (k : string) :
  v ≠ JNull → read eng (Some v) k = Returns (get v k).
Proof. by destruct v. Qed.

Lemma get_opt_not_null (v : json) (k : string) :
  v ≠ JNull → get_opt (Some v) k = get v k.
Proof. by destruct v. Qed.






Lemma ToString_string (eng : engine) (s : string) : ToString eng (Some (JStr s)) = Returns s.
Proof. reflexivity. Qed.






(** ** Missing arrays *)







(** ** The proxy: the [catch] block *)

(** How the [catch] block types an error, for every message. *)
Lemma failure_type (ft : string) (startTime endTime : Z) (timestamp : string) (e : exn) :
  message e ≠ "" →
  Proxy.details_type (Proxy.failure ft startTime endTime timestamp e)
  = Some (JStr (if includes "Google" (message e) || includes "400" (message e)
                   || includes "404" (message e)
                then "AI_SERVICE_ERROR" else "INTERNAL_ERROR")).
Proof.
  intros Hne. unfold Proxy.failure, Proxy.details_type. cbn.
  destruct (String.eqb_spec (message e) "") as [Heq|_]; [by destruct Hne|]. reflexivity.
Qed.

(** ** The proxy: a missing key *)

Lemma prepare_without_key (eng : engine)
    (build : engine → jsval → jsval → jsval → outcome string)
    (env : gmap string string) (body : json) :
  truthy_val (get body "owner") = true → truthy_val (get body "repo") = true →
  no_key env = true →
  Proxy.prepare eng build (Proxy.GENAI_API_KEY env) body = Returns (Proxy.Reply Proxy.key_missing).
Proof.
  intros Howner Hrepo Hkey. unfold no_key in Hkey. apply negb_true_iff in Hkey.
  unfold Proxy.prepare. destruct body; try discriminate Howner.
  by rewrite Howner, Hrepo, Hkey.
Qed.

Lemma getApiKey_without_key (env : gmap string string) :
  no_key env = true →
  Embedded.getApiKey env
  = Throws (Exn PlainError "MISSING_API_KEY: Gemini API Key is not configured in .env").
Proof.
  unfold no_key, Proxy.GENAI_API_KEY, Embedded.getApiKey, Proxy.key_truthy.
  destruct (env !! "GEMINI_API_KEY") as [g|], (env !! "VITE_GEMINI_API_KEY") as [v|];
    try destruct (String.eqb_spec g "") as [->|Hg];
    try destruct (String.eqb_spec v "") as [->|Hv];
    cbn; rewrite ?negb_involutive; intros H; try reflexivity; try discriminate H.
  all: try (apply String.eqb_eq in H; congruence).
Qed.

(** The embedded variant without a key, once [owner] and [repo] are
    written to the log: the fallback report, and no call. *)
Lemma analyze_body_without_key (eng : engine) (env : gmap string string)
    (owner repo analysisData : jsval) (upstream : Proxy.outbound → fetch_result) :
  no_key env = true →
  ∃ e, Embedded.analyze_body eng env owner repo analysisData upstream
       = (Returns (Embedded.fallback e), []).
Proof.
  intros Hkey. unfold Embedded.analyze_body. rewrite (getApiKey_without_key env Hkey).
  destruct (Embedded.createSafePrompt eng owner repo analysisData); eauto.
Qed.

(** C3, as amended.  With a truthy [owner] and [repo] and no key in the
    environment, the proxy server (either file) replies 500 with the body
    [{error: "Configuration error: ..."}], the same whatever the request,
    and makes no call to the provider.  The embedded variant makes no call
    either; when [owner] and [repo] can be converted to strings, what it
    sends is its fallback report, with status 200; when one of them
    cannot, an object with a field [toString] or an array holding one, the
    handler throws before its [try] block and sends nothing. *)
Theorem missing_key_makes_no_call (eng : engine) (env : gmap string string) (body : json)
    (upstream : Proxy.outbound → fetch_result) (startTime endTime : Z) (timestamp : string) :
  truthy_val (get body "owner") = true → truthy_val (get body "repo") = true →
  no_key env = true →
  Part000.analyze eng env body upstream startTime endTime timestamp
    = (Returns Proxy.key_missing, [])
  ∧ Part001.analyze eng env body upstream startTime endTime timestamp
    = (Returns Proxy.key_missing, [])
  ∧ Proxy.status Proxy.key_missing = 500
  ∧ String.prefix "Configuration error"
      (to_string_val (get (Proxy.payload Proxy.key_missing) "error")) = true
  ∧ (Embedded.analyze eng env body upstream).2 = []
  ∧ (convertible_val (get body "owner") = true →
     convertible_val (get body "repo") = true →
     ∃ e, Embedded.analyze eng env body upstream = (Returns (Embedded.fallback e), [])
          ∧ Proxy.status (Embedded.fallback e) = 200)
  ∧ (convertible_val (get body "owner") && convertible_val (get body "repo") = false →
     Embedded.analyze eng env body upstream
     = (Throws (Exn TypeError (msg_to_primitive eng)), [])).
Proof.
  intros Howner Hrepo Hkey.
  unfold Part000.analyze, Part001.analyze, Proxy.analyze.
  rewrite !(prepare_without_key eng _ env body Howner Hrepo Hkey).
  do 4 (split; [reflexivity|]).
  unfold Embedded.analyze. destruct body; try discriminate Howner.
  rewrite Howner, Hrepo. cbn [negb orb].
  destruct (analyze_body_without_key eng env (get (JObj fields) "owner")
              (get (JObj fields) "repo") (get (JObj fields) "analysisData") upstream Hkey)
    as [e He].
  rewrite He. unfold ToString.
  destruct (convertible_val (get (JObj fields) "owner")),
    (convertible_val (get (JObj fields) "repo")); cbn.
  all: split; [reflexivity|].
  all: split; [intros; try discriminate; by exists e|intros; try discriminate; reflexivity].
Qed.

(** C3, witness: the request of the client, an empty environment. *)
Lemma missing_key_makes_no_call_witness :
  Part000.analyze Example.node ∅ analyze_request quota_exhausted
    1735689600000 1735689600250 "2025-01-01T00:00:00.250Z"
  = (Returns Proxy.key_missing, [])
  ∧ (∃ e, Embedded.analyze Example.node ∅ analyze_request quota_exhausted
          = (Returns (Embedded.fallback e), [])
          ∧ Proxy.status (Embedded.fallback e) = 200)
  ∧ Embedded.analyze Example.node ∅ unprintable_owner_request quota_exhausted
    = (Throws (Exn TypeError "Cannot convert object to primitive value"), []).
Proof.
  destruct (missing_key_makes_no_call Example.node ∅ analyze_request quota_exhausted
              1735689600000 1735689600250 "2025-01-01T00:00:00.250Z")
    as (Hproxy & _ & _ & _ & _ & Hembedded & _); [reflexivity..|].
  destruct (missing_key_makes_no_call Example.node ∅ unprintable_owner_request
              quota_exhausted 1735689600000 1735689600250 "2025-01-01T00:00:00.250Z")
    as (_ & _ & _ & _ & _ & _ & Hthrows); [reflexivity..|].
  split; [exact Hproxy|]. split; [by apply Hembedded|by apply Hthrows].
Defined.

(** C3, counterexample: the embedded variant, same request, no key: the
    reply has status 200 and says [success: true]. *)
Lemma embedded_missing_key_replies_200 :
  Proxy.status <$> (Embedded.analyze Example.node ∅ analyze_request quota_exhausted).1
    = Returns 200
  ∧ (fun r => get (Proxy.payload r) "success")
      <$> (Embedded.analyze Example.node ∅ analyze_request quota_exhausted).1
    = Returns (Some (JBool true))
  ∧ Embedded.getApiKey ∅
    = Throws (Exn PlainError "MISSING_API_KEY: Gemini API Key is not configured in .env").
Proof. vm_compute. repeat split; reflexivity. Qed.

(** ** The prompt builders *)

Lemma prepare_with_key (eng : engine)
    (build : engine → jsval → jsval → jsval → outcome string)
    (env : gmap string string) (body : json) :
  truthy_val (get body "owner") = true → truthy_val (get body "repo") = true →
  no_key env = false →
  Proxy.prepare eng build (Proxy.GENAI_API_KEY env) body
  = (prompt ← build eng (get body "owner") (get body "repo") (get body "analysisData");
     Returns (Proxy.Send {| Proxy.out_url := Proxy.generate_url (Proxy.GENAI_API_KEY env);
                            Proxy.out_body := Proxy.generate_body prompt |})).
Proof.
  intros Howner Hrepo Hkey. unfold no_key in Hkey. apply negb_false_iff in Hkey.
  unfold Proxy.prepare. destruct body; try discriminate Howner.
  by rewrite Howner, Hrepo, Hkey.
Qed.

Lemma truthy_string (s : string) : s ≠ "" → truthy_val (Some (JStr s)) = true.
Proof. intros Hs. cbn. by destruct (String.eqb_spec s "") as [->|_]. Qed.

(** C4, the code at the failing input.  In the second server file the
    builder reads [analysisData.languages] itself and not the guarded
    [data]: without [analysisData] it throws, for every owner and repo
    that are strings, and the handler replies with the failure of its
    [catch] block without a call to the provider.  The builder of the
    first server file returns a prompt on the same input, and its handler
    makes the call. *)
Theorem buildAnalysisPrompt_throws_without_data (eng : engine) (env : gmap string string)
    (body : json) (upstream : Proxy.outbound → fetch_result) (startTime endTime : Z)
    (timestamp : string) (owner repo : string) :
  get body "owner" = Some (JStr owner) → owner ≠ "" →
  get body "repo" = Some (JStr repo) → repo ≠ "" →
  no_key env = false → get body "analysisData" = None →
  Part001.buildAnalysisPrompt eng (Some (JStr owner)) (Some (JStr repo)) None
    = Throws (Exn TypeError (msg_read_nullish eng "undefined" "languages"))
  ∧ Part001.analyze eng env body upstream startTime endTime timestamp
    = (Returns (Proxy.failure Part001.failure_text startTime endTime timestamp
                  (Exn TypeError (msg_read_nullish eng "undefined" "languages"))), [])
  ∧ (∃ prompt,
       Part000.buildAnalysisPrompt eng (Some (JStr owner)) (Some (JStr repo)) None
       = Returns prompt)
  ∧ length (snd (Part000.analyze eng env body upstream startTime endTime timestamp))
    = 1%nat.
Proof.
  intros Howner Hno Hrepo Hnr Hkey Hdata. split; [reflexivity|].
  assert (truthy_val (get body "owner") = true) as Ho
    by (rewrite Howner; by apply truthy_string).
  assert (truthy_val (get body "repo") = true) as Hr
    by (rewrite Hrepo; by apply truthy_string).
  unfold Part001.analyze, Part000.analyze, Proxy.analyze.
  rewrite !(prepare_with_key eng _ env body Ho Hr Hkey), Hdata, Howner, Hrepo.
  split; [reflexivity|]. split; [by eexists|reflexivity].
Qed.

(** C4, at the request of the tests without [analysisData]. *)
Lemma buildAnalysisPrompt_throws_without_data_witness :
  Part001.buildAnalysisPrompt Example.node (Some (JStr "test")) (Some (JStr "repo")) None
    = Throws (Exn TypeError "Cannot read properties of undefined (reading 'languages')")
  ∧ Part001.analyze Example.node env_with_key bare_request quota_exhausted
      1735689600000 1735689600250 "2025-01-01T00:00:00.250Z"
    = (Returns (Proxy.failure Part001.failure_text 1735689600000 1735689600250
                  "2025-01-01T00:00:00.250Z"
                  (Exn TypeError
                     "Cannot read properties of undefined (reading 'languages')")),
       [])
  ∧ length (snd (Part000.analyze Example.node env_with_key bare_request quota_exhausted
                   1735689600000 1735689600250 "2025-01-01T00:00:00.250Z"))
    = 1%nat.
Proof.
  pose proof (buildAnalysisPrompt_throws_without_data Example.node env_with_key
                bare_request quota_exhausted 1735689600000 1735689600250
                "2025-01-01T00:00:00.250Z" "test" "repo" eq_refl ltac:(discriminate)
                eq_refl ltac:(discriminate) eq_refl eq_refl)
    as (Hbuilder & Hsecond & _ & Hfirst).
  split; [exact Hbuilder|]. split; [exact Hsecond|exact Hfirst].
Defined.

(** The handler then replies 500, typed [INTERNAL_ERROR], without a call. *)
Lemma second_server_rejects_bare_request :
  let '(reply, calls) :=
    Part001.analyze Example.node env_with_key bare_request quota_exhausted
      1735689600000 1735689600250 "2025-01-01T00:00:00.250Z" in
  Proxy.status <$> reply = Returns 500
  ∧ Proxy.details_message <$> reply
    = Returns (Some (JStr "Cannot read properties of undefined (reading 'languages')"))
  ∧ calls = [].
Proof. vm_compute. repeat split; reflexivity. Qed.

(** [analysisData || {}] when [analysisData] is missing or falsy. *)
Lemma or_else_falsy (v : jsval) (d : json) : truthy_val v = false → or_else v d = d.
Proof. destruct v as [j|]; [|done]. cbn. by intros ->. Qed.

(** The builder of the first server file does what the second misses:
    when [analysisData] is missing, or is [null] or another falsy value,
    it returns, for an owner and a repo that are strings, the prompt with
    the placeholder for the languages and "no" for every flag.  What it
    converts first is [owner], then [repo]: when one of them has no
    conversion to a string, the builder throws a [TypeError]. *)
Theorem buildAnalysisPrompt_without_data (eng : engine) (analysisData : jsval) :
  truthy_val analysisData = false →
  (∀ owner repo : string,
     Part000.buildAnalysisPrompt eng (Some (JStr owner)) (Some (JStr repo)) analysisData
     = Returns (Part000.text_0 +:+ owner
                +:+ Part000.text_1 +:+ repo
                +:+ Part000.text_2 +:+ Part000.not_specified
                +:+ Part000.text_3 +:+ Part000.no
                +:+ Part000.text_4 +:+ Part000.no
                +:+ Part000.text_5 +:+ Part000.no
                +:+ Part000.text_6 +:+ Part000.no
                +:+ Part000.text_7))
  ∧ (∀ owner repo : jsval,
       convertible_val owner && convertible_val repo = false →
       Part000.buildAnalysisPrompt eng owner repo analysisData
       = Throws (Exn TypeError (msg_to_primitive eng))).
Proof.
  intros Hdata. unfold Part000.buildAnalysisPrompt.
  rewrite (or_else_falsy analysisData (JObj []) Hdata). split.
  - intros owner repo. reflexivity.
  - intros owner repo Hconv. unfold ToString.
    destruct (convertible_val owner); [|reflexivity].
    cbn in Hconv. by rewrite Hconv.
Qed.

(** At the call of the tests, and at an owner that is the object
    [{"toString": 1}]. *)
Lemma buildAnalysisPrompt_without_data_witness :
  (∃ prompt,
     Part000.buildAnalysisPrompt Example.node (Some (JStr "test")) (Some (JStr "repo")) None
     = Returns prompt
     ∧ includes ("test" +:+ Part000.text_1 +:+ "repo" +:+ Part000.text_2
                 +:+ Part000.not_specified) prompt = true)
  ∧ Part000.buildAnalysisPrompt Example.node (Some (JObj [("toString", JNum 1)]))
      (Some (JStr "repo")) None
    = Throws (Exn TypeError "Cannot convert object to primitive value").
Proof.
  destruct (buildAnalysisPrompt_without_data Example.node None eq_refl)
    as [Hprompt Hthrows].
  split.
  - eexists. split; [apply (Hprompt "test" "repo")|]. vm_compute. reflexivity.
  - apply Hthrows. reflexivity.
Defined.

(** ** The store *)

Lemma useKV_initial_unusable (eng : engine) (st : App.storage) (key : string) (d : json) :
  unusable (App.getItem st key) → App.useKV_initial eng st key d = Returns d.
Proof.
  unfold App.useKV_initial. intros H.
  inversion H as [e He|He|He|text Hparse He]; cbn; try reflexivity.
  unfold JSON_parse. rewrite Hparse. by destruct (String.eqb text "").
Qed.

Lemma useKV_initial_never_throws (eng : engine) (st : App.storage) (key : string)
    (d : json) :
  App.useKV_initial eng st key d = Beyond
  ∨ ∃ v, App.useKV_initial eng st key d = Returns v.
Proof.
  unfold App.useKV_initial.
  destruct (App.getItem st key) as [[text|]|e|]; cbn; eauto.
  destruct (String.eqb text ""); eauto.
  destruct (JSON_parse eng text); cbn; eauto.
Qed.

Lemma useKV_initial_parsed (eng : engine) (st : App.storage) (key text : string)
    (d v : json) :
  App.getItem st key = Returns (Some text) → text ≠ "" → parse text = Parsed v →
  App.useKV_initial eng st key d = Returns v.
Proof.
  intros Hitem Htext Hparse. unfold App.useKV_initial. rewrite Hitem. cbn.
  destruct (String.eqb_spec text "") as [->|_]; [done|].
  by rewrite (JSON_parse_parsed eng text v Hparse).
Qed.

(** C9, as amended.  When the read of the reports key throws, finds
    nothing, finds the empty text or finds a text that is not JSON, the
    list of reports is loaded as the empty list.  A stored text that is
    JSON is loaded as the value it denotes, whatever that value is, a list
    of reports or not: nothing replaces it by the empty list.  No
    exception leaves the read of [useKV]. *)
Theorem corrupt_or_missing_loads_empty (eng : engine) (st : App.storage) :
  (unusable (App.getItem st App.reports_key) → App.load_reports eng st = Returns (JArr []))
  ∧ (∀ text v,
       App.getItem st App.reports_key = Returns (Some text) → text ≠ "" →
       parse text = Parsed v → App.load_reports eng st = Returns v)
  ∧ (App.load_reports eng st = Beyond ∨ ∃ v, App.load_reports eng st = Returns v).
Proof.
  split; [apply useKV_initial_unusable|].
  split; [intros text v; apply useKV_initial_parsed|apply useKV_initial_never_throws].
Qed.

(** C9, witness: a stored text cut in the middle of a report. *)
Lemma corrupt_or_missing_loads_empty_witness :
  App.load_reports Example.node (store_holding "[{") = Returns (JArr []).
Proof.
  apply (corrupt_or_missing_loads_empty Example.node (store_holding "[{")).
  apply (unusable_corrupt "[{"). reflexivity.
Defined.

(** Whatever the store holds, loading never throws. *)
Lemma load_reports_never_throws (eng : engine) (st : App.storage) :
  App.load_reports eng st = Beyond ∨ ∃ v, App.load_reports eng st = Returns v.
Proof. apply useKV_initial_never_throws. Qed.

(** C9, counterexample: stored values that are no list of reports.  The
    texts [{}], [null], [true] and [[null]] are JSON; each is loaded as
    the value it denotes, and not as the empty list. *)
Lemma stored_json_is_loaded_as_it_is :
  App.load_reports Example.node (store_holding "{}") = Returns (JObj [])
  ∧ App.load_reports Example.node (store_holding "null") = Returns JNull
  ∧ App.load_reports Example.node (store_holding "true") = Returns (JBool true)
  ∧ App.load_reports Example.node (store_holding "[null]") = Returns (JArr [JNull])
  ∧ JObj [] ≠ JArr [].
Proof. repeat split; try reflexivity. discriminate. Qed.

(** ** [JSON.parse] after [JSON.stringify] *)

Lemma app_cons_string (x : ascii) (a b : string) : String x a +:+ b = String x (a +:+ b).
Proof. reflexivity. Qed.

Lemma app_assoc_string (a b c : string) : (a +:+ b) +:+ c = a +:+ (b +:+ c).
Proof.
  induction a as [|x a IH]; [reflexivity|]. rewrite !app_cons_string. by rewrite IH.
Qed.

Lemma app_nil_r_string (a : string) : a +:+ "" = a.
Proof. induction a as [|x a IH]; [reflexivity|]. rewrite app_cons_string. by rewrite IH. Qed.

Lemma emit_app (a b : list token) (m : parsed (list token)) :
  emit (a ++ b) m = emit a (emit b m).
Proof.
  destruct a as [|x a]; [reflexivity|].
  destruct b as [|y b]; cbn; [by rewrite app_nil_r|].
  destruct m; cbn; [|reflexivity..]. by rewrite <- app_assoc.
Qed.

Lemma emit_parsed (ts more : list token) : emit ts (Parsed more) = Parsed (ts ++ more).
Proof. by destruct ts. Qed.

(** One character of a string, as [JSON.stringify] writes it, is read
    back as that character. *)
Lemma lex_escape_char (c : ascii) (acc rest : string) :
  lex_go (LString acc) (escape_char c +:+ rest) = lex_go (LString (snoc acc c)) rest.
Proof. destruct c as [[] [] [] [] [] [] [] []]; reflexivity. Qed.

Lemma lex_escaped (s acc rest : string) :
  lex_go (LString acc) (escape s +:+ String dquote rest)
  = emit [TStr (acc +:+ s)] (lex_go LStart rest).
Proof.
  revert acc. induction s as [|c s IH]; intros acc.
  - cbn [escape]. change ("" +:+ String dquote rest) with (String dquote rest).
    by rewrite app_nil_r_string.
  - cbn [escape]. rewrite app_assoc_string, lex_escape_char, IH.
    unfold snoc. by rewrite app_assoc_string.
Qed.

Lemma lex_quote (s rest : string) :
  lex_go LStart (quote s +:+ rest) = emit [TStr s] (lex_go LStart rest).
Proof.
  unfold quote. rewrite !app_assoc_string.
  change (lex_go LStart (dq +:+ escape s +:+ dq +:+ rest))
    with (lex_go (LString "") (escape s +:+ String dquote rest)).
  apply lex_escaped.
Qed.

Lemma lex_digits (ds raw rest : string) :
  digits_only ds = true →
  lex_go (LNumber raw) (ds +:+ rest) = lex_go (LNumber (raw +:+ ds)) rest.
Proof.
  revert raw. induction ds as [|c ds IH]; intros raw Hds.
  - by rewrite app_nil_r_string.
  - cbn [digits_only] in Hds. apply andb_true_iff in Hds as [Hc Hds].
    rewrite app_cons_string. cbn [lex_go lex_step].
    unfold continues_number. rewrite Hc. cbn [orb emit].
    rewrite IH by done. unfold snoc. by rewrite app_assoc_string.
Qed.

Lemma digits_only_uint (d : Decimal.uint) : digits_only (NilEmpty.string_of_uint d) = true.
Proof. induction d; cbn [NilEmpty.string_of_uint digits_only]; try done. Qed.

Lemma to_int_not_nil (n : Z) : Z.to_int n ≠ Decimal.Pos Decimal.Nil ∧ Z.to_int n ≠ Decimal.Neg Decimal.Nil.
Proof.
  destruct n as [|p|p]; cbn; split; try discriminate.
  all: intros [= H]; revert H; apply DecimalPos.Unsigned.to_uint_nonnil.
Qed.

(** The text of an integer: a digit or a minus sign, then digits. *)
Lemma decimal_shape (n : Z) :
  ∃ c ds, decimal n = String c ds ∧ digits_only ds = true
          ∧ lex_start c = Parsed ([], LNumber (String c "")).
Proof.
  unfold decimal. destruct n as [|p|p]; cbn.
  - by exists "0"%char, "".
  - pose proof (DecimalPos.Unsigned.to_uint_nonnil p) as Hnn.
    unfold NilZero.string_of_uint.
    destruct (Pos.to_uint p) eqn:Hd; try (by destruct Hnn);
      cbn [NilEmpty.string_of_uint]; eexists _, _;
      (split; [reflexivity|split; [apply digits_only_uint|reflexivity]]).
  - eexists "-"%char, _. split; [reflexivity|]. split; [|reflexivity].
    unfold NilZero.string_of_uint.
    destruct (Pos.to_uint p); try reflexivity; apply (digits_only_uint (_ u)).
Qed.

Lemma classify_decimal (n : Z) :
  Z.abs n <= MAX_SAFE_INTEGER → classify_number (decimal n) = Parsed (TNum n).
Proof.
  intros Hn. unfold classify_number, decimal.
  destruct (to_int_not_nil n) as [Hp Hm].
  rewrite NilZero.isi by done. rewrite DecimalZ.of_to.
  fold (decimal n). rewrite String.eqb_refl.
  by apply Z.leb_le in Hn as ->.
Qed.

Lemma delimiter_starts (c : ascii) (rest : string) :
  delimited (String c rest) = true →
  ∃ t, lex_start c = Parsed ([t], LStart) ∧ continues_number c = false
       ∧ is_lower c = false.
Proof.
  destruct c as [[] [] [] [] [] [] [] []]; intros H; try discriminate H;
    eexists; repeat split; reflexivity.
Qed.

Lemma lex_number_end (raw rest : string) (n : Z) :
  delimited rest = true → classify_number raw = Parsed (TNum n) →
  lex_go (LNumber raw) rest = emit [TNum n] (lex_go LStart rest).
Proof.
  intros Hrest Hraw. destruct rest as [|c rest].
  - cbn. by rewrite Hraw.
  - destruct (delimiter_starts c rest Hrest) as (t & Hstart & Hcont & _).
    cbn [lex_go lex_step]. rewrite Hcont, Hraw, Hstart. cbn.
    by destruct (lex_go LStart rest).
Qed.

Lemma lex_decimal (n : Z) (rest : string) :
  Z.abs n <= MAX_SAFE_INTEGER → delimited rest = true →
  lex_go LStart (decimal n +:+ rest) = emit [TNum n] (lex_go LStart rest).
Proof.
  intros Hn Hrest. destruct (decimal_shape n) as (c & ds & Hshape & Hds & Hc).
  pose proof (classify_decimal n Hn) as Hclass. rewrite Hshape in *.
  rewrite app_cons_string. cbn [lex_go lex_step]. rewrite Hc. cbn [emit].
  rewrite lex_digits by done. by apply lex_number_end.
Qed.

Lemma lex_word_end (w rest : string) (t : token) :
  delimited rest = true → classify_word w = Parsed t →
  lex_go (LWord w) rest = emit [t] (lex_go LStart rest).
Proof.
  intros Hrest Hw. destruct rest as [|c rest].
  - cbn. by rewrite Hw.
  - destruct (delimiter_starts c rest Hrest) as (t' & Hstart & _ & Hlow).
    cbn [lex_go lex_step]. rewrite Hlow, Hw, Hstart. cbn.
    by destruct (lex_go LStart rest).
Qed.

(** Induction on JSON values. *)
Lemma json_induction (P : json → Prop) :
  P JNull → (∀ b, P (JBool b)) → (∀ n, P (JNum n)) → (∀ s, P (JStr s)) →
  (∀ items, Forall P items → P (JArr items)) →
  (∀ fields, Forall (λ kv, P kv.2) fields → P (JObj fields)) →
  ∀ v, P v.
Proof.
  intros Hnull Hbool Hnum Hstr Harr Hobj.
  fix IH 1. intros [ | b | n | s | items | fields ].
  - exact Hnull.
  - apply Hbool.
  - apply Hnum.
  - apply Hstr.
  - apply Harr.
    exact ((fix go (l : list json) : Forall P l :=
              match l with
              | [] => Forall_nil_2 P
              | x :: more => Forall_cons_2 P x more (IH x) (go more)
              end) items).
  - apply Hobj.
    exact ((fix go (l : list (string * json)) : Forall (λ kv, P kv.2) l :=
              match l with
              | [] => Forall_nil_2 _
              | kv :: more => Forall_cons_2 _ kv more (IH kv.2) (go more)
              end) fields).
Qed.

Lemma canonical_array (items : list json) :
  canonical (JArr items) ↔ Forall canonical items.
Proof.
  induction items as [|x items IH]; [by split; [constructor|]|].
  rewrite Forall_cons, <- IH. reflexivity.
Qed.

Lemma canonical_object (fields : list (string * json)) :
  canonical (JObj fields) ↔ Forall (λ kv, canonical kv.2) fields ∧ built fields = fields.
Proof.
  assert ((fix all (l : list (string * json)) : Prop :=
             match l with
             | [] => True
             | kv :: more => canonical kv.2 ∧ all more
             end) fields ↔ Forall (λ kv, canonical kv.2) fields) as Hall.
  { induction fields as [|kv fields IH]; [by split; [constructor|]|].
    rewrite Forall_cons, <- IH. reflexivity. }
  cbn [canonical]. by rewrite Hall.
Qed.

Lemma tokens_array (items : list json) :
  tokens (JArr items) = TLBrack :: element_tokens items.
Proof. reflexivity. Qed.

Lemma tokens_object (fields : list (string * json)) :
  tokens (JObj fields) = TLBrace :: member_tokens fields.
Proof. reflexivity. Qed.

Lemma join_cons2 (sep x y : string) (more : list string) :
  join sep (x :: y :: more) = x +:+ sep +:+ join sep (y :: more).
Proof. reflexivity. Qed.

Lemma lex_elements (items : list json) (rest : string) :
  Forall lexes_back items → Forall canonical items → delimited rest = true →
  lex_go LStart (join "," (map stringify items) +:+ "]" +:+ rest)
  = emit (element_tokens items) (lex_go LStart rest).
Proof.
  intros Hlex Hcan Hrest. induction items as [|x items IH]; [reflexivity|].
  apply Forall_cons in Hlex as [Hx Hlex]. apply Forall_cons in Hcan as [Hcx Hcan].
  destruct items as [|y more].
  - cbn [map join String.concat element_tokens].
    rewrite (Hx _ Hcx) by reflexivity. by rewrite emit_app.
  - cbn [map]. rewrite join_cons2, !app_assoc_string.
    rewrite (Hx _ Hcx) by reflexivity.
    change (lex_go LStart ("," +:+ ?t)) with (emit [TComma] (lex_go LStart t)).
    cbn [map] in IH. rewrite IH by done.
    change (element_tokens (x :: y :: more))
      with (tokens x ++ [TComma] ++ element_tokens (y :: more)).
    by rewrite !emit_app.
Qed.

Lemma lex_member (kv : string * json) (rest : string) :
  lexes_back kv.2 → canonical kv.2 → delimited rest = true →
  lex_go LStart (quote kv.1 +:+ ":" +:+ stringify kv.2 +:+ rest)
  = emit (TStr kv.1 :: TColon :: tokens kv.2) (lex_go LStart rest).
Proof.
  intros Hv Hc Hrest. rewrite lex_quote.
  change (lex_go LStart (":" +:+ ?t)) with (emit [TColon] (lex_go LStart t)).
  rewrite (Hv _ Hc Hrest).
  change (TStr kv.1 :: TColon :: tokens kv.2) with ([TStr kv.1] ++ [TColon] ++ tokens kv.2).
  by rewrite !emit_app.
Qed.

Lemma lex_members (fields : list (string * json)) (rest : string) :
  Forall (λ kv, lexes_back kv.2) fields → Forall (λ kv, canonical kv.2) fields →
  delimited rest = true →
  lex_go LStart
    (join "," (map (λ kv, quote kv.1 +:+ ":" +:+ stringify kv.2) fields) +:+ "}" +:+ rest)
  = emit (member_tokens fields) (lex_go LStart rest).
Proof.
  intros Hlex Hcan Hrest. induction fields as [|kv fields IH]; [reflexivity|].
  apply Forall_cons in Hlex as [Hx Hlex]. apply Forall_cons in Hcan as [Hcx Hcan].
  destruct fields as [|kv' more].
  - cbn [map join String.concat member_tokens]. rewrite !app_assoc_string.
    rewrite (lex_member kv _ Hx Hcx) by reflexivity.
    change (TStr kv.1 :: TColon :: tokens kv.2 ++ [TRBrace])
      with ((TStr kv.1 :: TColon :: tokens kv.2) ++ [TRBrace]).
    by rewrite emit_app.
  - cbn [map]. rewrite join_cons2, !app_assoc_string.
    rewrite (lex_member kv _ Hx Hcx) by reflexivity.
    change (lex_go LStart ("," +:+ ?t)) with (emit [TComma] (lex_go LStart t)).
    cbn [map] in IH. rewrite IH by done.
    change (member_tokens (kv :: kv' :: more))
      with ((TStr kv.1 :: TColon :: tokens kv.2) ++ [TComma] ++ member_tokens (kv' :: more)).
    by rewrite !emit_app.
Qed.

(** The text of a canonical value is read as the tokens of the value. *)
Lemma lex_stringify (v : json) : lexes_back v.
Proof.
  induction v as [ | b | n | s | items IH | fields IH ] using json_induction;
    intros rest Hcan Hrest.
  - change (lex_go LStart (stringify JNull +:+ rest)) with (lex_go (LWord "null") rest).
    by apply lex_word_end.
  - destruct b.
    + change (lex_go LStart (stringify (JBool true) +:+ rest))
        with (lex_go (LWord "true") rest).
      by apply lex_word_end.
    + change (lex_go LStart (stringify (JBool false) +:+ rest))
        with (lex_go (LWord "false") rest).
      by apply lex_word_end.
  - by apply lex_decimal.
  - apply lex_quote.
  - apply canonical_array in Hcan.
    cbn [stringify]. rewrite !app_assoc_string.
    change (lex_go LStart ("[" +:+ ?t)) with (emit [TLBrack] (lex_go LStart t)).
    rewrite lex_elements by done. rewrite tokens_array.
    change (TLBrack :: element_tokens items) with ([TLBrack] ++ element_tokens items).
    by rewrite emit_app.
  - apply canonical_object in Hcan as [Hcan _].
    cbn [stringify]. rewrite !app_assoc_string.
    change (lex_go LStart ("{" +:+ ?t)) with (emit [TLBrace] (lex_go LStart t)).
    rewrite lex_members by done. rewrite tokens_object.
    change (TLBrace :: member_tokens fields) with ([TLBrace] ++ member_tokens fields).
    by rewrite emit_app.
Qed.

Lemma lex_stringify_all (v : json) :
  canonical v → lex (stringify v) = Parsed (tokens v).
Proof.
  intros Hcan. unfold lex.
  rewrite <- (app_nil_r_string (stringify v)), (lex_stringify v "" Hcan eq_refl).
  cbn [lex_go lex_finish]. by rewrite emit_parsed, app_nil_r.
Qed.

Lemma element_tokens_cons (x : json) (more : list json) :
  element_tokens (x :: more) = tokens x ++ after_element more.
Proof. by destruct more. Qed.

Lemma member_tokens_cons (kv : string * json) (more : list (string * json)) :
  member_tokens (kv :: more) = TStr kv.1 :: TColon :: tokens kv.2 ++ after_member more.
Proof. by destruct more. Qed.

Lemma parse_after_element (more : list json) :
  Forall parses_back more → Forall canonical more →
  ∀ done x stack ts,
    parse_go (PDone x (InArray done :: stack)) (after_element more ++ ts)
    = parse_go (PDone (JArr (done ++ x :: more)) stack) ts.
Proof.
  intros Hback Hcan. induction more as [|y more IH]; intros done x stack ts.
  - reflexivity.
  - apply Forall_cons in Hback as [Hy Hback]. apply Forall_cons in Hcan as [Hcy Hcan].
    change (after_element (y :: more)) with (TComma :: element_tokens (y :: more)).
    rewrite element_tokens_cons. cbn [app parse_go parse_step parsed_bind].
    rewrite <- app_assoc.
    rewrite (proj1 (Hy _ _ Hcy)), (IH Hback Hcan). by rewrite <- app_assoc.
Qed.

Lemma parse_elements (items : list json) :
  Forall parses_back items → Forall canonical items →
  ∀ stack ts,
    parse_go (PArrayOpen stack) (element_tokens items ++ ts)
    = parse_go (PDone (JArr items) stack) ts.
Proof.
  intros Hback Hcan stack ts. destruct items as [|x more]; [reflexivity|].
  apply Forall_cons in Hback as [Hx Hback]. apply Forall_cons in Hcan as [Hcx Hcan].
  rewrite element_tokens_cons, <- app_assoc.
  rewrite (proj2 (Hx _ _ Hcx)). by rewrite parse_after_element.
Qed.

Lemma parse_after_member (more : list (string * json)) :
  Forall (λ kv, parses_back kv.2) more → Forall (λ kv, canonical kv.2) more →
  ∀ done k v stack ts,
    parse_go (PDone v (InObject done k :: stack)) (after_member more ++ ts)
    = parse_go
        (PDone (JObj (fold_left (λ acc kv, set_field kv.1 kv.2 acc) more
                        (set_field k v done))) stack) ts.
Proof.
  intros Hback Hcan. induction more as [|kv more IH]; intros done k v stack ts.
  - reflexivity.
  - apply Forall_cons in Hback as [Hy Hback]. apply Forall_cons in Hcan as [Hcy Hcan].
    change (after_member (kv :: more)) with (TComma :: member_tokens (kv :: more)).
    rewrite member_tokens_cons. cbn [app parse_go parse_step parsed_bind].
    rewrite <- app_assoc.
    rewrite (proj1 (Hy _ _ Hcy)), (IH Hback Hcan). reflexivity.
Qed.

Lemma parse_members (fields : list (string * json)) :
  Forall (λ kv, parses_back kv.2) fields → Forall (λ kv, canonical kv.2) fields →
  ∀ stack ts,
    parse_go (PObjectOpen stack) (member_tokens fields ++ ts)
    = parse_go (PDone (JObj (built fields)) stack) ts.
Proof.
  intros Hback Hcan stack ts. destruct fields as [|kv more]; [reflexivity|].
  apply Forall_cons in Hback as [Hx Hback]. apply Forall_cons in Hcan as [Hcx Hcan].
  rewrite member_tokens_cons. cbn [app parse_go parse_step parsed_bind].
  rewrite <- app_assoc.
  rewrite (proj1 (Hx _ _ Hcx)). by rewrite parse_after_member.
Qed.

(** The tokens of a canonical value are parsed as the value. *)
Lemma parse_tokens_back (v : json) : parses_back v.
Proof.
  induction v as [ | b | n | s | items IH | fields IH ] using json_induction;
    intros stack ts Hcan; try (split; reflexivity).
  - destruct b; split; reflexivity.
  - apply canonical_array in Hcan. rewrite tokens_array.
    cbn [app parse_go parse_step begin_value parsed_bind].
    by rewrite !parse_elements.
  - apply canonical_object in Hcan as [Hcan Hbuilt]. rewrite tokens_object.
    cbn [app parse_go parse_step begin_value parsed_bind].
    rewrite !parse_members by done. by rewrite Hbuilt.
Qed.

(** [JSON.parse(JSON.stringify(v))] is [v], for every canonical [v]. *)
Lemma parse_stringify (v : json) : canonical v → parse (stringify v) = Parsed v.
Proof.
  intros Hcan. unfold parse. rewrite (lex_stringify_all v Hcan). cbn [parsed_bind].
  unfold parse_tokens. rewrite <- (app_nil_r (tokens v)).
  by rewrite (proj1 (parse_tokens_back v [] [] Hcan)).
Qed.

(** ** Saving and reloading reports *)

Lemma is_string_canonical (v : json) : Types.is_string v = true → canonical v.
Proof. by destruct v. Qed.

Lemma is_status_canonical (v : json) : Types.is_status v = true → canonical v.
Proof. by destruct v. Qed.

Lemma forallb_canonical (p : json → bool) (items : list json) :
  (∀ x, p x = true → canonical x) → forallb p items = true → Forall canonical items.
Proof.
  intros Hp. induction items as [|x items IH]; [constructor|].
  cbn [forallb]. intros [Hx Hrest]%andb_true_iff. constructor; auto.
Qed.

Lemma is_string_array_canonical (v : json) : Types.is_string_array v = true → canonical v.
Proof.
  destruct v as [ | | | |items| ]; try discriminate. cbn [Types.is_string_array].
  intros H. apply canonical_array. revert H. apply forallb_canonical.
  apply is_string_canonical.
Qed.

Lemma field_is_inv (p : json → bool) (fields : list (string * json)) (k : string) :
  Types.field_is p (JObj fields) k = true → ∃ x, assoc k fields = Some x ∧ p x = true.
Proof.
  unfold Types.field_is. cbn [get]. destruct (assoc k fields) as [x|]; [eauto|done].
Qed.

Lemma assoc_elem (k : string) (fields : list (string * json)) (x : json) :
  assoc k fields = Some x → (k, x) ∈ fields.
Proof.
  induction fields as [|[k' v] fields IH]; [done|]. cbn [assoc].
  destruct (String.eqb_spec k' k) as [->|_].
  - intros [= ->]. apply elem_of_cons. by left.
  - intros H. apply elem_of_cons. right. auto.
Qed.

Lemma assoc_NoDup (k : string) (x : json) (fields : list (string * json)) :
  NoDup fields.*1 → (k, x) ∈ fields → assoc k fields = Some x.
Proof.
  induction fields as [|[k' v] fields IH]; intros Hnd Hin; [by apply elem_of_nil in Hin|].
  cbn in Hnd. apply NoDup_cons in Hnd as [Hk Hnd]. cbn [assoc].
  apply elem_of_cons in Hin as [[= <- <-]|Hin]; [by rewrite String.eqb_refl|].
  destruct (String.eqb_spec k' k) as [->|_]; [|auto].
  destruct Hk. apply list_elem_of_fmap. by exists (k, x).
Qed.

Lemma has_field_not_elem (k : string) (fields : list (string * json)) :
  k ∉ fields.*1 → has_field k fields = false.
Proof.
  unfold has_field. destruct (assoc k fields) as [x|] eqn:E; [|done].
  intros H. destruct H. apply assoc_elem in E. apply list_elem_of_fmap. by exists (k, x).
Qed.

(** Members with different names, none of them an array index, are kept
    by [JSON.parse] in the order they are written in. *)
Lemma set_fields_plain (fields acc : list (string * json)) :
  Forall (λ kv, array_index kv.1 = None) fields → NoDup (acc ++ fields).*1 →
  fold_left (λ done kv, set_field kv.1 kv.2 done) fields acc = acc ++ fields.
Proof.
  revert acc. induction fields as [|[k v] fields IH]; intros acc Hplain Hnd.
  - by rewrite app_nil_r.
  - apply Forall_cons in Hplain as [Hk Hplain]. cbn [fold_left fst snd] in *.
    assert (set_field k v acc = acc ++ [(k, v)]) as ->.
    { unfold set_field. rewrite has_field_not_elem, Hk; [done|].
      rewrite fmap_app in Hnd. apply NoDup_app in Hnd as (_ & Hnot & _).
      intros Hin. apply (Hnot k Hin). cbn. apply elem_of_cons. by left. }
    rewrite IH; [by rewrite <- app_assoc|done|by rewrite <- app_assoc].
Qed.

Lemma built_plain (fields : list (string * json)) :
  Forall (λ kv, array_index kv.1 = None) fields → NoDup fields.*1 →
  built fields = fields.
Proof. intros Hplain Hnd. unfold built. by rewrite set_fields_plain. Qed.

Lemma domain_fields_plain (k : string) : k ∈ Types.domain_fields → array_index k = None.
Proof.
  unfold Types.domain_fields. intros Hin.
  repeat (apply elem_of_cons in Hin as [->|Hin]; [reflexivity|]).
  by apply elem_of_nil in Hin.
Qed.

Lemma is_domain_canonical (v : json) : Types.is_domain v = true → canonical v.
Proof.
  destruct v as [ | | | | |fields]; try discriminate.
  unfold Types.is_domain. rewrite !andb_true_iff.
  intros [[[[[Hlen Ht] Hst] Hd] Hf] Hr]. apply Nat.eqb_eq in Hlen.
  apply field_is_inv in Ht as (t & Ht & Htp), Hst as (st & Hst & Hstp),
    Hd as (d & Hd & Hdp), Hf as (f & Hf & Hfp), Hr as (r & Hr & Hrp).
  assert (Types.domain_fields ≡ₚ fields.*1) as Hperm.
  { apply submseteq_length_Permutation; [|by rewrite length_fmap, Hlen].
    apply NoDup_submseteq.
    - unfold Types.domain_fields. apply (bool_decide_unpack _). by vm_compute.
    - unfold Types.domain_fields. intros k Hin. apply list_elem_of_fmap.
      repeat (apply elem_of_cons in Hin as [->|Hin];
              [eexists (_, _); split; [reflexivity|]; by eapply assoc_elem|]).
      by apply elem_of_nil in Hin. }
  assert (NoDup fields.*1) as Hnd.
  { rewrite <- Hperm. unfold Types.domain_fields. apply (bool_decide_unpack _).
    by vm_compute. }
  apply canonical_object. split.
  - apply Forall_forall. intros [k x] Hin. cbn [snd].
    assert (k ∈ Types.domain_fields) as Hk.
    { rewrite Hperm. apply list_elem_of_fmap. by exists (k, x). }
    pose proof (assoc_NoDup k x fields Hnd Hin) as Hx.
    unfold Types.domain_fields in Hk.
    repeat (apply elem_of_cons in Hk as [->|Hk];
            [first [assert (x = t) as -> by congruence
                   |assert (x = st) as -> by congruence
                   |assert (x = d) as -> by congruence
                   |assert (x = f) as -> by congruence
                   |assert (x = r) as -> by congruence];
             auto using is_string_canonical, is_status_canonical,
               is_string_array_canonical|]).
    by apply elem_of_nil in Hk.
  - apply built_plain; [|done]. apply Forall_forall. intros [k x] Hin.
    apply domain_fields_plain. rewrite Hperm. apply list_elem_of_fmap. by exists (k, x).
Qed.

Lemma is_domain_array_canonical (v : json) : Types.is_domain_array v = true → canonical v.
Proof.
  destruct v as [ | | | |items| ]; try discriminate. cbn [Types.is_domain_array].
  intros H. apply canonical_array. revert H. apply forallb_canonical.
  apply is_domain_canonical.
Qed.

(** The object of a report is canonical as soon as the values copied
    from the reply are. *)
Lemma report_json_canonical (r : Types.ProductionReport) :
  canonical (Types.summary r) → canonical (Types.overallStatus r) →
  canonical (Types.domains r) → canonical (Types.criticalIssues r) →
  canonical (Types.recommendations r) → canonical (Types.conclusion r) →
  canonical (Types.report_json r).
Proof.
  intros. unfold Types.report_json. apply canonical_object. split; [|reflexivity].
  repeat constructor; cbn [snd]; done.
Qed.

Lemma conforms_canonical (r : Types.ProductionReport) :
  Types.conforms r = true → canonical (Types.report_json r).
Proof.
  unfold Types.conforms. rewrite !andb_true_iff.
  intros [[[[[Hs Hst] Hd] Hc] Hr] Hcon].
  apply report_json_canonical;
    auto using is_string_canonical, is_status_canonical, is_string_array_canonical,
      is_domain_array_canonical.
Qed.

Lemma reports_canonical (rs : list Types.ProductionReport) :
  Forall (λ r, Types.conforms r = true) rs →
  canonical (JArr (map Types.report_json rs)).
Proof.
  intros H. apply canonical_array. apply Forall_fmap.
  eapply Forall_impl; [exact H|]. intros r Hr. by apply conforms_canonical.
Qed.

(** What is written is read back: a canonical value stored under a key
    of a readable store is what [useKV] starts from. *)
Lemma useKV_initial_written (eng : engine) (st : App.storage) (key : string)
    (v d : json) (written : App.storage) :
  canonical v → stringify v ≠ "" → App.readable st = true →
  App.setItem st key (stringify v) = Returns written →
  App.useKV_initial eng written key d = Returns v.
Proof.
  intros Hcan Hne Hread. unfold App.setItem.
  destruct (App.accepts st key (stringify v)); [|discriminate]. intros [= <-].
  unfold App.useKV_initial, App.getItem. cbn [App.readable App.items]. rewrite Hread.
  rewrite lookup_insert_eq. cbn [mbind outcome_bind].
  destruct (String.eqb_spec (stringify v) "") as [Heq|_]; [by destruct Hne|].
  by rewrite (JSON_parse_parsed eng _ v (parse_stringify v Hcan)).
Qed.

(** C7.  A report that conforms to the declared types, added to a list of
    such reports by [handleAnalyze], is written to the store with the
    list; when the store is readable and accepts the write, loading the
    reports again gives exactly the list the application holds: the new
    report in front, every report equal to what was saved. *)
Theorem saved_reports_reload_equal (eng : engine) (r : Types.ProductionReport)
    (rs : list Types.ProductionReport) (st : App.storage) (current : option json) :
  Types.conforms r = true → Forall (λ r', Types.conforms r' = true) rs →
  App.readable st = true →
  App.accepts st App.reports_key (stringify (JArr (map Types.report_json (r :: rs)))) = true →
  ∃ a, App.handleAnalyze eng r (holding rs st current) = Returns a
    ∧ App.listed a = JArr (map Types.report_json (r :: rs))
    ∧ App.load_reports eng (App.store (App.reports a)) = Returns (App.listed a).
Proof.
  intros Hr Hrs Hread Hacc. eexists. split; [reflexivity|]. split; [reflexivity|].
  cbn [App.reports App.store App.value holding App.listed].
  unfold App.load_reports.
  apply useKV_initial_written with (st := st).
  - apply (reports_canonical (r :: rs)). by constructor.
  - discriminate.
  - exact Hread.
  - unfold App.setItem. cbn [map] in Hacc. by rewrite Hacc.
Qed.

(** C7, witness: the report of the tests, saved into an empty store. *)
Lemma saved_reports_reload_equal_witness :
  ∃ a, App.handleAnalyze Example.node Example.first_report
         (holding [Example.later_report] Example.empty_store None) = Returns a
    ∧ App.listed a
      = JArr (map Types.report_json [Example.first_report; Example.later_report])
    ∧ App.load_reports Example.node (App.store (App.reports a)) = Returns (App.listed a).
Proof.
  apply (saved_reports_reload_equal Example.node Example.first_report
           [Example.later_report] Example.empty_store None).
  - reflexivity.
  - repeat constructor.
  - reflexivity.
  - reflexivity.
Defined.

(** ** White space *)

Lemma white_length_skip (s : string) (k : nat) :
  white_length (skip_white k s) = 0%nat.
Proof.
  revert k. induction s as [|c s IH]; intros k; [reflexivity|].
  cbn [skip_white]. destruct k as [|k]; [|apply IH].
  destruct (white_length (String c s)) eqn:E; [exact E|apply IH].
Qed.

Lemma skip_white_fixed (s : string) :
  white_length s = 0%nat → trimStart s = s.
Proof.
  unfold trimStart. destruct s as [|c s]; [done|]. cbn [skip_white].
  by intros ->.
Qed.

(** The white space character a text starts with is the one every
    longer text starts with. *)
Lemma white_length_prefix (p rest : string) (n : nat) :
  white_length p = S n → white_length (p +:+ rest) = S n.
Proof.
  destruct p as [|a [|b [|c p]]]; try done; rewrite ?app_cons_string;
    unfold white_length.
  all: destruct (is_space a); try done.
  all: by destruct ((N_of_ascii a =? 194)%N && (N_of_ascii b =? 160)%N).
Qed.

Lemma only_white_app (p w : string) (k : nat) :
  only_white k p = true → only_white 0 w = true →
  only_white k (p +:+ w) = true.
Proof.
  revert k. induction p as [|c p IH]; intros k Hp Hw.
  - cbn in Hp. by apply Nat.eqb_eq in Hp as ->.
  - rewrite app_cons_string. cbn [only_white] in *. destruct k as [|k]; [|auto].
    destruct (white_length (String c p)) as [|n] eqn:E; [done|].
    rewrite <- app_cons_string, (white_length_prefix _ w n E). auto.
Qed.

Lemma trimEnd_split (s : string) :
  ∃ w, s = trimEnd s +:+ w ∧ only_white 0 w = true.
Proof.
  induction s as [|c s (w & IH & Hw)]; [by exists ""|]. cbn [trimEnd].
  destruct (only_white 0 (String c s)) eqn:E; [by exists (String c s)|].
  exists w. split; [|done]. rewrite app_cons_string. by rewrite <- IH.
Qed.

Lemma trimEnd_idempotent (s : string) : trimEnd (trimEnd s) = trimEnd s.
Proof.
  induction s as [|c s IH]; [done|]. cbn [trimEnd].
  destruct (only_white 0 (String c s)) eqn:E; [done|]. cbn [trimEnd].
  destruct (only_white 0 (String c (trimEnd s))) eqn:E2; [|by rewrite IH].
  destruct (trimEnd_split s) as (w & Hs & Hw).
  pose proof (only_white_app _ w 0 E2 Hw) as H. rewrite app_cons_string, <- Hs in H.
  congruence.
Qed.

Lemma white_length_trimEnd (s : string) :
  white_length s = 0%nat → white_length (trimEnd s) = 0%nat.
Proof.
  intros Hs. destruct (white_length (trimEnd s)) as [|n] eqn:E; [done|].
  destruct (trimEnd_split s) as (w & Hsplit & _).
  apply (white_length_prefix _ w) in E. rewrite <- Hsplit in E. congruence.
Qed.

Lemma trim_idempotent (s : string) : trim (trim s) = trim s.
Proof.
  unfold trim. rewrite (skip_white_fixed (trimEnd _)).
  - apply trimEnd_idempotent.
  - apply white_length_trimEnd, white_length_skip.
Qed.


Lemma drop_nil (n : nat) : drop n "" = "".
Proof. by destruct n. Qed.

Lemma drop_app (a b : string) (n : nat) :
  (n ≤ String.length a)%nat → drop n (a +:+ b) = drop n a +:+ b.
Proof.
  revert n. induction a as [|c a IH]; intros n Hn.
  - cbn in Hn. by replace n with 0%nat by lia.
  - destruct n as [|n]; [reflexivity|]. rewrite app_cons_string. cbn [drop].
    apply IH. cbn in Hn. lia.
Qed.

(** The bytes of the characters of three bytes. *)
Lemma white3_bytes (a b c : N) :
  white3 a b c = true →
  ((a = 225 ∨ a = 226 ∨ a = 227 ∨ a = 239) ∧ 128 ≤ b < 192 ∧ 128 ≤ c < 192)%N.
Proof.
  unfold white3.
  repeat first [rewrite orb_true_iff|rewrite andb_true_iff|rewrite N.eqb_eq|rewrite N.leb_le].
  lia.
Qed.

Lemma white_length_le (s : string) : (white_length s ≤ String.length s)%nat.
Proof.
  destruct s as [|a [|b [|c s]]]; unfold white_length; cbn [String.length];
    repeat match goal with
           | |- context [if ?x then _ else _] => destruct x
           end; lia.
Qed.

(** What [white_length] counts are bytes of white space, and the first of
    them is not a continuation byte. *)
Lemma white_length_bytes (s : string) (n : nat) :
  white_length s = n → white_bytes s = white_bytes (drop n s).
Proof.
  intros <-. destruct s as [|a [|b [|c s]]]; unfold white_length; [done|..].
  all: destruct (is_space a) eqn:Ha;
    [cbn [drop white_bytes]; unfold white_byte; by rewrite Ha|].
  1: done.
  all: destruct ((N_of_ascii a =? 194)%N && (N_of_ascii b =? 160)%N) eqn:Hab.
  1,3: apply andb_true_iff in Hab as [Ha2%N.eqb_eq Hb2%N.eqb_eq];
       cbn [drop white_bytes]; unfold white_byte; rewrite Ha2, Hb2;
       by rewrite !orb_true_r.
  1: done.
  destruct (white3 (N_of_ascii a) (N_of_ascii b) (N_of_ascii c)) eqn:H3; [|done].
  apply white3_bytes in H3 as (Ha3 & Hb3 & Hc3). cbn [drop white_bytes]. unfold white_byte.
  replace (128 <=? N_of_ascii a)%N with true by (symmetry; apply N.leb_le; lia).
  replace (128 <=? N_of_ascii b)%N with true by (symmetry; apply N.leb_le; lia).
  replace (128 <=? N_of_ascii c)%N with true by (symmetry; apply N.leb_le; lia).
  by rewrite !orb_true_r.
Qed.

Lemma is_space_low (a : ascii) : is_space a = true → (N_of_ascii a < 128)%N.
Proof. destruct a as [[] [] [] [] [] [] [] []]; intros H; try discriminate H; by vm_compute. Qed.

Lemma white_length_lead (a : ascii) (rest : string) (n : nat) :
  white_length (String a rest) = S n →
  is_space a = true ∧ n = 0%nat
  ∨ is_space a = false ∧ (N_of_ascii a = 194 ∨ N_of_ascii a = 225 ∨ N_of_ascii a = 226
                          ∨ N_of_ascii a = 227 ∨ N_of_ascii a = 239)%N.
Proof.
  unfold white_length. destruct (is_space a); [intros [= <-]; by left|].
  destruct rest as [|b [|c rest]]; [done| |].
  all: destruct ((N_of_ascii a =? 194)%N && (N_of_ascii b =? 160)%N) eqn:Hab;
    [apply andb_true_iff in Hab as [->%N.eqb_eq _]; intros _; right; split; [done|lia]|].
  1: done.
  destruct (white3 (N_of_ascii a) (N_of_ascii b) (N_of_ascii c)) eqn:H3; [|done].
  apply white3_bytes in H3 as (Ha3 & _). intros _. right. split; [done|lia].
Qed.

Lemma white_length_boundary (s : string) (n : nat) :
  white_length s = S n → at_boundary s = true.
Proof.
  destruct s as [|a rest]; [done|]. intros H. unfold at_boundary, is_continuation.
  apply white_length_lead in H as [[Ha _]|[_ Ha]].
  - apply is_space_low in Ha.
    replace (128 <=? N_of_ascii a)%N with false by (symmetry; apply N.leb_gt; lia).
    reflexivity.
  - replace (N_of_ascii a <? 192)%N with false by (symmetry; apply N.ltb_ge; lia).
    by rewrite andb_false_r.
Qed.

(** A character that is begun before a boundary is not completed by what
    follows the boundary. *)
Lemma white_length_app (a : ascii) (x tail : string) :
  at_boundary tail = true →
  white_length (String a x +:+ tail) = white_length (String a x).
Proof.
  intros Htail.
  assert (∀ f rest, tail = String f rest → (N_of_ascii f =? 160)%N = false
                    ∧ ∀ p q, white3 p q (N_of_ascii f) = false) as Hf.
  { intros f rest ->. cbn in Htail. apply negb_true_iff in Htail.
    unfold is_continuation in Htail. apply andb_false_iff in Htail. split.
    - apply N.eqb_neq. intros Heq. rewrite Heq in Htail. by destruct Htail.
    - intros p q. destruct (white3 p q (N_of_ascii f)) eqn:H3; [|done].
      apply white3_bytes in H3 as (_ & _ & Hc).
      destruct Htail as [H%N.leb_gt|H%N.ltb_ge]; lia. }
  assert (∀ f rest, tail = String f rest → ∀ p, white3 p (N_of_ascii f) (N_of_ascii f) = false
                    ∧ ∀ q, white3 p (N_of_ascii f) q = false) as Hg.
  { intros f rest ->. cbn in Htail. apply negb_true_iff in Htail.
    unfold is_continuation in Htail. apply andb_false_iff in Htail.
    intros p. split; [|intros q].
    all: match goal with |- ?w = false => destruct w eqn:H3; [|done] end.
    all: apply white3_bytes in H3 as (_ & Hb & _).
    all: destruct Htail as [H%N.leb_gt|H%N.ltb_ge]; lia. }
  rewrite app_cons_string. unfold white_length. destruct (is_space a); [done|].
  destruct x as [|b [|c x]]; rewrite ?app_cons_string.
  - change ("" +:+ tail) with tail. destruct tail as [|f [|g tail]]; [done|..].
    + destruct (Hf f "" eq_refl) as [-> _]. by rewrite andb_false_r.
    + destruct (Hf f (String g tail) eq_refl) as [-> _]. rewrite andb_false_r.
      destruct (Hg f (String g tail) eq_refl (N_of_ascii a)) as [_ Hq]. by rewrite Hq.
  - change ("" +:+ tail) with tail.
    destruct ((N_of_ascii a =? 194)%N && (N_of_ascii b =? 160)%N); [done|].
    destruct tail as [|f tail]; [done|].
    destruct (Hf f tail eq_refl) as [_ H3]. by rewrite H3.
  - reflexivity.
Qed.

(** A text that is white space from end to end is made of bytes of white
    space. *)
Lemma only_white_bytes (s : string) (k : nat) :
  only_white k s = true → white_bytes (drop k s) = true.
Proof.
  revert k. induction s as [|c s IH]; intros k; [by rewrite drop_nil|].
  cbn [only_white]. destruct k as [|k]; [|apply IH].
  destruct (white_length (String c s)) as [|n] eqn:E; [done|]. intros H.
  cbn [drop]. rewrite (white_length_bytes _ _ E). cbn [drop]. by apply IH.
Qed.

Lemma only_white_white_bytes (s : string) : only_white 0 s = true → white_bytes s = true.
Proof. apply (only_white_bytes s 0). Qed.

Lemma only_white_boundary (s : string) : only_white 0 s = true → at_boundary s = true.
Proof.
  destruct s as [|c s]; [done|]. cbn [only_white].
  destruct (white_length (String c s)) as [|n] eqn:E; [done|]. intros _.
  by apply (white_length_boundary _ n).
Qed.

(** White space before a text is what [trimStart] removes. *)
Lemma skip_white_only_white (ws d : string) (k : nat) :
  only_white k ws = true → skip_white k (ws +:+ d) = skip_white 0 d.
Proof.
  revert k. induction ws as [|c ws IH]; intros k.
  - cbn. by intros ->%Nat.eqb_eq.
  - rewrite app_cons_string. cbn [only_white skip_white]. destruct k as [|k]; [|apply IH].
    destruct (white_length (String c ws)) as [|n] eqn:E; [done|].
    rewrite <- app_cons_string, (white_length_prefix _ d n E). apply IH.
Qed.

Lemma skip_white_white (ws : string) : only_white 0 ws = true → skip_white 0 ws = "".
Proof.
  intros H. rewrite <- (app_nil_r_string ws). by rewrite (skip_white_only_white ws "" 0).
Qed.

(** What follows a boundary is left alone by [trimStart], unless the text
    before it is white space from end to end. *)
Lemma skip_white_app (x tail : string) (k : nat) :
  at_boundary tail = true → (k ≤ String.length x)%nat →
  skip_white k (x +:+ tail)
  = if only_white k x then skip_white 0 tail else skip_white k x +:+ tail.
Proof.
  intros Htail. revert k. induction x as [|c x IH]; intros k Hk.
  - cbn in Hk. by replace k with 0%nat by lia.
  - destruct k as [|k].
    + cbn [only_white]. rewrite app_cons_string. cbn [skip_white].
      rewrite <- app_cons_string, (white_length_app c x tail Htail).
      pose proof (white_length_le (String c x)) as Hle.
      destruct (white_length (String c x)) as [|n]; [reflexivity|].
      apply IH. cbn in Hle. lia.
    + rewrite app_cons_string. cbn [skip_white only_white]. apply IH. cbn in Hk. lia.
Qed.

Lemma only_white_app_boundary (x tail : string) (k : nat) :
  at_boundary tail = true → (k ≤ String.length x)%nat →
  only_white k (x +:+ tail) = only_white k x && only_white 0 tail.
Proof.
  intros Htail. revert k. induction x as [|c x IH]; intros k Hk.
  - cbn in Hk. by replace k with 0%nat by lia.
  - destruct k as [|k].
    + rewrite app_cons_string. cbn [only_white].
      rewrite <- app_cons_string, (white_length_app c x tail Htail).
      pose proof (white_length_le (String c x)) as Hle.
      destruct (white_length (String c x)) as [|n]; [reflexivity|].
      apply IH. cbn in Hle. lia.
    + rewrite app_cons_string. cbn [only_white]. apply IH. cbn in Hk. lia.
Qed.

Lemma trimEnd_white (s : string) : only_white 0 s = true → trimEnd s = "".
Proof. destruct s as [|c s]; [done|]. cbn [trimEnd]. by intros ->. Qed.

Lemma trimEnd_cons (c : ascii) (s : string) :
  trimEnd (String c s) = if only_white 0 (String c s) then "" else String c (trimEnd s).
Proof. reflexivity. Qed.

(** White space after a text is what [trimEnd] removes. *)
Lemma trimEnd_app_white (x ws : string) : only_white 0 ws = true → trimEnd (x +:+ ws) = trimEnd x.
Proof.
  intros Hws. induction x as [|c x IH]; [by apply trimEnd_white|].
  rewrite app_cons_string, !trimEnd_cons, IH, <- app_cons_string.
  rewrite (only_white_app_boundary _ ws 0) by (by apply only_white_boundary || lia).
  by rewrite Hws, andb_true_r.
Qed.

(** White space around the text does not change what [trim] gives. *)
Lemma trim_app_white (d ws : string) : only_white 0 ws = true → trim (d +:+ ws) = trim d.
Proof.
  intros Hws. unfold trim, trimStart.
  rewrite (skip_white_app d ws 0) by (by apply only_white_boundary || lia).
  destruct (only_white 0 d) eqn:Hd.
  - by rewrite (skip_white_white ws Hws), (skip_white_white d Hd).
  - by apply trimEnd_app_white.
Qed.

Lemma trim_white_app (ws d : string) : only_white 0 ws = true → trim (ws +:+ d) = trim d.
Proof. intros Hws. unfold trim, trimStart. by rewrite (skip_white_only_white ws d 0). Qed.

Lemma trimStart_idempotent (s : string) : trimStart (trimStart s) = trimStart s.
Proof. apply skip_white_fixed, white_length_skip. Qed.

(** ** Fences around the document *)

Lemma white_byte_cases (c : ascii) :
  white_byte c = true → is_space c = true ∨ (128 <=? N_of_ascii c)%N = true.
Proof. unfold white_byte. by intros [H|H]%orb_true_iff; [left|right]. Qed.

Lemma prefix_nil (s : string) : String.prefix "" s = true.
Proof. by destruct s. Qed.

Lemma prefix_cons (x c : ascii) (sub s : string) :
  String.prefix (String x sub) (String c s)
  = if ascii_dec x c then String.prefix sub s else false.
Proof. reflexivity. Qed.

(** No match starts on a byte of white space. *)
Lemma prefix_white_head (x c : ascii) (sub s : string) :
  white_byte c = true → white_byte x = false →
  String.prefix (String x sub) (String c s) = false.
Proof.
  intros Hc Hx. rewrite prefix_cons. destruct (ascii_dec x c) as [->|]; congruence.
Qed.

Lemma prefix_white (x : ascii) (sub ws : string) :
  white_bytes ws = true → white_byte x = false → String.prefix (String x sub) ws = false.
Proof.
  destruct ws as [|c ws]; [done|]. cbn [white_bytes]. intros [Hc _]%andb_true_iff Hx.
  by apply prefix_white_head.
Qed.

(** A match in [d +:+ tail] lies in [d], or its end lies in [tail]. *)
Lemma prefix_app_inv (sub d tail : string) :
  String.prefix sub (d +:+ tail) = true →
  String.prefix sub d = true
  ∨ ∃ k, (k < String.length sub)%nat ∧ String.prefix (drop k sub) tail = true.
Proof.
  revert d. induction sub as [|x sub IH]; intros d; [left; apply prefix_nil|].
  destruct d as [|c d].
  - intros H. right. exists 0%nat. split; [cbn; lia|exact H].
  - rewrite app_cons_string, !prefix_cons. destruct (ascii_dec x c) as [->|]; [|done].
    intros [H|(k & Hk & H)]%IH; [by left|]. right. exists (S k). split; [cbn; lia|exact H].
Qed.

Lemma includes_cons (needle : string) (c : ascii) (s : string) :
  includes needle (String c s) = String.prefix needle (String c s) || includes needle s.
Proof. reflexivity. Qed.

Lemma includes_white (x : ascii) (sub ws : string) :
  white_bytes ws = true → white_byte x = false → includes (String x sub) ws = false.
Proof.
  intros Hws Hx. induction ws as [|c ws IH]; [reflexivity|].
  rewrite includes_cons, (prefix_white x sub _ Hws Hx).
  cbn [white_bytes] in Hws. apply andb_true_iff in Hws as [_ Hws]. auto.
Qed.

(** The white space and the closing fence after a document hold no end
    of an opening fence. *)
Lemma prefix_fence_tail (after behind : string) (k : nat) :
  white_bytes after = true → white_bytes behind = true → (k < 7)%nat →
  String.prefix (drop k json_fence) (after +:+ fence +:+ behind) = false.
Proof.
  intros Ha Hb Hk. destruct after as [|a after].
  - destruct k as [|[|[|[|[|[|[|k]]]]]]]; [|reflexivity..|lia].
    change ("" +:+ fence +:+ behind) with (String "`" (String "`" (String "`" behind))).
    unfold json_fence. cbn [drop]. rewrite !prefix_cons.
    cbn. by apply prefix_white.
  - cbn [white_bytes] in Ha. apply andb_true_iff in Ha as [Ha _]. rewrite app_cons_string.
    destruct k as [|[|[|[|[|[|[|k]]]]]]]; [by apply prefix_white_head..|lia].
Qed.

Lemma includes_fence_tail (after behind : string) :
  white_bytes after = true → white_bytes behind = true →
  includes json_fence (after +:+ fence +:+ behind) = false.
Proof.
  intros Ha Hb. induction after as [|a after IH].
  - unfold fence. change ("" +:+ "```" +:+ behind) with (String "`" (String "`" (String "`" behind))).
    rewrite !includes_cons. unfold json_fence. rewrite !prefix_cons. cbn.
    rewrite !prefix_white, includes_white by done. reflexivity.
  - cbn [white_bytes] in Ha. apply andb_true_iff in Ha as [Hc Ha].
    rewrite app_cons_string, includes_cons. unfold json_fence at 1.
    rewrite prefix_white_head by done. auto.
Qed.

(** A document without the opening fence, followed by white space and the
    closing fence: the opening fence is nowhere in the whole. *)
Lemma includes_document_tail (doc after behind : string) :
  white_bytes after = true → white_bytes behind = true →
  includes json_fence doc = false →
  includes json_fence (doc +:+ after +:+ fence +:+ behind) = false.
Proof.
  intros Ha Hb. induction doc as [|c doc IH]; [intros _; by apply includes_fence_tail|].
  rewrite app_cons_string, !includes_cons. intros [Hp Hi]%orb_false_iff.
  rewrite (IH Hi), orb_false_r. rewrite <- app_cons_string.
  destruct (String.prefix json_fence (String c doc +:+ after +:+ fence +:+ behind)) eqn:H;
    [|reflexivity].
  apply prefix_app_inv in H as [H|(k & Hk & H)]; [congruence|].
  by rewrite prefix_fence_tail in H.
Qed.

Lemma remove_json_fences_from_cons (blank : bool) (c : ascii) (rest : string) :
  remove_json_fences_from 0 blank (String c rest)
  = match (if blank then white_length (String c rest) else 0%nat) with
    | S k => remove_json_fences_from k true rest
    | O =>
        if String.prefix json_fence (String c rest)
        then remove_json_fences_from 6 true rest
        else String c (remove_json_fences_from 0 false rest)
    end.
Proof. reflexivity. Qed.

(** White space before a fence stays. *)
Lemma remove_json_fences_white (ws s : string) :
  white_bytes ws = true →
  remove_json_fences_from 0 false (ws +:+ s) = ws +:+ remove_json_fences_from 0 false s.
Proof.
  induction ws as [|c ws IH]; [done|]. cbn [white_bytes]. intros [Hc Hws]%andb_true_iff.
  rewrite !app_cons_string, remove_json_fences_from_cons.
  unfold json_fence at 1. rewrite prefix_white_head by done. by rewrite IH.
Qed.

(** White space after a fence goes. *)
Lemma remove_json_fences_blank_white (ws s : string) (k : nat) :
  only_white k ws = true →
  remove_json_fences_from k true (ws +:+ s) = remove_json_fences_from 0 true s.
Proof.
  revert k. induction ws as [|c ws IH]; intros k.
  - cbn. by intros ->%Nat.eqb_eq.
  - rewrite app_cons_string. cbn [only_white]. destruct k as [|k]; [|apply IH].
    rewrite remove_json_fences_from_cons.
    destruct (white_length (String c ws)) as [|n] eqn:E; [done|].
    rewrite <- app_cons_string, (white_length_prefix _ s n E). apply IH.
Qed.

Lemma remove_json_fences_opening (s : string) :
  remove_json_fences_from 0 false (json_fence +:+ s) = remove_json_fences_from 0 true s.
Proof.
  unfold json_fence. rewrite !app_cons_string, remove_json_fences_from_cons.
  unfold json_fence. rewrite !prefix_cons. cbn. by rewrite prefix_nil.
Qed.

(** Text without the opening fence is left as it is. *)
Lemma remove_json_fences_clean (s : string) :
  includes json_fence s = false → remove_json_fences_from 0 false s = s.
Proof.
  induction s as [|c s IH]; [done|]. rewrite includes_cons.
  intros [Hp Hi]%orb_false_iff. rewrite remove_json_fences_from_cons.
  by rewrite Hp, IH.
Qed.

Lemma includes_tail (needle : string) (c : ascii) (s : string) :
  includes needle (String c s) = false → includes needle s = false.
Proof. rewrite includes_cons. by intros [_ H]%orb_false_iff. Qed.

Lemma remove_json_fences_blank (s : string) (k : nat) :
  includes json_fence s = false → remove_json_fences_from k true s = skip_white k s.
Proof.
  revert k. induction s as [|c s IH]; intros k Hs; [done|].
  pose proof (includes_tail _ _ _ Hs) as Htail.
  destruct k as [|k]; [|by apply IH].
  rewrite remove_json_fences_from_cons. cbn [skip_white].
  destruct (white_length (String c s)) as [|n]; [|by apply IH].
  rewrite includes_cons in Hs. apply orb_false_iff in Hs as [-> _].
  by rewrite remove_json_fences_clean.
Qed.

(** The closing fence is not white space. *)
Lemma fence_boundary (s : string) : at_boundary (fence +:+ s) = true.
Proof. reflexivity. Qed.

Lemma trimStart_fence (x s : string) :
  trimStart (x +:+ fence +:+ s) = trimStart x +:+ fence +:+ s.
Proof.
  unfold trimStart. rewrite (skip_white_app x (fence +:+ s) 0 (fence_boundary s)) by lia.
  destruct (only_white 0 x) eqn:Hx; [|reflexivity].
  by rewrite (skip_white_white x Hx).
Qed.

(** Before the last backtick of the closing fence nothing is followed by
    white space only. *)
Lemma white_bytes_drop_fence (x s : string) (n : nat) :
  (n ≤ String.length x + 2)%nat → white_bytes (drop n (x +:+ fence +:+ s)) = false.
Proof.
  revert n. induction x as [|c x IH]; intros n Hn.
  - by destruct n as [|[|[|n]]]; [..|cbn in Hn; lia].
  - rewrite app_cons_string. destruct n as [|n].
    + cbn [drop white_bytes]. specialize (IH 0%nat ltac:(lia)). cbn [drop] in IH.
      rewrite IH. apply andb_false_r.
    + cbn [drop]. apply IH. cbn in Hn. lia.
Qed.

Lemma only_white_drop_fence (x s : string) (n : nat) :
  (n ≤ String.length x + 2)%nat → only_white 0 (drop n (x +:+ fence +:+ s)) = false.
Proof.
  intros Hn. destruct (only_white 0 (drop n (x +:+ fence +:+ s))) eqn:E; [|done].
  apply only_white_white_bytes in E. by rewrite white_bytes_drop_fence in E.
Qed.

Lemma remove_closing_fence_cons (c : ascii) (rest : string) :
  remove_closing_fence (String c rest)
  = if String.prefix fence (String c rest) && only_white 0 (drop 3 (String c rest))
    then "" else String c (remove_closing_fence rest).
Proof. reflexivity. Qed.

(** The text is cut at the closing fence that white space follows. *)
Lemma remove_closing_fence_cut (p behind : string) :
  only_white 0 behind = true → remove_closing_fence (p +:+ fence +:+ behind) = p.
Proof.
  intros Hb. induction p as [|c p IH].
  - change ("" +:+ fence +:+ behind) with (String "`" (String "`" (String "`" behind))).
    rewrite remove_closing_fence_cons. unfold fence. rewrite !prefix_cons. cbn [drop].
    cbn -[only_white]. by rewrite prefix_nil, Hb.
  - rewrite app_cons_string, remove_closing_fence_cons.
    change (drop 3 (String c (p +:+ fence +:+ behind)))
      with (drop 2 (p +:+ fence +:+ behind)).
    rewrite only_white_drop_fence by lia. by rewrite andb_false_r, IH.
Qed.

(** The sanitization of the first server, on a fenced document. *)
Lemma cleanText_fenced (before inside doc after behind : string) :
  only_white 0 before = true → only_white 0 inside = true →
  only_white 0 after = true → only_white 0 behind = true →
  includes json_fence doc = false →
  cleanText (fenced before inside doc after behind) = trim doc.
Proof.
  intros H1 H2 H3 H4 Hdoc. unfold cleanText, fenced, remove_json_fences.
  rewrite remove_json_fences_white by by apply only_white_white_bytes.
  rewrite remove_json_fences_opening, (remove_json_fences_blank_white inside _ 0 H2).
  rewrite remove_json_fences_blank
    by (apply includes_document_tail; by try apply only_white_white_bytes).
  fold (trimStart (doc +:+ after +:+ fence +:+ behind)).
  rewrite <- (app_assoc_string doc), trimStart_fence, <- app_assoc_string.
  rewrite remove_closing_fence_cut, trim_white_app by done.
  unfold trim. rewrite trimStart_idempotent. by apply trim_app_white.
Qed.

(** ** White space around a document *)

Lemma is_space_six (c : ascii) :
  is_space c = true →
  c = "009"%char ∨ c = "010"%char ∨ c = "011"%char ∨ c = "012"%char
  ∨ c = "013"%char ∨ c = " "%char.
Proof.
  destruct c as [[] [] [] [] [] [] [] []]; intros H; try discriminate H; auto 10.
Qed.

Lemma lex_go_cons (st : lex_state) (c : ascii) (rest : string) :
  lex_go st (String c rest)
  = match lex_step st c with
    | Parsed (ts, st') => emit ts (lex_go st' rest)
    | Malformed => Malformed
    | Unmodelled => Unmodelled
    end.
Proof. reflexivity. Qed.

Lemma emit_parsed_inv (ts all : list token) (m : parsed (list token)) :
  emit ts m = Parsed all → ∃ more, m = Parsed more ∧ all = ts ++ more.
Proof.
  destruct m as [more| |]; [|by destruct ts..].
  rewrite emit_parsed. intros [= <-]. by exists more.
Qed.

(** A white space character that the lexer accepts ends the token that
    was being read, if any: the text could have ended there. *)
Lemma lex_step_space (st st' : lex_state) (c : ascii) (ts more : list token) :
  is_space c = true → lex_step st c = Parsed (ts, st') →
  lex_finish st' = Parsed more → lex_finish st = Parsed (ts ++ more).
Proof.
  intros Hc Hstep Hfin.
  destruct st as [|acc|acc|acc n code|raw|seen];
    apply is_space_six in Hc as [->|[->|[->|[->|[->| ->]]]]];
    try discriminate Hstep;
    try (injection Hstep as <- <-; first [exact Hfin|discriminate Hfin]).
  all: unfold lex_step in Hstep; cbn [continues_number is_lower] in Hstep.
  all: try (change (lex_finish (LNumber raw))
              with (parsed_bind (classify_number raw) (fun t => Parsed [t]));
            destruct (classify_number raw) as [t| |]; try discriminate Hstep).
  all: try (change (lex_finish (LWord seen))
              with (parsed_bind (classify_word seen) (fun t => Parsed [t]));
            destruct (classify_word seen) as [t| |]; try discriminate Hstep).
  all: cbn in Hstep; try discriminate Hstep; injection Hstep as <- <-.
  all: cbn in Hfin; injection Hfin as <-; reflexivity.
Qed.

(** A byte of a character of several bytes is accepted inside a string
    only. *)
Lemma lex_step_high (st st' : lex_state) (c : ascii) (ts : list token) :
  (128 <=? N_of_ascii c)%N = true → lex_step st c = Parsed (ts, st') →
  ∃ acc, st' = LString acc.
Proof.
  intros Hc Hstep.
  destruct st as [|acc|acc|acc n code|raw|seen];
    destruct c as [[] [] [] [] [] [] [] []]; try discriminate Hc;
    try discriminate Hstep.
  all: try (injection Hstep as <- <-; by eexists).
  all: unfold lex_step in Hstep; cbn [continues_number is_lower] in Hstep.
  all: try (destruct (classify_number raw) as [t| |]; discriminate Hstep).
  all: try (destruct (classify_word seen) as [t| |]; discriminate Hstep).
Qed.

Lemma lex_step_white (st st' : lex_state) (c : ascii) (ts more : list token) :
  white_byte c = true → lex_step st c = Parsed (ts, st') →
  lex_finish st' = Parsed more → lex_finish st = Parsed (ts ++ more).
Proof.
  intros [Hc|Hc]%white_byte_cases Hstep Hfin; [by eapply lex_step_space|].
  destruct (lex_step_high st st' c ts Hc Hstep) as [acc ->]. discriminate Hfin.
Qed.

(** From any state, white space up to the end of the text is accepted
    only where the text could have ended. *)
Lemma lex_go_white (s : string) (st : lex_state) (ts : list token) :
  white_bytes s = true → lex_go st s = Parsed ts → lex_finish st = Parsed ts.
Proof.
  revert st ts. induction s as [|c s IH]; intros st ts; [done|].
  cbn [white_bytes]. intros [Hc Hs]%andb_true_iff. rewrite lex_go_cons.
  destruct (lex_step st c) as [[tsc st']| |] eqn:Hstep; try discriminate.
  intros (more & Hmore & ->)%emit_parsed_inv.
  eapply lex_step_white; eauto.
Qed.

Lemma lex_go_trimEnd (s : string) (st : lex_state) (ts : list token) :
  lex_go st s = Parsed ts → lex_go st (trimEnd s) = Parsed ts.
Proof.
  revert st ts. induction s as [|c s IH]; intros st ts; [done|].
  rewrite trimEnd_cons. destruct (only_white 0 (String c s)) eqn:Hsp.
  - by apply lex_go_white, only_white_white_bytes.
  - rewrite !lex_go_cons. destruct (lex_step st c) as [[tsc st']| |]; try discriminate.
    intros (more & Hmore & ->)%emit_parsed_inv.
    by rewrite (IH _ _ Hmore), emit_parsed.
Qed.

(** Between two tokens the lexer accepts no byte of 128 or above. *)
Lemma lex_start_high (c : ascii) : (128 <=? N_of_ascii c)%N = true → lex_start c = Malformed.
Proof. destruct c as [[] [] [] [] [] [] [] []]; intros H; try discriminate H; reflexivity. Qed.

Lemma lex_go_skip_white (s : string) (ts : list token) :
  lex_go LStart s = Parsed ts → lex_go LStart (skip_white 0 s) = Parsed ts.
Proof.
  induction s as [|c s IH]; [done|]. cbn [skip_white].
  destruct (white_length (String c s)) as [|n] eqn:E; [done|].
  apply white_length_lead in E as [[Hc ->]|[_ Hc]].
  - apply is_space_six in Hc as [->|[->|[->|[->|[->| ->]]]]]; first [exact IH|discriminate].
  - rewrite lex_go_cons. change (lex_step LStart c) with (lex_start c).
    rewrite lex_start_high; [discriminate|]. apply N.leb_le. lia.
Qed.

(** [JSON.parse] gives the same value for the text and for the text
    without the white space around it. *)
Lemma parse_trim (doc : string) (v : json) :
  parse doc = Parsed v → parse (trim doc) = Parsed v.
Proof.
  unfold parse, lex, trim, trimStart.
  destruct (lex_go LStart doc) as [ts| |] eqn:Hlex; try discriminate.
  apply lex_go_skip_white, lex_go_trimEnd in Hlex. by rewrite Hlex.
Qed.

Lemma fenced_not_empty (before inside doc after behind : string) :
  String.eqb (fenced before inside doc after behind) "" = false.
Proof. by destruct before. Qed.

Lemma candidate_reply_canonical (text : string) : canonical (candidate_reply text).
Proof. cbn. repeat split. Qed.

(** The handler of the first server, from a reply of the provider whose
    candidate text is parsed after sanitization. *)
Lemma complete_parsed (eng : engine) (startTime endTime : Z) (timestamp : string)
    (code : Z) (statusText text : string) (v : json) :
  ok code = true → String.eqb text "" = false → parse (cleanText text) = Parsed v →
  Proxy.complete eng startTime endTime timestamp
    (HttpResponse code statusText (stringify (candidate_reply text)))
  = Returns (Proxy.success startTime endTime timestamp v).
Proof.
  intros Hok Hne Hparse. unfold Proxy.complete. rewrite Hok. cbv iota. cbn [negb].
  rewrite (JSON_parse_parsed eng _ _ (parse_stringify _ (candidate_reply_canonical text))).
  cbn -[cleanText]. rewrite Hne. cbn -[cleanText].
  by rewrite (JSON_parse_parsed eng _ _ Hparse).
Qed.

Lemma analyze_sends (eng : engine) (upstream : Proxy.outbound → fetch_result)
    (startTime endTime : Z) (timestamp : string) :
  ∃ o, Part000.analyze eng env_with_key analyze_request upstream startTime endTime timestamp
       = (try_catch (Proxy.complete eng startTime endTime timestamp (upstream o))
            (fun e => Returns (Proxy.failure Part000.failure_text startTime endTime
                                 timestamp e)),
          [o]).
Proof.
  unfold Part000.analyze, Proxy.analyze.
  assert (∃ o, Proxy.prepare eng Part000.buildAnalysisPrompt
                 (Proxy.GENAI_API_KEY env_with_key) analyze_request
               = Returns (Proxy.Send o)) as [o Ho].
  { eexists. vm_compute. reflexivity. }
  exists o. by rewrite Ho.
Qed.

(** C5, amended.  A document that [JSON.parse] reads as [v] and that
    does not itself contain the opening fence written with its language
    tag, placed between that opening fence and a closing fence with white
    space before, between and after, where white space is any text made
    of the characters that [\s] and [trim] take, those of ASCII and the
    others: the sanitization of the first server gives the document
    without the white space around it, [JSON.parse] of the result gives
    [v], and the handler replies with [v] as the data of its success
    payload. *)
Theorem fenced_document_is_parsed (eng : engine)
    (before inside doc after behind : string) (v : json)
    (startTime endTime : Z) (timestamp : string) :
  only_white 0 before = true → only_white 0 inside = true →
  only_white 0 after = true → only_white 0 behind = true →
  includes json_fence doc = false →
  parse doc = Parsed v →
  cleanText (fenced before inside doc after behind) = trim doc
  ∧ JSON_parse eng (cleanText (fenced before inside doc after behind)) = Returns v
  ∧ fst (Part000.analyze eng env_with_key analyze_request
           (answering (fenced before inside doc after behind))
           startTime endTime timestamp)
    = Returns (Proxy.success startTime endTime timestamp v).
Proof.
  intros H1 H2 H3 H4 Hdoc Hparse.
  pose proof (cleanText_fenced before inside doc after behind H1 H2 H3 H4 Hdoc) as Hclean.
  assert (parse (cleanText (fenced before inside doc after behind)) = Parsed v) as Hv.
  { rewrite Hclean. by apply parse_trim. }
  split; [exact Hclean|]. split; [by apply JSON_parse_parsed|].
  destruct (analyze_sends eng (answering (fenced before inside doc after behind))
              startTime endTime timestamp) as [o ->].
  cbn [fst]. unfold answering.
  rewrite (complete_parsed eng startTime endTime timestamp 200 "OK" _ v);
    [reflexivity..|apply fenced_not_empty|exact Hv].
Qed.

(** C5, witness: the first report of the examples, as the provider
    would send it between fences, with a space before the opening fence,
    a no-break space and a line break after it, a line separator and a
    line break before the closing fence, and a no-break space after it. *)
Lemma fenced_document_is_parsed_witness :
  cleanText (fenced " " (no_break_space +:+ line_break)
               (stringify (Types.report_json Example.first_report))
               (line_separator +:+ line_break) no_break_space)
  = trim (stringify (Types.report_json Example.first_report))
  ∧ JSON_parse Example.node
      (cleanText (fenced " " (no_break_space +:+ line_break)
                    (stringify (Types.report_json Example.first_report))
                    (line_separator +:+ line_break) no_break_space))
    = Returns (Types.report_json Example.first_report)
  ∧ fst (Part000.analyze Example.node env_with_key analyze_request
           (answering (fenced " " (no_break_space +:+ line_break)
                         (stringify (Types.report_json Example.first_report))
                         (line_separator +:+ line_break) no_break_space))
           1735689600000 1735689600250 "2025-01-01T00:00:00.250Z")
    = Returns (Proxy.success 1735689600000 1735689600250 "2025-01-01T00:00:00.250Z"
                 (Types.report_json Example.first_report)).
Proof.
  apply (fenced_document_is_parsed Example.node " " (no_break_space +:+ line_break)
           (stringify (Types.report_json Example.first_report))
           (line_separator +:+ line_break) no_break_space
           (Types.report_json Example.first_report)).
  - reflexivity.
  - reflexivity.
  - reflexivity.
  - reflexivity.
  - vm_compute. reflexivity.
  - vm_compute. reflexivity.
Defined.

(** C5, counterexamples.  The summary of this report names the opening
    fence; the document is valid JSON, and between fences it is parsed
    as a report whose summary has lost the fence and the white space
    after it.  The same document between two bare fences, without the
    language tag, is not parsed at all: [JSON.parse] throws and the
    handler replies 500. *)
Lemma fence_text_in_the_document_is_lost :
  parse (stringify summary_naming_the_fence) = Parsed summary_naming_the_fence
  ∧ JSON_parse Example.node
      (cleanText (fenced "" line_break (stringify summary_naming_the_fence) line_break ""))
    = Returns (JObj [("summary", JStr "start the block with and close it")])
  ∧ parse (cleanText (bare_fenced "" line_break (stringify summary_naming_the_fence)
                        line_break ""))
    = Malformed
  ∧ Proxy.status <$>
      fst (Part000.analyze Example.node env_with_key analyze_request
             (answering (bare_fenced "" line_break (stringify summary_naming_the_fence)
                           line_break ""))
             1735689600000 1735689600250 "2025-01-01T00:00:00.250Z")
    = Returns 500.
Proof. vm_compute. repeat split; reflexivity. Qed.

(** ** The embedded variant: the text between the braces *)

Lemma upto_last_brace_without (s : string) :
  without "}" s = true → upto_last_brace s = None.
Proof.
  induction s as [|c s IH]; [done|]. cbn [without upto_last_brace].
  intros [Hc Hs]%andb_true_iff. rewrite (IH Hs). apply negb_true_iff in Hc. by rewrite Hc.
Qed.

Lemma upto_last_brace_closing (mid post : string) :
  without "}" post = true →
  upto_last_brace (mid +:+ "}" +:+ post) = Some (mid +:+ "}").
Proof.
  intros Hpost. induction mid as [|c mid IH].
  - change ("" +:+ "}" +:+ post) with (String "}" post). cbn [upto_last_brace].
    by rewrite upto_last_brace_without.
  - rewrite !(app_cons_string c mid). cbn [upto_last_brace]. by rewrite IH.
Qed.

Lemma brace_match_object (pre mid post : string) :
  without "{" pre = true → without "}" post = true →
  brace_match (pre +:+ "{" +:+ mid +:+ "}" +:+ post) = Some ("{" +:+ mid +:+ "}").
Proof.
  intros Hpre Hpost. induction pre as [|c pre IH].
  - change ("" +:+ "{" +:+ mid +:+ "}" +:+ post) with (String "{" (mid +:+ "}" +:+ post)).
    cbn [brace_match]. change (Ascii.eqb "{" "{") with true. cbv iota.
    by rewrite upto_last_brace_closing.
  - cbn [without] in Hpre. apply andb_true_iff in Hpre as [Hc Hpre].
    apply negb_true_iff in Hc. rewrite (app_cons_string c pre). cbn [brace_match].
    rewrite Hc. auto.
Qed.

(** The embedded variant takes the text from the first opening brace to
    the last closing brace: an object written between texts that hold no
    brace, fences or other, is parsed as the value it denotes. *)
Theorem object_between_texts_is_extracted (eng : engine) (pre mid post : string)
    (v : json) :
  without "{" pre = true → without "}" post = true →
  parse ("{" +:+ mid +:+ "}") = Parsed v →
  cleanJson (pre +:+ "{" +:+ mid +:+ "}" +:+ post) = "{" +:+ mid +:+ "}"
  ∧ Embedded.parse_reply eng (JStr (pre +:+ "{" +:+ mid +:+ "}" +:+ post)) = Returns v.
Proof.
  intros Hpre Hpost Hparse.
  assert (cleanJson (pre +:+ "{" +:+ mid +:+ "}" +:+ post) = "{" +:+ mid +:+ "}") as Hclean.
  { unfold cleanJson. by rewrite brace_match_object. }
  split; [exact Hclean|]. unfold Embedded.parse_reply.
  by rewrite Hclean, (JSON_parse_parsed eng _ v Hparse).
Qed.

Lemma object_between_texts_is_extracted_witness :
  cleanJson ("```" +:+ line_break +:+ "{" +:+ "" +:+ "}" +:+ line_break +:+ "```") = "{}"
  ∧ Embedded.parse_reply Example.node
      (JStr ("```" +:+ line_break +:+ "{" +:+ "" +:+ "}" +:+ line_break +:+ "```"))
    = Returns (JObj []).
Proof.
  apply (object_between_texts_is_extracted Example.node ("```" +:+ line_break) ""
           (line_break +:+ "```") (JObj [])); reflexivity.
Defined.

(** An array of objects is a valid document too; the text between the
    braces is not, and the embedded variant answers with its fallback. *)
Lemma array_of_objects_is_not_extracted :
  parse "[{},{}]" = Parsed (JArr [JObj []; JObj []])
  ∧ cleanJson (fenced "" line_break "[{},{}]" line_break "") = "{},{}"
  ∧ Embedded.parse_reply Example.node (JStr (fenced "" line_break "[{},{}]" line_break ""))
    = Throws (Exn PlainError "Failed to parse AI response as JSON").
Proof. vm_compute. repeat split; reflexivity. Qed.

(** ** Summary of the round trip *)

(** [JSON.parse(JSON.stringify(v))] is [v], for every value that
    [JSON.parse] can give back. *)
Theorem stringify_then_parse (eng : engine) (v : json) :
  canonical v → JSON_parse eng (stringify v) = Returns v.
Proof. intros Hv. by apply JSON_parse_parsed, parse_stringify. Qed.

Lemma stringify_then_parse_witness :
  JSON_parse Example.node (stringify (Types.report_json Example.first_report))
  = Returns (Types.report_json Example.first_report).
Proof.
  apply (stringify_then_parse Example.node (Types.report_json Example.first_report)).
  apply conforms_canonical. reflexivity.
Defined.

(** ** The proxy: an error of the provider *)

(** The three texts the [catch] block looks for are found in the message
    of a provider error 429 only if they are in what follows the status. *)
Lemma includes_after_status (needle rest : string) :
  needle = "Google" ∨ needle = "400" ∨ needle = "404" →
  includes needle ("Gemini API error: 429 " +:+ rest) = includes needle rest.
Proof.
  change ("Gemini API error: 429 " +:+ rest)
    with (String "G" (String "e" (String "m" (String "i" (String "n" (String "i"
         (String " " (String "A" (String "P" (String "I" (String " " (String "e"
         (String "r" (String "r" (String "o" (String "r" (String ":" (String " "
         (String "4" (String "2" (String "9" (String " " rest)))))))))))))))))))))).
  intros [->|[->| ->]]; rewrite !includes_cons, !prefix_cons; reflexivity.
Qed.

(** The handler of the first server on a reply 429 of the provider. *)
Lemma complete_429 (eng : engine) (startTime endTime : Z) (timestamp statusText body : string)
    (errorData : json) :
  parse body = Parsed errorData ∨ parse body = Malformed ∧ errorData = JObj [] →
  Proxy.complete eng startTime endTime timestamp (HttpResponse 429 statusText body)
  = Throws (Exn PlainError ("Gemini API error: 429 " +:+ stringify errorData)).
Proof.
  intros Hbody. unfold Proxy.complete. change (negb (ok 429)) with true. cbv iota.
  unfold JSON_parse. by destruct Hbody as [->|[-> ->]].
Qed.

(** C2, the code at the failing input and around it.  The provider
    answers 429 with a body that [response.json()] reads as [errorData]
    (or cannot read: then [errorData] is the empty object).  The proxy
    replies 500 and keeps the status and the body, serialized again, in
    [details.message]; the type it gives is [AI_SERVICE_ERROR] only when
    that body happens to hold ["Google"], ["400"] or ["404"], and
    [INTERNAL_ERROR] otherwise: the message the handler itself throws
    starts with ["Gemini API error"], which the test does not look for. *)
Theorem upstream_429_is_typed_internal (eng : engine) (startTime endTime : Z)
    (timestamp statusText body : string) (errorData : json) :
  parse body = Parsed errorData ∨ parse body = Malformed ∧ errorData = JObj [] →
  ∃ reply calls,
    Part000.analyze eng env_with_key analyze_request
      (fun _ => HttpResponse 429 statusText body) startTime endTime timestamp
    = (Returns reply, calls)
    ∧ length calls = 1%nat
    ∧ Proxy.status reply = 500
    ∧ Proxy.details_message reply
      = Some (JStr ("Gemini API error: 429 " +:+ stringify errorData))
    ∧ Proxy.details_type reply
      = Some (JStr (if includes "Google" (stringify errorData)
                       || includes "400" (stringify errorData)
                       || includes "404" (stringify errorData)
                    then "AI_SERVICE_ERROR" else "INTERNAL_ERROR")).
Proof.
  intros Hbody.
  destruct (analyze_sends eng (fun _ => HttpResponse 429 statusText body)
              startTime endTime timestamp) as [o ->].
  rewrite (complete_429 eng startTime endTime timestamp statusText body errorData Hbody).
  cbn [try_catch]. eexists _, _. split; [reflexivity|]. split; [reflexivity|].
  split; [reflexivity|]. split; [reflexivity|].
  rewrite failure_type by done. cbn [message].
  by rewrite !includes_after_status by auto.
Qed.

(** C2, at the usual body of a 429: the type is [INTERNAL_ERROR]. *)
Lemma upstream_429_is_typed_internal_witness :
  ∃ reply calls,
    Part000.analyze Example.node env_with_key analyze_request quota_exhausted
      1735689600000 1735689600250 "2025-01-01T00:00:00.250Z"
    = (Returns reply, calls)
    ∧ length calls = 1%nat
    ∧ Proxy.status reply = 500
    ∧ Proxy.details_message reply
      = Some (JStr ("Gemini API error: 429 " +:+
           stringify
             (JObj [("error",
                     JObj [("code", JNum 429);
                           ("message",
                            JStr "Resource has been exhausted (e.g. check quota).");
                           ("status", JStr "RESOURCE_EXHAUSTED")])])))
    ∧ Proxy.details_type reply = Some (JStr "INTERNAL_ERROR").
Proof.
  apply (upstream_429_is_typed_internal Example.node 1735689600000 1735689600250
           "2025-01-01T00:00:00.250Z" "Too Many Requests"
           (stringify
              (JObj [("error",
                      JObj [("code", JNum 429);
                            ("message",
                             JStr "Resource has been exhausted (e.g. check quota).");
                            ("status", JStr "RESOURCE_EXHAUSTED")])]))
           (JObj [("error",
                   JObj [("code", JNum 429);
                         ("message", JStr "Resource has been exhausted (e.g. check quota).");
                         ("status", JStr "RESOURCE_EXHAUSTED")])])).
  left. vm_compute. reflexivity.
Defined.

(** * The rest of the code *)

(** ** The GitHub address *)

Lemma prefix_same (a b : string) : String.prefix a (a +:+ b) = true.
Proof.
  induction a as [|c a IH]; [apply prefix_nil|]. rewrite app_cons_string, prefix_cons.
  by destruct (ascii_dec c c).
Qed.

Lemma prefix_split (a s : string) :
  String.prefix a s = true → s = a +:+ drop (String.length a) s.
Proof.
  revert s. induction a as [|c a IH]; intros s; [by destruct s|].
  destruct s as [|d s]; [done|]. rewrite prefix_cons.
  destruct (ascii_dec c d) as [->|]; [|done]. intros H.
  rewrite app_cons_string. cbn [String.length drop]. by rewrite <- IH.
Qed.

Lemma until_slash_split (s seg more : string) :
  Github.until_slash s = (seg, more) →
  s = seg +:+ more ∧ without "/" seg = true
  ∧ (more = "" ∨ ∃ after, more = String "/" after).
Proof.
  revert seg more. induction s as [|c s IH]; intros seg more.
  - intros [= <- <-]. auto.
  - cbn [Github.until_slash]. destruct (Ascii.eqb_spec c "/") as [->|Hc].
    + intros [= <- <-]. eauto.
    + destruct (Github.until_slash s) as [seg' more'] eqn:E. intros [= <- <-].
      destruct (IH _ _ eq_refl) as (-> & Hseg & Hmore).
      split; [by rewrite app_cons_string|]. split; [|done].
      cbn [without]. rewrite Hseg. by destruct (Ascii.eqb_spec c "/").
Qed.

Lemma until_slash_app (seg tail : string) :
  without "/" seg = true → tail = "" ∨ (∃ after, tail = String "/" after) →
  Github.until_slash (seg +:+ tail) = (seg, tail).
Proof.
  intros Hseg Htail. induction seg as [|c seg IH].
  - change ("" +:+ tail) with tail. by destruct Htail as [->|[after ->]].
  - cbn [without] in Hseg. apply andb_true_iff in Hseg as [Hc Hseg].
    apply negb_true_iff in Hc. rewrite app_cons_string. cbn [Github.until_slash].
    by rewrite Hc, IH.
Qed.

Lemma match_here_some (s o r : string) :
  Github.match_here s = Some (o, r) →
  o ≠ "" ∧ r ≠ "" ∧ without "/" o = true ∧ without "/" r = true
  ∧ ∃ tail, s = Github.host +:+ o +:+ "/" +:+ r +:+ tail.
Proof.
  unfold Github.match_here. destruct (String.prefix Github.host s) eqn:Hp; [|done].
  apply prefix_split in Hp.
  destruct (Github.until_slash (drop _ s)) as [owner rest] eqn:E1.
  apply until_slash_split in E1 as (Hs & Ho & Hrest).
  destruct owner as [|c owner]; [done|].
  destruct Hrest as [->|[after ->]]; [done|].
  destruct (Github.until_slash after) as [repo tail] eqn:E2.
  apply until_slash_split in E2 as (-> & Hr & _).
  destruct repo as [|e repo]; [done|]. intros [= <- <-].
  do 4 (split; [done|]). exists tail. rewrite Hp at 1. by rewrite Hs.
Qed.

Lemma match_github_some (s o r : string) :
  Github.match_github s = Some (o, r) →
  o ≠ "" ∧ r ≠ "" ∧ without "/" o = true ∧ without "/" r = true
  ∧ ∃ before tail, s = before +:+ Github.host +:+ o +:+ "/" +:+ r +:+ tail.
Proof.
  induction s as [|c s IH]; cbn [Github.match_github].
  - destruct (Github.match_here "") as [[o' r']|] eqn:E; [|done]. intros [= -> ->].
    apply match_here_some in E as (? & ? & ? & ? & tail & E). do 4 (split; [done|]).
    by exists "", tail.
  - destruct (Github.match_here (String c s)) as [[o' r']|] eqn:E.
    + intros [= -> ->].
      apply match_here_some in E as (? & ? & ? & ? & tail & E). do 4 (split; [done|]).
      by exists "", tail.
    + intros (? & ? & ? & ? & before & tail & ->)%IH. do 4 (split; [done|]).
      by exists (String c before), tail.
Qed.

Lemma match_short_some (s o r : string) :
  Github.match_short s = Some (o, r) →
  o ≠ "" ∧ r ≠ "" ∧ without "/" o = true ∧ without "/" r = true
  ∧ s = o +:+ "/" +:+ r.
Proof.
  unfold Github.match_short.
  destruct (Github.until_slash s) as [owner rest] eqn:E1.
  apply until_slash_split in E1 as (-> & Ho & Hrest).
  destruct owner as [|c owner]; [done|].
  destruct Hrest as [->|[after ->]]; [done|].
  destruct (Github.until_slash after) as [repo tail] eqn:E2.
  apply until_slash_split in E2 as (-> & Hr & _).
  destruct repo as [|e repo]; [done|]. destruct tail; [|done]. intros [= <- <-].
  do 4 (split; [done|]). by rewrite app_nil_r_string.
Qed.

(** What [replace(/\.git$/, '')] leaves is the start of the name. *)
Lemma strip_git_prefix (r : string) :
  ∃ suffix, r = Github.strip_git r +:+ suffix ∧ (suffix = "" ∨ suffix = ".git").
Proof.
  induction r as [|c r (suffix & IH & Hs)]; [by exists ""; auto|].
  cbn [Github.strip_git]. destruct (String.eqb_spec (String c r) ".git") as [->|_].
  - exists ".git". auto.
  - exists suffix. split; [|done]. rewrite app_cons_string. by rewrite <- IH.
Qed.

Lemma without_app (c : ascii) (a b : string) :
  without c (a +:+ b) = without c a && without c b.
Proof.
  induction a as [|x a IH]; [reflexivity|]. rewrite app_cons_string. cbn [without].
  by rewrite IH, andb_assoc.
Qed.

Lemma strip_git_without (c : ascii) (r : string) :
  without c r = true → without c (Github.strip_git r) = true.
Proof.
  destruct (strip_git_prefix r) as (suffix & Hr & _). rewrite Hr at 1.
  rewrite without_app. by intros [? _]%andb_true_iff.
Qed.

Lemma accept_some (groups : option (string * string)) (found : Github.repo_ref) :
  Github.accept groups = Some found →
  ∃ o r, groups = Some (o, r) ∧ Github.owner found = o
         ∧ Github.repo found = Github.strip_git r ∧ Github.strip_git r ≠ "".
Proof.
  destruct groups as [[o r]|]; [|done]. cbn [Github.accept].
  destruct (String.eqb_spec o "") as [|_]; [done|].
  destruct (String.eqb_spec (Github.strip_git r) "") as [|Hr]; [done|].
  intros [= <-]. by exists o, r.
Qed.

Lemma parseGitHubUrl_found (url : string) (found : Github.repo_ref) :
  Github.parseGitHubUrl url = Some found →
  Github.owner found ≠ "" ∧ Github.repo found ≠ ""
  ∧ without "/" (Github.owner found) = true ∧ without "/" (Github.repo found) = true
  ∧ ∃ before after,
      Text.trim url
      = before +:+ Github.owner found +:+ "/" +:+ Github.repo found +:+ after.
Proof.
  unfold Github.parseGitHubUrl. cbv zeta.
  destruct (Github.accept (Github.match_github (Text.trim url))) as [first|] eqn:E1.
  - intros [= <-]. apply accept_some in E1 as (o & r & Hm & -> & -> & Hne).
    apply match_github_some in Hm as (Ho & _ & Hso & Hsr & before & tail & ->).
    do 2 (split; [done|]). split; [done|]. split; [by apply strip_git_without|].
    destruct (strip_git_prefix r) as (suffix & Hr & _).
    exists (before +:+ Github.host), (suffix +:+ tail).
    rewrite Hr at 1. by rewrite !app_assoc_string.
  - intros (o & r & Hm & -> & -> & Hne)%accept_some.
    apply match_short_some in Hm as (Ho & _ & Hso & Hsr & ->).
    do 2 (split; [done|]). split; [done|]. split; [by apply strip_git_without|].
    destruct (strip_git_prefix r) as (suffix & Hr & _).
    exists "", suffix. by rewrite Hr at 1.
Qed.

(** What [parseGitHubUrl] returns has been read in the text: an owner
    and a repository name that are not empty and hold no slash, standing
    in the trimmed text on both sides of a slash. *)
Theorem parseGitHubUrl_sound (url : string) (found : Github.repo_ref) :
  Github.parseGitHubUrl url = Some found →
  Github.owner found ≠ "" ∧ Github.repo found ≠ ""
  ∧ without "/" (Github.owner found) = true ∧ without "/" (Github.repo found) = true
  ∧ ∃ before after,
      Text.trim url
      = before +:+ Github.owner found +:+ "/" +:+ Github.repo found +:+ after.
Proof. apply parseGitHubUrl_found. Qed.

Lemma parseGitHubUrl_sound_witness :
  ∃ before after,
    Text.trim "  https://github.com/facebook/react.git  "
    = before +:+ "facebook" +:+ "/" +:+ "react" +:+ after.
Proof.
  destruct (parseGitHubUrl_sound "  https://github.com/facebook/react.git  "
              {| Github.owner := "facebook"; Github.repo := "react" |} eq_refl)
    as (_ & _ & _ & _ & H).
  exact H.
Defined.

Lemma count_app (c : ascii) (a b : string) :
  count c (a +:+ b) = (count c a + count c b)%nat.
Proof.
  induction a as [|x a IH]; [reflexivity|]. rewrite app_cons_string. cbn [count].
  rewrite IH. lia.
Qed.

Lemma count_without (c : ascii) (s : string) : without c s = true ↔ count c s = 0%nat.
Proof.
  induction s as [|x s IH]; [done|]. cbn [without count].
  destruct (Ascii.eqb x c); cbn [negb andb]; [split; [done|lia]|].
  rewrite IH. split; lia.
Qed.

Lemma drop_app_length (a b : string) : drop (String.length a) (a +:+ b) = b.
Proof. induction a as [|c a IH]; [reflexivity|]. by rewrite app_cons_string. Qed.

Lemma match_here_found (o r rest : string) :
  o ≠ "" → r ≠ "" → without "/" o = true → without "/" r = true →
  rest = "" ∨ (∃ after, rest = String "/" after) →
  Github.match_here (Github.host +:+ o +:+ "/" +:+ r +:+ rest) = Some (o, r).
Proof.
  intros Ho Hr Hso Hsr Hrest. unfold Github.match_here.
  rewrite prefix_same, drop_app_length.
  rewrite (until_slash_app o) by eauto.
  destruct o as [|c o]; [done|].
  change ("/" +:+ r +:+ rest) with (String "/" (r +:+ rest)). cbv beta iota zeta.
  rewrite (until_slash_app r rest) by done. by destruct r.
Qed.

Lemma match_github_found (before o r rest : string) :
  without "g" before = true →
  o ≠ "" → r ≠ "" → without "/" o = true → without "/" r = true →
  rest = "" ∨ (∃ after, rest = String "/" after) →
  Github.match_github (before +:+ Github.host +:+ o +:+ "/" +:+ r +:+ rest) = Some (o, r).
Proof.
  intros Hb Ho Hr Hso Hsr Hrest. induction before as [|c before IH].
  - change ("" +:+ Github.host +:+ o +:+ "/" +:+ r +:+ rest)
      with (Github.host +:+ o +:+ "/" +:+ r +:+ rest).
    destruct (Github.host +:+ o +:+ "/" +:+ r +:+ rest) eqn:E;
      cbn [Github.match_github]; rewrite <- E; by rewrite match_here_found.
  - cbn [without] in Hb. apply andb_true_iff in Hb as [Hc Hb].
    rewrite app_cons_string. cbn [Github.match_github].
    assert (Github.match_here (String c (before +:+ Github.host +:+ o +:+ "/" +:+ r +:+ rest))
            = None) as ->.
    { unfold Github.match_here, Github.host. rewrite prefix_cons.
      destruct (ascii_dec "g" c) as [<-|]; done. }
    auto.
Qed.

(** An address of the usual form: whatever stands before ["github.com/"]
    (a scheme, a prefix of the host name; here any text without the
    letter g), the two segments after it are the owner and the
    repository, one [".git"] at the end of the second is dropped, and a
    path after the second segment is ignored. *)
Theorem parseGitHubUrl_address (url before o r rest : string) :
  Text.trim url = before +:+ "github.com/" +:+ o +:+ "/" +:+ r +:+ rest →
  without "g" before = true →
  o ≠ "" → without "/" o = true → without "/" r = true → Github.strip_git r ≠ "" →
  rest = "" ∨ (∃ after, rest = String "/" after) →
  Github.parseGitHubUrl url
  = Some {| Github.owner := o; Github.repo := Github.strip_git r |}.
Proof.
  intros Hurl Hb Ho Hso Hsr Hr Hrest. unfold Github.parseGitHubUrl. cbv zeta.
  rewrite Hurl. change "github.com/" with Github.host.
  rewrite match_github_found by (try done; by intros ->).
  cbn [Github.accept].
  destruct (String.eqb_spec o "") as [|_]; [done|].
  by destruct (String.eqb_spec (Github.strip_git r) "") as [|_].
Qed.

Lemma parseGitHubUrl_address_witness :
  Github.parseGitHubUrl " https://www.github.com/facebook/react.git/tree/main "
  = Some {| Github.owner := "facebook"; Github.repo := "react" |}.
Proof.
  apply (parseGitHubUrl_address _ "https://www." "facebook" "react.git" "/tree/main");
    [reflexivity|reflexivity|discriminate|reflexivity|reflexivity|discriminate|].
  right. by eexists.
Defined.

(** The short form [owner/repo]: a text with one slash and something on
    both sides of it is taken as it stands, whatever the two parts are. *)
Theorem parseGitHubUrl_short (url o r : string) :
  Text.trim url = o +:+ "/" +:+ r →
  o ≠ "" → without "/" o = true → without "/" r = true → Github.strip_git r ≠ "" →
  Github.parseGitHubUrl url
  = Some {| Github.owner := o; Github.repo := Github.strip_git r |}.
Proof.
  intros Hurl Ho Hso Hsr Hr. unfold Github.parseGitHubUrl. cbv zeta. rewrite Hurl.
  assert (r ≠ "") as Hne by by intros ->.
  destruct (Github.match_github (o +:+ "/" +:+ r)) as [[o' r']|] eqn:E.
  { apply match_github_some in E as (_ & _ & _ & _ & before & tail & E).
    apply (f_equal (count "/")) in E. rewrite !count_app in E.
    apply count_without in Hso, Hsr. rewrite Hso, Hsr in E. cbn in E. lia. }
  cbn [Github.accept]. unfold Github.match_short.
  rewrite (until_slash_app o) by eauto. destruct o as [|c o]; [done|].
  change ("/" +:+ r) with (String "/" r). cbv beta iota zeta.
  rewrite <- (app_nil_r_string r) at 1. rewrite (until_slash_app r "") by auto.
  destruct r as [|d r]; [done|]. cbn [Github.accept negb andb String.eqb].
  by destruct (String.eqb_spec (Github.strip_git (String d r)) "") as [|_].
Qed.

(** The witness shows what the short form makes of an address without
    its repository: the host name is taken for the owner. *)
Lemma parseGitHubUrl_short_witness :
  Github.parseGitHubUrl "github.com/facebook"
  = Some {| Github.owner := "github.com"; Github.repo := "facebook" |}.
Proof.
  apply (parseGitHubUrl_short "github.com/facebook" "github.com" "facebook");
    [reflexivity|discriminate|reflexivity|reflexivity|discriminate].
Defined.

(** A text is refused unless it holds a slash. *)
Theorem parseGitHubUrl_needs_slash (url : string) :
  without "/" (Text.trim url) = true →
  Github.parseGitHubUrl url = None ∧ Github.isValidGitHubUrl url = false.
Proof.
  intros H. apply count_without in H.
  assert (Github.parseGitHubUrl url = None) as Hnone; [|by unfold Github.isValidGitHubUrl; rewrite Hnone].
  destruct (Github.parseGitHubUrl url) as [found|] eqn:E; [|done].
  apply parseGitHubUrl_found in E as (_ & _ & _ & _ & before & after & E).
  rewrite E, !count_app in H. cbn in H. lia.
Qed.

Lemma parseGitHubUrl_needs_slash_witness :
  Github.parseGitHubUrl "facebook react" = None
  ∧ Github.isValidGitHubUrl "facebook react" = false.
Proof. apply (parseGitHubUrl_needs_slash "facebook react"). reflexivity. Defined.

(** *** [trim] *)

Lemma parseGitHubUrl_trim (url : string) :
  Github.parseGitHubUrl (Text.trim url) = Github.parseGitHubUrl url.
Proof. unfold Github.parseGitHubUrl. by rewrite trim_idempotent. Qed.

(** ** The analysis of the repository *)

Lemma raises_unit : raises (Analysis.unit_run tt) (fun _ => false) [].
Proof.
  intros d. exists d. split; [done|]. split; [intros x; by rewrite orb_false_r|].
  by rewrite app_nil_r.
Qed.

Lemma raises_bind (m k : Analysis.run unit) (f g : flag → bool) (a b : list jsval) :
  raises m f a → raises k g b →
  raises (Analysis.bind_run m (fun _ => k)) (fun x => f x || g x) (a ++ b).
Proof.
  intros Hm Hk d. destruct (Hm d) as (d1 & E1 & F1 & N1 & L1 & T1).
  destruct (Hk d1) as (d2 & E2 & F2 & N2 & L2 & T2).
  exists d2. unfold Analysis.bind_run. rewrite E1. split; [exact E2|].
  split; [intros x; by rewrite F2, F1, orb_assoc|].
  split; [by rewrite N2, N1, app_assoc|]. split; [congruence|auto].
Qed.

Lemma raises_when (b : bool) (m : Analysis.run unit) (f : flag → bool) :
  raises m f [] → raises (Analysis.when b m) (fun x => b && f x) [].
Proof. destruct b; [done|]. intros _. apply raises_unit. Qed.

Lemma raises_flag (x : flag) (set : Analysis.RepoAnalysisData → Analysis.RepoAnalysisData) :
  (∀ d, (∀ y, flag_of y (set d) = flag_of y d || same_flag x y)
        ∧ Analysis.fileStructure (set d) = Analysis.fileStructure d
        ∧ Analysis.languages (set d) = Analysis.languages d
        ∧ Analysis.contents (set d) = Analysis.contents d) →
  raises (Analysis.update set) (same_flag x) [].
Proof.
  intros H d. destruct (H d) as (F & N & L & C). exists (set d). split; [done|].
  split; [done|]. split; [by rewrite app_nil_r|]. split; [done|].
  unfold contents_are_text. by rewrite C.
Qed.

Ltac flag_update x :=
  apply (raises_flag x); intros d; split;
  [intros []; cbn; by rewrite ?orb_true_r, ?orb_false_r|done].

Lemma set_field_text (k : string) (text : string) (fields : list (string * json)) :
  Forall (λ kv, Types.is_string kv.2 = true) fields →
  Forall (λ kv, Types.is_string kv.2 = true) (set_field k (JStr text) fields).
Proof.
  intros H. unfold set_field. destruct (has_field k fields).
  - induction H as [|[k' v] fields Hv H IH]; [constructor|]. cbn [replace_field].
    destruct (String.eqb k' k); constructor; auto.
  - destruct (array_index k) as [i|]; [|apply Forall_app; split; [done|by constructor]].
    induction H as [|[k' v] fields Hv H IH]; cbn [insert_index]; [by constructor|].
    destruct (array_index k') as [j|]; [destruct (j <? i)|]; repeat constructor; auto.
Qed.

Lemma raises_keep_content (file : string → outcome (option string)) (key path : string) :
  (∃ content, file path = Returns content) →
  raises (Analysis.keep_content file key path) (fun _ => false) [].
Proof.
  intros [content Hfile]. unfold Analysis.keep_content, Analysis.bind_run, Analysis.lift.
  rewrite Hfile. destruct content as [text|]; [|apply raises_unit].
  destruct (String.eqb text ""); cbn [negb Analysis.when]; [apply raises_unit|].
  intros d. eexists. split; [reflexivity|]. split; [intros x; by rewrite orb_false_r|].
  split; [by rewrite app_nil_r|]. split; [done|]. apply set_field_text.
Qed.

Lemma raises_consequence (m : Analysis.run unit) (f g : flag → bool) (a b : list jsval) :
  raises m f a → (∀ x, f x = g x) → a = b → raises m g b.
Proof.
  intros Hm Hf <- d. destruct (Hm d) as (d' & E & F & N & L & T). exists d'.
  split; [done|]. split; [intros x; by rewrite F, Hf|done].
Qed.

Lemma raises_bind_value {A : Type} (a : A) (k : A → Analysis.run unit) (f : flag → bool)
    (names : list jsval) :
  raises (k a) f names →
  raises (Analysis.bind_run (Analysis.lift (Returns a)) k) f names.
Proof. intros Hk d. exact (Hk d). Qed.

Lemma raises_push_file (name : jsval) :
  raises (Analysis.update (Analysis.push_file name)) (fun _ => false) [name].
Proof.
  intros d. eexists. split; [reflexivity|]. split; [intros []; by rewrite orb_false_r|done].
Qed.

Lemma raises_bind_nil (m k : Analysis.run unit) (f g : flag → bool) :
  raises m f [] → raises k g [] →
  raises (Analysis.bind_run m (fun _ => k)) (fun x => f x || g x) [].
Proof. intros Hm Hk. exact (raises_bind m k f g [] [] Hm Hk). Qed.

Lemma raises_visit (eng : engine) (file : string → outcome (option string)) (item : json) :
  has_name item = true → (∀ path, ∃ content, file path = Returns content) →
  raises (Analysis.visit eng file item) (shows item) [get item "name"].
Proof.
  intros Hname Hfile. unfold has_name in Hname.
  destruct (get item "name") as [[ | | |n| | ]|] eqn:En; try discriminate Hname.
  assert (item ≠ JNull) as Hnull by by intros ->.
  unfold Analysis.visit. rewrite (read_not_null eng item "name" Hnull), En.
  apply raises_bind_value.
  eapply raises_consequence.
  { apply raises_bind; [apply raises_push_file|].
    apply raises_bind.
    { apply raises_when, raises_bind_nil;
        [flag_update PackageJson|by apply raises_keep_content]. }
    apply raises_bind.
    { apply raises_when, raises_bind_nil;
        [flag_update RequirementsTxt|by apply raises_keep_content]. }
    apply raises_bind; [apply raises_when; flag_update PyprojectToml|].
    apply raises_bind; [apply raises_when; flag_update Dockerfile|].
    cbn [Analysis.name_toLowerCase]. apply raises_bind_value.
    apply raises_bind.
    { apply raises_when, raises_bind_nil;
        [flag_update Readme|by apply raises_keep_content]. }
    apply raises_bind; [apply raises_when; flag_update Gitignore|].
    apply raises_bind; [apply raises_when; flag_update Tests|].
    apply raises_when. flag_update CI. }
  - intros []; cbv beta; unfold shows, is_test_directory, mentions_readme;
      unfold named, is_dir; rewrite ?En; cbn [same_flag orb andb];
      rewrite ?andb_false_r, ?orb_false_r, ?andb_true_r, ?orb_false_r; reflexivity.
  - reflexivity.
Qed.

Lemma raises_visit_all (eng : engine) (file : string → outcome (option string))
    (items : list json) :
  forallb has_name items = true → (∀ path, ∃ content, file path = Returns content) →
  raises (Analysis.visit_all eng file items)
    (fun x => existsb (fun item => shows item x) items)
    (map (fun item => get item "name") items).
Proof.
  intros Hitems Hfile. induction items as [|item items IH]; [apply raises_unit|].
  cbn [forallb] in Hitems. apply andb_true_iff in Hitems as [Hitem Hitems].
  cbn [Analysis.visit_all existsb map].
  eapply raises_consequence;
    [apply raises_bind; [by apply raises_visit|by apply IH]|done|done].
Qed.

Lemma scan_listing (eng : engine) (repoInfo : json) (items : list json)
    (file : string → outcome (option string)) :
  repoInfo ≠ JNull →
  forallb has_name items = true → (∀ path, ∃ content, file path = Returns content) →
  ∃ data,
    Analysis.analyzeRepository eng (Returns repoInfo) (Returns (JArr items)) file
    = Returns data
    ∧ (∀ x, flag_of x data = existsb (fun item => shows item x) items)
    ∧ Analysis.fileStructure data = map (fun item => get item "name") items
    ∧ Analysis.languages data
      = match get repoInfo "language" with
        | Some language => if truthy language then [language] else []
        | None => []
        end
    ∧ contents_are_text data.
Proof.
  intros Hnull Hitems Hfile. unfold Analysis.analyzeRepository, Analysis.scan.
  unfold Analysis.bind_run at 1. cbn [Analysis.lift].
  unfold Analysis.bind_run at 1. rewrite (read_not_null eng repoInfo "language" Hnull).
  cbn [Analysis.lift].
  set (start := if truthy_val (get repoInfo "language")
                then Analysis.push_language (default JNull (get repoInfo "language"))
                       Analysis.initial
                else Analysis.initial).
  assert (Analysis.bind_run
            (Analysis.when (truthy_val (get repoInfo "language"))
               (Analysis.update
                  (Analysis.push_language (default JNull (get repoInfo "language")))))
            (fun _ => Analysis.bind_run (Analysis.lift (Returns (JArr items)))
               (fun contents => match contents with
                                | JArr items => Analysis.visit_all eng file items
                                | _ => Analysis.unit_run tt
                                end)) Analysis.initial
          = Analysis.visit_all eng file items start) as ->.
  { unfold Analysis.bind_run at 1. subst start.
    by destruct (truthy_val (get repoInfo "language")). }
  destruct (raises_visit_all eng file items Hitems Hfile start)
    as (data & -> & Hflags & Hfiles & Hlang & Htext).
  exists data. split; [done|].
  assert (∀ x, flag_of x start = false) as Hstart.
  { intros x. subst start. by destruct (truthy_val _), x. }
  split; [intros x; by rewrite Hflags, Hstart|].
  split; [rewrite Hfiles; subst start; by destruct (truthy_val _)|].
  split.
  - rewrite Hlang. subst start. destruct (get repoInfo "language") as [l|]; [|done].
    cbn [truthy_val]. by destruct (truthy l).
  - apply Htext. subst start. destruct (truthy_val _); constructor.
Qed.

(** When the repository can be read and every entry of its listing has
    a name, [analyzeRepository] lists the names in order and raises each
    flag exactly when an entry calls for it: a file of the given name, a
    name that holds "readme" in any case, a directory [test], [tests]
    or [__tests__], a directory [.github].  The kind of the entry is
    looked at for the last two only. *)
Theorem analyzeRepository_flags (eng : engine) (repoInfo : json) (items : list json)
    (file : string → outcome (option string)) :
  repoInfo ≠ JNull →
  forallb has_name items = true → (∀ path, ∃ content, file path = Returns content) →
  ∃ data,
    Analysis.analyzeRepository eng (Returns repoInfo) (Returns (JArr items)) file
    = Returns data
    ∧ Analysis.fileStructure data = map (fun item => get item "name") items
    ∧ Analysis.hasPackageJson data = existsb (named "package.json") items
    ∧ Analysis.hasRequirementsTxt data = existsb (named "requirements.txt") items
    ∧ Analysis.hasPyprojectToml data = existsb (named "pyproject.toml") items
    ∧ Analysis.hasDockerfile data = existsb (named "Dockerfile") items
    ∧ Analysis.hasGitignore data = existsb (named ".gitignore") items
    ∧ Analysis.hasReadme data = existsb mentions_readme items
    ∧ Analysis.hasTests data = existsb is_test_directory items
    ∧ Analysis.hasCI data
      = existsb (fun item => is_dir item && named ".github" item) items.
Proof.
  intros Hnull Hitems Hfile.
  destruct (scan_listing eng repoInfo items file Hnull Hitems Hfile)
    as (data & Hdata & Hflags & Hfiles & _).
  exists data. split; [done|]. split; [done|].
  pose proof (Hflags PackageJson). pose proof (Hflags RequirementsTxt).
  pose proof (Hflags PyprojectToml). pose proof (Hflags Dockerfile).
  pose proof (Hflags Gitignore). pose proof (Hflags Readme). pose proof (Hflags Tests).
  pose proof (Hflags CI). done.
Qed.

Lemma analyzeRepository_flags_witness :
  ∃ data,
    Analysis.analyzeRepository Example.node (Returns (JObj [("language", JStr "TypeScript")]))
      (Returns (JArr sample_listing)) sample_files
    = Returns data
    ∧ Analysis.fileStructure data
      = [Some (JStr "package.json"); Some (JStr "src"); Some (JStr "tests");
         Some (JStr "ReadMe.md"); Some (JStr ".github"); Some (JStr "test")]
    ∧ Analysis.hasPackageJson data = true
    ∧ Analysis.hasDockerfile data = false
    ∧ Analysis.hasReadme data = true
    ∧ Analysis.hasTests data = true
    ∧ Analysis.hasCI data = true.
Proof.
  destruct (analyzeRepository_flags Example.node (JObj [("language", JStr "TypeScript")])
              sample_listing sample_files)
    as (data & Hdata & Hfiles & Hp & _ & _ & Hd & _ & Hr & Ht & Hc).
  - discriminate.
  - reflexivity.
  - intros path. unfold sample_files. destruct (String.eqb path "package.json"); eauto.
  - exists data. split; [exact Hdata|]. split; [exact Hfiles|].
    split; [exact Hp|]. split; [exact Hd|]. split; [exact Hr|]. split; [exact Ht|exact Hc].
Defined.

(** *** A repository that cannot be read *)

Lemma fetchRepositoryInfo_fails (eng : engine) (token : option string)
    (github : GithubApi.request → fetch_result) (owner repo : string) :
  github (info_request token owner repo) = NetworkFailure
  ∨ (∃ status statusText body,
       github (info_request token owner repo) = HttpResponse status statusText body
       ∧ (ok status = false ∨ parse body = Malformed)) →
  ∃ e, GithubApi.fetchRepositoryInfo eng token github owner repo = Throws e.
Proof.
  unfold GithubApi.fetchRepositoryInfo, info_request.
  intros [->|(status & statusText & body & -> & H)]; [eauto|].
  destruct (ok status) eqn:Hok; cbn [negb].
  - destruct H as [|H]; [done|]. unfold JSON_parse. rewrite H. eauto.
  - destruct (status =? 404); [eauto|]. destruct (status =? 403); eauto.
Qed.

(** When the repository cannot be read (the request fails, GitHub
    answers 404, 403 or any other error, or what it sends is not JSON),
    the exception with its message goes no further than the log: the
    analysis returns the data it started from, all flags down and no
    file, whatever the listing would have been, and that is what
    [generateProductionReport] posts to the proxy. *)
Theorem unreadable_repository_is_analyzed_as_empty (eng : engine) (token : option string)
    (github : GithubApi.request → fetch_result) (file : string → outcome (option string))
    (proxy : string → fetch_result) (owner repo url analyzedAt : string) (now : Z) :
  github (info_request token owner repo) = NetworkFailure
  ∨ (∃ status statusText body,
       github (info_request token owner repo) = HttpResponse status statusText body
       ∧ (ok status = false ∨ parse body = Malformed)) →
  Client.analyzeRepository eng token github file owner repo = Returns Analysis.initial
  ∧ Client.generateProductionReport eng token github file proxy owner repo url analyzedAt now
    = Analyzer.generateProductionReport eng owner repo url analyzedAt now
        (proxy (Client.request_body owner repo Analysis.initial)).
Proof.
  intros H. apply (fetchRepositoryInfo_fails eng) in H as [e He].
  assert (Client.analyzeRepository eng token github file owner repo
          = Returns Analysis.initial) as Hdata.
  { unfold Client.analyzeRepository, Analysis.analyzeRepository, Analysis.scan.
    by rewrite He. }
  split; [exact Hdata|]. unfold Client.generateProductionReport. by rewrite Hdata.
Qed.

Lemma unreadable_repository_is_analyzed_as_empty_witness :
  Client.analyzeRepository Example.node None
    (fun _ => HttpResponse 404 "Not Found" "{}") sample_files "facebook" "react"
  = Returns Analysis.initial.
Proof.
  apply (unreadable_repository_is_analyzed_as_empty Example.node None
           (fun _ => HttpResponse 404 "Not Found" "{}") sample_files
           (fun _ => NetworkFailure) "facebook" "react" "" "" 0).
  right. exists 404, "Not Found", "{}". split; [reflexivity|]. by left.
Defined.

(** *** An entry that is not an object *)

Lemma visit_null (eng : engine) (file : string → outcome (option string))
    (d : Analysis.RepoAnalysisData) :
  Analysis.visit eng file JNull d
  = (d, Throws (Exn TypeError (msg_read_nullish eng "null" "name"))).
Proof. reflexivity. Qed.

Lemma visit_all_null (eng : engine) (file : string → outcome (option string))
    (good more : list json) (d : Analysis.RepoAnalysisData) :
  match Analysis.visit_all eng file (good ++ JNull :: more) d with
  | (_, Beyond) => Beyond
  | (data, _) => Returns data
  end
  = match Analysis.visit_all eng file good d with
    | (_, Beyond) => Beyond
    | (data, _) => Returns data
    end.
Proof.
  revert d. induction good as [|item good IH]; intros d.
  - cbn [app Analysis.visit_all]. unfold Analysis.bind_run. by rewrite visit_null.
  - cbn [app Analysis.visit_all]. unfold Analysis.bind_run.
    destruct (Analysis.visit eng file item d) as [d1 [[]|e|]]; [apply IH|done..].
Qed.

(** A [null] among the entries of the listing ends the scan there
    without a word: the analysis is the one of the entries before it,
    and the entries after it are not looked at. *)
Theorem null_entry_ends_the_scan (eng : engine) (info : outcome json)
    (file : string → outcome (option string)) (good more : list json) :
  Analysis.analyzeRepository eng info (Returns (JArr (good ++ JNull :: more))) file
  = Analysis.analyzeRepository eng info (Returns (JArr good)) file.
Proof.
  unfold Analysis.analyzeRepository, Analysis.scan, Analysis.bind_run, Analysis.lift.
  destruct info as [repoInfo|e|]; [|done..].
  destruct (read eng (Some repoInfo) "language") as [language|e|]; [|done..].
  destruct (Analysis.when _ _ Analysis.initial) as [d2 [[]|e|]]; [|done..].
  apply visit_all_null.
Qed.

(** *** What the client sends and the prompt builders *)

Lemma keeps_bind {A B : Type} (m : Analysis.run A) (k : A → Analysis.run B) :
  keeps_text m → (∀ a, keeps_text (k a)) → keeps_text (Analysis.bind_run m k).
Proof.
  intros Hm Hk d Hd. unfold Analysis.bind_run. specialize (Hm d Hd).
  destruct (m d) as [d1 [a|e|]]; [by apply Hk|done..].
Qed.

Lemma keeps_lift {A : Type} (m : outcome A) : keeps_text (Analysis.lift m).
Proof. by intros d. Qed.

Lemma keeps_unit {A : Type} (a : A) : keeps_text (Analysis.unit_run a).
Proof. by intros d. Qed.

Lemma keeps_update (f : Analysis.RepoAnalysisData → Analysis.RepoAnalysisData) :
  (∀ d, contents_are_text d → contents_are_text (f d)) → keeps_text (Analysis.update f).
Proof. intros Hf d. apply Hf. Qed.

Lemma keeps_when (b : bool) (m : Analysis.run unit) :
  keeps_text m → keeps_text (Analysis.when b m).
Proof. destruct b; [done|]. intros _. apply keeps_unit. Qed.

Lemma keeps_keep_content (file : string → outcome (option string)) (key path : string) :
  keeps_text (Analysis.keep_content file key path).
Proof.
  unfold Analysis.keep_content. apply keeps_bind; [apply keeps_lift|].
  intros [text|]; [|apply keeps_unit]. apply keeps_when, keeps_update.
  intros d. apply set_field_text.
Qed.

Ltac keeps_text_steps :=
  repeat first
    [ apply keeps_keep_content
    | apply keeps_lift
    | apply keeps_unit
    | apply keeps_when
    | apply keeps_update; intros ? ?; assumption
    | apply keeps_bind; [|intros ?] ].

Lemma keeps_visit (eng : engine) (file : string → outcome (option string)) (item : json) :
  keeps_text (Analysis.visit eng file item).
Proof. unfold Analysis.visit. keeps_text_steps. Qed.

Lemma keeps_visit_all (eng : engine) (file : string → outcome (option string))
    (items : list json) :
  keeps_text (Analysis.visit_all eng file items).
Proof.
  induction items as [|item items IH]; [apply keeps_unit|].
  cbn [Analysis.visit_all]. apply keeps_bind; [apply keeps_visit|done].
Qed.

Lemma analyzeRepository_text (eng : engine) (info listing : outcome json)
    (file : string → outcome (option string)) (data : Analysis.RepoAnalysisData) :
  Analysis.analyzeRepository eng info listing file = Returns data →
  contents_are_text data.
Proof.
  assert (keeps_text (Analysis.scan eng info listing file)) as H.
  { unfold Analysis.scan. apply keeps_bind; [apply keeps_lift|]. intros repoInfo.
    apply keeps_bind; [apply keeps_lift|]. intros language.
    apply keeps_bind; [apply keeps_when, keeps_update; by intros d|]. intros _.
    apply keeps_bind; [apply keeps_lift|]. intros contents.
    destruct contents; try apply keeps_unit. apply keeps_visit_all. }
  specialize (H Analysis.initial ltac:(constructor)).
  unfold Analysis.analyzeRepository.
  destruct (Analysis.scan eng info listing file Analysis.initial) as [d [[]|e|]];
    [by intros [= <-]..|done].
Qed.

Lemma assoc_text (key : string) (fields : list (string * json)) :
  Forall (λ kv, Types.is_string kv.2 = true) fields →
  assoc key fields = None ∨ ∃ text, assoc key fields = Some (JStr text).
Proof.
  induction 1 as [|[k v] fields Hv _ IH]; [by left|]. cbn [assoc].
  destruct (String.eqb k key); [|done]. destruct v; try discriminate Hv. eauto.
Qed.

Lemma excerpt_text (eng : engine) (expr heading : string) (n : nat) (x : jsval) :
  x = None ∨ (∃ text, x = Some (JStr text)) →
  Part001.excerpt eng expr heading n x = Beyond
  ∨ ∃ part, Part001.excerpt eng expr heading n x = Returns part.
Proof.
  intros [->|[text ->]]; [right; by eexists|]. unfold Part001.excerpt.
  destruct (truthy_val (Some (JStr text))); [|right; by eexists].
  unfold substring0. destruct (take_units n text); cbn; eauto.
Qed.

(** *** What the builders convert *)

Section Invariant.

Variable P : Analysis.RepoAnalysisData → Prop.

Lemma invariant_bind {A B : Type} (m : Analysis.run A) (k : A → Analysis.run B) :
  keeps P m → (∀ a, keeps P (k a)) → keeps P (Analysis.bind_run m k).
Proof.
  intros Hm Hk d Hd. unfold Analysis.bind_run. specialize (Hm d Hd).
  destruct (m d) as [d1 [a|e|]]; [by apply Hk|done..].
Qed.

(** A bind whose continuation is reached only for values of [Q]. *)
Lemma invariant_bind_value {A B : Type} (Q : A → Prop) (m : outcome A)
    (k : A → Analysis.run B) :
  (∀ a, m = Returns a → Q a) → (∀ a, Q a → keeps P (k a)) →
  keeps P (Analysis.bind_run (Analysis.lift m) k).
Proof.
  intros Hm Hk d Hd. unfold Analysis.bind_run, Analysis.lift.
  destruct m as [a|e|]; [|done..]. by apply Hk; [apply Hm|].
Qed.

Lemma invariant_lift {A : Type} (m : outcome A) : keeps P (Analysis.lift m).
Proof. by intros d. Qed.

Lemma invariant_unit {A : Type} (a : A) : keeps P (Analysis.unit_run a).
Proof. by intros d. Qed.

Lemma invariant_update (f : Analysis.RepoAnalysisData → Analysis.RepoAnalysisData) :
  (∀ d, P d → P (f d)) → keeps P (Analysis.update f).
Proof. intros Hf d. apply Hf. Qed.

Lemma invariant_when (b : bool) (m : Analysis.run unit) :
  keeps P m → keeps P (Analysis.when b m).
Proof. destruct b; [done|]. intros _. apply invariant_unit. Qed.

End Invariant.

Ltac printable_same := apply invariant_update; intros [] ?; assumption.

Lemma printable_keep_content (file : string → outcome (option string)) (key path : string) :
  keeps printable (Analysis.keep_content file key path).
Proof.
  unfold Analysis.keep_content. apply invariant_bind; [apply invariant_lift|].
  intros [text|]; [|apply invariant_unit]. apply invariant_when. printable_same.
Qed.

Lemma printable_visit (eng : engine) (file : string → outcome (option string)) (item : json) :
  convertible_val (get item "name") = true → keeps printable (Analysis.visit eng file item).
Proof.
  intros Hitem. unfold Analysis.visit.
  apply (invariant_bind_value _ (fun name => convertible_val name = true)).
  { intros name Hname. destruct item; try discriminate Hname; by injection Hname as <-. }
  intros name Hname.
  apply invariant_bind.
  { apply invariant_update. intros d [Hlang Hfiles]. split; [done|].
    cbn [Analysis.push_file Analysis.fileStructure].
    rewrite forallb_app, Hfiles. cbn. by rewrite Hname. }
  intros _. apply invariant_bind.
  { apply invariant_when, invariant_bind; [printable_same|]. intros _.
    apply printable_keep_content. }
  intros _. apply invariant_bind.
  { apply invariant_when, invariant_bind; [printable_same|]. intros _.
    apply printable_keep_content. }
  intros _. apply invariant_bind; [apply invariant_when; printable_same|].
  intros _. apply invariant_bind; [apply invariant_when; printable_same|].
  intros _. apply invariant_bind; [apply invariant_lift|].
  intros lowered. apply invariant_bind.
  { apply invariant_when, invariant_bind; [printable_same|]. intros _.
    apply printable_keep_content. }
  intros _. apply invariant_bind; [apply invariant_when; printable_same|].
  intros _. apply invariant_bind; [apply invariant_when; printable_same|].
  intros _. apply invariant_when. printable_same.
Qed.

Lemma printable_visit_all (eng : engine) (file : string → outcome (option string))
    (items : list json) :
  forallb (fun item => convertible_val (get item "name")) items = true →
  keeps printable (Analysis.visit_all eng file items).
Proof.
  induction items as [|item items IH]; [intros _; apply invariant_unit|].
  cbn [forallb]. intros [Hitem Hitems]%andb_true_iff.
  cbn [Analysis.visit_all]. apply invariant_bind; [by apply printable_visit|auto].
Qed.

(** The data gathered from such answers can be converted. *)
Lemma analyzeRepository_printable (eng : engine) (info listing : outcome json)
    (file : string → outcome (option string)) (data : Analysis.RepoAnalysisData) :
  language_printable info → names_printable listing →
  Analysis.analyzeRepository eng info listing file = Returns data →
  printable data.
Proof.
  intros Hinfo Hlisting.
  assert (keeps printable (Analysis.scan eng info listing file)) as H.
  { unfold Analysis.scan.
    apply (invariant_bind_value _ (fun repoInfo => info = Returns repoInfo)); [done|].
    intros repoInfo HrepoInfo.
    apply (invariant_bind_value _ (fun language => convertible_val language = true)).
    { intros language Hlanguage.
      assert (language = get repoInfo "language") as ->.
      { destruct repoInfo; try discriminate Hlanguage; by injection Hlanguage. }
      by apply Hinfo. }
    intros language Hlanguage. apply invariant_bind.
    { destruct language as [language|]; [|apply invariant_unit].
      apply invariant_when, invariant_update. intros d [Hlang Hfiles]. split; [|done].
      cbn [Analysis.push_language Analysis.languages default].
      rewrite forallb_app, Hlang. cbn. cbn in Hlanguage. by rewrite Hlanguage. }
    intros _.
    apply (invariant_bind_value _ (fun contents => listing = Returns contents)); [done|].
    intros contents Hcontents. destruct contents; try apply invariant_unit.
    apply printable_visit_all. by apply Hlisting. }
  assert (printable Analysis.initial) as Hinitial by by split.
  specialize (H Analysis.initial Hinitial).
  unfold Analysis.analyzeRepository.
  destruct (Analysis.scan eng info listing file Analysis.initial) as [d [[]|e|]];
    [by intros [= <-]..|done].
Qed.






Lemma array_join_convertible (eng : engine) (sep : string) (items : list json) :
  forallb convertible items = true →
  ∃ text, array_join eng sep items = Returns text.
Proof. unfold array_join. intros ->. by eexists. Qed.

Lemma file_names_convertible (names : list jsval) :
  forallb convertible (map (fun name => default JNull name) names)
  = forallb convertible_val names.
Proof. induction names as [|[name|] names IH]; cbn; by rewrite ?IH. Qed.

Lemma first_builder_on_client_data (eng : engine) (owner repo : string)
    (data : Analysis.RepoAnalysisData) :
  printable data →
  ∃ prompt,
    Part000.buildAnalysisPrompt eng (Some (JStr owner)) (Some (JStr repo))
      (Some (Analysis.analysisData_json data)) = Returns prompt.
Proof.
  intros [Hlang _]. unfold Part000.buildAnalysisPrompt. cbv zeta.
  change (or_else (Some (Analysis.analysisData_json data)) (JObj []))
    with (Analysis.analysisData_json data).
  change (get (Analysis.analysisData_json data) "languages")
    with (Some (JArr (Analysis.languages data))).
  rewrite !ToString_string. cbn [mbind outcome_bind].
  destruct (Analysis.languages data) as [|language languages] eqn:E.
  - by eexists.
  - cbn [or_else truthy Proxy.join_of].
    destruct (array_join_convertible eng ", " (language :: languages) Hlang) as [text ->].
    by eexists.
Qed.

Lemma second_builder_on_client_data (eng : engine) (owner repo : string)
    (data : Analysis.RepoAnalysisData) :
  contents_are_text data → printable data →
  Part001.buildAnalysisPrompt eng (Some (JStr owner)) (Some (JStr repo))
    (Some (Analysis.analysisData_json data))
  = Beyond
  ∨ ∃ prompt,
      Part001.buildAnalysisPrompt eng (Some (JStr owner)) (Some (JStr repo))
        (Some (Analysis.analysisData_json data))
      = Returns prompt.
Proof.
  intros Htext [Hlang Hfiles]. unfold Part001.buildAnalysisPrompt. cbv zeta.
  rewrite !ToString_string.
  change (read eng (Some (Analysis.analysisData_json data)) "languages")
    with (@Returns jsval (Some (JArr (Analysis.languages data)))).
  change (get_opt (Some (Analysis.analysisData_json data)) "fileStructure")
    with (Some (JArr (map (fun name => default JNull name) (Analysis.fileStructure data)))).
  change (get_opt (Some (Analysis.analysisData_json data)) "packageJsonContent")
    with (assoc "packageJsonContent" (Analysis.contents data)).
  change (get_opt (Some (Analysis.analysisData_json data)) "readmeContent")
    with (assoc "readmeContent" (Analysis.contents data)).
  change (get_opt (Some (Analysis.analysisData_json data)) "requirementsContent")
    with (assoc "requirementsContent" (Analysis.contents data)).
  cbn [mbind outcome_bind Proxy.join_of].
  destruct (array_join_convertible eng ", " _ Hlang) as [languages ->].
  rewrite <- file_names_convertible in Hfiles.
  destruct (array_join_convertible eng newline _ Hfiles) as [files ->].
  cbn [mbind outcome_bind].
  destruct (excerpt_text eng "analysisData.packageJsonContent" Part001.package_json_heading
              2000 _ (assoc_text "packageJsonContent" _ Htext)) as [->|[p1 ->]];
    [by left|].
  destruct (excerpt_text eng "analysisData.readmeContent" Part001.readme_heading
              2000 _ (assoc_text "readmeContent" _ Htext)) as [->|[p2 ->]];
    [by left|].
  destruct (excerpt_text eng "analysisData.requirementsContent"
              Part001.requirements_heading 1000 _
              (assoc_text "requirementsContent" _ Htext)) as [->|[p3 ->]];
    [by left|].
  right. by eexists.
Qed.

(** The data [analyzeRepository] gives is data both prompt builders
    take, for an owner and a repository that are strings and answers of
    GitHub in which the language and the names of the entries can be
    converted to strings, as the strings GitHub gives can: the builder of
    the first server file returns a prompt, and the one of the second,
    which reads [analysisData.languages] and [analysisData.fileStructure]
    unguarded, finds the two arrays there and does not throw. *)
Theorem builders_take_the_analysis (eng : engine) (info listing : outcome json)
    (file : string → outcome (option string)) (data : Analysis.RepoAnalysisData)
    (owner repo : string) :
  Analysis.analyzeRepository eng info listing file = Returns data →
  language_printable info → names_printable listing →
  (∃ prompt,
     Part000.buildAnalysisPrompt eng (Some (JStr owner)) (Some (JStr repo))
       (Some (Analysis.analysisData_json data))
     = Returns prompt)
  ∧ (∀ e,
       Part001.buildAnalysisPrompt eng (Some (JStr owner)) (Some (JStr repo))
         (Some (Analysis.analysisData_json data))
       ≠ Throws e).
Proof.
  intros Hdata Hinfo Hlisting.
  pose proof (analyzeRepository_printable _ _ _ _ _ Hinfo Hlisting Hdata) as Hprint.
  apply analyzeRepository_text in Hdata. split.
  - by apply first_builder_on_client_data.
  - intros e. by destruct (second_builder_on_client_data eng owner repo data Hdata Hprint)
      as [->|[prompt ->]].
Qed.

(** At a repository written in TypeScript with six entries; and at a
    language that is the object [{"toString": 1}], where the first
    builder throws. *)
Lemma builders_take_the_analysis_witness :
  (∃ data prompt,
     Analysis.analyzeRepository Example.node
       (Returns (JObj [("language", JStr "TypeScript")]))
       (Returns (JArr sample_listing)) sample_files = Returns data
     ∧ Analysis.languages data = [JStr "TypeScript"]
     ∧ Part000.buildAnalysisPrompt Example.node (Some (JStr "facebook"))
         (Some (JStr "react")) (Some (Analysis.analysisData_json data))
       = Returns prompt)
  ∧ (∃ data,
       Analysis.analyzeRepository Example.node
         (Returns (JObj [("language", JObj [("toString", JNum 1)])]))
         (Returns (JArr sample_listing)) sample_files = Returns data
       ∧ Part000.buildAnalysisPrompt Example.node (Some (JStr "facebook"))
           (Some (JStr "react")) (Some (Analysis.analysisData_json data))
         = Throws (Exn TypeError "Cannot convert object to primitive value")).
Proof.
  split.
  - assert (∃ data,
              Analysis.analyzeRepository Example.node
                (Returns (JObj [("language", JStr "TypeScript")]))
                (Returns (JArr sample_listing)) sample_files = Returns data
              ∧ Analysis.languages data = [JStr "TypeScript"]) as (data & Hdata & Hlang).
    { eexists. split; vm_compute; reflexivity. }
    destruct (builders_take_the_analysis Example.node
                (Returns (JObj [("language", JStr "TypeScript")]))
                (Returns (JArr sample_listing)) sample_files data "facebook" "react" Hdata)
      as [[prompt Hprompt] _].
    + by intros repoInfo [= <-].
    + by intros items [= <-].
    + by exists data, prompt.
  - eexists. split; vm_compute; reflexivity.
Defined.

(** ** From the form to the report *)

(** What the form lets through is the trimmed text, and [handleAnalyze]
    reads in it the owner and the repository the form has checked: the
    error of an address that cannot be read is never met behind the
    form. *)
Theorem submitted_address_is_parsed (url submitted : string) :
  Form.handleSubmit url = Form.Submitted submitted →
  submitted = Text.trim url
  ∧ ∃ found, Github.parseGitHubUrl submitted = Some found
             ∧ Github.parseGitHubUrl url = Some found
             ∧ Github.owner found ≠ "" ∧ Github.repo found ≠ "".
Proof.
  unfold Form.handleSubmit, Github.isValidGitHubUrl.
  destruct (String.eqb (Text.trim url) ""); [done|].
  destruct (Github.parseGitHubUrl url) as [found|] eqn:E; [|done]. intros [= <-].
  split; [done|]. exists found. rewrite parseGitHubUrl_trim.
  destruct (parseGitHubUrl_found _ _ E) as (? & ? & _). done.
Qed.

Lemma submitted_address_is_parsed_witness :
  ∃ found, Github.parseGitHubUrl "facebook/react" = Some found
           ∧ Github.parseGitHubUrl " facebook/react " = Some found
           ∧ Github.owner found ≠ "" ∧ Github.repo found ≠ "".
Proof.
  exact (proj2 (submitted_address_is_parsed " facebook/react " "facebook/react" eq_refl)).
Defined.

Lemma analyzeRepository_returns (eng : engine) (info listing : outcome json)
    (file : string → outcome (option string)) :
  Analysis.analyzeRepository eng info listing file = Beyond
  ∨ ∃ data, Analysis.analyzeRepository eng info listing file = Returns data.
Proof.
  unfold Analysis.analyzeRepository.
  destruct (Analysis.scan eng info listing file Analysis.initial) as [d [[]|e|]]; eauto.
Qed.

Lemma generateProductionReport_repository (eng : engine)
    (owner repo url analyzedAt : string) (now : Z) (reply : fetch_result)
    (r : Types.ProductionReport) :
  Analyzer.generateProductionReport eng owner repo url analyzedAt now reply = Returns r →
  Types.repository r
  = {| Types.url := url; Types.owner := owner; Types.repo := repo;
       Types.analyzedAt := analyzedAt |}
  ∧ Types.createdAt r = analyzedAt.
Proof.
  unfold Analyzer.generateProductionReport.
  destruct (Analyzer.callProxyAnalysis eng reply) as [reportData|e|]; cbn;
    [|by intros [= <-]|discriminate].
  destruct reportData as [[]|]; cbn; by intros [= <-].
Qed.

Lemma client_report (eng : engine) (token : option string)
    (github : GithubApi.request → fetch_result) (file : string → outcome (option string))
    (proxy : string → fetch_result) (owner repo url analyzedAt : string) (now : Z) :
  Client.generateProductionReport eng token github file proxy owner repo url analyzedAt now
  = Beyond
  ∨ ∃ r, Client.generateProductionReport eng token github file proxy owner repo url
           analyzedAt now = Returns r
         ∧ Types.id r = "report-" +:+ decimal now
         ∧ Types.repository r
           = {| Types.url := url; Types.owner := owner; Types.repo := repo;
                Types.analyzedAt := analyzedAt |}.
Proof.
  unfold Client.generateProductionReport, Client.analyzeRepository.
  destruct (analyzeRepository_returns eng
              (GithubApi.fetchRepositoryInfo eng token github owner repo)
              (GithubApi.fetchRepositoryContents eng token github owner repo "") file)
    as [->|[data ->]]; [by left|]. cbn [mbind outcome_bind].
  destruct (generateProductionReport_returns eng owner repo url analyzedAt now
              (proxy (Client.request_body owner repo data))) as [->|[r Hr]]; [by left|].
  right. exists r. split; [done|].
  split; [by apply generateProductionReport_id in Hr|].
  by apply generateProductionReport_repository in Hr as [? _].
Qed.



(** ** The proxy server, for every request *)

Lemma JSON_parse_returns (eng : engine) (text : string) (v : json) :
  JSON_parse eng text = Returns v → parse text = Parsed v.
Proof. unfold JSON_parse. destruct (parse text); by intros [= <-]. Qed.

Lemma complete_returns (eng : engine) (startTime endTime : Z) (timestamp : string)
    (reply : fetch_result) (r : Proxy.response) :
  Proxy.complete eng startTime endTime timestamp reply = Returns r →
  ∃ status statusText body data text v,
    reply = HttpResponse status statusText body ∧ ok status = true
    ∧ parse body = Parsed data
    ∧ Proxy.candidate_text eng data = Returns (Some (JStr text))
    ∧ text ≠ ""
    ∧ parse (cleanText text) = Parsed v
    ∧ r = Proxy.success startTime endTime timestamp v.
Proof.
  unfold Proxy.complete. destruct reply as [|status statusText body]; [done|].
  destruct (ok status) eqn:Hok; cbn [negb].
  2:{ by destruct (try_catch (JSON_parse eng body) _). }
  destruct (JSON_parse eng body) as [data|e|] eqn:Hbody; cbn [mbind outcome_bind];
    [|done..].
  apply JSON_parse_returns in Hbody.
  destruct (Proxy.candidate_text eng data) as [responseText|e|] eqn:Htext;
    cbn [mbind outcome_bind]; [|done..].
  destruct (truthy_val responseText) eqn:Htruthy; cbn [negb]; [|done].
  destruct responseText as [[ | | |text| | ]|]; try done.
  destruct (JSON_parse eng (cleanText text)) as [v|e|] eqn:Hv; cbn; [|done..].
  apply JSON_parse_returns in Hv.
  intros [= <-]. exists status, statusText, body, data, text, v.
  repeat split; try done. intros ->. discriminate Htruthy.
Qed.

(** A reply 200 of the proxy is never made up: it is sent only after
    the one call to the provider has been answered with a status 2xx and
    a body whose first candidate text, once the fences are removed, is
    JSON, and its [data] is the value of that text. *)
Theorem success_carries_the_value_of_the_provider (eng : engine)
    (build : engine → jsval → jsval → jsval → outcome string) (failure_text : string)
    (env : gmap string string) (body : json) (upstream : Proxy.outbound → fetch_result)
    (startTime endTime : Z) (timestamp : string) (r : Proxy.response) :
  fst (Proxy.analyze eng build failure_text env body upstream startTime endTime timestamp)
  = Returns r →
  Proxy.status r = 200 →
  ∃ o status statusText answer data text v,
    snd (Proxy.analyze eng build failure_text env body upstream startTime endTime
           timestamp) = [o]
    ∧ upstream o = HttpResponse status statusText answer ∧ ok status = true
    ∧ parse answer = Parsed data
    ∧ Proxy.candidate_text eng data = Returns (Some (JStr text))
    ∧ parse (cleanText text) = Parsed v
    ∧ get (Proxy.payload r) "data" = Some v.
Proof.
  unfold Proxy.analyze.
  destruct (Proxy.prepare eng build (Proxy.GENAI_API_KEY env) body) as [[early|o]|e|] eqn:Hp;
    cbn [fst snd].
  - intros [= <-] Hstatus. revert Hp. unfold Proxy.prepare. destruct body; try done;
      repeat (match goal with |- context [if ?b then _ else _] => destruct b end);
      try (intros [= <-]; discriminate Hstatus);
      by destruct (build _ _ _ _).
  - destruct (Proxy.complete eng startTime endTime timestamp (upstream o))
      as [sent|e|] eqn:Hc; cbn [try_catch]; [|by intros [= <-]|done].
    intros [= <-] _.
    apply complete_returns in Hc
      as (status & statusText & answer & data & text & v & Hu & Hok & Hb & Ht & _ & Hv & ->).
    by exists o, status, statusText, answer, data, text, v.
  - by intros [= <-].
  - done.
Qed.

Lemma success_carries_the_value_of_the_provider_witness :
  ∃ o status statusText answer data text v,
    snd (Part000.analyze Example.node env_with_key analyze_request
           (answering (fenced "" (no_break_space +:+ line_break) "{}" line_break no_break_space)) 0 1 "t") = [o]
    ∧ answering (fenced "" (no_break_space +:+ line_break) "{}" line_break no_break_space) o
      = HttpResponse status statusText answer
    ∧ ok status = true
    ∧ parse answer = Parsed data
    ∧ Proxy.candidate_text Example.node data = Returns (Some (JStr text))
    ∧ parse (cleanText text) = Parsed v
    ∧ get (Proxy.payload (Proxy.success 0 1 "t" (JObj []))) "data" = Some v.
Proof.
  apply (success_carries_the_value_of_the_provider Example.node
           Part000.buildAnalysisPrompt Part000.failure_text env_with_key analyze_request
           (answering (fenced "" (no_break_space +:+ line_break) "{}" line_break no_break_space)) 0 1 "t"
           (Proxy.success 0 1 "t" (JObj []))).
  - vm_compute. reflexivity.
  - reflexivity.
Defined.


(** ** The embedded server, for every request *)

Lemma parse_reply_returns (eng : engine) (responseText v : json) :
  Embedded.parse_reply eng responseText = Returns v →
  ∃ text, responseText = JStr text ∧ parse (cleanJson text) = Parsed v.
Proof.
  unfold Embedded.parse_reply. destruct responseText as [ | | |text| | ]; try done.
  destruct (JSON_parse eng (cleanJson text)) as [w|e|] eqn:E; cbn; [|done..].
  intros [= <-]. apply JSON_parse_returns in E. eauto.
Qed.

(** What the block under [try] sends: a reply 200 with [success: true],
    whose report is the fallback report, or the value read between the
    braces of the text the call of the provider returned. *)
Lemma analyze_body_answers (eng : engine) (env : gmap string string)
    (owner repo analysisData : jsval) (upstream : Proxy.outbound → fetch_result) :
  (fst (Embedded.analyze_body eng env owner repo analysisData upstream) = Beyond
   ∨ ∃ data,
       fst (Embedded.analyze_body eng env owner repo analysisData upstream)
       = Returns {| Proxy.status := 200;
                    Proxy.payload := JObj [("success", JBool true); ("data", data)] |}
       ∧ ((∃ e, data = Embedded.fallbackAnalysis e
                ∧ ∀ o, o ∈ snd (Embedded.analyze_body eng env owner repo analysisData
                                  upstream) →
                       Embedded.callGeminiAPI_reply eng (upstream o) = Throws e
                       ∨ ∃ responseText,
                           Embedded.callGeminiAPI_reply eng (upstream o)
                           = Returns responseText
                           ∧ Embedded.parse_reply eng responseText = Throws e)
          ∨ (∃ o text,
               snd (Embedded.analyze_body eng env owner repo analysisData upstream) = [o]
               ∧ Embedded.callGeminiAPI_reply eng (upstream o) = Returns (JStr text)
               ∧ parse (cleanJson text) = Parsed data)))
  ∧ (length (snd (Embedded.analyze_body eng env owner repo analysisData upstream))
     ≤ 1)%nat.
Proof.
  unfold Embedded.analyze_body.
  assert (∀ e : exn,
            (∃ data,
               Returns (Embedded.fallback e)
               = Returns {| Proxy.status := 200;
                            Proxy.payload := JObj [("success", JBool true); ("data", data)] |}
               ∧ ((∃ e0, data = Embedded.fallbackAnalysis e0
                         ∧ ∀ o, o ∈ @nil Proxy.outbound →
                                Embedded.callGeminiAPI_reply eng (upstream o) = Throws e0
                                ∨ ∃ responseText,
                                    Embedded.callGeminiAPI_reply eng (upstream o)
                                    = Returns responseText
                                    ∧ Embedded.parse_reply eng responseText = Throws e0)
                  ∨ (∃ o text,
                       @nil Proxy.outbound = [o]
                       ∧ Embedded.callGeminiAPI_reply eng (upstream o) = Returns (JStr text)
                       ∧ parse (cleanJson text) = Parsed data)))) as Hfallback.
  { intros e. eexists. split; [done|]. left. exists e. split; [done|].
    intros o Ho. by apply elem_of_nil in Ho. }
  destruct (Embedded.createSafePrompt eng owner repo analysisData) as [prompt|e|].
  - destruct (Embedded.getApiKey env) as [apiKey|e|].
    + unfold Embedded.call. cbn [fst snd length]. split; [|lia].
      destruct (Embedded.callGeminiAPI_reply eng (upstream _)) as [responseText|e|]
        eqn:Hcall; cbn [mbind outcome_bind try_catch]; [| |by left].
      2:{ right. eexists. split; [done|]. left. exists e. split; [done|].
          intros o ->%list_elem_of_singleton. by left. }
      destruct (Embedded.parse_reply eng responseText) as [v|e|] eqn:Hv;
        cbn [mbind outcome_bind try_catch]; [| |by left].
      * destruct (parse_reply_returns eng responseText v Hv) as (text & -> & Hparse).
        right. exists v. split; [done|]. right. eexists _, text. by split.
      * right. eexists. split; [done|]. left. exists e. split; [done|].
        intros o ->%list_elem_of_singleton. right. by exists responseText.
    + cbn [fst snd length]. split; [right; apply Hfallback|lia].
    + cbn [fst snd length]. split; [by left|lia].
  - cbn [fst snd length]. split; [right; apply Hfallback|lia].
  - destruct (Embedded.getApiKey env) as [apiKey|e|]; cbn [fst snd length].
    + split; [by left|lia].
    + split; [right; apply Hfallback|lia].
    + split; [by left|lia].
Qed.

(** Once [owner] and [repo] are given, and are values that can be
    converted to strings, the embedded server answers 200 with [success:
    true] whatever happens: the report it sends is the value read between
    the braces of the text that its one call of the provider returned, and
    in every other case (no [analysisData], no key, a failed call, a text
    that is not JSON) the fallback report that carries the message of the
    error; when a call was made, that error is the one of the call or of
    the reading of its text.  It calls the provider once at most.  For an
    [owner] or a [repo] that cannot be converted, the handler throws
    before its [try] block, sends nothing and calls nothing. *)
Theorem embedded_always_answers_success (eng : engine) (env : gmap string string)
    (body : json) (upstream : Proxy.outbound → fetch_result) :
  truthy_val (get body "owner") = true → truthy_val (get body "repo") = true →
  (convertible_val (get body "owner") = true → convertible_val (get body "repo") = true →
   (fst (Embedded.analyze eng env body upstream) = Beyond
    ∨ ∃ data,
        fst (Embedded.analyze eng env body upstream)
        = Returns {| Proxy.status := 200;
                     Proxy.payload := JObj [("success", JBool true); ("data", data)] |}
        ∧ ((∃ e, data = Embedded.fallbackAnalysis e
                 ∧ ∀ o, o ∈ snd (Embedded.analyze eng env body upstream) →
                        Embedded.callGeminiAPI_reply eng (upstream o) = Throws e
                        ∨ ∃ responseText,
                            Embedded.callGeminiAPI_reply eng (upstream o)
                            = Returns responseText
                            ∧ Embedded.parse_reply eng responseText = Throws e)
           ∨ (∃ o text,
                snd (Embedded.analyze eng env body upstream) = [o]
                ∧ Embedded.callGeminiAPI_reply eng (upstream o) = Returns (JStr text)
                ∧ parse (cleanJson text) = Parsed data)))
   ∧ (length (snd (Embedded.analyze eng env body upstream)) ≤ 1)%nat)
  ∧ (convertible_val (get body "owner") && convertible_val (get body "repo") = false →
     Embedded.analyze eng env body upstream
     = (Throws (Exn TypeError (msg_to_primitive eng)), [])).
Proof.
  intros Howner Hrepo. unfold Embedded.analyze.
  destruct body; try discriminate Howner. rewrite Howner, Hrepo. cbn [negb orb].
  unfold ToString. split.
  - intros -> ->. cbn [mbind outcome_bind]. apply analyze_body_answers.
  - destruct (convertible_val (get (JObj fields) "owner")); cbn; [|done].
    by intros ->.
Qed.

(** At the request of the client: answered by the provider with an
    object between fences, the server sends that object; without a key
    it sends the fallback report and makes no call. *)
Lemma embedded_always_answers_success_witness :
  (∃ o, Embedded.analyze Example.node env_with_key analyze_request
          (answering (fenced "" line_break "{}" line_break ""))
        = (Returns {| Proxy.status := 200;
                      Proxy.payload := JObj [("success", JBool true); ("data", JObj [])] |},
           [o])
        ∧ Embedded.callGeminiAPI_reply Example.node
            (answering (fenced "" line_break "{}" line_break "") o)
          = Returns (JStr (fenced "" line_break "{}" line_break "")))
  ∧ Embedded.analyze Example.node ∅ analyze_request quota_exhausted
    = (Returns (Embedded.fallback
                  (Exn PlainError
                     "MISSING_API_KEY: Gemini API Key is not configured in .env")), []).
Proof.
  destruct (embedded_always_answers_success Example.node env_with_key analyze_request
              (answering (fenced "" line_break "{}" line_break "")) eq_refl eq_refl)
    as [Hanswer _].
  destruct (Hanswer eq_refl eq_refl) as [[Hbeyond|(data & Hreply & Hdata)] _].
  { vm_compute in Hbeyond. discriminate Hbeyond. }
  destruct Hdata as [(e & -> & _)|(o & text & Hcalls & Htext & Hparse)].
  { vm_compute in Hreply. discriminate Hreply. }
  assert (data = JObj []) as ->.
  { vm_compute in Hreply. by injection Hreply as <-. }
  split; [|vm_compute; reflexivity].
  exists o. split.
  - destruct (Embedded.analyze Example.node env_with_key analyze_request
                (answering (fenced "" line_break "{}" line_break ""))) as [reply calls].
    cbn [fst snd] in Hreply, Hcalls. by rewrite Hreply, Hcalls.
  - rewrite Htext. vm_compute in Htext. injection Htext as <-. vm_compute. reflexivity.
Defined.

(** *** The length of the prompt *)






(** ** The incident endpoints *)

Lemma incident_complete_text (eng : engine) (startTime endTime : Z) (timestamp : string)
    (code : Z) (statusText answer : string) (data : json) (text : jsval) :
  ok code = true → parse answer = Parsed data →
  Proxy.candidate_text eng data = Returns text →
  Incident.complete eng startTime endTime timestamp (HttpResponse code statusText answer)
  = match or_else text (JStr "{}") with
    | JStr t =>
        analysisResult ← try_catch (JSON_parse eng (cleanText t))
                           (fun _ => Returns (Incident.packaged (or_else text (JStr "{}"))));
        Returns (Incident.success startTime endTime timestamp analysisResult)
    | _ => Throws (Exn TypeError (msg_not_a_function eng "cleanText.replace"))
    end.
Proof.
  intros Hok Hanswer Htext. unfold Incident.complete. rewrite Hok. cbn [negb].
  rewrite (JSON_parse_parsed eng _ _ Hanswer). cbn [mbind outcome_bind].
  by rewrite Htext.
Qed.

Lemma analyze_incident_sends (eng : engine) (env : gmap string string)
    (body debugData : json) (upstream : Proxy.outbound → fetch_result)
    (startTime endTime : Z) (timestamp : string) (prompt : string) :
  get body "debugData" = Some debugData → truthy debugData = true →
  Proxy.key_truthy (Proxy.GENAI_API_KEY env) = true →
  Incident.incident_prompt eng debugData = Returns prompt →
  Incident.analyze_incident eng env body upstream startTime endTime timestamp
  = (try_catch
       (Incident.complete eng startTime endTime timestamp
          (upstream (incident_call env prompt)))
       (fun e => Returns (Incident.failure env startTime endTime timestamp e)),
     [incident_call env prompt]).
Proof.
  intros Hdata Htruthy Hkey Hprompt. unfold Incident.analyze_incident.
  destruct body; try discriminate Hdata.
  by rewrite Hdata, Htruthy, Hkey; cbn [negb]; unfold Incident.send; rewrite Hprompt.
Qed.

(** When the prompt cannot be built, the endpoint replies 500 with the
    message of the exception and calls nobody. *)
Lemma analyze_incident_fails (eng : engine) (env : gmap string string)
    (body debugData : json) (upstream : Proxy.outbound → fetch_result)
    (startTime endTime : Z) (timestamp : string) (e : exn) :
  get body "debugData" = Some debugData → truthy debugData = true →
  Proxy.key_truthy (Proxy.GENAI_API_KEY env) = true →
  Incident.incident_prompt eng debugData = Throws e →
  Incident.analyze_incident eng env body upstream startTime endTime timestamp
  = (Returns (Incident.failure env startTime endTime timestamp e), []).
Proof.
  intros Hdata Htruthy Hkey Hprompt. unfold Incident.analyze_incident.
  destruct body; try discriminate Hdata.
  by rewrite Hdata, Htruthy, Hkey; cbn [negb]; unfold Incident.send; rewrite Hprompt.
Qed.

(** The prompt is built, or one of the values it holds has no conversion
    to a string. *)
Lemma incident_prompt_outcome (eng : engine) (debugData : json) :
  (∃ prompt, Incident.incident_prompt eng debugData = Returns prompt)
  ∨ Incident.incident_prompt eng debugData = Throws (Exn TypeError (msg_to_primitive eng)).
Proof.
  unfold Incident.incident_prompt, Incident.optional_part, ToString.
  repeat match goal with
         | |- context [if ?b then _ else _] => destruct b; cbn [mbind outcome_bind]
         end; first [by right | left; by eexists].
Qed.

(** [POST /api/analyze-incident] of the first server, when the values of
    [debugData] that the prompt holds can be converted to strings, so that
    the prompt is built, and the provider answers with a 2xx status and a
    body that is JSON: a text that is missing or empty gives the empty
    object as analysis; a text that is not JSON once cleaned is no error,
    it is sent back under [rawResponse] with status 200; a text that is
    JSON gives its value.  When the prompt cannot be built, the reply is
    500 with the message of the exception, and nobody is called. *)
Theorem incident_reply_follows_the_text (eng : engine) (env : gmap string string)
    (body debugData : json) (upstream : Proxy.outbound → fetch_result)
    (startTime endTime : Z) (timestamp : string) :
  get body "debugData" = Some debugData → truthy debugData = true →
  Proxy.key_truthy (Proxy.GENAI_API_KEY env) = true →
  (∀ prompt code statusText answer data text,
     Incident.incident_prompt eng debugData = Returns prompt →
     upstream (incident_call env prompt) = HttpResponse code statusText answer →
     ok code = true → parse answer = Parsed data →
     Proxy.candidate_text eng data = Returns text →
     snd (Incident.analyze_incident eng env body upstream startTime endTime timestamp)
     = [incident_call env prompt]
     ∧ (truthy_val text = false →
        fst (Incident.analyze_incident eng env body upstream startTime endTime timestamp)
        = Returns (Incident.success startTime endTime timestamp (JObj [])))
     ∧ (∀ t, text = Some (JStr t) → t ≠ "" → parse (cleanText t) = Malformed →
             fst (Incident.analyze_incident eng env body upstream startTime endTime
                    timestamp)
             = Returns (Incident.success startTime endTime timestamp
                          (JObj [("rawResponse", JStr t);
                                 ("error", JStr "Failed to parse JSON response")])))
     ∧ (∀ t v, text = Some (JStr t) → t ≠ "" → parse (cleanText t) = Parsed v →
               fst (Incident.analyze_incident eng env body upstream startTime endTime
                      timestamp)
               = Returns (Incident.success startTime endTime timestamp v)))
  ∧ (∀ e, Incident.incident_prompt eng debugData = Throws e →
          Incident.analyze_incident eng env body upstream startTime endTime timestamp
          = (Returns (Incident.failure env startTime endTime timestamp e), []))
  ∧ ((∃ prompt, Incident.incident_prompt eng debugData = Returns prompt)
     ∨ Incident.incident_prompt eng debugData
       = Throws (Exn TypeError (msg_to_primitive eng))).
Proof.
  intros Hdata Htruthy Hkey. split; [|split].
  2:{ intros e. by apply analyze_incident_fails. }
  2:{ apply incident_prompt_outcome. }
  intros prompt code statusText answer data text Hprompt Hup Hok Hanswer Htext.
  rewrite !(analyze_incident_sends _ _ _ _ _ _ _ _ _ Hdata Htruthy Hkey Hprompt).
  cbn [fst snd]. split; [done|].
  rewrite Hup, (incident_complete_text _ _ _ _ _ _ _ _ _ Hok Hanswer Htext).
  split; [|split].
  - intros Hfalsy.
    assert (or_else text (JStr "{}") = JStr "{}") as ->.
    { destruct text as [j|]; [|done]. cbn in Hfalsy. cbn. by rewrite Hfalsy. }
    assert (parse (cleanText "{}") = Parsed (JObj [])) as Hempty by (vm_compute; reflexivity).
    by rewrite (JSON_parse_parsed eng _ _ Hempty).
  - intros t -> Hne Hbad.
    assert (or_else (Some (JStr t)) (JStr "{}") = JStr t) as ->.
    { cbn. by destruct t. }
    unfold JSON_parse. by rewrite Hbad.
  - intros t v -> Hne Hgood.
    assert (or_else (Some (JStr t)) (JStr "{}") = JStr t) as ->.
    { cbn. by destruct t. }
    by rewrite (JSON_parse_parsed eng _ _ Hgood).
Qed.

(** At a text that is not JSON; at an object between fences followed by
    a no-break space; and at symptoms that are the object
    [{"toString": 1}]. *)
Lemma incident_reply_follows_the_text_witness :
  fst (Incident.analyze_incident Example.node env_with_key incident_request
         (answering "I cannot help") 0 5 "2025-01-01T00:00:00.000Z")
  = Returns (Incident.success 0 5 "2025-01-01T00:00:00.000Z"
               (JObj [("rawResponse", JStr "I cannot help");
                      ("error", JStr "Failed to parse JSON response")]))
  ∧ fst (Incident.analyze_incident Example.node env_with_key incident_request
           (answering (no_break_space +:+ "{}")) 0 5 "2025-01-01T00:00:00.000Z")
    = Returns (Incident.success 0 5 "2025-01-01T00:00:00.000Z" (JObj []))
  ∧ Incident.analyze_incident Example.node env_with_key unprintable_incident_request
      (answering "{}") 0 5 "2025-01-01T00:00:00.000Z"
    = (Returns (Incident.failure env_with_key 0 5 "2025-01-01T00:00:00.000Z"
                  (Exn TypeError "Cannot convert object to primitive value")), []).
Proof.
  assert (∃ prompt, Incident.incident_prompt Example.node debug_data = Returns prompt)
    as [prompt Hprompt].
  { eexists. vm_compute. reflexivity. }
  split; [|split].
  - destruct (incident_reply_follows_the_text Example.node env_with_key incident_request
                debug_data (answering "I cannot help") 0 5 "2025-01-01T00:00:00.000Z"
                eq_refl eq_refl eq_refl) as (Hreply & _).
    destruct (Hreply prompt 200 "OK" (stringify (candidate_reply "I cannot help"))
                (candidate_reply "I cannot help") (Some (JStr "I cannot help")))
      as (_ & _ & Hraw & _); [exact Hprompt|vm_compute; reflexivity..|].
    apply (Hraw "I cannot help"); first [discriminate | vm_compute; reflexivity].
  - destruct (incident_reply_follows_the_text Example.node env_with_key incident_request
                debug_data (answering (no_break_space +:+ "{}")) 0 5
                "2025-01-01T00:00:00.000Z" eq_refl eq_refl eq_refl) as (Hreply & _).
    destruct (Hreply prompt 200 "OK"
                (stringify (candidate_reply (no_break_space +:+ "{}")))
                (candidate_reply (no_break_space +:+ "{}"))
                (Some (JStr (no_break_space +:+ "{}"))))
      as (_ & _ & _ & Hvalue); [exact Hprompt|vm_compute; reflexivity..|].
    apply (Hvalue (no_break_space +:+ "{}"));
      first [discriminate | vm_compute; reflexivity].
  - destruct (incident_reply_follows_the_text Example.node env_with_key
                unprintable_incident_request
                (JObj [("errorLog", JStr "TypeError: x is undefined");
                       ("symptoms", JObj [("toString", JNum 1)])])
                (answering "{}") 0 5 "2025-01-01T00:00:00.000Z"
                eq_refl eq_refl eq_refl) as (_ & Hfails & _).
    apply Hfails. vm_compute. reflexivity.
Defined.

Lemma incident_analyze_sends (eng : engine) (env : gmap string string) (body : json)
    (upstream : Proxy.outbound → fetch_result) (startTime endTime : Z) (timestamp : string)
    (owner repo prompt : string) :
  get body "owner" = Some (JStr owner) → owner ≠ "" →
  get body "repo" = Some (JStr repo) → repo ≠ "" →
  Part001.buildAnalysisPrompt eng (Some (JStr owner)) (Some (JStr repo))
    (get body "analysisData") = Returns prompt →
  Incident.incident_analyze eng env body upstream startTime endTime timestamp
  = (try_catch
       (Incident.complete eng startTime endTime timestamp (upstream (incident_call env prompt)))
       (fun e => Returns (Incident.failure env startTime endTime timestamp e)),
     [incident_call env prompt]).
Proof.
  intros Howner Hno Hrepo Hnr Hprompt. unfold Incident.incident_analyze.
  destruct body; try discriminate Howner.
  rewrite Howner, Hrepo, !truthy_string by done. cbn [negb orb].
  rewrite !ToString_string. cbn [mbind outcome_bind].
  by unfold Incident.send; rewrite Hprompt.
Qed.

(** Without a key on the server, the incident endpoint of the first
    server replies 500 and calls nobody, while the one of the second
    server, which has no such check, calls the provider all the same,
    for an owner and a repository that are strings and an analysis its
    builder takes; when neither variable is set the address it calls ends
    in [key=undefined]. *)
Theorem incident_endpoints_without_a_key (eng : engine) (env : gmap string string)
    (first second debugData : json) (upstream : Proxy.outbound → fetch_result)
    (startTime endTime : Z) (timestamp : string) (owner repo prompt : string) :
  Proxy.key_truthy (Proxy.GENAI_API_KEY env) = false →
  get first "debugData" = Some debugData → truthy debugData = true →
  get second "owner" = Some (JStr owner) → owner ≠ "" →
  get second "repo" = Some (JStr repo) → repo ≠ "" →
  Part001.buildAnalysisPrompt eng (Some (JStr owner)) (Some (JStr repo))
    (get second "analysisData") = Returns prompt →
  Incident.analyze_incident eng env first upstream startTime endTime timestamp
  = (Returns Incident.not_available_reply, [])
  ∧ snd (Incident.incident_analyze eng env second upstream startTime endTime timestamp)
    = [incident_call env prompt]
  ∧ (Proxy.GENAI_API_KEY env = None →
     Proxy.out_url (incident_call env prompt) = url_without_key).
Proof.
  intros Hkey Hdata Htruthy Howner Hno Hrepo Hnr Hprompt. split; [|split].
  - unfold Incident.analyze_incident. destruct first; try discriminate Hdata.
    by rewrite Hdata, Htruthy, Hkey.
  - by rewrite (incident_analyze_sends _ _ _ _ _ _ _ _ _ _ Howner Hno Hrepo Hnr Hprompt).
  - intros Hnone. unfold incident_call. cbn [Proxy.out_url]. by rewrite Hnone.
Qed.

Lemma incident_endpoints_without_a_key_witness :
  ∃ prompt,
    Part001.buildAnalysisPrompt Example.node (Some (JStr "test")) (Some (JStr "repo"))
      (get client_request "analysisData") = Returns prompt
    ∧ Incident.analyze_incident Example.node ∅ incident_request quota_exhausted 0 5
        "2025-01-01T00:00:00.000Z"
      = (Returns Incident.not_available_reply, [])
    ∧ snd (Incident.incident_analyze Example.node ∅ client_request quota_exhausted 0 5
             "2025-01-01T00:00:00.000Z")
      = [incident_call ∅ prompt]
    ∧ Proxy.out_url (incident_call ∅ prompt) = url_without_key.
Proof.
  assert (∃ prompt,
            Part001.buildAnalysisPrompt Example.node (Some (JStr "test"))
              (Some (JStr "repo")) (get client_request "analysisData") = Returns prompt)
    as [prompt Hprompt].
  { eexists. vm_compute. reflexivity. }
  exists prompt. split; [exact Hprompt|].
  destruct (incident_endpoints_without_a_key Example.node ∅ incident_request client_request
              debug_data quota_exhausted 0 5 "2025-01-01T00:00:00.000Z" "test" "repo"
              prompt) as (Hfirst & Hsecond & Hurl);
    first [exact Hprompt | discriminate | reflexivity | idtac].
  split; [exact Hfirst|]. split; [exact Hsecond|]. by apply Hurl.
Defined.

(** [POST /api/incident-analyze] of the second server, for an owner and
    a repository that are strings and an analysis its builder takes, when
    the provider answers with a status that is no success and a body that
    is JSON: the reply is 500 and its [error] field is the message with
    the status and the body of the provider, in development and outside;
    only the [details] field is kept for development. *)
Theorem provider_error_reaches_the_client (eng : engine) (env : gmap string string)
    (body : json) (upstream : Proxy.outbound → fetch_result)
    (startTime endTime : Z) (timestamp : string) (owner repo prompt : string)
    (code : Z) (statusText answer : string) (errorData : json) :
  get body "owner" = Some (JStr owner) → owner ≠ "" →
  get body "repo" = Some (JStr repo) → repo ≠ "" →
  Part001.buildAnalysisPrompt eng (Some (JStr owner)) (Some (JStr repo))
    (get body "analysisData") = Returns prompt →
  upstream (incident_call env prompt) = HttpResponse code statusText answer →
  ok code = false → parse answer = Parsed errorData →
  fst (Incident.incident_analyze eng env body upstream startTime endTime timestamp)
  = Returns
      {| Proxy.status := 500;
         Proxy.payload :=
           JObj ([("error", JStr (provider_error code errorData))]
                 ++ (if Incident.development env
                     then [("details", JStr (provider_error code errorData))] else [])
                 ++ [("meta", Incident.meta startTime endTime timestamp)]) |}.
Proof.
  intros Howner Hno Hrepo Hnr Hprompt Hup Hok Hanswer.
  rewrite (incident_analyze_sends _ _ _ _ _ _ _ _ _ _ Howner Hno Hrepo Hnr Hprompt).
  cbn [fst].
  rewrite Hup. unfold Incident.complete. rewrite Hok. cbn [negb].
  rewrite (JSON_parse_parsed eng _ _ Hanswer). cbn [try_catch mbind outcome_bind].
  unfold Incident.failure. cbn [message]. fold (provider_error code errorData).
  by unfold provider_error; rewrite !app_cons_string.
Qed.

Lemma provider_error_reaches_the_client_witness :
  ∃ prompt errorData,
    parse "{}" = Parsed errorData
    ∧ Part001.buildAnalysisPrompt Example.node (Some (JStr "test")) (Some (JStr "repo"))
        (get client_request "analysisData") = Returns prompt
    ∧ fst (Incident.incident_analyze Example.node env_with_key client_request
             (fun _ => HttpResponse 503 "Service Unavailable" "{}") 0 5
             "2025-01-01T00:00:00.000Z")
      = Returns
          {| Proxy.status := 500;
             Proxy.payload :=
               JObj ([("error", JStr (provider_error 503 errorData))]
                     ++ (if Incident.development env_with_key
                         then [("details", JStr (provider_error 503 errorData))] else [])
                     ++ [("meta", Incident.meta 0 5 "2025-01-01T00:00:00.000Z")]) |}.
Proof.
  assert (∃ prompt, Part001.buildAnalysisPrompt Example.node (Some (JStr "test"))
                      (Some (JStr "repo")) (get client_request "analysisData")
                    = Returns prompt) as [prompt Hprompt].
  { eexists. vm_compute. reflexivity. }
  exists prompt, (JObj []). split; [reflexivity|]. split; [exact Hprompt|].
  apply (provider_error_reaches_the_client Example.node env_with_key client_request
           (fun _ => HttpResponse 503 "Service Unavailable" "{}") 0 5
           "2025-01-01T00:00:00.000Z" "test" "repo" prompt 503 "Service Unavailable" "{}"
           (JObj []));
    first [exact Hprompt | discriminate | reflexivity].
Defined.

(** ** The other endpoints of the embedded server *)

Lemma take_units_whole (s : string) (n : nat) :
  (utf16_length s ≤ n)%nat → take_units n s = Some s.
Proof.
  revert n. induction s as [|c s IH]; intros n; [done|]. cbn [utf16_length take_units].
  destruct (is_continuation c).
  - intros Hn. by rewrite (IH n Hn).
  - assert (1 ≤ units c)%nat as Hunits by (unfold units; destruct (240 <=? _)%N; lia).
    intros Hn. destruct n as [|n]; [lia|].
    destruct (units c <=? S n)%nat eqn:Hu; [|apply Nat.leb_gt in Hu; lia].
    rewrite (IH (S n - units c)%nat); [done|lia].
Qed.

Lemma getApiKey_throws (env : gmap string string) (e : exn) :
  Embedded.getApiKey env = Throws e →
  e = Exn PlainError "MISSING_API_KEY: Gemini API Key is not configured in .env".
Proof.
  unfold Embedded.getApiKey.
  repeat match goal with
         | |- context [match ?x with _ => _ end] => destruct x
         end; congruence.
Qed.

(** Without a key, no endpoint of the embedded server calls the
    provider, and each reports it in its own way: [/api/llm] and
    [/api/analyze-incident] reply 500 with the message of the missing
    key, [/api/analyze], for an owner and a repository that can be
    converted to strings and an analysis its builder takes, replies 200
    with the fallback report. *)
Theorem embedded_endpoints_without_a_key (eng : engine) (env : gmap string string)
    (e : exn) (asked incident analysis prompt debugData : json)
    (upstream : Proxy.outbound → fetch_result) (text : string) :
  Embedded.getApiKey env = Throws e →
  get asked "prompt" = Some prompt → truthy prompt = true →
  get incident "debugData" = Some debugData → truthy debugData = true →
  (utf16_length (stringify debugData) ≤ EmbeddedApi.INCIDENT_CHARS)%nat →
  truthy_val (get analysis "owner") = true → truthy_val (get analysis "repo") = true →
  convertible_val (get analysis "owner") = true →
  convertible_val (get analysis "repo") = true →
  Embedded.createSafePrompt eng (get analysis "owner") (get analysis "repo")
    (get analysis "analysisData") = Returns text →
  message e = "MISSING_API_KEY: Gemini API Key is not configured in .env"
  ∧ EmbeddedApi.llm eng env asked upstream = (Returns (EmbeddedApi.failed e), [])
  ∧ EmbeddedApi.analyze_incident eng env incident upstream
    = (Returns (EmbeddedApi.failed e), [])
  ∧ Embedded.analyze eng env analysis upstream = (Returns (Embedded.fallback e), []).
Proof.
  intros Hkey Hprompt Hp Hdata Hd Hlen Howner Hrepo Hco Hcr Htext.
  split; [by rewrite (getApiKey_throws _ _ Hkey)|]. split; [|split].
  - unfold EmbeddedApi.llm. destruct asked; try discriminate Hprompt.
    rewrite Hprompt, Hp. cbn [negb]. unfold EmbeddedApi.calling. by rewrite Hkey.
  - unfold EmbeddedApi.analyze_incident. destruct incident; try discriminate Hdata.
    rewrite Hdata, Hd. cbn [negb]. unfold substring0. rewrite (take_units_whole _ _ Hlen).
    unfold EmbeddedApi.calling. by rewrite Hkey.
  - unfold Embedded.analyze. destruct analysis; try discriminate Howner.
    rewrite Howner, Hrepo. unfold ToString at 1 2. rewrite Hco, Hcr.
    cbn [negb orb mbind outcome_bind]. unfold Embedded.analyze_body.
    by rewrite Htext, Hkey.
Qed.

Lemma embedded_endpoints_without_a_key_witness :
  ∃ e,
    message e = "MISSING_API_KEY: Gemini API Key is not configured in .env"
    ∧ EmbeddedApi.llm Example.node ∅ llm_request quota_exhausted
      = (Returns (EmbeddedApi.failed e), [])
    ∧ EmbeddedApi.analyze_incident Example.node ∅ incident_request quota_exhausted
      = (Returns (EmbeddedApi.failed e), [])
    ∧ Embedded.analyze Example.node ∅ analyze_request quota_exhausted
      = (Returns (Embedded.fallback e), []).
Proof.
  eexists.
  eapply (embedded_endpoints_without_a_key Example.node ∅ _ llm_request incident_request
            analyze_request (JStr "Hello") debug_data quota_exhausted);
    [reflexivity|reflexivity|reflexivity|reflexivity|reflexivity
    |vm_compute; lia|reflexivity|reflexivity|reflexivity|reflexivity
    |vm_compute; reflexivity].
Defined.

Lemma embedded_incident_sends (eng : engine) (env : gmap string string) (apiKey : string)
    (body debugData : json) (upstream : Proxy.outbound → fetch_result) :
  Embedded.getApiKey env = Returns apiKey →
  get body "debugData" = Some debugData → truthy debugData = true →
  (utf16_length (stringify debugData) ≤ EmbeddedApi.INCIDENT_CHARS)%nat →
  EmbeddedApi.analyze_incident eng env body upstream
  = (try_catch
       (text ← Embedded.callGeminiAPI_reply eng
                 (upstream (embedded_incident_call apiKey debugData));
        EmbeddedApi.incident_reply eng text)
       (fun e => Returns (EmbeddedApi.failed e)),
     [embedded_incident_call apiKey debugData]).
Proof.
  intros Hkey Hdata Hd Hlen. unfold EmbeddedApi.analyze_incident.
  destruct body; try discriminate Hdata.
  rewrite Hdata, Hd. cbn [negb]. unfold substring0. rewrite (take_units_whole _ _ Hlen).
  unfold EmbeddedApi.calling. by rewrite Hkey.
Qed.

(** [POST /api/analyze-incident] of the embedded server, for a text of
    the provider: without a pair of braces in it the analysis is the
    empty object; with one, the analysis is what stands between the
    first opening and the last closing brace, and when that is not JSON
    the reply is 500 with the message of the syntax error, where
    [/api/analyze] replies 200. *)
Theorem embedded_incident_reply_follows_the_text (eng : engine) (env : gmap string string)
    (apiKey : string) (body debugData : json) (upstream : Proxy.outbound → fetch_result)
    (text : string) :
  Embedded.getApiKey env = Returns apiKey →
  get body "debugData" = Some debugData → truthy debugData = true →
  (utf16_length (stringify debugData) ≤ EmbeddedApi.INCIDENT_CHARS)%nat →
  Embedded.callGeminiAPI_reply eng (upstream (embedded_incident_call apiKey debugData))
  = Returns (JStr text) →
  (brace_match text = None →
   fst (EmbeddedApi.analyze_incident eng env body upstream)
   = Returns {| Proxy.status := 200;
                Proxy.payload := JObj [("success", JBool true); ("data", JObj [])] |})
  ∧ (∀ m v, brace_match text = Some m → parse m = Parsed v →
            fst (EmbeddedApi.analyze_incident eng env body upstream)
            = Returns {| Proxy.status := 200;
                         Proxy.payload := JObj [("success", JBool true); ("data", v)] |})
  ∧ (∀ m, brace_match text = Some m → parse m = Malformed →
          fst (EmbeddedApi.analyze_incident eng env body upstream)
          = Returns {| Proxy.status := 500;
                       Proxy.payload := JObj [("error", JStr (msg_json_syntax eng m))] |}).
Proof.
  intros Hkey Hdata Hd Hlen Htext.
  rewrite !(embedded_incident_sends _ _ _ _ _ _ Hkey Hdata Hd Hlen). cbn [fst].
  rewrite Htext. cbn [mbind outcome_bind]. unfold EmbeddedApi.incident_reply.
  split; [|split].
  - intros ->. assert (parse "{}" = Parsed (JObj [])) as Hempty by reflexivity.
    by rewrite (JSON_parse_parsed eng _ _ Hempty).
  - intros m v -> Hm. by rewrite (JSON_parse_parsed eng _ _ Hm).
  - intros m -> Hm. unfold JSON_parse. by rewrite Hm.
Qed.

Lemma embedded_incident_reply_follows_the_text_witness :
  fst (EmbeddedApi.analyze_incident Example.node env_with_key incident_request
         (answering "I cannot help"))
  = Returns {| Proxy.status := 200;
               Proxy.payload := JObj [("success", JBool true); ("data", JObj [])] |}.
Proof.
  destruct (embedded_incident_reply_follows_the_text Example.node env_with_key "secret-key"
              incident_request debug_data (answering "I cannot help") "I cannot help")
    as (Hnone & _);
    [reflexivity|reflexivity|reflexivity|vm_compute; lia|vm_compute; reflexivity|].
  apply Hnone. reflexivity.
Defined.

(** ** The handlers of the application, on any stored list *)

Lemma keep_without_null (eng : engine) (reportId : string) (items : list json) :
  Forall (fun r => r ≠ JNull) items →
  ∃ kept,
    keep (fun r => rid ← read eng (Some r) "id";
                   Returns (negb (strict_eq_string rid reportId))) items
    = Returns kept
    ∧ ∀ r, r ∈ kept ↔ r ∈ items ∧ strict_eq_string (get r "id") reportId = false.
Proof.
  induction 1 as [|r items Hr _ (kept & Hkept & Hin)].
  - exists []. split; [done|]. intros r. rewrite !elem_of_nil. tauto.
  - cbn [keep]. rewrite (read_not_null eng r "id" Hr), Hkept. cbn [mbind outcome_bind].
    destruct (strict_eq_string (get r "id") reportId) eqn:Hid; cbn [negb].
    + exists kept. split; [done|]. intros x. rewrite Hin, elem_of_cons.
      split; [tauto|]. intros [[->|Hx] Hfalse]; [congruence|done].
    + exists (r :: kept). split; [done|]. intros x. rewrite !elem_of_cons, Hin.
      split; [intros [->|[? ?]]; auto|]. intros [[->|Hx] Hfalse]; auto.
Qed.

(** Through every handler of the application the list stays an array
    without [null] and the report on view stays one of the list,
    whatever values the list holds: analysing prepends the new report
    and shows it, deleting never throws, takes the report off the view
    when it is the one deleted and leaves no report of that [id] on it,
    selecting a listed report and starting a new analysis change the
    view only. *)
Theorem handlers_keep_the_view_listed (eng : engine) (token : option string)
    (github : GithubApi.request → fetch_result) (file : string → outcome (option string))
    (proxy : string → fetch_result) (st : Handlers.state) :
  view_is_listed (Handlers.app st) →
  (∀ url analyzedAt now,
     Handlers.handleAnalyze eng token github file proxy url analyzedAt now st = Beyond
     ∨ ∃ after,
         Handlers.handleAnalyze eng token github file proxy url analyzedAt now st
         = Returns after
         ∧ view_is_listed (Handlers.app after))
  ∧ (∀ reportId,
       ∃ after,
         Handlers.handleDeleteReport eng reportId st = Returns after
         ∧ view_is_listed (Handlers.app after)
         ∧ ∀ r, App.currentReport (Handlers.app after) = Some r →
                get r "id" ≠ Some (JStr reportId))
  ∧ (∀ items report,
       App.listed (Handlers.app st) = JArr items → report ∈ items →
       view_is_listed (Handlers.app (Handlers.handleSelectReport report st)))
  ∧ view_is_listed (Handlers.app (Handlers.handleNewAnalysis st)).
Proof.
  destruct st as [[[value store] current] shown]. unfold view_is_listed, App.listed.
  cbn [Handlers.app App.reports App.value App.currentReport].
  intros (items & -> & Hitems & Hcurrent). repeat split.
  - intros url analyzedAt now. unfold Handlers.handleAnalyze.
    destruct (Github.parseGitHubUrl url) as [found|]; cbn [Handlers.app];
      [|right; eexists; split; [done|]; by exists items].
    destruct (client_report eng token github file proxy (Github.owner found)
                (Github.repo found) url analyzedAt now) as [->|(r & -> & _)];
      [by left|].
    right. eexists. split; [reflexivity|]. cbn.
    exists (Types.report_json r :: items). split; [done|].
    split; [by constructor|]. intros x [= <-]. apply elem_of_cons. by left.
  - intros reportId. unfold Handlers.handleDeleteReport, App.handleDeleteReport,
      App.setStoredValue, App.delete_report.
    cbn [App.reports App.value App.currentReport or_else truthy Handlers.app].
    destruct (keep_without_null eng reportId items Hitems) as (kept & -> & Hkept).
    cbn [mbind outcome_bind Handlers.app App.reports App.value App.currentReport].
    eexists. split; [reflexivity|]. cbn [Handlers.app App.reports App.value App.currentReport].
    split.
    + exists kept. split; [done|]. split.
      * apply Forall_forall. intros x Hx. apply Hkept in Hx as [Hx _].
        by eapply Forall_forall in Hitems.
      * intros r. destruct (strict_eq_string (get_opt current "id") reportId) eqn:Hid; [done|].
        intros ->. apply Hkept. split; [by apply Hcurrent|].
        assert (r ≠ JNull) as Hr by (eapply Forall_forall in Hitems; [done|by apply Hcurrent]).
        by rewrite <- (get_opt_not_null r "id" Hr).
    + intros r. destruct (strict_eq_string (get_opt current "id") reportId) eqn:Hid; [done|].
      intros -> Heq.
      assert (r ≠ JNull) as Hr by (eapply Forall_forall in Hitems; [done|by apply Hcurrent]).
      rewrite (get_opt_not_null r "id" Hr), Heq in Hid. cbn in Hid.
      by rewrite String.eqb_refl in Hid.
  - intros items' report [= <-] Hin. exists items. split; [done|]. split; [done|].
    by intros r [= <-].
  - exists items. by split.
Qed.

Lemma handlers_keep_the_view_listed_witness :
  (∀ url analyzedAt now,
     Handlers.handleAnalyze Example.node None (fun _ => NetworkFailure) sample_files
       (fun _ => NetworkFailure) url analyzedAt now two_reports = Beyond
     ∨ ∃ after,
         Handlers.handleAnalyze Example.node None (fun _ => NetworkFailure) sample_files
           (fun _ => NetworkFailure) url analyzedAt now two_reports
         = Returns after
         ∧ view_is_listed (Handlers.app after))
  ∧ (∀ reportId,
       ∃ after,
         Handlers.handleDeleteReport Example.node reportId two_reports = Returns after
         ∧ view_is_listed (Handlers.app after)
         ∧ ∀ r, App.currentReport (Handlers.app after) = Some r →
                get r "id" ≠ Some (JStr reportId))
  ∧ (∀ items report,
       App.listed (Handlers.app two_reports) = JArr items → report ∈ items →
       view_is_listed (Handlers.app (Handlers.handleSelectReport report two_reports)))
  ∧ view_is_listed (Handlers.app (Handlers.handleNewAnalysis two_reports)).
Proof.
  apply (handlers_keep_the_view_listed Example.node None (fun _ => NetworkFailure)
           sample_files (fun _ => NetworkFailure) two_reports).
  eexists. split; [reflexivity|]. split.
  - repeat constructor; discriminate.
  - intros r [= <-]. apply elem_of_cons. by left.
Defined.

(** ** The content of a file *)

Lemma list_ind3 {A : Type} (P : list A → Prop) :
  P [] → (∀ a, P [a]) → (∀ a b, P [a; b]) →
  (∀ a b c rest, P rest → P (a :: b :: c :: rest)) →
  ∀ l, P l.
Proof.
  intros H0 H1 H2 H3. fix IH 1.
  intros [|a [|b [|c rest]]]; [exact H0|apply H1|apply H2|apply H3, IH].
Qed.

Lemma sextet_alphabet (v : N) : (v < 64)%N → Content.sextet (alphabet v) = Some v.
Proof.
  intros Hv. assert (∃ k, (k < 64)%nat ∧ v = N.of_nat k) as (k & Hk & ->).
  { exists (N.to_nat v). split; lia. }
  clear Hv. do 64 (destruct k as [|k]; [reflexivity|]). lia.
Qed.

Lemma alphabet_not_padding (v : N) : Ascii.eqb (alphabet v) Content.padding = false.
Proof.
  unfold alphabet.
  destruct (N.ltb_spec v 26); [|destruct (N.ltb_spec v 52);
    [|destruct (N.ltb_spec v 62); [|by destruct (v =? 62)%N]]].
  all: apply Ascii.eqb_neq; intros Heq; apply (f_equal N_of_ascii) in Heq;
    rewrite N_ascii_embedding in Heq by lia; cbn in Heq; lia.
Qed.

Lemma sextets_alphabet (values : list N) :
  Forall (fun v => (v < 64)%N) values → Content.sextets (map alphabet values) = Some values.
Proof.
  induction 1 as [|v values Hv _ IH]; [done|].
  cbn [map Content.sextets]. by rewrite (sextet_alphabet v Hv), IH.
Qed.

Lemma remove_padding_alphabet (values : list N) (pad : list ascii) :
  pad = [] ∨ pad = [Content.padding] ∨ pad = [Content.padding; Content.padding] →
  (length (map alphabet values ++ pad) mod 4 = 0)%nat →
  Content.remove_padding (map alphabet values ++ pad) = map alphabet values.
Proof.
  intros Hpad Hlen. unfold Content.remove_padding. rewrite Hlen. cbn [Nat.eqb].
  rewrite rev_app_distr.
  assert (∀ c before, rev (map alphabet values) = c :: before →
                      Ascii.eqb c Content.padding = false) as Hlast.
  { intros c before Hrev.
    assert (In c (map alphabet values)) as Hin.
    { apply in_rev. rewrite Hrev. by left. }
    apply in_map_iff in Hin as (v & <- & _). apply alphabet_not_padding. }
  destruct Hpad as [->|[->| ->]]; cbn [rev app].
  - rewrite app_nil_r.
    destruct (rev (map alphabet values)) as [|c1 [|c2 before]] eqn:Hrev; [done|..];
      by rewrite (Hlast _ _ eq_refl).
  - change (Ascii.eqb Content.padding Content.padding) with true. cbv iota.
    destruct (rev (map alphabet values)) as [|c2 before] eqn:Hrev.
    + destruct (map alphabet values) as [|x l]; [done|].
      apply (f_equal (@length ascii)) in Hrev. rewrite length_rev in Hrev. done.
    + rewrite (Hlast _ _ eq_refl). change (rev before ++ [c2]) with (rev (c2 :: before)).
      by rewrite <- Hrev, rev_involutive.
  - change (Ascii.eqb Content.padding Content.padding) with true. cbv iota.
    apply rev_involutive.
Qed.

Lemma group_of_three (a b c : N) :
  (a < 256)%N → (b < 256)%N → (c < 256)%N →
  let n := (a * 65536 + b * 256 + c)%N in
  let m := ((n / 262144) * 262144 + ((n / 4096) mod 64) * 4096
            + ((n / 64) mod 64) * 64 + n mod 64)%N in
  (m / 65536 = a ∧ (m / 256) mod 256 = b ∧ m mod 256 = c)%N.
Proof.
  intros Ha Hb Hc n m.
  assert (m = n) as ->.
  { subst m. generalize n. clear. intros n. zify. Z.to_euclidean_division_equations. lia. }
  subst n. zify. Z.to_euclidean_division_equations. lia.
Qed.

Lemma group_of_two (a b : N) :
  (a < 256)%N → (b < 256)%N →
  let n := ((a * 256 + b) * 4)%N in
  let m := (((n / 4096) * 4096 + ((n / 64) mod 64) * 64 + n mod 64) / 4)%N in
  (m / 256 = a ∧ m mod 256 = b)%N.
Proof. intros Ha Hb n m. subst n m. zify. Z.to_euclidean_division_equations. lia. Qed.

Lemma group_of_one (a : N) :
  (a < 256)%N → ((((a * 16) / 64) * 64 + (a * 16) mod 64) / 16 = a)%N.
Proof. intros Ha. zify. Z.to_euclidean_division_equations. lia. Qed.

Lemma below_64 (n : N) : (n mod 64 < 64)%N.
Proof. by apply N.mod_lt. Qed.

(** The encoding of bytes: characters of the alphabet that decode to the
    bytes, followed by the padding. *)
Lemma base64_decodes (bytes : list ascii) :
  ∃ values pad,
    base64 bytes = map alphabet values ++ pad
    ∧ (pad = [] ∨ pad = [Content.padding] ∨ pad = [Content.padding; Content.padding])
    ∧ Forall (fun v => (v < 64)%N) values
    ∧ (length (base64 bytes) mod 4 = 0)%nat
    ∧ (length values mod 4 ≠ 1)%nat
    ∧ map ascii_of_N (Content.decode_groups values) = bytes.
Proof.
  induction bytes as [|a|a b|a b c rest (values & pad & Hcode & Hpad & Hvalues & Hlen & Hrest
                                         & Hbytes)] using list_ind3.
  - exists [], []. repeat split; auto.
  - pose proof (N_ascii_bounded a) as Ha.
    exists [(N_of_ascii a * 16 / 64)%N; ((N_of_ascii a * 16) mod 64)%N],
      [Content.padding; Content.padding].
    split; [done|]. split; [auto|]. split.
    { repeat constructor; [|apply below_64].
      zify. Z.to_euclidean_division_equations. lia. }
    split; [done|]. split; [done|].
    cbn [Content.decode_groups map]. rewrite (group_of_one _ Ha).
    by rewrite ascii_N_embedding.
  - pose proof (N_ascii_bounded a) as Ha. pose proof (N_ascii_bounded b) as Hb.
    set (n := ((N_of_ascii a * 256 + N_of_ascii b) * 4)%N).
    exists [(n / 4096)%N; ((n / 64) mod 64)%N; (n mod 64)%N], [Content.padding].
    split; [done|]. split; [auto|]. split.
    { repeat constructor; [|apply below_64..].
      subst n. zify. Z.to_euclidean_division_equations. lia. }
    split; [done|]. split; [done|].
    cbn [Content.decode_groups map].
    destruct (group_of_two _ _ Ha Hb) as [H1 H2]. cbv zeta in H1, H2. fold n in H1, H2.
    rewrite H1, H2. by rewrite !ascii_N_embedding.
  - pose proof (N_ascii_bounded a) as Ha. pose proof (N_ascii_bounded b) as Hb.
    pose proof (N_ascii_bounded c) as Hc.
    set (n := (N_of_ascii a * 65536 + N_of_ascii b * 256 + N_of_ascii c)%N).
    exists ((n / 262144)%N :: ((n / 4096) mod 64)%N :: ((n / 64) mod 64)%N :: (n mod 64)%N
            :: values), pad.
    split; [cbn [base64 map app]; fold n; by rewrite Hcode|]. split; [done|]. split.
    { repeat constructor; [|apply below_64..|done].
      subst n. zify. Z.to_euclidean_division_equations. lia. }
    split.
    { cbn [base64 length]. fold n.
      change (S (S (S (S (length (base64 rest)))))) with (4 + length (base64 rest))%nat.
      by rewrite <- Nat.Div0.add_mod_idemp_l. }
    split.
    { cbn [length].
      change (S (S (S (S (length values))))) with (4 + length values)%nat.
      by rewrite <- Nat.Div0.add_mod_idemp_l. }
    cbn [Content.decode_groups map].
    destruct (group_of_three _ _ _ Ha Hb Hc) as (H1 & H2 & H3). cbv zeta in H1, H2, H3.
    fold n in H1, H2, H3. rewrite H1, H2, H3, Hbytes. by rewrite !ascii_N_embedding.
Qed.

Lemma without_newlines (s : string) :
  without_whitespace (Content.remove_newlines s) = without_whitespace s.
Proof.
  unfold without_whitespace. induction s as [|c s IH]; [done|].
  cbn [Content.remove_newlines]. destruct (N_of_ascii c =? 10)%N eqn:Hc.
  - cbn [list_ascii_of_string List.filter]. unfold Content.ascii_whitespace at 2.
    cbv zeta. rewrite Hc. by rewrite !orb_true_r.
  - cbn [list_ascii_of_string List.filter]. by rewrite IH.
Qed.

Lemma atob_base64 (s : string) (bytes : list ascii) :
  without_whitespace s = base64 bytes → Content.atob s = Some bytes.
Proof.
  intros Hs. unfold Content.atob. fold (without_whitespace s). rewrite Hs.
  destruct (base64_decodes bytes) as (values & pad & Hcode & Hpad & Hvalues & Hlen & Hrest
                                      & Hbytes).
  rewrite Hcode in Hlen |- *. rewrite (remove_padding_alphabet _ _ Hpad Hlen).
  rewrite length_map. destruct (length values mod 4 =? 1)%nat eqn:H1;
    [by apply Nat.eqb_eq in H1|].
  by rewrite (sextets_alphabet _ Hvalues), Hbytes.
Qed.

(** For a file whose content GitHub sends in base64, with line breaks
    or other whitespace anywhere in it, [fetchFileContent] gives the
    file back: its very bytes when they are well-formed UTF-8, and
    otherwise one character below U+0100 for each byte. *)
Theorem fetchFileContent_reads_base64 (eng : engine) (token : option string)
    (github : GithubApi.request → fetch_result) (owner repo path : string)
    (code : Z) (statusText body : string) (data : json) (content : string)
    (bytes : list ascii) :
  github (content_request token owner repo path) = HttpResponse code statusText body →
  ok code = true → parse body = Parsed data →
  get data "content" = Some (JStr content) → content ≠ "" →
  without_whitespace content = base64 bytes →
  Content.fetchFileContent eng token github owner repo path
  = Returns (Some (if Content.valid_utf8 bytes then string_of_list_ascii bytes
                   else Content.latin1 bytes)).
Proof.
  intros Hgithub Hok Hbody Hcontent Hne Hbytes. unfold Content.fetchFileContent.
  fold (content_request token owner repo path). rewrite Hgithub, Hok. cbn [negb].
  rewrite (JSON_parse_parsed eng _ _ Hbody).
  assert (data ≠ JNull) as Hdata by (intros ->; discriminate Hcontent).
  rewrite (get_opt_not_null data "content" Hdata), Hcontent.
  destruct (String.eqb_spec content "") as [Heq|_]; [by destruct Hne|].
  unfold Content.decode. rewrite <- without_newlines in Hbytes.
  by rewrite (atob_base64 _ _ Hbytes).
Qed.

Lemma fetchFileContent_reads_base64_witness :
  Content.fetchFileContent Example.node None
    (fun _ => HttpResponse 200 "OK" (stringify hello_file)) "test" "repo" "README.md"
  = Returns (Some (if Content.valid_utf8 (list_ascii_of_string "hello")
                   then string_of_list_ascii (list_ascii_of_string "hello")
                   else Content.latin1 (list_ascii_of_string "hello"))).
Proof.
  apply (fetchFileContent_reads_base64 Example.node None
           (fun _ => HttpResponse 200 "OK" (stringify hello_file)) "test" "repo" "README.md"
           200 "OK" (stringify hello_file) hello_file ("aGVsbG8=" +:+ newline)
           (list_ascii_of_string "hello"));
    first [discriminate | vm_compute; reflexivity].
Defined.

(** ** The incident analysis from end to end *)

Lemma incident_request_parsed (debugData : json) :
  canonical debugData →
  parse (IncidentAnalyzer.request_body debugData) = Parsed (JObj [("debugData", debugData)]).
Proof.
  intros Hd. apply parse_stringify. cbn. auto.
Qed.

Lemma running_serves (handler : json → outcome Proxy.response) :
  serves handler (fun _ => "") (running handler).
Proof. intros body request r Hbody Hr. unfold running. by rewrite Hbody, Hr. Qed.

(** [analyzeIncident] against the first server.  Without a key on the
    server the caller gets an exception with the message of the
    configuration error.  With a key, when the values of [debugData]
    that the prompt holds can be converted to strings, so that the server
    builds the prompt, and the provider answers with a text that is not
    JSON once cleaned, the caller gets no exception: what it is given as
    the report of the incident is the object that holds the raw text and
    the message of the failed parse. *)
Theorem incident_text_reaches_the_caller (eng : engine) (env : gmap string string)
    (upstream : Proxy.outbound → fetch_result) (startTime endTime : Z) (timestamp : string)
    (reason : Z → string) (server : string → fetch_result) (debugData : json) :
  serves (incident_handler eng env upstream startTime endTime timestamp) reason server →
  canonical debugData → truthy debugData = true →
  (Proxy.key_truthy (Proxy.GENAI_API_KEY env) = false →
   IncidentAnalyzer.analyzeIncident eng server debugData
   = Throws (Exn PlainError "Configuration error: Analysis service is not available."))
  ∧ (Proxy.key_truthy (Proxy.GENAI_API_KEY env) = true →
     ∀ prompt code statusText answer data text,
       Incident.incident_prompt eng debugData = Returns prompt →
       upstream (incident_call env prompt) = HttpResponse code statusText answer →
       ok code = true → parse answer = Parsed data →
       Proxy.candidate_text eng data = Returns (Some (JStr text)) →
       text ≠ "" → parse (cleanText text) = Malformed →
       IncidentAnalyzer.analyzeIncident eng server debugData
       = Returns (Some (JObj [("rawResponse", JStr text);
                              ("error", JStr "Failed to parse JSON response")]))).
Proof.
  intros Hserver Hcan Htruthy.
  pose proof (incident_request_parsed debugData Hcan) as Hbody.
  split.
  - intros Hkey.
    assert (incident_handler eng env upstream startTime endTime timestamp
              (JObj [("debugData", debugData)])
            = Returns Incident.not_available_reply) as Hreply.
    { unfold incident_handler, Incident.analyze_incident. cbn [get assoc String.eqb].
      cbn. by rewrite Htruthy, Hkey. }
    unfold IncidentAnalyzer.analyzeIncident. rewrite (Hserver _ _ _ Hbody Hreply).
    reflexivity.
  - intros Hkey prompt code statusText answer data text Hprompt Hup Hok Hanswer Htext
      Hne Hbad.
    assert (incident_handler eng env upstream startTime endTime timestamp
              (JObj [("debugData", debugData)])
            = Returns (Incident.success startTime endTime timestamp
                         (Incident.packaged (JStr text)))) as Hreply.
    { unfold incident_handler.
      rewrite (analyze_incident_sends eng env (JObj [("debugData", debugData)]) debugData
                 upstream startTime endTime timestamp prompt eq_refl Htruthy Hkey Hprompt).
      cbn [fst]. rewrite Hup, (incident_complete_text _ _ _ _ _ _ _ _ _ Hok Hanswer Htext).
      assert (or_else (Some (JStr text)) (JStr "{}") = JStr text) as ->.
      { cbn. by destruct text. }
      unfold JSON_parse. by rewrite Hbad. }
    unfold IncidentAnalyzer.analyzeIncident.
    rewrite (Hserver _ _ _ Hbody Hreply). cbn [Proxy.status Incident.success].
    change (ok 200) with true. cbn [negb Proxy.payload].
    assert (canonical (JObj [("success", JBool true);
                             ("data", Incident.packaged (JStr text));
                             ("meta", Incident.meta startTime endTime timestamp)])) as Hpayload.
    { cbn. auto 10. }
    change (Proxy.payload (Incident.success startTime endTime timestamp
                             (Incident.packaged (JStr text))))
      with (JObj [("success", JBool true);
                  ("data", Incident.packaged (JStr text));
                  ("meta", Incident.meta startTime endTime timestamp)]).
    by rewrite (JSON_parse_parsed eng _ _ (parse_stringify _ Hpayload)).
Qed.

Lemma incident_text_reaches_the_caller_witness :
  IncidentAnalyzer.analyzeIncident Example.node
    (running (incident_handler Example.node env_with_key (answering "I cannot help") 0 5
                "2025-01-01T00:00:00.000Z")) debug_data
  = Returns (Some (JObj [("rawResponse", JStr "I cannot help");
                         ("error", JStr "Failed to parse JSON response")])).
Proof.
  destruct (incident_text_reaches_the_caller Example.node env_with_key
              (answering "I cannot help") 0 5 "2025-01-01T00:00:00.000Z" (fun _ => "")
              (running (incident_handler Example.node env_with_key
                          (answering "I cannot help") 0 5 "2025-01-01T00:00:00.000Z"))
              debug_data) as [_ Hcaller].
  - apply running_serves.
  - cbn. auto.
  - reflexivity.
  - assert (∃ prompt, Incident.incident_prompt Example.node debug_data = Returns prompt)
      as [prompt Hprompt] by (eexists; vm_compute; reflexivity).
    apply (Hcaller eq_refl prompt 200 "OK" (stringify (candidate_reply "I cannot help"))
             (candidate_reply "I cannot help") "I cannot help");
      first [exact Hprompt | discriminate | vm_compute; reflexivity].
Defined.

(** ** The export of a report *)

Lemma bullets_of_strings (eng : engine) (expr : string) (items : list json) :
  forallb Types.is_string items = true →
  ReportExport.bullets eng expr (JArr items) = Returns (exported_lines items).
Proof.
  intros Hitems. unfold ReportExport.bullets, exported_lines.
  assert (each (ReportExport.bullet eng) items
          = Returns (map (fun x => "- " +:+ to_string x) items)) as ->; [|done].
  induction items as [|x items IH]; [done|].
  cbn [forallb] in Hitems. apply andb_true_iff in Hitems as [Hx Hitems].
  cbn [each map]. rewrite (IH Hitems). by destruct x.
Qed.

Lemma string_array_items (v : json) :
  Types.is_string_array v = true →
  ∃ items, v = JArr items ∧ forallb Types.is_string items = true.
Proof. destruct v; try done. eauto. Qed.

Lemma domain_text_conforming (eng : engine) (i : nat) (domain : json) :
  Types.is_domain domain = true →
  ReportExport.domain_text eng i domain = Returns (exported_domain i domain).
Proof.
  unfold Types.is_domain. destruct domain as [ | | | | |fields]; try done.
  rewrite !andb_true_iff.
  intros [[[[[_ Htitle] _] Hdescription] Hfindings] Hrecommendations].
  unfold Types.field_is in Htitle, Hdescription, Hfindings, Hrecommendations.
  unfold ReportExport.domain_text, exported_domain, App.export_findings,
    App.export_domain_recommendations.
  cbn [read mbind outcome_bind].
  destruct (get (JObj fields) "title") as [[ | | |title| | ]|]; try done.
  destruct (get (JObj fields) "description") as [[ | | |description| | ]|]; try done.
  destruct (get (JObj fields) "findings") as [findings|]; [|done].
  destruct (get (JObj fields) "recommendations") as [recommendations|]; [|done].
  destruct (string_array_items _ Hfindings) as (fs & -> & Hfs).
  destruct (string_array_items _ Hrecommendations) as (rs & -> & Hrs).
  rewrite !ToString_string. cbn [mbind outcome_bind or_else truthy].
  rewrite (bullets_of_strings _ _ _ Hfs), (bullets_of_strings _ _ _ Hrs).
  reflexivity.
Qed.

Lemma domain_texts_conforming (eng : engine) (domains : list json) (i : nat) :
  forallb Types.is_domain domains = true →
  ReportExport.domain_texts eng i domains = Returns (exported_domains i domains).
Proof.
  revert i. induction domains as [|domain rest IH]; intros i; [done|].
  cbn [forallb]. rewrite andb_true_iff. intros [Hdomain Hrest].
  cbn [ReportExport.domain_texts exported_domains].
  by rewrite (domain_text_conforming eng i domain Hdomain), (IH (S i) Hrest).
Qed.

Lemma listing_of_strings (eng : engine) (expr : string) (v : json) (none : string) :
  Types.is_string_array v = true →
  ReportExport.listing eng expr (or_else (Some v) (JArr []))
    (fun items => ReportExport.bullets eng expr (JArr items)) none
  = Returns (exported_listing none exported_lines v).
Proof.
  intros Hv. destruct (string_array_items _ Hv) as (items & -> & Hitems).
  destruct items as [|x items]; [done|].
  cbn [or_else truthy ReportExport.listing].
  by rewrite (bullets_of_strings _ _ _ Hitems).
Qed.

Lemma listing_of_domains (eng : engine) (v : json) :
  Types.is_domain_array v = true →
  ReportExport.listing eng "domains" (or_else (Some v) (JArr []))
    (fun items => texts ← ReportExport.domain_texts eng 0 items;
                  Returns (join newline texts)) ReportExport.no_domains
  = Returns (exported_listing ReportExport.no_domains
               (fun items => join newline (exported_domains 0 items)) v).
Proof.
  destruct v as [ | | | |items| ]; try done. intros Hitems.
  destruct items as [|domain items]; [done|].
  cbn [or_else truthy ReportExport.listing].
  by rewrite (domain_texts_conforming _ _ _ Hitems).
Qed.

(** A report that conforms to the declared types is always exported: no
    exception leaves [handleExport], the file is named after the
    repository and the clock, and its text holds, under the headings in
    their order, the address, the owner and the name of the repository,
    the date, the words for the overall status, the summary, the
    domains, the critical issues, the recommendations and the
    conclusion.  A list that is empty is replaced by its sentence; a list
    of strings that is not is written one string a line, each after a
    dash; the domains are written one section each, numbered from 1, with
    the title, the words for the status, the description, the findings
    and the recommendations. *)
Theorem conforming_report_is_exported (eng : engine) (toLocaleString : jsval → string)
    (now : Z) (r : Types.ProductionReport) :
  Types.conforms r = true →
  ReportExport.handleExport eng toLocaleString now (Some (Types.report_json r))
  = Returns (Some
      {| ReportExport.filename :=
           "production-readiness-" +:+ Types.repo (Types.repository r)
           +:+ "-" +:+ decimal now +:+ ".md";
         ReportExport.content :=
           ReportExport.text_0 +:+ Types.url (Types.repository r)
           +:+ ReportExport.text_1 +:+ Types.owner (Types.repository r)
           +:+ ReportExport.text_2 +:+ Types.repo (Types.repository r)
           +:+ ReportExport.text_3 +:+ toLocaleString (Some (JStr (Types.createdAt r)))
           +:+ ReportExport.text_4
           +:+ ReportExport.overall_words (Some (Types.overallStatus r))
           +:+ ReportExport.text_5 +:+ to_string (Types.summary r)
           +:+ ReportExport.text_6
           +:+ exported_listing ReportExport.no_domains
                 (fun items => join newline (exported_domains 0 items)) (Types.domains r)
           +:+ ReportExport.text_7
           +:+ exported_listing ReportExport.no_critical exported_lines
                 (Types.criticalIssues r)
           +:+ ReportExport.text_8
           +:+ exported_listing ReportExport.no_recommendations exported_lines
                 (Types.recommendations r)
           +:+ ReportExport.text_9 +:+ to_string (Types.conclusion r)
           +:+ ReportExport.text_10 |})
  ∧ (Types.domains r = JArr [] →
     exported_listing ReportExport.no_domains
       (fun items => join newline (exported_domains 0 items)) (Types.domains r)
     = ReportExport.no_domains)
  ∧ (Types.criticalIssues r = JArr [] →
     exported_listing ReportExport.no_critical exported_lines (Types.criticalIssues r)
     = ReportExport.no_critical)
  ∧ (Types.recommendations r = JArr [] →
     exported_listing ReportExport.no_recommendations exported_lines
       (Types.recommendations r)
     = ReportExport.no_recommendations).
Proof.
  unfold Types.conforms. rewrite !andb_true_iff.
  intros [[[[[Hsummary _] Hdomains] Hcritical] Hrecommendations] Hconclusion].
  split; [|by repeat split; intros ->].
  pose proof (listing_of_domains eng _ Hdomains) as Hassessed.
  pose proof (listing_of_strings eng "criticalIssues" _ ReportExport.no_critical Hcritical)
    as Hcrit.
  pose proof (listing_of_strings eng "recommendations" _ ReportExport.no_recommendations
                Hrecommendations) as Hadv.
  unfold ReportExport.handleExport, ReportExport.reportText.
  change (truthy (Types.report_json r)) with true. cbn [negb]. cbv zeta.
  change (App.export_domains (Types.report_json r))
    with (or_else (Some (Types.domains r)) (JArr [])).
  change (App.export_criticalIssues (Types.report_json r))
    with (or_else (Some (Types.criticalIssues r)) (JArr [])).
  change (App.export_recommendations (Types.report_json r))
    with (or_else (Some (Types.recommendations r)) (JArr [])).
  rewrite Hassessed, Hcrit, Hadv.
  change (get (Types.report_json r) "summary") with (Some (Types.summary r)).
  change (get (Types.report_json r) "conclusion") with (Some (Types.conclusion r)).
  destruct (Types.summary r) as [ | | |summary| | ]; try done.
  destruct (Types.conclusion r) as [ | | |conclusion| | ]; try done.
Qed.

(** At a report with a domain, two critical issues and a
    recommendation. *)
Lemma conforming_report_is_exported_witness :
  ReportExport.handleExport Example.node to_string_val 1735689600000
    (Some (Types.report_json full_report))
  = Returns (Some
      {| ReportExport.filename := "production-readiness-repo-1735689600000.md";
         ReportExport.content :=
           ReportExport.text_0 +:+ "https://github.com/test/repo"
           +:+ ReportExport.text_1 +:+ "test"
           +:+ ReportExport.text_2 +:+ "repo"
           +:+ ReportExport.text_3 +:+ "2025-01-01T00:00:00.000Z"
           +:+ ReportExport.text_4 +:+ ReportExport.conditional_words
           +:+ ReportExport.text_5 +:+ "Test summary"
           +:+ ReportExport.text_6
           +:+ (ReportExport.domain_0 +:+ "1" +:+ ReportExport.domain_1 +:+ "Code Quality"
                +:+ ReportExport.domain_2 +:+ ReportExport.ready_words
                +:+ ReportExport.domain_3 +:+ "Code quality assessment"
                +:+ ReportExport.domain_4 +:+ "- No issues found"
                +:+ ReportExport.domain_5 +:+ ""
                +:+ ReportExport.domain_6)
           +:+ ReportExport.text_7 +:+ "- No tests" +:+ newline +:+ "- No monitoring"
           +:+ ReportExport.text_8 +:+ "- Add tests"
           +:+ ReportExport.text_9 +:+ "Test conclusion"
           +:+ ReportExport.text_10 |}).
Proof.
  destruct (conforming_report_is_exported Example.node to_string_val 1735689600000
              full_report) as [Hexport _]; [reflexivity|].
  rewrite Hexport. vm_compute. reflexivity.
Defined.

(** ** A store that refuses the write *)

(** When the browser refuses every write under the reports key, adding
    and deleting a report still change the list on the screen and throw
    nothing, but the store is left as it was: after a reload the list is
    the old one again, without the report added and with the report
    deleted. *)
Theorem refused_write_is_lost_on_reload (eng : engine) (r : Types.ProductionReport)
    (reportId : string) (rs : list Types.ProductionReport) (st : App.storage)
    (current : option json) :
  (∀ text, App.accepts st App.reports_key text = false) →
  (∃ a, App.handleAnalyze eng r (holding rs st current) = Returns a
        ∧ App.listed a = JArr (map Types.report_json (r :: rs))
        ∧ App.load_reports eng (App.store (App.reports a)) = App.load_reports eng st)
  ∧ (∃ a, App.handleDeleteReport eng reportId (holding rs st current) = Returns a
          ∧ App.listed a = JArr (map Types.report_json (kept_reports reportId rs))
          ∧ App.load_reports eng (App.store (App.reports a)) = App.load_reports eng st).
Proof.
  intros Hrefused. split.
  - unfold App.handleAnalyze, App.setStoredValue, holding.
    cbn [App.reports App.value App.store App.prepend_report or_else truthy mbind outcome_bind].
    unfold App.setItem. rewrite Hrefused. eexists. split; [reflexivity|]. by split.
  - unfold App.handleDeleteReport, App.setStoredValue, holding.
    cbn [App.reports App.value App.store]. rewrite delete_report_typed.
    cbn [mbind outcome_bind]. unfold App.setItem. rewrite Hrefused.
    eexists. split; [reflexivity|]. by split.
Qed.

Lemma refused_write_is_lost_on_reload_witness :
  (∃ a, App.handleAnalyze Example.node Example.first_report
          (holding [Example.later_report]
             (full_store (stringify (JArr [Types.report_json Example.later_report]))) None)
        = Returns a
        ∧ App.listed a
          = JArr (map Types.report_json [Example.first_report; Example.later_report])
        ∧ App.load_reports Example.node (App.store (App.reports a))
          = App.load_reports Example.node
              (full_store (stringify (JArr [Types.report_json Example.later_report]))))
  ∧ (∃ a, App.handleDeleteReport Example.node "report-1735689700000"
            (holding [Example.later_report]
               (full_store (stringify (JArr [Types.report_json Example.later_report]))) None)
          = Returns a
          ∧ App.listed a
            = JArr (map Types.report_json
                      (kept_reports "report-1735689700000" [Example.later_report]))
          ∧ App.load_reports Example.node (App.store (App.reports a))
            = App.load_reports Example.node
                (full_store (stringify (JArr [Types.report_json Example.later_report])))).
Proof.
  apply (refused_write_is_lost_on_reload Example.node Example.first_report
           "report-1735689700000" [Example.later_report]
           (full_store (stringify (JArr [Types.report_json Example.later_report]))) None).
  intros text. reflexivity.
Defined.

(** ** The accessibility score *)

Lemma percent_table :
  forallb (fun t => match Accessibility.percent t with
                    | Some r => r =? t
                    | None => false
                    end) (map Z.of_nat (seq 0 101)) = true.
Proof. vm_compute. reflexivity. Qed.

(** Dividing a whole score by 100 and multiplying it by 100 again is
    not exact in binary64, but the rounding makes up for it. *)
Lemma percent_exact (t : Z) : 0 ≤ t ≤ 100 → Accessibility.percent t = Some t.
Proof.
  intros Ht. pose proof percent_table as Htable. rewrite forallb_forall in Htable.
  assert (In t (map Z.of_nat (seq 0 101))) as Hin.
  { apply in_map_iff. exists (Z.to_nat t). split; [lia|]. apply in_seq. lia. }
  specialize (Htable t Hin). destruct (Accessibility.percent t) as [r|]; [|done].
  f_equal. by apply Z.eqb_eq.
Qed.

Lemma tally_of_violations (vs : list Accessibility.AxeViolation) (t : Accessibility.tally) :
  let after := fold_left Accessibility.count_violation vs t in
  Accessibility.totalScore after
  = Accessibility.totalScore t - foldr (fun v rest => deduction v + rest) 0 vs
  ∧ Accessibility.n_critical after
    = Accessibility.n_critical t
      + Z.of_nat (length (List.filter (rated Accessibility.Critical) vs))
  ∧ Accessibility.n_serious after
    = Accessibility.n_serious t
      + Z.of_nat (length (List.filter (rated Accessibility.Serious) vs))
  ∧ Accessibility.n_moderate after
    = Accessibility.n_moderate t
      + Z.of_nat (length (List.filter (rated Accessibility.Moderate) vs))
  ∧ Accessibility.n_minor after
    = Accessibility.n_minor t
      + Z.of_nat (length (List.filter (rated Accessibility.Minor) vs)).
Proof.
  cbv zeta. revert t. induction vs as [|v vs IH]; intros t.
  - cbn. repeat split; lia.
  - cbn [fold_left foldr List.filter].
    destruct (IH (Accessibility.count_violation t v)) as (H0 & H1 & H2 & H3 & H4).
    rewrite H0, H1, H2, H3, H4. clear.
    unfold Accessibility.count_violation, deduction, rated, rating.
    destruct (default Accessibility.Minor (Accessibility.impact v));
      cbn [Accessibility.totalScore Accessibility.n_critical Accessibility.n_serious
           Accessibility.n_moderate Accessibility.n_minor length];
      repeat split; lia.
Qed.

Lemma rated_partition (vs : list Accessibility.AxeViolation) :
  (length (List.filter (rated Accessibility.Critical) vs)
   + length (List.filter (rated Accessibility.Serious) vs)
   + length (List.filter (rated Accessibility.Moderate) vs)
   + length (List.filter (rated Accessibility.Minor) vs) = length vs)%nat.
Proof.
  induction vs as [|v vs IH]; [done|]. cbn [List.filter]. unfold rated in *.
  destruct (rating v); cbn [length]; lia.
Qed.

Lemma deductions_not_negative (results : Accessibility.AxeResult) : 0 ≤ deductions results.
Proof.
  unfold deductions. induction (Accessibility.violations results) as [|v vs IH]; [done|].
  cbn [foldr]. assert (0 ≤ deduction v); [|lia].
  unfold deduction. destruct (rating v); cbn [Accessibility.weight]; lia.
Qed.

(** The score is 100 less the weight of each violation (10, 5, 2 or 1
    by impact, 1 without an impact) for each of its nodes, and never
    below 0; the four counts are those of the violations by impact and
    add up to the total.  The requirements are met exactly when no
    violation is critical, even one without a node, at most five are
    serious and the violations take no more than 20 off the score. *)
Theorem accessibility_score_and_requirements (results : Accessibility.AxeResult) :
  Accessibility.score (Accessibility.calculateAccessibilityScore results)
  = Some (Z.max 0 (100 - deductions results))
  ∧ Accessibility.critical (Accessibility.calculateAccessibilityScore results)
    = count_rated Accessibility.Critical results
  ∧ Accessibility.serious (Accessibility.calculateAccessibilityScore results)
    = count_rated Accessibility.Serious results
  ∧ Accessibility.moderate (Accessibility.calculateAccessibilityScore results)
    = count_rated Accessibility.Moderate results
  ∧ Accessibility.minor (Accessibility.calculateAccessibilityScore results)
    = count_rated Accessibility.Minor results
  ∧ count_rated Accessibility.Critical results + count_rated Accessibility.Serious results
    + count_rated Accessibility.Moderate results + count_rated Accessibility.Minor results
    = Accessibility.total (Accessibility.calculateAccessibilityScore results)
  ∧ (Accessibility.passes (Accessibility.checkAccessibilityRequirements results) = true
     ↔ count_rated Accessibility.Critical results = 0
       ∧ count_rated Accessibility.Serious results ≤ 5
       ∧ deductions results ≤ 20).
Proof.
  pose proof (tally_of_violations (Accessibility.violations results) Accessibility.start)
    as (H0 & H1 & H2 & H3 & H4).
  cbv zeta in H0, H1, H2, H3, H4. cbn [Accessibility.start Accessibility.totalScore
    Accessibility.n_critical Accessibility.n_serious Accessibility.n_moderate
    Accessibility.n_minor] in H0, H1, H2, H3, H4.
  pose proof (deductions_not_negative results) as Hded.
  pose proof (rated_partition (Accessibility.violations results)) as Hall.
  assert (Accessibility.score (Accessibility.calculateAccessibilityScore results)
          = Some (Z.max 0 (100 - deductions results))) as Hscore.
  { unfold Accessibility.calculateAccessibilityScore. cbn [Accessibility.score].
    rewrite H0. fold (deductions results). apply percent_exact. lia. }
  split; [exact Hscore|].
  unfold Accessibility.checkAccessibilityRequirements. cbn [Accessibility.passes].
  rewrite Hscore.
  unfold Accessibility.calculateAccessibilityScore, count_rated.
  cbn [Accessibility.critical Accessibility.serious Accessibility.moderate
       Accessibility.minor Accessibility.total].
  rewrite H1, H2, H3, H4.
  repeat (split; [lia|]).
  destruct (Z.ltb_spec 0 (0 + Z.of_nat (length (List.filter (rated Accessibility.Critical)
                                                   (Accessibility.violations results)))));
    [cbn; split; [done|lia]|].
  destruct (Z.ltb_spec 5 (0 + Z.of_nat (length (List.filter (rated Accessibility.Serious)
                                                   (Accessibility.violations results)))));
    [cbn; split; [done|lia]|].
  destruct (Z.ltb_spec (Z.max 0 (100 - deductions results)) 80);
    [cbn; split; [done|lia]|].
  cbn. split; [lia|done].
Qed.

(** ** From the analysis to the call of the provider *)




















